(** * GitRight: JWT sessions, batch analysis, caching and README assembly

    A shallow embedding of the Go backend of krauzX/gitright and the
    properties its specification states about it.  Go packages become
    modules of the same name; a Go [string] is a [string] of bytes, a Go
    [int]/[int64] is a [Z], a Go [map] is a [gmap], a pointer that may be
    [nil] is an [option], and a Go [error] is a value of type [error]
    below with [None] for [nil]. *)

From Stdlib Require Import ZArith String Ascii List Permutation Lia.
From stdpp Require Import gmap strings list fin_maps pretty vector.
From Stdlib Require Import Sorted.

Open Scope string_scope.
Open Scope Z_scope.

(* ===================================================================== *)
(** ** The parts of the Go standard library the code calls *)
(* ===================================================================== *)

Module Go.

(** One double quote and one line feed, for the string literals of the
    source that contain them. *)
Definition dq : string := String "034"%char EmptyString.
Definition nl : string := String "010"%char EmptyString.

(** Go's interpreted string literals escape the double quote and the
    line feed with a backslash; [lit] reads the same literal with [\q]
    written for the escaped double quote and [\n] for the line feed. *)
Fixpoint lit (s : string) : string :=
  match s with
  | EmptyString => EmptyString
  | String a rest =>
      if Ascii.eqb a "\"%char then
        match rest with
        | String c rest' =>
            (if Ascii.eqb c "q"%char then dq
             else if Ascii.eqb c "n"%char then nl
             else String c EmptyString) ++ lit rest'
        | EmptyString => String a EmptyString
        end
      else String a (lit rest)
  end.

(** The verb [%d] of [fmt.Sprintf] on an [int]. *)
Definition itoa (n : Z) : string := pretty n.

(** An operand of [fmt.Sprintf]: a [string] for [%s], an [int] for [%d]. *)
Inductive arg : Type :=
  | S_ (s : string)
  | D_ (n : Z).

Definition render (a : arg) : string :=
  match a with
  | S_ s => s
  | D_ n => itoa n
  end.

(** [fmt.Sprintf] for the verbs [%s], [%d] and [%%]; in the source every
    verb meets an operand of its own type. *)
Fixpoint Sprintf (format : string) (args : list arg) : string :=
  match format with
  | EmptyString => EmptyString
  | String a rest =>
      if Ascii.eqb a "%"%char then
        match rest with
        | String c rest' =>
            if Ascii.eqb c "%"%char then String c (Sprintf rest' args)
            else match args with
                 | x :: args' => render x ++ Sprintf rest' args'
                 | [] => "%!" ++ String c "(MISSING)" ++ Sprintf rest' []
                 end
        | EmptyString => "%!(NOVERB)"
        end
      else String a (Sprintf rest args)
  end.

(** [strings.Split(s, sep)] for the one-byte separators the source uses
    (a blank, a dot and a slash).  The result is never empty. *)
Fixpoint Split (s : string) (sep : ascii) : list string :=
  match s with
  | EmptyString => [EmptyString]
  | String a s' =>
      if Ascii.eqb a sep then EmptyString :: Split s' sep
      else match Split s' sep with
           | h :: t => String a h :: t
           | [] => [String a EmptyString]
           end
  end.

(** [strings.SplitN(s, sep, 2)]: cut at the first separator only. *)
Fixpoint SplitN2 (s : string) (sep : ascii) : list string :=
  match s with
  | EmptyString => [EmptyString]
  | String a s' =>
      if Ascii.eqb a sep then [EmptyString; s']
      else match SplitN2 s' sep with
           | h :: t => String a h :: t
           | [] => [String a EmptyString]
           end
  end.

(** [strings.Join(elems, sep)]. *)
Definition Join (elems : list string) (sep : string) : string :=
  String.concat sep elems.

(** [strings.ToLower] on strings of bytes below 0x80, which is where the
    catalog keys and the evaluated inputs live.  Other bytes are kept, as
    Go does not: on a string that holds one, [strings.ToLower] maps every
    Unicode letter, so a statement about free text carries the
    hypothesis that the text is ASCII. *)
Definition lower_byte (a : ascii) : ascii :=
  let n := nat_of_ascii a in
  if ((65 <=? n) && (n <=? 90))%nat then ascii_of_nat (n + 32) else a.

Fixpoint ToLower (s : string) : string :=
  match s with
  | EmptyString => EmptyString
  | String a s' => String (lower_byte a) (ToLower s')
  end.

(** [strings.ReplaceAll(s, old, new)] for a one-byte [old]. *)
Fixpoint ReplaceAll (s : string) (old : ascii) (new : string) : string :=
  match s with
  | EmptyString => EmptyString
  | String a s' =>
      if Ascii.eqb a old then new ++ ReplaceAll s' old new
      else String a (ReplaceAll s' old new)
  end.

(** [strings.HasPrefix], [strings.TrimPrefix] and [strings.Contains] (the
    last for a one-byte needle). *)
Definition HasPrefix (s p : string) : bool := String.prefix p s.

Definition TrimPrefix (s p : string) : string :=
  if String.prefix p s
  then substring (String.length p) (String.length s - String.length p) s
  else s.

Fixpoint Contains (s : string) (c : ascii) : bool :=
  match s with
  | EmptyString => false
  | String a s' => Ascii.eqb a c || Contains s' c
  end.

(** [strings.TrimSpace]: the white space of the ASCII range
    (tab, line feed, vertical tab, form feed, carriage return, blank). *)
Definition is_space (a : ascii) : bool :=
  let n := nat_of_ascii a in
  ((9 <=? n) && (n <=? 13) || (n =? 32))%nat.

Fixpoint trim_left (s : string) : string :=
  match s with
  | EmptyString => EmptyString
  | String a s' => if is_space a then trim_left s' else s
  end.

Definition TrimSpace (s : string) : string :=
  String.rev (trim_left (String.rev (trim_left s))).

(** Go's [int] and [int64] are 64-bit two's complement. *)
Definition wrap64 (n : Z) : Z := (n + 2 ^ 63) mod 2 ^ 64 - 2 ^ 63.

(** The built-in [min]. *)
Definition min (a b : nat) : nat := Nat.min a b.

(** A Go [error] value.  [Errorf format args] is [fmt.Errorf] without the
    verb [%w], [ErrorfW format args err] wraps [err] with [%w] (the other
    arguments are kept in [args], in order), [joinError] is what
    [errors.Join] builds. *)
#[local] Set Warnings "-register-all".
Inductive error : Type :=
  | Errorf (format : string) (args : list string)
  | ErrorfW (format : string) (args : list string) (err : error)
  | joinError (errs : list error).

(** [errors.Join(errs...)]: every element here is non-nil, so the result
    is [nil] exactly for the empty list. *)
Definition errors_Join (errs : list error) : option error :=
  match errs with
  | [] => None
  | _ :: _ => Some (joinError errs)
  end.

(** A call that returns [(T, error)]. *)
Inductive result (T : Type) : Type :=
  | Ok (v : T)
  | Err (e : error).
Arguments Ok {T} v.
Arguments Err {T} e.

End Go.

(** HTTP answers of the echo handlers: [echo.NewHTTPError(code, message)]
    or [c.JSON(code, body)]. *)
Inductive Response (B : Type) : Type :=
  | HTTPError (code : Z) (message : string)
  | JSON (code : Z) (body : B).
Arguments HTTPError {B} code message.
Arguments JSON {B} code body.

Definition StatusOK : Z := 200.
Definition StatusBadRequest : Z := 400.
Definition StatusUnauthorized : Z := 401.
Definition StatusInternalServerError : Z := 500.

Definition status {B} (r : Response B) : Z :=
  match r with
  | HTTPError code _ => code
  | JSON code _ => code
  end.

(* ===================================================================== *)
(** ** package models *)
(* ===================================================================== *)

Module models.

(** A [time.Time], in nanoseconds since the Unix epoch. *)
Definition Time := Z.

(** A [float64] that the code only copies: its IEEE-754 bit pattern. *)
Definition float64 := Z.

Record User : Type := mkUser {
  User_ID : Z;
  User_GitHubID : Z;
  Username : string;
  Email : string;
  AvatarURL : string;
  Bio : string;
  Location : string;
  Company : string;
  Blog : string;
  AccessToken : string;
  RefreshToken : string;
  TokenExpiresAt : Time;
  User_CreatedAt : Time;
  User_UpdatedAt : Time;
  LastLoginAt : Time
}.

Record Repository : Type := mkRepository {
  ID : Z;
  GitHubID : Z;
  Name : string;
  FullName : string;
  Description : string;
  Private : bool;
  Fork : bool;
  Language : string;
  StargazersCount : Z;
  ForksCount : Z;
  OpenIssuesCount : Z;
  DefaultBranch : string;
  Topics : list string;
  HTMLURL : string;
  CloneURL : string;
  CreatedAt : Time;
  UpdatedAt : Time;
  PushedAt : Time
}.

Record RepositoryAnalysis : Type := mkRepositoryAnalysis {
  RA_Repository : option Repository;
  Languages : gmap string Z;
  Files : list string;
  Dependencies : gmap string (list string);
  KeyFiles : gmap string string;
  CommitCount : Z;
  ContributorCount : Z
}.

Record ContactPreferences : Type := mkContactPreferences {
  LinkedIn : string;
  PersonalWebsite : string;
  CP_Email : string;
  Twitter : string;
  PreferredOrder : list string
}.

Record ProfileConfig : Type := mkProfileConfig {
  PC_ID : Z;
  PC_UserID : Z;
  PC_TargetRole : string;
  SkillsEmphasis : list string;
  PC_ToneOfVoice : string;
  TemplateID : string;
  PC_ContactPrefs : ContactPreferences;
  ShowPrivateRepos : bool;
  PC_CreatedAt : Time;
  PC_UpdatedAt : Time
}.

Record ContentGenerationRequest : Type := mkContentGenerationRequest {
  TargetRole : string;
  EmphasizedSkills : list string;
  ToneOfVoice : string;
  ContactPrefs : ContactPreferences;
  Projects : list RepositoryAnalysis;
  UserAPIKey : string
}.

Record Badge : Type := mkBadge {
  Badge_Name : string;
  URL : string;
  Color : string
}.

Record ContentGenerationResponse : Type := mkContentGenerationResponse {
  Markdown : string;
  ExtractedSkills : list string;
  SuggestedBadges : list Badge;
  Confidence : float64
}.

(** [Project] is only ever a nil pointer in the code under study. *)
Record ProjectSummary : Type := mkProjectSummary {
  PS_Repository : option Repository;
  Summary : string;
  TechStack : list string;
  Highlights : list string
}.

End models.

(* ===================================================================== *)
(** ** encoding/base64 (RawURLEncoding) and encoding/hex *)
(* ===================================================================== *)

Module base64.

Open Scope nat_scope.

Definition alphabet : string :=
  "ABCDEFGHIJKLMNOPQRSTUVWXYZabcdefghijklmnopqrstuvwxyz0123456789-_".

(** The character of a 6-bit value. *)
Definition enc6 (n : nat) : ascii :=
  match String.get n alphabet with
  | Some c => c
  | None => "A"%char
  end.

Fixpoint index_of (c : ascii) (s : string) (i : nat) : option nat :=
  match s with
  | EmptyString => None
  | String a s' => if Ascii.eqb a c then Some i else index_of c s' (S i)
  end.

(** The 6-bit value of a character, [None] outside the alphabet. *)
Definition dec6 (c : ascii) : option nat := index_of c alphabet 0.

(** Three bytes become four 6-bit values; a tail of one or two bytes
    becomes two or three, with no padding. *)
Fixpoint sextets_of_bytes (l : list nat) : list nat :=
  match l with
  | a :: b :: c :: rest =>
      a / 4 :: (a mod 4) * 16 + b / 16 :: (b mod 16) * 4 + c / 64 :: c mod 64
        :: sextets_of_bytes rest
  | [a; b] => [a / 4; (a mod 4) * 16 + b / 16; (b mod 16) * 4]
  | [a] => [a / 4; (a mod 4) * 16]
  | [] => []
  end.

(** The decoder is not in strict mode: the unused low bits of a final
    group are dropped; a final group of one character is corrupt. *)
Fixpoint bytes_of_sextets (l : list nat) : option (list nat) :=
  match l with
  | s0 :: s1 :: s2 :: s3 :: rest =>
      match bytes_of_sextets rest with
      | Some bs =>
          Some (s0 * 4 + s1 / 16 :: (s1 mod 16) * 16 + s2 / 4
                  :: (s2 mod 4) * 64 + s3 :: bs)
      | None => None
      end
  | [s0; s1; s2] => Some [s0 * 4 + s1 / 16; (s1 mod 16) * 16 + s2 / 4]
  | [s0; s1] => Some [s0 * 4 + s1 / 16]
  | [_] => None
  | [] => Some []
  end.

Definition bytes_of_string (s : string) : list nat :=
  List.map nat_of_ascii (list_ascii_of_string s).

Definition string_of_bytes (l : list nat) : string :=
  string_of_list_ascii (List.map ascii_of_nat l).

(** [base64.RawURLEncoding.EncodeToString]. *)
Definition EncodeToString (src : string) : string :=
  string_of_list_ascii (List.map enc6 (sextets_of_bytes (bytes_of_string src))).

(** The decoder skips carriage returns and line feeds and fails on any
    other character outside the alphabet. *)
Fixpoint sextets_of_chars (l : list ascii) : option (list nat) :=
  match l with
  | [] => Some []
  | c :: l' =>
      if Ascii.eqb c "010"%char || Ascii.eqb c "013"%char
      then sextets_of_chars l'
      else match dec6 c, sextets_of_chars l' with
           | Some n, Some ns => Some (n :: ns)
           | _, _ => None
           end
  end.

(** [base64.RawURLEncoding.DecodeString]; [None] is a non-nil error. *)
Definition DecodeString (s : string) : option string :=
  match sextets_of_chars (list_ascii_of_string s) with
  | Some ns =>
      match bytes_of_sextets ns with
      | Some bs => Some (string_of_bytes bs)
      | None => None
      end
  | None => None
  end.

(** What the proofs need of one 6-bit value: its character decodes back
    to it and is neither a dot nor a line break. *)
Definition enc6_ok (n : nat) : bool :=
  match dec6 (enc6 n) with
  | Some m => (m =? n)
  | None => false
  end
  && negb (Ascii.eqb (enc6 n) "."%char)
  && negb (Ascii.eqb (enc6 n) "010"%char)
  && negb (Ascii.eqb (enc6 n) "013"%char).

End base64.

Module hex.

Open Scope nat_scope.

Definition hextable : string := "0123456789abcdef".

Definition digit (n : nat) : ascii :=
  match String.get n hextable with
  | Some c => c
  | None => "0"%char
  end.

(** [hex.EncodeToString]: two lower-case digits per byte. *)
Fixpoint EncodeToString (src : string) : string :=
  match src with
  | EmptyString => EmptyString
  | String a s' =>
      String (digit (nat_of_ascii a / 16))
        (String (digit (nat_of_ascii a mod 16)) (EncodeToString s'))
  end.

End hex.

(* ===================================================================== *)
(** ** package repository *)
(* ===================================================================== *)

(** Every database call takes a [fault]: [Some e] when the driver returns
    the error [e] (other than [sql.ErrNoRows]) and the statement has no
    effect, [None] when the statement runs.  [now] is the value of the
    database's [NOW()]. *)

Module repository.

Import Go models.

(** A row of the table [sessions]; the primary key [id] is the key of
    the map. *)
Record Session : Type := mkSession {
  state_type : string;
  state_value : string;
  expires_at : Time
}.

Abbreviation Sessions := (gmap string Session).

(** [INSERT ... VALUES (id, ty, val, expiresAt) ON CONFLICT (id) DO UPDATE
    SET expires_at = expiresAt, state_value = val]: a conflicting row
    keeps its [state_type]. *)
Definition upsert_session (tbl : Sessions) (id ty val : string)
    (expiresAt : Time) : Sessions :=
  match tbl !! id with
  | Some row => <[id := mkSession (state_type row) val expiresAt]> tbl
  | None => <[id := mkSession ty val expiresAt]> tbl
  end.

Definition CreateOAuthState (fault : option error) (tbl : Sessions)
    (state : string) (expiresAt : Time) : Sessions * option error :=
  match fault with
  | Some err => (tbl, Some (ErrorfW "failed to create OAuth state: %w" [] err))
  | None =>
      (upsert_session tbl ("oauth_state:" ++ state) "oauth_state" "valid" expiresAt,
       None)
  end.

Definition ValidateOAuthState (fault : option error) (tbl : Sessions)
    (now : Time) (state : string) : result bool :=
  match fault with
  | Some err => Err (ErrorfW "failed to validate OAuth state: %w" [] err)
  | None =>
      match tbl !! ("oauth_state:" ++ state) with
      | Some row =>
          if String.eqb (state_type row) "oauth_state" && (now <? expires_at row)
          then Ok (String.eqb (state_value row) "valid")
          else Ok false
      | None => Ok false
      end
  end.

Definition DeleteOAuthState (fault : option error) (tbl : Sessions)
    (state : string) : Sessions * option error :=
  match fault with
  | Some err => (tbl, Some (ErrorfW "failed to delete OAuth state: %w" [] err))
  | None =>
      let id := "oauth_state:" ++ state in
      match tbl !! id with
      | Some row =>
          if String.eqb (state_type row) "oauth_state"
          then (delete id tbl, None) else (tbl, None)
      | None => (tbl, None)
      end
  end.

(** [SELECT cleanup_expired_data()], on the table [sessions]:
    [DELETE FROM sessions WHERE expires_at < NOW()]. *)
Definition CleanupExpiredSessions (fault : option error) (tbl : Sessions)
    (now : Time) : Sessions * option error :=
  match fault with
  | Some err => (tbl, Some (ErrorfW "failed to cleanup expired sessions: %w" [] err))
  | None => (filter (fun kv => ¬ (expires_at (snd kv) < now)) tbl, None)
  end.

Definition RevokeToken (fault : option error) (tbl : Sessions)
    (jti : string) (expiresAt : Time) : Sessions * option error :=
  match fault with
  | Some err => (tbl, Some (ErrorfW "failed to revoke token: %w" [] err))
  | None =>
      (upsert_session tbl ("revoked:" ++ jti) "revoked_token" "revoked" expiresAt,
       None)
  end.

Definition IsTokenRevoked (fault : option error) (tbl : Sessions)
    (now : Time) (jti : string) : result bool :=
  match fault with
  | Some err => Err (ErrorfW "failed to check token revocation: %w" [] err)
  | None =>
      match tbl !! ("revoked:" ++ jti) with
      | Some row =>
          if String.eqb (state_type row) "revoked_token" && (now <? expires_at row)
          then Ok true else Ok false
      | None => Ok false
      end
  end.

(** The table [users], by primary key. *)
Abbreviation Users := (gmap Z User).

Definition GetByID (fault : option error) (users : Users) (id : Z) : result User :=
  match fault with
  | Some err => Err err
  | None =>
      match users !! id with
      | Some user => Ok user
      | None => Err (Errorf "user not found" [])
      end
  end.

(** The two tables behind [ProfileCacheRepository]: the rows of
    [generated_profiles] that carry a cache key, by that key (a unique
    column), each with the cached response and its expiry; and the ids of
    the rows of [profile_configs], which the column [config_id] of
    [generated_profiles] references ([NOT NULL REFERENCES
    profile_configs(id)]).  The empty value is the database as the
    migrations create it: nothing in the repository inserts into
    [profile_configs]. *)
Record ProfileCache : Type := mkProfileCache {
  profiles : gmap string (ContentGenerationResponse * Time);
  profile_configs : gset Z
}.

#[global] Instance ProfileCache_empty : Empty ProfileCache :=
  mkProfileCache ∅ ∅.

(** [ProfileCacheRepository.Get]; [Ok None] is the pair [(nil, nil)] of a
    miss.  The stored JSON is taken to decode to the response it encodes. *)
Definition Get (fault : option error) (tbl : ProfileCache) (now : Time)
    (cacheKey : string) : result (option ContentGenerationResponse) :=
  match fault with
  | Some err => Err (ErrorfW "failed to get cached profile: %w" [] err)
  | None =>
      match profiles tbl !! cacheKey with
      | Some (response, expiresAt) =>
          if now <? expiresAt then Ok (Some response) else Ok None
      | None => Ok None
      end
  end.

(** The error of the driver for an [INSERT] whose [config_id] is the id
    of no row of [profile_configs]; its text is the driver's. *)
Definition foreign_key_violation : error :=
  Errorf "insert or update on table generated_profiles violates foreign key constraint" [].

(** [ProfileCacheRepository.Set]; [ttl] is a [time.Duration] in
    nanoseconds and [now] the value of [time.Now()].  [fault] is the
    outcome of the driver apart from the constraints of the schema.
    [INSERT ... ON CONFLICT (cache_key) DO UPDATE]: a row that holds the
    key is updated, and keeps its [config_id]; otherwise a row is
    inserted, which the database refuses when [configID] references no
    row of [profile_configs].  (The other reference, [user_id], is to the
    user of the request, whom the middleware has just read.) *)
Definition Set_ (fault : option error) (tbl : ProfileCache) (now : Time)
    (userID configID : Z) (cacheKey : string)
    (response : ContentGenerationResponse) (ttl : Z)
    : ProfileCache * option error :=
  match fault with
  | Some err => (tbl, Some (ErrorfW "failed to set cached profile: %w" [] err))
  | None =>
      let written :=
        mkProfileCache (<[cacheKey := (response, now + ttl)]> (profiles tbl))
          (profile_configs tbl) in
      match profiles tbl !! cacheKey with
      | Some _ => (written, None)
      | None =>
          if bool_decide (configID ∈ profile_configs tbl) then (written, None)
          else (tbl,
                Some (ErrorfW "failed to set cached profile: %w" []
                        foreign_key_violation))
      end
  end.

(** [fmt.Sprintf("profile:v3:%s:%s:%s:%d", ...)]. *)
Definition GetCacheKey (username targetRole toneOfVoice : string)
    (projectCount : Z) : string :=
  "profile:v3:" ++ username ++ ":" ++ targetRole ++ ":" ++ toneOfVoice
    ++ ":" ++ itoa projectCount.

(** The table [repository_list_cache], by its unique pair
    [(user_id, include_private)]. *)
Abbreviation RepoListCache := (gmap (Z * bool) (list Repository * Time)).

Definition GetRepositoryList (fault : option error) (tbl : RepoListCache)
    (now : Time) (userID : Z) (includePrivate : bool)
    : result (option (list Repository)) :=
  match fault with
  | Some err => Err (ErrorfW "failed to get cached repository list: %w" [] err)
  | None =>
      match tbl !! (userID, includePrivate) with
      | Some (repos, expiresAt) =>
          if now <? expiresAt then Ok (Some repos) else Ok None
      | None => Ok None
      end
  end.

(** Five minutes, in nanoseconds. *)
Definition five_minutes : Z := 5 * 60 * 1000000000.

Definition SetRepositoryList (fault : option error) (tbl : RepoListCache)
    (now : Time) (userID : Z) (includePrivate : bool)
    (repos : list Repository) : RepoListCache * option error :=
  match fault with
  | Some err => (tbl, Some (ErrorfW "failed to set repository list cache: %w" [] err))
  | None => (<[(userID, includePrivate) := (repos, now + five_minutes)]> tbl, None)
  end.

(** [DELETE FROM repository_list_cache WHERE user_id = userID]. *)
Definition InvalidateAllRepositoryLists (fault : option error)
    (tbl : RepoListCache) (userID : Z) : RepoListCache * option error :=
  match fault with
  | Some err => (tbl, Some (ErrorfW "failed to invalidate all repository lists: %w" [] err))
  | None => (filter (fun kv => fst (fst kv) ≠ userID) tbl, None)
  end.

End repository.

(* ===================================================================== *)
(** ** package middleware *)
(* ===================================================================== *)

Module middleware.

Import Go models.

Record JWTClaims : Type := mkJWTClaims {
  UserID : Z;
  Username : string;
  JTI : string;
  ExpiresAt : Z
}.

(** One second, in nanoseconds, and [Time.Unix()] / [time.Unix(sec, 0)],
    for instants and durations within the range of [time.Time]. *)
Definition second : Z := 1000000000.
Definition Unix (t : Time) : Z := t / second.
Definition time_Unix (sec : Z) : Time := sec * second.

(** What [c.Set] stores for the handlers behind the middleware. *)
Record Context : Type := mkContext {
  ctx_user : User;
  ctx_user_id : Z;
  ctx_username : string;
  ctx_access_token : string;
  ctx_jwt_jti : string;
  ctx_jwt_exp : Z
}.

(** The middleware either answers [echo.ErrUnauthorized] itself or calls
    [next] with the context it has filled. *)
Inductive Outcome : Type :=
  | ErrUnauthorized
  | Next (c : Context).

(** What the middleware reads from its surroundings: the server's clock
    [time.Now()], the database's clock [NOW()], the two tables and the
    outcome of the driver for its two queries. *)
Record Env : Type := mkEnv {
  now : Time;
  db_now : Time;
  sessions : repository.Sessions;
  users : repository.Users;
  fault_IsTokenRevoked : option error;
  fault_GetByID : option error
}.

(** The revocation check as the middleware runs it. *)
Definition revocation_check (env : Env) (jti : string) : result bool :=
  repository.IsTokenRevoked (fault_IsTokenRevoked env) (sessions env)
    (db_now env) jti.

(** The user lookup as the middleware runs it. *)
Definition user_lookup (env : Env) (id : Z) : result User :=
  repository.GetByID (fault_GetByID env) (users env) id.

Section WithLibraries.

(** [crypto/hmac] over [crypto/sha256]: key, then message, to the 32-byte
    code; and [encoding/json] on [JWTClaims]. *)
Variable hmac_sha256 : string -> string -> string.
Variable json_Marshal : JWTClaims -> string.
Variable json_Unmarshal : string -> option JWTClaims.

Definition createSignature (message secret : string) : string :=
  base64.EncodeToString (hmac_sha256 secret message).

(** [jtiBytes] is the 16-byte slice once [rand.Read] has filled it,
    [None] when [rand.Read] fails; [now] is [time.Now()] and [expiresIn]
    a duration in nanoseconds. *)
Definition GenerateJWT (jtiBytes : option (vec ascii 16)) (now : Time)
    (userID : Z) (username secret : string) (expiresIn : Z) : result string :=
  match jtiBytes with
  | None => Err (ErrorfW "failed to generate JTI: %w" [] (Errorf "rand.Read" []))
  | Some jtiBytes =>
      let jti :=
        hex.EncodeToString (string_of_list_ascii (vec_to_list jtiBytes)) in
      let claims := mkJWTClaims userID username jti (Unix (now + expiresIn)) in
      let header :=
        base64.EncodeToString (lit "{\qalg\q:\qHS256\q,\qtyp\q:\qJWT\q}") in
      let payloadBytes := json_Marshal claims in
      let payload := base64.EncodeToString payloadBytes in
      let message := header ++ "." ++ payload in
      Ok (message ++ "." ++ createSignature message secret)
  end.

(** [None] stands for a non-nil error. *)
Definition validateJWT (token secret : string) : option JWTClaims :=
  match Split token "."%char with
  | [p0; p1; p2] =>
      let message := p0 ++ "." ++ p1 in
      if negb (String.eqb p2 (createSignature message secret)) then None
      else match base64.DecodeString p1 with
           | None => None
           | Some payloadBytes => json_Unmarshal payloadBytes
           end
  | _ => None
  end.

(** [authHeader] is [c.Request().Header.Get("Authorization")], empty when
    the header is absent. *)
Definition AuthMiddleware (secret : string) (env : Env)
    (authHeader : string) : Outcome :=
  if String.eqb authHeader EmptyString then ErrUnauthorized
  else
    match Split authHeader " "%char with
    | [p0; token] =>
        if negb (String.eqb p0 "Bearer") then ErrUnauthorized
        else
          match validateJWT token secret with
          | None => ErrUnauthorized
          | Some claims =>
              if ExpiresAt claims <? Unix (now env) then ErrUnauthorized
              else
                let revocation :=
                  if negb (String.eqb (JTI claims) EmptyString) then
                    match repository.IsTokenRevoked (fault_IsTokenRevoked env)
                            (sessions env) (db_now env) (JTI claims) with
                    | Err _ => true
                    | Ok revoked => revoked
                    end
                  else false in
                if revocation then ErrUnauthorized
                else
                  match repository.GetByID (fault_GetByID env) (users env)
                          (UserID claims) with
                  | Err _ => ErrUnauthorized
                  | Ok user =>
                      Next (mkContext user (UserID claims) (Username claims)
                              (AccessToken user) (JTI claims) (ExpiresAt claims))
                  end
          end
    | _ => ErrUnauthorized
    end.

End WithLibraries.

End middleware.

(* ===================================================================== *)
(** ** package services: AuthService and GitHubService *)
(* ===================================================================== *)

Module services.

Import Go models.

Definition RevokeSession (fault : option error) (tbl : repository.Sessions)
    (jti : string) (expiresAt : Time) : repository.Sessions * option error :=
  repository.RevokeToken fault tbl jti expiresAt.

(** A line of the log ([slog.Warn]): the message and the error. *)
Definition LogLine : Type := string * error.

(** What the GitHub client returns for one repository, by getter. *)
Record github_Repository : Type := mkGithubRepository {
  GetID : Z;
  GetName : string;
  GetFullName : string;
  GetDescription : string;
  GetPrivate : bool;
  GetFork : bool;
  GetLanguage : string;
  GetStargazersCount : Z;
  GetForksCount : Z;
  GetOpenIssuesCount : Z;
  GetDefaultBranch : string;
  gr_Topics : list string;
  GetHTMLURL : string;
  GetCloneURL : string;
  GetCreatedAt : Time;
  GetUpdatedAt : Time;
  GetPushedAt : Time
}.

Definition to_model (gr : github_Repository) : Repository :=
  mkRepository (GetID gr) (GetID gr) (GetName gr) (GetFullName gr)
    (GetDescription gr) (GetPrivate gr) (GetFork gr) (GetLanguage gr)
    (GetStargazersCount gr) (GetForksCount gr) (GetOpenIssuesCount gr)
    (GetDefaultBranch gr) (gr_Topics gr) (GetHTMLURL gr) (GetCloneURL gr)
    (GetCreatedAt gr) (GetUpdatedAt gr) (GetPushedAt gr).

(** [ListUserRepositories].  [listed] is the answer of
    [githubClient.ListRepositories]; the function returns its result, the
    cache table afterwards and the lines it logged. *)
Definition ListUserRepositories
    (fault_get fault_set : option error) (tbl : repository.RepoListCache)
    (now : Time) (listed : result (list github_Repository))
    (userID : Z) (includePrivate : bool)
    : result (list Repository) * repository.RepoListCache * list LogLine :=
  match repository.GetRepositoryList fault_get tbl now userID includePrivate with
  | Ok (Some cachedRepos) => (Ok cachedRepos, tbl, [])
  | _ =>
      match listed with
      | Err err => (Err (ErrorfW "failed to list repositories: %w" [] err), tbl, [])
      | Ok githubRepos =>
          let repos :=
            List.map to_model
              (List.filter (fun gr => negb (negb includePrivate && GetPrivate gr))
                 githubRepos) in
          match repository.SetRepositoryList fault_set tbl now userID
                  includePrivate repos with
          | (tbl', Some err) =>
              (Ok repos, tbl', [("Failed to cache repository list", err)])
          | (tbl', None) => (Ok repos, tbl', [])
          end
      end
  end.

(** [ClearUserCache]. *)
Definition ClearUserCache (fault : option error)
    (tbl : repository.RepoListCache) (userID : Z)
    : option error * repository.RepoListCache * list LogLine :=
  match repository.InvalidateAllRepositoryLists fault tbl userID with
  | (tbl', Some err) =>
      (None, tbl', [("Failed to invalidate repository list cache", err)])
  | (tbl', None) => (None, tbl', [])
  end.

Section Batch.

(** [AnalyzeRepository] talks to GitHub and to the cache; here it is any
    function of the state [W] of those surroundings. *)
Context {W : Type}.
Variable AnalyzeRepository : W -> string -> string -> W * result RepositoryAnalysis.

(** The loop of [BatchAnalyzeRepositories], with its three variables:
    the surroundings, the map [results] and the slice [errs]. *)
Fixpoint batch_loop (w : W) (results : gmap string RepositoryAnalysis)
    (errs : list error) (repos : list string)
    : W * gmap string RepositoryAnalysis * list error :=
  match repos with
  | [] => (w, results, errs)
  | fullName :: rest =>
      match Split fullName "/"%char with
      | [owner; repo] =>
          match AnalyzeRepository w owner repo with
          | (w', Err err) =>
              batch_loop w' results
                (errs ++ [ErrorfW "repository %q: %w" [fullName] err]) rest
          | (w', Ok analysis) =>
              batch_loop w' (<[fullName := analysis]> results) errs rest
          end
      | _ =>
          batch_loop w results
            (errs ++ [Errorf "invalid repository name %q: must be owner/repo"
                        [fullName]]) rest
      end
  end.

Definition BatchAnalyzeRepositories (w : W) (repos : list string)
    : W * gmap string RepositoryAnalysis * option error :=
  let '(w', results, errs) := batch_loop w ∅ [] repos in
  (w', results, errors_Join errs).

End Batch.

End services.

(* ===================================================================== *)
(** ** package handlers: AuthHandler and GitHubHandler *)
(* ===================================================================== *)

Module handlers.

Import Go models.

(** A small JSON object of strings, such as [{"message": "..."}]. *)
Definition Message : Type := list (string * string).

(** [Logout].  [jwt_jti] and [jwt_exp] are the two type assertions on the
    context: [None] when the value is absent or of another type. *)
Definition Logout (fault : option error) (tbl : repository.Sessions)
    (jwt_jti : option string) (jwt_exp : option Z)
    : repository.Sessions * Response Message :=
  match jwt_jti with
  | None => (tbl, HTTPError StatusUnauthorized "Unauthorized")
  | Some jti =>
      if String.eqb jti EmptyString
      then (tbl, HTTPError StatusUnauthorized "Unauthorized")
      else
        match jwt_exp with
        | None => (tbl, HTTPError StatusUnauthorized "Unauthorized")
        | Some exp =>
            match services.RevokeSession fault tbl jti (middleware.time_Unix exp) with
            | (tbl', Some _) =>
                (tbl', HTTPError StatusInternalServerError "Failed to revoke session")
            | (tbl', None) =>
                (tbl', JSON StatusOK [("message", "Logged out successfully")])
            end
        end
  end.

(** The body of a batch request once [c.Bind] has run: [None] when
    binding fails. *)
Definition BatchBody : Type := option (list string).

Section GitHub.

Context {W : Type}.
Variable AnalyzeRepository : W -> string -> string -> W * result RepositoryAnalysis.

(** [BatchAnalyze].  [access_token] is the type assertion on the context.
    Beside the answer, the function reports the surroundings afterwards
    and, when the service was called, the list it was called with. *)
Definition BatchAnalyze (w : W) (access_token : option string) (req : BatchBody)
    : W * Response (gmap string RepositoryAnalysis) * option (list string) :=
  match access_token with
  | None => (w, HTTPError StatusUnauthorized "Unauthorized", None)
  | Some _ =>
      match req with
      | None => (w, HTTPError StatusBadRequest "Invalid request body", None)
      | Some Repositories =>
          if (length Repositories =? 0)%nat
          then (w, HTTPError StatusBadRequest "At least one repository is required", None)
          else if (10 <? length Repositories)%nat
          then (w, HTTPError StatusBadRequest "Maximum 10 repositories allowed", None)
          else
            match services.BatchAnalyzeRepositories AnalyzeRepository w Repositories with
            | (w', results, Some _) =>
                (w', HTTPError StatusInternalServerError "Failed to analyze repositories",
                 Some Repositories)
            | (w', results, None) =>
                (w', JSON StatusOK results, Some Repositories)
            end
      end
  end.

End GitHub.

(** [ClearCache].  [user_id] is the type assertion on the context. *)
Definition ClearCache (fault : option error) (tbl : repository.RepoListCache)
    (user_id : option Z) : repository.RepoListCache * Response Message :=
  match user_id with
  | None => (tbl, HTTPError StatusUnauthorized "Unauthorized")
  | Some userID =>
      match services.ClearUserCache fault tbl userID with
      | (Some _, tbl', _) =>
          (tbl', HTTPError StatusInternalServerError "Failed to clear cache")
      | (None, tbl', _) =>
          (tbl', JSON StatusOK [("message", "Cache cleared successfully")])
      end
  end.

End handlers.

(* ===================================================================== *)
(** ** package services: ProfileService *)
(* ===================================================================== *)

Module profile_service.

Import Go models.

(** Go leaves the order in which [range] visits a map unspecified, and the
    runtime varies it from one loop to the next.  A run is therefore given
    a [MapOrder]: the order in which it visits the entries of each map.
    Every order is a rearrangement of the entries ([fair]). *)
Definition MapOrder : Type :=
  forall A : Type, list (string * A) -> list (string * A).

Definition range {A : Type} (o : MapOrder) (m : gmap string A)
    : list (string * A) :=
  o A (map_to_list m).

Definition fair (o : MapOrder) : Prop :=
  forall (A : Type) (l : list (string * A)), Permutation (o A l) l.

(** Two orders: the one of [map_to_list], and its reverse. *)
Definition ascending : MapOrder := fun A l => l.
Definition descending : MapOrder := fun A l => rev l.

(** [sort.Slice(x, less)].  The library promises a sorted rearrangement and
    no stability; for slices of at most twelve elements it runs the
    insertion sort below, which is what this model runs for every
    length. *)
Fixpoint sort_insert {A : Type} (less : A -> A -> bool) (x : A)
    (rprefix : list A) : list A :=
  match rprefix with
  | [] => [x]
  | y :: r => if less x y then y :: sort_insert less x r else x :: rprefix
  end.

Definition sort_Slice {A : Type} (less : A -> A -> bool) (x : list A) : list A :=
  rev (fold_left (fun rprefix a => sort_insert less a rprefix) x []).

Definition B (name color : string) : Badge := mkBadge name EmptyString color.

Definition entries : list Badge := [
  (* Languages *)
  B "Go" "00ADD8"; B "Python" "3776AB"; B "JavaScript" "F7DF1E";
  B "TypeScript" "3178C6"; B "Rust" "000000"; B "Java" "ED8B00";
  B "Kotlin" "7F52FF"; B "Swift" "FA7343"; B "C++" "00599C";
  B "C" "A8B9CC"; B "C#" "239120"; B "PHP" "777BB4"; B "Ruby" "CC342D";
  B "Dart" "0175C2"; B "Scala" "DC322F"; B "Elixir" "4B275F";
  B "Haskell" "5D4F85"; B "Lua" "2C2D72"; B "Shell" "4EAA25";
  B "HTML5" "E34F26"; B "CSS3" "1572B6";
  (* Frontend *)
  B "React" "61DAFB"; B "Vue.js" "4FC08D"; B "Angular" "DD0031";
  B "Svelte" "FF3E00"; B "Next.js" "000000"; B "Nuxt.js" "00DC82";
  B "Gatsby" "663399"; B "Remix" "000000"; B "Astro" "FF5D01";
  B "TailwindCSS" "06B6D4"; B "Vite" "646CFF";
  (* Backend *)
  B "Node.js" "339933"; B "Express.js" "000000"; B "Fastify" "000000";
  B "NestJS" "E0234E"; B "Django" "092E20"; B "Flask" "000000";
  B "FastAPI" "009688"; B "Spring Boot" "6DB33F"; B "Laravel" "FF2D20";
  B "Ruby on Rails" "CC0000"; B "Fiber" "00ADD8"; B "Gin" "00ADD8";
  B "Echo" "00ADD8";
  (* Mobile *)
  B "Flutter" "02569B"; B "React Native" "61DAFB";
  (* Databases *)
  B "PostgreSQL" "316192"; B "MySQL" "00000F"; B "MongoDB" "47A248";
  B "Redis" "DC382D"; B "SQLite" "07405E"; B "Cassandra" "1287B1";
  B "Elasticsearch" "005571"; B "Supabase" "3ECF8E"; B "Firebase" "FFCA28";
  B "Neon" "00E699"; B "Prisma" "2D3748"; B "Drizzle" "C5F74F";
  (* DevOps and Cloud *)
  B "Docker" "2496ED"; B "Kubernetes" "326CE5"; B "Terraform" "7B42BC";
  B "Ansible" "EE0000"; B "AWS" "FF9900"; B "GCP" "4285F4";
  B "Azure" "0078D4"; B "Vercel" "000000"; B "Netlify" "00C7B7";
  B "Heroku" "430098"; B "Nginx" "009639";
  (* Tooling *)
  B "Git" "F05032"; B "GraphQL" "E10098"; B "gRPC" "244C5A";
  B "Apache Kafka" "231F20"; B "RabbitMQ" "FF6600"; B "Prometheus" "E6522C";
  B "Grafana" "F46800"; B "Linux" "FCC624"; B "OpenAI" "412991"
].

Definition aliases : gmap string string := list_to_map [
  ("golang", "Go"); ("js", "JavaScript"); ("ts", "TypeScript");
  ("cpp", "C++"); ("csharp", "C#"); ("html", "HTML5"); ("css", "CSS3");
  ("vue", "Vue.js"); ("next", "Next.js"); ("nextjs", "Next.js");
  ("nuxt", "Nuxt.js"); ("express", "Express.js"); ("nestjs", "NestJS");
  ("@nestjs/core", "NestJS"); ("spring", "Spring Boot");
  ("spring-boot", "Spring Boot"); ("rails", "Ruby on Rails");
  ("k8s", "Kubernetes"); ("postgres", "PostgreSQL"); ("node", "Node.js");
  ("tailwind", "TailwindCSS"); ("react-native", "React Native");
  ("kafka", "Apache Kafka"); ("grpc", "gRPC"); ("bash", "Shell")
].

(** [buildBadgeCatalog]: the two maps [byName] and [m] filled from
    [entries], then [m] extended by the loop over the map [aliases]. *)
Definition buildBadgeCatalog (o : MapOrder) : gmap string Badge :=
  let '(byName, m) :=
    fold_left
      (fun (acc : gmap string Badge * gmap string Badge) e =>
         (<[ToLower (Badge_Name e) := e]> (fst acc),
          <[ToLower (Badge_Name e) := e]> (snd acc)))
      entries (∅, ∅) in
  fold_left
    (fun (m : gmap string Badge) (kv : string * string) =>
       match byName !! ToLower (snd kv) with
       | Some b => <[ToLower (fst kv) := b]> m
       | None => m
       end)
    (range o aliases) m.

(** The closure [add] of [buildBadgesFromProjectData]. *)
Definition add (catalog : gmap string Badge) (badgeMap : gmap string Badge)
    (key : string) : gmap string Badge :=
  match catalog !! ToLower key with
  | Some badge =>
      match badgeMap !! Badge_Name badge with
      | Some _ => badgeMap
      | None => <[Badge_Name badge := badge]> badgeMap
      end
  | None => badgeMap
  end.

(** The key the third loop derives from a dependency name. *)
Definition dependency_key (dep : string) : string :=
  let key := ToLower dep in
  if HasPrefix key "@" then
    match key with
    | String _ key1 => hd EmptyString (SplitN2 key1 "/"%char)
    | EmptyString => key
    end
  else key.

Definition buildBadgesFromProjectData (o : MapOrder)
    (projects : list RepositoryAnalysis)
    (llmSkills emphasizedSkills : list string) : list Badge :=
  let catalog := buildBadgeCatalog o in
  let badgeMap : gmap string Badge := ∅ in
  (* Priority 1 *)
  let badgeMap := fold_left (add catalog) emphasizedSkills badgeMap in
  (* Priority 2 *)
  let badgeMap :=
    fold_left
      (fun badgeMap p =>
         fold_left (fun badgeMap kv => add catalog badgeMap (fst kv))
           (range o (Languages p)) badgeMap)
      projects badgeMap in
  (* Priority 3 *)
  let badgeMap :=
    fold_left
      (fun badgeMap p =>
         fold_left
           (fun badgeMap kv =>
              fold_left
                (fun badgeMap dep => add catalog badgeMap (dependency_key dep))
                (snd kv) badgeMap)
           (range o (Dependencies p)) badgeMap)
      projects badgeMap in
  (* Priority 4 *)
  let badgeMap := fold_left (add catalog) llmSkills badgeMap in
  List.map snd (range o badgeMap).

Definition special : gmap string string := list_to_map [
  ("C++", "cplusplus"); ("C#", "csharp"); ("Vue.js", "vuedotjs");
  ("Next.js", "nextdotjs"); ("Nuxt.js", "nuxtdotjs");
  ("Express.js", "express"); ("Node.js", "nodedotjs");
  ("Ruby on Rails", "rubyonrails"); ("React Native", "react");
  ("Spring Boot", "springboot"); ("Apache Kafka", "apachekafka");
  ("TailwindCSS", "tailwindcss"); ("HTML5", "html5"); ("CSS3", "css3");
  ("gRPC", "grpc"); ("GCP", "googlecloud"); ("AWS", "amazonaws");
  ("Drizzle", "drizzle"); ("Neon", "neon"); ("Vite", "vite");
  ("Astro", "astro"); ("Gatsby", "gatsby"); ("OpenAI", "openai");
  ("Prometheus", "prometheus"); ("Grafana", "grafana");
  ("Elasticsearch", "elasticsearch"); ("Supabase", "supabase");
  ("Firebase", "firebase"); ("Prisma", "prisma")
].

Definition toLogoSlug (name : string) : string :=
  match special !! name with
  | Some slug => slug
  | None =>
      let s := ToLower name in
      let s := ReplaceAll s " "%char EmptyString in
      let s := ReplaceAll s "."%char EmptyString in
      let s := ReplaceAll s "+"%char "plus" in
      let s := ReplaceAll s "#"%char "sharp" in
      s
  end.

(** [collectTopLanguages]: [totals[lang] += b] on 64-bit integers, then the
    pairs of [totals] in map order, sorted by decreasing byte count. *)
Definition collectTopLanguages (o : MapOrder)
    (projects : list RepositoryAnalysis) (n : nat) : list string :=
  let totals : gmap string Z :=
    fold_left
      (fun totals p =>
         fold_left
           (fun (totals : gmap string Z) (kv : string * Z) =>
              <[fst kv := wrap64 (default 0 (totals !! fst kv) + snd kv)]> totals)
           (range o (Languages p)) totals)
      projects ∅ in
  let sorted :=
    sort_Slice (fun i j : string * Z => snd j <? snd i) (range o totals) in
  List.map fst (firstn n sorted).

Definition collectAllTopics (projects : list RepositoryAnalysis) : list string :=
  snd
    (fold_left
       (fun (acc : gmap string bool * list string) p =>
          match RA_Repository p with
          | None => acc
          | Some repo =>
              fold_left
                (fun (acc : gmap string bool * list string) t =>
                   if default false (fst acc !! t) then acc
                   else (<[t := true]> (fst acc), (snd acc ++ [t])%list))
                (Topics repo) acc
          end)
       projects (∅, [])).

Definition portfolioURL (config : ProfileConfig) (user : User) : string :=
  if negb (String.eqb (PersonalWebsite (PC_ContactPrefs config)) EmptyString)
  then PersonalWebsite (PC_ContactPrefs config)
  else Blog user.

Definition encode (s : string) : string :=
  ReplaceAll (TrimSpace s) " "%char "+".

Definition buildTypingLines (config : ProfileConfig)
    (topLangs topics : list string) : list string :=
  let lines : list string := [] in
  let lines :=
    if negb (String.eqb (PC_TargetRole config) EmptyString)
    then (lines ++ [encode (PC_TargetRole config)])%list else lines in
  let lines :=
    match topLangs with
    | [] => lines
    | [l0] => (lines ++ [(l0 ++ "+Developer")%string])%list
    | l0 :: l1 :: _ =>
        (lines ++ [(encode l0 ++ " & " ++ encode l1 ++ " Developer")%string])%list
    end in
  let lines :=
    match SkillsEmphasis config with
    | s0 :: _ => (lines ++ [("Expert+in+" ++ encode s0)%string])%list
    | [] => lines
    end in
  let lines :=
    fold_left
      (fun lines t =>
         if (5 <=? length lines)%nat then lines else (lines ++ [encode t])%list)
      topics lines in
  if (length lines =? 0)%nat then (lines ++ ["Software+Developer"])%list else lines.

Definition langSet : gset string := list_to_set [
  "Go"; "Python"; "JavaScript"; "TypeScript"; "Rust"; "Java"; "Kotlin";
  "Swift"; "C++"; "C"; "C#"; "PHP"; "Ruby"; "Dart"; "Scala"; "Elixir";
  "Haskell"; "Lua"; "Shell"; "HTML5"; "CSS3"
].

Definition frameworkSet : gset string := list_to_set [
  "React"; "Vue.js"; "Angular"; "Svelte"; "Next.js"; "Nuxt.js"; "Gatsby";
  "Remix"; "Astro"; "TailwindCSS"; "Vite"; "Node.js"; "Express.js";
  "Fastify"; "NestJS"; "Django"; "Flask"; "FastAPI"; "Spring Boot";
  "Laravel"; "Ruby on Rails"; "Fiber"; "Gin"; "Echo"; "Flutter";
  "React Native"
].

Definition dbSet : gset string := list_to_set [
  "PostgreSQL"; "MySQL"; "MongoDB"; "Redis"; "SQLite"; "Cassandra";
  "Elasticsearch"; "Supabase"; "Firebase"; "Neon"; "Prisma"; "Drizzle"
].

(** [cats[k] = append(cats[k], b)]. *)
Definition append_to (cats : gmap string (list Badge)) (k : string) (b : Badge)
    : gmap string (list Badge) :=
  <[k := (default [] (cats !! k) ++ [b])%list]> cats.

Definition organizeBadgesByCategory (o : MapOrder) (badges : list Badge)
    : gmap string (list Badge) :=
  let cats : gmap string (list Badge) :=
    list_to_map [("Languages", []); ("Frameworks & Libraries", []);
                 ("Databases", []); ("Tools & Platforms", [])] in
  let cats :=
    fold_left
      (fun cats b =>
         if bool_decide (Badge_Name b ∈ langSet) then append_to cats "Languages" b
         else if bool_decide (Badge_Name b ∈ frameworkSet)
         then append_to cats "Frameworks & Libraries" b
         else if bool_decide (Badge_Name b ∈ dbSet) then append_to cats "Databases" b
         else append_to cats "Tools & Platforms" b)
      badges cats in
  (* Drop empty buckets *)
  fold_left
    (fun (cats : gmap string (list Badge)) (kv : string * list Badge) =>
       if (length (snd kv) =? 0)%nat then delete (fst kv) cats else cats)
    (range o cats) cats.

(** One badge of the section Tech Stack. *)
Definition badge_image (b : Badge) : string :=
  Sprintf
    (lit "![%s](https://img.shields.io/badge/%s-%s?style=flat-square&logo=%s&logoColor=white) ")
    [S_ (Badge_Name b); S_ (ReplaceAll (Badge_Name b) " "%char "%20");
     S_ (Color b); S_ (toLogoSlug (Badge_Name b))].

(** One round of the loop over [summaries] in the section Featured
    Projects: what it writes for the summary [sum] at index [i]. *)
Definition featured_project (o : MapOrder) (username : string)
    (req : ContentGenerationRequest) (len_summaries : nat)
    (i : nat) (sum : ProjectSummary) : string :=
  match PS_Repository sum with
  | None => EmptyString
  | Some repo =>
      let owner :=
        if Contains (FullName repo) "/"%char
        then hd EmptyString (Split (FullName repo) "/"%char)
        else username in
      let md := Sprintf (lit "### [%s](%s)\n\n") [S_ (Name repo); S_ (HTMLURL repo)] in
      let md :=
        if negb (String.eqb (Description repo) EmptyString)
        then md ++ Sprintf (lit "> %s\n\n") [S_ (Description repo)] else md in
      let md :=
        md ++ Sprintf
          (lit "[![Repo Card](https://github-readme-stats.vercel.app/api/pin/?username=%s&repo=%s&theme=tokyonight&hide_border=true)](%s)\n\n")
          [S_ owner; S_ (Name repo); S_ (HTMLURL repo)] in
      (* LLM summary *)
      let md :=
        if negb (String.eqb (Summary sum) EmptyString)
        then md ++ Summary sum ++ lit "\n\n" else md in
      (* Tech stack from LLM *)
      let md :=
        if (0 <? length (TechStack sum))%nat
        then md ++ "**Tech:** "
                ++ String.concat EmptyString
                     (List.map (fun tech => Sprintf "`%s` " [S_ tech]) (TechStack sum))
                ++ lit "\n\n"
        else md in
      (* Real stats from repo + analysis *)
      let stats : list string := [] in
      let stats :=
        if 0 <? StargazersCount repo
        then (stats ++ [Sprintf "⭐ %d stars" [D_ (StargazersCount repo)]])%list
        else stats in
      let stats :=
        if 0 <? ForksCount repo
        then (stats ++ [Sprintf "🍴 %d forks" [D_ (ForksCount repo)]])%list
        else stats in
      let stats :=
        match Projects req !! i with
        | Some analysis =>
            let stats :=
              if 0 <? CommitCount analysis
              then (stats ++ [Sprintf "📝 %d commits" [D_ (CommitCount analysis)]])%list
              else stats in
            let stats :=
              if 0 <? ContributorCount analysis
              then (stats ++ [Sprintf "👥 %d contributors"
                                [D_ (ContributorCount analysis)]])%list
              else stats in
            let topProjLangs := collectTopLanguages o [analysis] 3 in
            if (0 <? length topProjLangs)%nat
            then (stats ++ [("🔤 " ++ Join topProjLangs " / ")%string])%list
            else stats
        | None => stats
        end in
      (* Topics *)
      let stats :=
        if (0 <? length (Topics repo))%nat
        then
          let shown := firstn (min 5 (length (Topics repo))) (Topics repo) in
          (stats ++ [("🏷️ " ++ Join shown ", ")%string])%list
        else stats in
      let md :=
        if (0 <? length stats)%nat
        then md ++ Join stats " &nbsp;·&nbsp; " ++ lit "\n\n" else md in
      if (i <? len_summaries - 1)%nat then md ++ lit "---\n\n" else md
  end.

Definition buildMarkdown (o : MapOrder) (user : User)
    (req : ContentGenerationRequest) (pitch : string)
    (summaries : list ProjectSummary) (badges : list Badge)
    (config : ProfileConfig) : string :=
  let username := Username user in
  let topLangs := collectTopLanguages o (Projects req) 5 in
  let allTopics := collectAllTopics (Projects req) in
  let siteURL := portfolioURL config user in
  (* Prefer contact email, fall back to account email *)
  let contactEmail := CP_Email (PC_ContactPrefs config) in
  let contactEmail :=
    if String.eqb contactEmail EmptyString then Email user else contactEmail in

  (* HERO *)
  let md := lit "<div align=\qcenter\q>\n\n" in
  let md :=
    if negb (String.eqb (AvatarURL user) EmptyString)
    then md ++ Sprintf
           (lit "<img src=\q%s\q width=\q120\q height=\q120\q style=\qborder-radius:50%%\q alt=\q@%s\q />\n\n")
           [S_ (AvatarURL user); S_ username]
    else md in
  let md :=
    md ++ Sprintf
      (lit "# Hi, I'm @%s <img src=\qhttps://raw.githubusercontent.com/MartinHeinz/MartinHeinz/master/wave.gif\q width=\q28px\q />\n\n")
      [S_ username] in
  let md :=
    if negb (String.eqb (Bio user) EmptyString)
    then md ++ Sprintf (lit "**%s**\n\n") [S_ (Bio user)] else md in

  (* Location / company metadata *)
  let meta : list string := [] in
  let meta :=
    if negb (String.eqb (Location user) EmptyString)
    then (meta ++ [("📍 " ++ Location user)%string])%list else meta in
  let meta :=
    if negb (String.eqb (Company user) EmptyString)
    then
      let c := Company user in
      if HasPrefix c "@"
      then (meta ++ [Sprintf "🏢 [%s](https://github.com/%s)"
                       [S_ c; S_ (TrimPrefix c "@")]])%list
      else (meta ++ [("🏢 " ++ c)%string])%list
    else meta in
  let md :=
    if (0 <? length meta)%nat
    then md ++ Join meta " &nbsp;·&nbsp; " ++ lit "\n\n" else md in

  (* Typing SVG built from real data *)
  let typingLines := buildTypingLines config topLangs allTopics in
  let md :=
    md ++ Sprintf
      (lit "[![Typing SVG](https://readme-typing-svg.demolab.com?font=Fira+Code&size=22&duration=3000&pause=1000&color=2E97F7&center=true&vCenter=true&width=650&height=80&lines=%s)](https://git.io/typing-svg)\n\n")
      [S_ (Join typingLines ";")] in

  (* Profile counters *)
  let md :=
    md ++ Sprintf
      (lit "![Profile Views](https://komarev.com/ghpvc/?username=%s&label=Profile%%20Views&color=0e75b6&style=flat)\n")
      [S_ username] in
  let md :=
    md ++ Sprintf
      (lit "[![Followers](https://img.shields.io/github/followers/%s?label=Followers&style=social)](https://github.com/%s?tab=followers)\n")
      [S_ username; S_ username] in
  let md :=
    md ++ Sprintf
      (lit "[![Stars](https://img.shields.io/github/stars/%s?label=Stars&style=social)](https://github.com/%s)\n\n")
      [S_ username; S_ username] in
  let md := md ++ lit "</div>\n\n" in

  (* ABOUT ME *)
  let md := md ++ lit "## 👨‍💻 About Me\n\n" in
  let md := md ++ pitch in
  let md := md ++ lit "\n\n" in

  (* Dynamic bullets sourced from real data *)
  let md :=
    if negb (String.eqb (PC_TargetRole config) EmptyString)
    then md ++ Sprintf (lit "- 🎯 Growing as a **%s**\n") [S_ (PC_TargetRole config)]
    else md in
  let md :=
    if (0 <? length summaries)%nat
    then
      let names :=
        omap
          (fun sum =>
             match PS_Repository sum with
             | Some repo => Some (Sprintf "[%s](%s)" [S_ (Name repo); S_ (HTMLURL repo)])
             | None => None
             end)
          (firstn (min 2 (length summaries)) summaries) in
      if (0 <? length names)%nat
      then md ++ Sprintf (lit "- 🔭 Currently building **%s**\n") [S_ (Join names " & ")]
      else md
    else md in
  let md :=
    if (0 <? length (SkillsEmphasis config))%nat
    then md ++ Sprintf (lit "- 🌱 Deepening expertise in **%s**\n")
           [S_ (Join (firstn (min 2 (length (SkillsEmphasis config)))
                        (SkillsEmphasis config)) " & ")]
    else
      match topLangs with
      | l0 :: _ => md ++ Sprintf (lit "- 🌱 Deepening expertise in **%s**\n") [S_ l0]
      | [] => md
      end in
  let md :=
    if (0 <? length topLangs)%nat
    then md ++ Sprintf (lit "- 💬 Ask me about **%s**\n")
           [S_ (Join (firstn (min 3 (length topLangs)) topLangs) ", ")]
    else md in
  let md :=
    if negb (String.eqb contactEmail EmptyString)
    then md ++ Sprintf (lit "- 📫 Reach me at **%s**\n") [S_ contactEmail]
    else md in
  let md := md ++ lit "\n" in

  (* CONNECT *)
  let md := md ++ lit "## 🌐 Connect\n\n" in
  let md := md ++ lit "<div align=\qcenter\q>\n\n" in
  let md :=
    if negb (String.eqb (LinkedIn (PC_ContactPrefs config)) EmptyString)
    then md ++ Sprintf
           (lit "[![LinkedIn](https://img.shields.io/badge/LinkedIn-0077B5?style=for-the-badge&logo=linkedin&logoColor=white)](%s)\n")
           [S_ (LinkedIn (PC_ContactPrefs config))]
    else md in
  let md :=
    if negb (String.eqb (Twitter (PC_ContactPrefs config)) EmptyString)
    then md ++ Sprintf
           (lit "[![Twitter/X](https://img.shields.io/badge/Twitter-000000?style=for-the-badge&logo=x&logoColor=white)](%s)\n")
           [S_ (Twitter (PC_ContactPrefs config))]
    else md in
  let md :=
    if negb (String.eqb contactEmail EmptyString)
    then md ++ Sprintf
           (lit "[![Email](https://img.shields.io/badge/Email-D14836?style=for-the-badge&logo=gmail&logoColor=white)](mailto:%s)\n")
           [S_ contactEmail]
    else md in
  let md :=
    if negb (String.eqb siteURL EmptyString)
    then md ++ Sprintf
           (lit "[![Website](https://img.shields.io/badge/Website-FF5722?style=for-the-badge&logo=googlechrome&logoColor=white)](%s)\n")
           [S_ siteURL]
    else md in
  let md :=
    md ++ Sprintf
      (lit "[![GitHub](https://img.shields.io/badge/GitHub-100000?style=for-the-badge&logo=github&logoColor=white)](https://github.com/%s)\n\n")
      [S_ username] in
  let md := md ++ lit "</div>\n\n" in

  (* TECH STACK *)
  let md :=
    if (0 <? length badges)%nat
    then
      let md := md ++ lit "## 🛠️ Tech Stack\n\n" in
      let md := md ++ lit "<div align=\qcenter\q>\n\n" in
      let categories := organizeBadgesByCategory o badges in
      let md :=
        fold_left
          (fun md cat =>
             match categories !! cat with
             | Some catBadges =>
                 if (length catBadges =? 0)%nat then md
                 else
                   md ++ Sprintf (lit "**%s**\n\n") [S_ cat]
                      ++ String.concat EmptyString (List.map badge_image catBadges)
                      ++ lit "\n\n"
             | None => md
             end)
          ["Languages"; "Frameworks & Libraries"; "Databases"; "Tools & Platforms"]
          md in
      md ++ lit "</div>\n\n"
    else md in

  (* GITHUB STATS *)
  let md := md ++ lit "## 📊 GitHub Stats\n\n" in
  let md := md ++ lit "<div align=\qcenter\q>\n\n" in
  let md :=
    md ++ Sprintf
      (lit "![%s's stats](https://github-readme-stats.vercel.app/api?username=%s&show_icons=true&count_private=true&theme=tokyonight&hide_border=true)\n")
      [S_ username; S_ username] in
  let md :=
    md ++ Sprintf
      (lit "![Top langs](https://github-readme-stats.vercel.app/api/top-langs/?username=%s&layout=compact&theme=tokyonight&hide_border=true)\n\n")
      [S_ username] in
  let md :=
    md ++ Sprintf
      (lit "![Streak](https://streak-stats.demolab.com?user=%s&theme=tokyonight&hide_border=true)\n\n")
      [S_ username] in
  let md :=
    md ++ Sprintf
      (lit "[![Trophies](https://github-profile-trophy.vercel.app/?username=%s&theme=tokyonight&no-frame=true&margin-w=4)](https://github.com/ryo-ma/github-profile-trophy)\n\n")
      [S_ username] in
  let md := md ++ lit "</div>\n\n" in

  (* FEATURED PROJECTS *)
  let md :=
    if (0 <? length summaries)%nat
    then
      md ++ lit "## 🚀 Featured Projects\n\n"
         ++ String.concat EmptyString
              (imap (featured_project o username req (length summaries)) summaries)
    else md in

  (* ACTIVITY GRAPH *)
  let md := md ++ lit "## 📈 Contribution Activity\n\n" in
  let md := md ++ lit "<div align=\qcenter\q>\n\n" in
  let md :=
    md ++ Sprintf
      (lit "[![Activity Graph](https://github-readme-activity-graph.vercel.app/graph?username=%s&theme=tokyo-night&hide_border=true)](https://github.com/ashutosh00710/github-readme-activity-graph)\n\n")
      [S_ username] in
  let md := md ++ lit "</div>\n\n" in

  (* FOOTER *)
  let md := md ++ lit "---\n\n" in
  let md := md ++ lit "<div align=\qcenter\q>\n\n" in
  let md :=
    md ++ Sprintf
      (lit "*Generated with [GitRight](https://github.com/%s) · ![](https://komarev.com/ghpvc/?username=%s&style=flat-square)*\n\n")
      [S_ username; S_ username] in
  let md := md ++ lit "</div>\n" in
  md.

(** Checks that the proofs run on the alias table and on the catalog:
    two aliases with the same lower-case key are the same entry, and two
    catalog entries with the same badge name hold the same badge. *)
Definition badge_eqb (a b : Badge) : bool :=
  String.eqb (Badge_Name a) (Badge_Name b) && String.eqb (URL a) (URL b)
  && String.eqb (Color a) (Color b).

Definition same_alias (a b : string * string) : bool :=
  implb (String.eqb (ToLower (fst a)) (ToLower (fst b)))
        (String.eqb (fst a) (fst b) && String.eqb (snd a) (snd b)).

Definition same_badge (a b : string * Badge) : bool :=
  implb (String.eqb (Badge_Name (snd a)) (Badge_Name (snd b)))
        (badge_eqb (snd a) (snd b)).

Definition pairwise {A : Type} (P : A -> A -> bool) (l : list A) : bool :=
  forallb (fun a => forallb (P a) l) l.

(** The two structures of package llm that [GenerateProfile] touches. *)
Record ProjectSummaryData : Type := mkProjectSummaryData {
  ProjectName : string;
  PSD_Summary : string;
  Skills : list string
}.

Record BatchProfileResponse : Type := mkBatchProfileResponse {
  ProfilePitch : string;
  ProjectSummaries : list ProjectSummaryData;
  BR_ExtractedSkills : list string;
  BR_Confidence : float64
}.

Record BatchProfileRequest : Type := mkBatchProfileRequest {
  BQ_Username : string;
  BQ_Bio : string;
  BQ_Location : string;
  BQ_Company : string;
  BQ_TargetRole : string;
  BQ_ToneOfVoice : string;
  BQ_EmphasizedSkills : list string;
  BQ_Projects : list RepositoryAnalysis
}.

(** [24*time.Hour], in nanoseconds. *)
Definition day : Z := 24 * 3600 * 1000000000.

(** The loop that pairs the summaries of the model with the projects of
    the request, stopping at the shorter of the two. *)
Fixpoint pair_summaries (summaries : list ProjectSummaryData)
    (projects : list RepositoryAnalysis) : list ProjectSummary :=
  match summaries, projects with
  | proj :: summaries', p :: projects' =>
      mkProjectSummary (RA_Repository p) (PSD_Summary proj) (Skills proj) []
        :: pair_summaries summaries' projects'
  | _, _ => []
  end.

Section Generate.

(** [contentGenerator.GenerateBatchedProfile], by API key and request:
    the value the call returns in this run.  What the call does besides
    is outside this model: the lines it logs itself ([slog.Error] on a
    reply without JSON), its reading of the maps of a project when it
    writes the prompt, and its panic on a project without [Repository],
    so that statements about the call hold for the value it returns and
    for projects that carry their [Repository]. *)
Variable GenerateBatchedProfile :
  string -> BatchProfileRequest -> result BatchProfileResponse.

(** [GenerateProfile].  It returns its result, the cache table afterwards
    and the lines it logged itself ([slog.Warn]). *)
Definition GenerateProfile (o : MapOrder)
    (fault_get fault_set : option error) (tbl : repository.ProfileCache)
    (now : Time) (req : ContentGenerationRequest) (user : User)
    : result ContentGenerationResponse * repository.ProfileCache
      * list services.LogLine :=
  if String.eqb (UserAPIKey req) EmptyString
  then (Err (Errorf "API key required - get free key: https://aistudio.google.com/app/apikey" []),
        tbl, [])
  else if (length (Projects req) =? 0)%nat
  then (Err (Errorf "at least one project required" []), tbl, [])
  else
    let cacheKey :=
      repository.GetCacheKey (Username user) (TargetRole req) (ToneOfVoice req)
        (Z.of_nat (length (Projects req))) in
    match repository.Get fault_get tbl now cacheKey with
    | Ok (Some cached) => (Ok cached, tbl, [])
    | _ =>
        let batchReq :=
          mkBatchProfileRequest (Username user) (Bio user) (Location user)
            (Company user) (TargetRole req) (ToneOfVoice req)
            (EmphasizedSkills req) (Projects req) in
        match GenerateBatchedProfile (UserAPIKey req) batchReq with
        | Err err => (Err (ErrorfW "generation failed: %w" [] err), tbl, [])
        | Ok batchResp =>
            let summaries :=
              pair_summaries (ProjectSummaries batchResp) (Projects req) in
            let config :=
              mkProfileConfig 0 0 (TargetRole req) (EmphasizedSkills req)
                (ToneOfVoice req) EmptyString (ContactPrefs req) false 0 0 in
            let badges :=
              buildBadgesFromProjectData o (Projects req)
                (BR_ExtractedSkills batchResp) (EmphasizedSkills req) in
            let markdown :=
              buildMarkdown o user req (ProfilePitch batchResp) summaries
                badges config in
            let response :=
              mkContentGenerationResponse markdown
                (BR_ExtractedSkills batchResp) badges (BR_Confidence batchResp) in
            match repository.Set_ fault_set tbl now (User_ID user) 0 cacheKey
                    response day with
            | (tbl', Some err) =>
                (Ok response, tbl',
                 [("Failed to cache profile generation result", err)])
            | (tbl', None) => (Ok response, tbl', [])
            end
        end
    end.

End Generate.

End profile_service.

(* ===================================================================== *)
(** ** package handlers: WebSocketHandler *)
(* ===================================================================== *)

Module websocket.

Import Go models.

(** [Progress] is a [float64] literal, kept as written. *)
Record ProgressUpdate : Type := mkProgressUpdate {
  Stage : string;
  Progress : string;
  Message : string;
  Error : string
}.

(** A buffered channel: the queued values, oldest first, the capacity
    given to [make], and whether [close] has run. *)
Record Chan (A : Type) : Type := mkChan {
  buf : list A;
  cap : nat;
  closed : bool
}.
Arguments mkChan {A} buf cap closed.
Arguments buf {A} c.
Arguments cap {A} c.
Arguments closed {A} c.

Definition make_chan {A : Type} (capacity : nat) : Chan A := mkChan [] capacity false.

(** What the statement [ch <- v] can do: proceed, wait, or panic. *)
Inductive send_outcome : Type :=
  | Sent
  | WouldBlock
  | Panic.

Definition chan_send {A : Type} (ch : Chan A) (v : A) : Chan A * send_outcome :=
  if closed ch then (ch, Panic)
  else if (length (buf ch) <? cap ch)%nat
  then (mkChan (buf ch ++ [v])%list (cap ch) (closed ch), Sent)
  else (ch, WouldBlock).

(** The closure [send] of [generateWithProgress]:
    [select { case progressCh <- update: default: }].  The result is
    [None] if the statement could not complete at once (a panic; the
    default branch rules out waiting). *)
Definition send (progressCh : Chan ProgressUpdate) (stage pct msg : string)
    : option (Chan ProgressUpdate) :=
  match chan_send progressCh (mkProgressUpdate stage pct msg EmptyString) with
  | (ch', Sent) => Some ch'
  | (_, WouldBlock) => Some progressCh
  | (_, Panic) => None
  end.

(** The plain statement [progressCh <- update], for comparison:
    [None] when it cannot complete at once. *)
Definition blocking_send (progressCh : Chan ProgressUpdate) (u : ProgressUpdate)
    : option (Chan ProgressUpdate) :=
  match chan_send progressCh u with
  | (ch', Sent) => Some ch'
  | _ => None
  end.

(** Where the handler's goroutine stands, from the creation of the
    channel on: the four sends of [generateWithProgress] around its call
    of [GenerateProfile], then [close(progressCh)] and [<-done]. *)
Inductive ProducerPC : Type :=
  | SendInit
  | SendAnalyzing
  | SendGenerating
  | CallGenerateProfile
  | SendFinalizing
  | CloseProgressCh
  | WaitDone
  | Finished.

Record State : Type := mkState {
  progressCh : Chan ProgressUpdate;
  pc : ProducerPC;
  consumer_running : bool;
  written : list ProgressUpdate
}.

(** The state right after [progressCh := make(chan ProgressUpdate, 10)]
    and the start of the writer goroutine. *)
Definition initial : State := mkState (make_chan 10) SendInit true [].

(** The moves of the two goroutines.  [Produce ok] is one statement of the
    handler's goroutine ([ok] tells whether [GenerateProfile] succeeds,
    and matters at that call only); [Receive write_ok] is one round of the
    writer's loop taking a value from the channel; [ReceiveClosed] is the
    writer seeing the closed, empty channel; [CtxDone] is the writer
    leaving because the request's context is done. *)
Inductive Move : Type :=
  | Produce (ok : bool)
  | Receive (write_ok : bool)
  | ReceiveClosed
  | CtxDone.

Definition projects_message (n : nat) : string :=
  Sprintf "Preparing %d project(s) for analysis..." [D_ (Z.of_nat n)].

Definition send_at (s : State) (stage pct msg : string) (next : ProducerPC)
    : option State :=
  match send (progressCh s) stage pct msg with
  | Some ch' => Some (mkState ch' next (consumer_running s) (written s))
  | None => None
  end.

(** One move; [None] when the move cannot be made in this state (the
    goroutine waits, or has ended). *)
Definition step (nprojects : nat) (s : State) (m : Move) : option State :=
  match m with
  | Produce ok =>
      match pc s with
      | SendInit =>
          send_at s "init" "0.0" "Starting profile generation..." SendAnalyzing
      | SendAnalyzing =>
          send_at s "analyzing" "0.1" (projects_message nprojects) SendGenerating
      | SendGenerating =>
          send_at s "generating" "0.4"
            "Sending to AI — this may take up to 30 seconds..." CallGenerateProfile
      | CallGenerateProfile =>
          Some (mkState (progressCh s)
                  (if ok then SendFinalizing else CloseProgressCh)
                  (consumer_running s) (written s))
      | SendFinalizing =>
          send_at s "finalizing" "0.95" "Assembling final profile..." CloseProgressCh
      | CloseProgressCh =>
          if closed (progressCh s) then None
          else Some (mkState (mkChan (buf (progressCh s)) (cap (progressCh s)) true)
                       WaitDone (consumer_running s) (written s))
      | WaitDone =>
          if consumer_running s then None
          else Some (mkState (progressCh s) Finished false (written s))
      | Finished => None
      end
  | Receive write_ok =>
      if consumer_running s then
        match buf (progressCh s) with
        | update :: rest =>
            Some (mkState (mkChan rest (cap (progressCh s)) (closed (progressCh s)))
                    (pc s) write_ok
                    (if write_ok then (written s ++ [update])%list else written s))
        | [] => None
        end
      else None
  | ReceiveClosed =>
      if consumer_running s && closed (progressCh s)
         && (length (buf (progressCh s)) =? 0)%nat
      then Some (mkState (progressCh s) (pc s) false (written s))
      else None
  | CtxDone =>
      if consumer_running s
      then Some (mkState (progressCh s) (pc s) false (written s))
      else None
  end.

(** The states the handler can reach from [initial]. *)
Inductive reachable (nprojects : nat) : State -> Prop :=
  | reach_initial : reachable nprojects initial
  | reach_step s m s' :
      reachable nprojects s -> step nprojects s m = Some s' ->
      reachable nprojects s'.

Definition at_send (p : ProducerPC) : bool :=
  match p with
  | SendInit | SendAnalyzing | SendGenerating | SendFinalizing => true
  | _ => false
  end.

(** The statements before [close(progressCh)] has run. *)
Definition before_close (p : ProducerPC) : bool :=
  match p with
  | WaitDone | Finished => false
  | _ => true
  end.

(** What holds of the channel in every state the handler reaches. *)
Definition channel_invariant (s : State) : Prop :=
  cap (progressCh s) = 10%nat
  /\ (length (buf (progressCh s)) <= 10)%nat
  /\ closed (progressCh s) = negb (before_close (pc s)).

End websocket.

(* ===================================================================== *)
(** ** The table of sessions over time *)
(* ===================================================================== *)

Module history.

Import Go models.

(** The database clock and the table [sessions]. *)
Record World : Type := mkWorld {
  w_db_now : Time;
  w_sessions : repository.Sessions
}.

(** Everything in the repository that writes the table [sessions], and
    the passing of time.  [DoLogout] is a call of the handler [Logout]
    with the two values it finds in its context. *)
Inductive Event : Type :=
  | Tick (dt : N)
  | DoLogout (fault : option error) (jwt_jti : option string) (jwt_exp : option Z)
  | DoCreateOAuthState (fault : option error) (state : string) (expiresAt : Time)
  | DoDeleteOAuthState (fault : option error) (state : string)
  | DoCleanup (fault : option error).

Definition exec (w : World) (ev : Event) : World :=
  match ev with
  | Tick dt => mkWorld (w_db_now w + Z.of_N dt) (w_sessions w)
  | DoLogout fault jwt_jti jwt_exp =>
      mkWorld (w_db_now w) (fst (handlers.Logout fault (w_sessions w) jwt_jti jwt_exp))
  | DoCreateOAuthState fault state expiresAt =>
      mkWorld (w_db_now w)
        (fst (repository.CreateOAuthState fault (w_sessions w) state expiresAt))
  | DoDeleteOAuthState fault state =>
      mkWorld (w_db_now w) (fst (repository.DeleteOAuthState fault (w_sessions w) state))
  | DoCleanup fault =>
      mkWorld (w_db_now w)
        (fst (repository.CleanupExpiredSessions fault (w_sessions w) (w_db_now w)))
  end.

Definition run (w : World) (evs : list Event) : World := fold_left exec evs w.

(** The JTI and expiry a logout records, if it answers 200. *)
Definition logged_out (ev : Event) : option (string * Time) :=
  match ev with
  | DoLogout fault (Some jti) (Some exp) =>
      match snd (handlers.Logout fault ∅ (Some jti) (Some exp)) with
      | JSON _ _ => Some (jti, middleware.time_Unix exp)
      | HTTPError _ _ => None
      end
  | _ => None
  end.

(** The expiry recorded by the last logout of [jti] in a history. *)
Definition last_revocation (evs : list Event) (jti : string) : option Time :=
  fold_left
    (fun acc ev =>
       match logged_out ev with
       | Some (j, e) => if String.eqb j jti then Some e else acc
       | None => acc
       end)
    evs None.

(** Rows whose key starts with [revoked:] are revocations. *)
Definition wf_sessions (tbl : repository.Sessions) : Prop :=
  forall jti row,
    tbl !! ("revoked:" ++ jti) = Some row ->
    repository.state_type row = "revoked_token".

(** What the history promises about a JTI with recorded expiry [e]: its
    row is in the table, or [e] has passed. *)
Definition recorded (w : World) (jti : string) (e : Time) : Prop :=
  (exists row,
      w_sessions w !! ("revoked:" ++ jti)%string = Some row
      /\ repository.state_type row = "revoked_token"
      /\ repository.expires_at row = e)
  \/ e < w_db_now w.

End history.

(* ===================================================================== *)
(** ** What a batch is expected to deliver, entry by entry *)
(* ===================================================================== *)

Module batch_spec.

Import Go models.

Section Outcomes.

Context {W : Type}.
Variable AnalyzeRepository : W -> string -> string -> W * result RepositoryAnalysis.

(** The outcome of each entry of a batch, in order: the analysis, or the
    one error reported for an entry that is malformed or whose analysis
    fails. *)
Fixpoint entry_outcomes (w : W) (repos : list string)
    : list (string * result RepositoryAnalysis) :=
  match repos with
  | [] => []
  | fullName :: rest =>
      match Split fullName "/"%char with
      | [owner; repo] =>
          match AnalyzeRepository w owner repo with
          | (w', Ok analysis) => (fullName, Ok analysis) :: entry_outcomes w' rest
          | (w', Err err) =>
              (fullName, Err (ErrorfW "repository %q: %w" [fullName] err))
                :: entry_outcomes w' rest
          end
      | _ =>
          (fullName,
           Err (Errorf "invalid repository name %q: must be owner/repo" [fullName]))
            :: entry_outcomes w rest
      end
  end.

End Outcomes.

Definition successes (outs : list (string * result RepositoryAnalysis))
    : list (string * RepositoryAnalysis) :=
  omap (fun kv => match snd kv with
                  | Ok a => Some (fst kv, a)
                  | Err _ => None
                  end) outs.

Definition failures (outs : list (string * result RepositoryAnalysis))
    : list error :=
  omap (fun kv => match snd kv with
                  | Ok _ => None
                  | Err e => Some e
                  end) outs.

Definition succeeded (kv : string * result RepositoryAnalysis) : Prop :=
  exists a, snd kv = Ok a.

(** A name is malformed when it is not of the form owner/repo. *)
Definition well_formed (fullName : string) : Prop :=
  exists owner repo, Split fullName "/"%char = [owner; repo].

End batch_spec.

(* ===================================================================== *)
(** ** Sample inputs, for running the model *)
(* ===================================================================== *)

Module samples.

Import Go models.

(** A service that fails on the repository [bad] of any owner and returns
    an empty analysis otherwise; its state counts the calls. *)
Definition analysis : RepositoryAnalysis :=
  mkRepositoryAnalysis None ∅ [] ∅ ∅ 0 0.

Definition AnalyzeRepository (w : nat) (owner repo : string)
    : nat * result RepositoryAnalysis :=
  if String.eqb repo "bad" then (S w, Err (Errorf "failed to get repository info" []))
  else (S w, Ok analysis).

(** A user, a request, and a model that answers every request with the
    same pitch and one summary. *)
Definition octocat : User :=
  mkUser 1 583231 "octocat" "octocat@example.com" EmptyString EmptyString
    EmptyString EmptyString EmptyString "gho_token" EmptyString 0 0 0 0.

Definition no_contact : ContactPreferences :=
  mkContactPreferences EmptyString EmptyString EmptyString EmptyString [].

Definition hello : Repository :=
  mkRepository 7 7 "hello" "octocat/hello" "A greeting" false false "Go"
    3 0 0 "main" ["cli"] "https://github.com/octocat/hello"
    "https://github.com/octocat/hello.git" 0 0 0.

Definition hello_analysis : RepositoryAnalysis :=
  mkRepositoryAnalysis (Some hello) {["Go" := 1200]} [] ∅ ∅ 12 1.

Definition request1 : ContentGenerationRequest :=
  mkContentGenerationRequest "Backend Engineer" ["go"; "python"] "professional"
    no_contact [hello_analysis] "api-key".

Definition GenerateBatchedProfile (apiKey : string)
    (req : profile_service.BatchProfileRequest)
    : result profile_service.BatchProfileResponse :=
  Ok (profile_service.mkBatchProfileResponse "I build services."
        [profile_service.mkProjectSummaryData "hello" "Says hello." ["Go"]]
        ["docker"] 0).

(** What [GenerateProfile] computes for [request1] on an empty cache. *)
Definition generated1 :=
  profile_service.GenerateProfile GenerateBatchedProfile
    profile_service.ascending None None ∅ 0 request1 octocat.

Definition response1 : ContentGenerationResponse :=
  match fst (fst generated1) with
  | Ok response => response
  | Err _ => mkContentGenerationResponse EmptyString [] [] 0
  end.

(** The handler's state after its first two sends, the writer goroutine
    not having run yet; and a channel whose buffer is full. *)
Definition after_two_sends : websocket.State :=
  websocket.mkState
    (websocket.mkChan
       [websocket.mkProgressUpdate "init" "0.0" "Starting profile generation..."
          EmptyString;
        websocket.mkProgressUpdate "analyzing" "0.1"
          "Preparing 1 project(s) for analysis..." EmptyString]
       10 false)
    websocket.SendGenerating true [].

Definition full_channel : websocket.Chan websocket.ProgressUpdate :=
  websocket.mkChan
    (replicate 10 (websocket.mkProgressUpdate "init" "0.0" "..." EmptyString))
    10 false.

End samples.

(* ===================================================================== *)
(** ** Stand-ins for crypto/hmac and encoding/json, for running the model *)
(* ===================================================================== *)

(** The theorems below hold for every function in the place of
    HMAC-SHA256 and of the JSON codec; these two are what the model is
    run with on sample inputs.  [keyed_checksum] is a 32-byte checksum of
    key and message, not a cryptographic one.  [json_Marshal] writes the
    four fields the way [encoding/json] does for text without control
    characters, and [json_Unmarshal] reads that form back. *)

Module stand_in.

Import Go models middleware.

Definition keyed_checksum (key message : string) : string :=
  let h :=
    fold_left (fun acc b => ((acc * 131 + N.of_nat b) mod 4294967291)%N)
      (base64.bytes_of_string (key ++ String "000"%char message)) 7%N in
  base64.string_of_bytes
    (List.map (fun i => N.to_nat ((h / (N.of_nat i + 1) + 31 * N.of_nat i) mod 256)%N)
       (seq 0 32)).

Fixpoint escape (s : string) : string :=
  match s with
  | EmptyString => EmptyString
  | String a s' =>
      if Ascii.eqb a "034"%char || Ascii.eqb a "\"%char
      then String "\"%char (String a (escape s'))
      else String a (escape s')
  end.

Definition json_Marshal (c : JWTClaims) : string :=
  lit "{\quser_id\q:" ++ itoa (UserID c)
    ++ lit ",\qusername\q:\q" ++ escape (Username c)
    ++ lit "\q,\qjti\q:\q" ++ escape (JTI c)
    ++ lit "\q,\qexp\q:" ++ itoa (ExpiresAt c) ++ "}".

Fixpoint strip_prefix (p s : string) : option string :=
  match p, s with
  | EmptyString, _ => Some s
  | String a p', String b s' => if Ascii.eqb a b then strip_prefix p' s' else None
  | String _ _, EmptyString => None
  end.

Definition digit_value (a : ascii) : option Z :=
  let n := nat_of_ascii a in
  if ((48 <=? n) && (n <=? 57))%nat then Some (Z.of_nat n - 48) else None.

Fixpoint read_digits (s : string) (acc : Z) (seen : bool) : option (Z * string) :=
  match s with
  | EmptyString => if seen then Some (acc, s) else None
  | String a s' =>
      match digit_value a with
      | Some d => read_digits s' (10 * acc + d) true
      | None => if seen then Some (acc, s) else None
      end
  end.

Definition read_int (s : string) : option (Z * string) :=
  match s with
  | String a s' =>
      if Ascii.eqb a "-"%char then
        match read_digits s' 0 false with
        | Some (n, rest) => Some (- n, rest)
        | None => None
        end
      else read_digits s 0 false
  | EmptyString => None
  end.

(** The text up to the closing quote, with the two escapes undone. *)
Fixpoint read_string (s : string) : option (string * string) :=
  match s with
  | EmptyString => None
  | String a s' =>
      if Ascii.eqb a "034"%char then Some (EmptyString, s')
      else if Ascii.eqb a "\"%char then
        match s' with
        | String b s'' =>
            match read_string s'' with
            | Some (t, rest) => Some (String b t, rest)
            | None => None
            end
        | EmptyString => None
        end
      else
        match read_string s' with
        | Some (t, rest) => Some (String a t, rest)
        | None => None
        end
  end.

Definition json_Unmarshal (s : string) : option JWTClaims :=
  s ← strip_prefix (lit "{\quser_id\q:") s;
  '(userID, s) ← read_int s;
  s ← strip_prefix (lit ",\qusername\q:\q") s;
  '(username, s) ← read_string s;
  s ← strip_prefix (lit ",\qjti\q:\q") s;
  '(jti, s) ← read_string s;
  s ← strip_prefix (lit ",\qexp\q:") s;
  '(exp, s) ← read_int s;
  if String.eqb s "}" then Some (mkJWTClaims userID username jti exp) else None.

(** Sixteen bytes in the place of [rand.Read]'s, the secret of the
    server, and a table of users. *)
Definition jtiBytes : vec ascii 16 :=
  Vector.map ascii_of_nat
    [# 1; 35; 69; 103; 137; 171; 205; 239; 16; 50; 84; 118; 152; 186; 220; 254]%nat.

Definition secret : string := "server-secret".

Definition users : repository.Users := {[ 1 := samples.octocat ]}.

(** The token issued to [octocat] at time 0 for 24 hours. *)
Definition token : string :=
  match GenerateJWT keyed_checksum json_Marshal (Some jtiBytes) 0 1 "octocat"
          secret profile_service.day with
  | Ok token => token
  | Err _ => EmptyString
  end.

Definition jti : string :=
  hex.EncodeToString (string_of_list_ascii (vec_to_list jtiBytes)).

(** The claims of [token], and a history: an OAuth state is created,
    [octocat] logs out with [token], an hour passes, the table is cleaned
    and the OAuth state deleted. *)
Definition claims : JWTClaims := mkJWTClaims 1 "octocat" jti 86400.

Definition world0 : history.World := history.mkWorld 0 ∅.

Definition before_logout : list history.Event :=
  [history.DoCreateOAuthState None "state" (600 * second)].

Definition after_logout : list history.Event :=
  [history.Tick 3600000000000; history.DoCleanup None;
   history.DoDeleteOAuthState None "state"].

Definition world1 : history.World :=
  history.run world0
    (before_logout ++ history.DoLogout None (Some jti) (Some 86400) :: after_logout).

End stand_in.

(* ===================================================================== *)
(** ** The run of the progress handler, for stating what it delivers *)
(* ===================================================================== *)

Module progress.

Import websocket.

(** The four updates of [generateWithProgress], in the order of its
    [send] statements. *)
Definition updates (nprojects : nat) : list ProgressUpdate :=
  [mkProgressUpdate "init" "0.0" "Starting profile generation..." EmptyString;
   mkProgressUpdate "analyzing" "0.1" (projects_message nprojects) EmptyString;
   mkProgressUpdate "generating" "0.4"
     "Sending to AI — this may take up to 30 seconds..." EmptyString;
   mkProgressUpdate "finalizing" "0.95" "Assembling final profile..." EmptyString].

(** The least and the greatest number of updates sent when the handler's
    goroutine stands at [p]: the fourth is sent only if [GenerateProfile]
    succeeds. *)
Definition sent_min (p : ProducerPC) : nat :=
  match p with
  | SendInit => 0
  | SendAnalyzing => 1
  | SendGenerating => 2
  | _ => 3
  end.

Definition sent_max (p : ProducerPC) : nat :=
  match p with
  | SendInit => 0
  | SendAnalyzing => 1
  | SendGenerating => 2
  | CallGenerateProfile | SendFinalizing => 3
  | _ => 4
  end.

(** The statements the handler's goroutine has still to run, at most. *)
Definition remaining (p : ProducerPC) : nat :=
  match p with
  | SendInit => 7
  | SendAnalyzing => 6
  | SendGenerating => 5
  | CallGenerateProfile => 4
  | SendFinalizing => 3
  | CloseProgressCh => 2
  | WaitDone => 1
  | Finished => 0
  end.

(** A bound on the moves left to the two goroutines. *)
Definition moves_left (s : State) : nat :=
  2 * remaining (pc s) + length (buf (progressCh s))
  + (if consumer_running s then 1 else 0).

(** What holds of the updates in every state the handler reaches: the
    updates sent so far are those written, then at most one that the
    writer took and failed to write (after which it has stopped), then
    those still queued. *)
Definition delivery_invariant (nprojects : nat) (s : State) : Prop :=
  exists (k : nat) (lost : list ProgressUpdate),
    firstn k (updates nprojects)
    = (written s ++ lost ++ buf (progressCh s))%list
    /\ (sent_min (pc s) <= k <= sent_max (pc s))%nat
    /\ (length lost <= 1)%nat
    /\ (lost <> [] -> consumer_running s = false)
    /\ closed (progressCh s) = negb (before_close (pc s))
    /\ cap (progressCh s) = 10%nat.

End progress.

(* ===================================================================== *)
(** ** ProfileService: what its helpers compute, for stating their facts *)
(* ===================================================================== *)

Module profile_facts.

Import Go models profile_service.

(** The four headings of the section Tech Stack, in the order in which
    [buildMarkdown] writes them. *)
Definition categories : list string :=
  ["Languages"; "Frameworks & Libraries"; "Databases"; "Tools & Platforms"].

(** The heading under which [organizeBadgesByCategory] files a badge. *)
Definition category (b : Badge) : string :=
  if bool_decide (Badge_Name b ∈ langSet) then "Languages"
  else if bool_decide (Badge_Name b ∈ frameworkSet) then "Frameworks & Libraries"
  else if bool_decide (Badge_Name b ∈ dbSet) then "Databases"
  else "Tools & Platforms".

(** The map [totals] of [collectTopLanguages], before it is sorted. *)
Definition language_totals (o : MapOrder) (projects : list RepositoryAnalysis)
    : gmap string Z :=
  fold_left
    (fun totals p =>
       fold_left
         (fun (totals : gmap string Z) (kv : string * Z) =>
            <[fst kv := wrap64 (default 0 (totals !! fst kv) + snd kv)]> totals)
         (range o (Languages p)) totals)
    projects ∅.

(** The bytes of one language summed over the projects that have it, in
    64-bit arithmetic. *)
Definition language_bytes (projects : list RepositoryAnalysis) (lang : string) : Z :=
  wrap64 (fold_right (fun p acc => default 0 (Languages p !! lang) + acc) 0 projects).

(** Whether some project lists the language. *)
Definition has_language (projects : list RepositoryAnalysis) (lang : string) : Prop :=
  exists p, In p projects /\ is_Some (Languages p !! lang).

(** The names [buildBadgesFromProjectData] looks up in the catalog: the
    emphasized skills, the languages of the projects, the keys of their
    dependencies, and the skills extracted by the model. *)
Definition badge_key (projects : list RepositoryAnalysis)
    (llmSkills emphasizedSkills : list string) (key : string) : Prop :=
  In key emphasizedSkills
  \/ (exists p, In p projects /\ is_Some (Languages p !! key))
  \/ (exists p eco deps dep,
        In p projects /\ Dependencies p !! eco = Some deps /\ In dep deps
        /\ key = dependency_key dep)
  \/ In key llmSkills.

(** What holds of the map [badgeMap] once the keys [K] have been looked
    up in the catalog [C]: each badge sits under its own name, and the
    badges are those the catalog holds for the keys. *)
Definition badges_of (C : gmap string Badge) (K : string -> Prop)
    (badgeMap : gmap string Badge) : Prop :=
  (forall n b, badgeMap !! n = Some b -> Badge_Name b = n)
  /\ (forall b,
        (exists n, badgeMap !! n = Some b) <->
        exists key, K key /\ C !! ToLower key = Some b).

(** Bytes that a slug never contains: the blank, the dot, the plus, the
    hash, and the upper-case letters. *)
Definition slug_byte_ok (a : ascii) : bool :=
  let n := nat_of_ascii a in
  negb ((n =? 32) || (n =? 46) || (n =? 43) || (n =? 35)
        || ((65 <=? n) && (n <=? 90)))%nat.

Fixpoint all_bytes (P : ascii -> bool) (s : string) : bool :=
  match s with
  | EmptyString => true
  | String a s' => P a && all_bytes P s'
  end.

End profile_facts.

(* ===================================================================== *)
(** ** More of the Go standard library: strings.Fields and path/filepath *)
(* ===================================================================== *)

Module gostrings.

Import Go.

(** [strings.FieldsFunc(s, f)] for a predicate [f] on ASCII bytes: the
    maximal runs of bytes on which [f] is false, in order.  [cur] is the
    run being read, if any. *)
Fixpoint fields_from (f : ascii -> bool) (s : string) (cur : option string)
    : list string :=
  match s with
  | EmptyString =>
      match cur with
      | Some w => [w]
      | None => []
      end
  | String a s' =>
      if f a then
        match cur with
        | Some w => w :: fields_from f s' None
        | None => fields_from f s' None
        end
      else
        fields_from f s'
          (Some (match cur with
                 | Some w => w ++ String a EmptyString
                 | None => String a EmptyString
                 end))
  end.

Definition FieldsFunc (s : string) (f : ascii -> bool) : list string :=
  fields_from f s None.

(** [strings.Fields(s)] on a string of ASCII bytes: the fields between
    runs of white space. *)
Definition Fields (s : string) : list string := FieldsFunc s is_space.

(** [strings.Trim(s, cutset)] for a cutset of ASCII bytes. *)
Fixpoint trim_left_set (cutset : string) (s : string) : string :=
  match s with
  | EmptyString => EmptyString
  | String a s' => if Contains cutset a then trim_left_set cutset s' else s
  end.

Definition Trim (s cutset : string) : string :=
  String.rev (trim_left_set cutset (String.rev (trim_left_set cutset s))).

(** Whether every byte of a string is below 0x80. *)
Fixpoint is_ascii (s : string) : bool :=
  match s with
  | EmptyString => true
  | String a s' => (nat_of_ascii a <? 128)%nat && is_ascii s'
  end.

End gostrings.

Module filepath.

Import Go.

(** [filepath.Base(path)] where the separator is the slash: the last
    element of the path, trailing slashes set aside; a dot for the empty
    path and a slash for a path of slashes only. *)
Definition Base (path : string) : string :=
  if String.eqb path EmptyString then "."
  else
    let path := String.rev (gostrings.trim_left_set "/" (String.rev path)) in
    let path := List.last (Split path "/"%char) EmptyString in
    if String.eqb path EmptyString then "/" else path.

End filepath.

(* ===================================================================== *)
(** ** package repository: the cache of repository analyses *)
(* ===================================================================== *)

Module analysis_cache.

Import Go models.

(** A row of [repository_analysis_cache]; the unique column [github_id]
    is the key of the map.  The three JSON columns are kept as the maps
    they encode. *)
Record AnalysisRow : Type := mkAnalysisRow {
  ar_full_name : string;
  ar_languages : gmap string Z;
  ar_dependencies : gmap string (list string);
  ar_key_files : gmap string string;
  ar_commit_count : Z;
  ar_contributor_count : Z;
  ar_expires_at : Time
}.

Abbreviation AnalysisCache := (gmap Z AnalysisRow).

(** [GetRepositoryAnalysis]: the analysis it builds has neither
    [Repository] nor [Files]. *)
Definition GetRepositoryAnalysis (fault : option error) (tbl : AnalysisCache)
    (now : Time) (githubID : Z) : result (option RepositoryAnalysis) :=
  match fault with
  | Some err => Err (ErrorfW "failed to get cached repository analysis: %w" [] err)
  | None =>
      match tbl !! githubID with
      | Some row =>
          if now <? ar_expires_at row
          then Ok (Some (mkRepositoryAnalysis None (ar_languages row) []
                           (ar_dependencies row) (ar_key_files row)
                           (ar_commit_count row) (ar_contributor_count row)))
          else Ok None
      | None => Ok None
      end
  end.

(** [SetRepositoryAnalysis]; [expiresAt] is the value the database gives
    to [NOW() + INTERVAL '7 days']. *)
Definition SetRepositoryAnalysis (fault : option error) (tbl : AnalysisCache)
    (expiresAt : Time) (githubID : Z) (fullName : string)
    (analysis : RepositoryAnalysis) : AnalysisCache * option error :=
  match fault with
  | Some err => (tbl, Some (ErrorfW "failed to set repository analysis cache: %w" [] err))
  | None =>
      (<[githubID := mkAnalysisRow fullName (Languages analysis)
                       (Dependencies analysis) (KeyFiles analysis)
                       (CommitCount analysis) (ContributorCount analysis)
                       expiresAt]> tbl,
       None)
  end.

Definition InvalidateRepositoryAnalysis (fault : option error)
    (tbl : AnalysisCache) (githubID : Z) : AnalysisCache * option error :=
  match fault with
  | Some err => (tbl, Some (ErrorfW "failed to invalidate repository analysis: %w" [] err))
  | None => (delete githubID tbl, None)
  end.

End analysis_cache.

(* ===================================================================== *)
(** ** package github: the Analyzer *)
(* ===================================================================== *)

Module analyzer.

Import Go models gostrings.

(** An entry of a directory listing: its type and its path. *)
Record RepositoryContent : Type := mkRepositoryContent {
  rc_Type : option string;
  rc_Path : string
}.

(** What the GitHub client answers, for the token, owner and repository
    of one analysis. *)
Record Client : Type := mkClient {
  GetRepository : result services.github_Repository;
  GetRepositoryLanguages : result (gmap string Z);
  ListRepositoryContents : result (list RepositoryContent);
  GetRepositoryContent : string -> result string;
  GetCommitCount : result Z;
  GetContributorCount : result Z
}.

Definition listAllFiles (client : Client) : result (list string) :=
  match ListRepositoryContents client with
  | Err err => Err err
  | Ok contents =>
      Ok (omap (fun content =>
                  match rc_Type content with
                  | Some ty =>
                      if String.eqb ty "file" then Some (rc_Path content) else None
                  | None => None
                  end) contents)
  end.

Definition keyFilePatterns : list string := [
  "package.json"; "package-lock.json"; "requirements.txt"; "Pipfile";
  "pyproject.toml"; "go.mod"; "go.sum"; "Cargo.toml"; "Gemfile";
  "pom.xml"; "build.gradle"; "composer.json"; "Dockerfile";
  ".dockerignore"; "docker-compose.yml"; "README.md";
  "tsconfig.json"; "vite.config.ts"; "webpack.config.js"
].

(** The inner loop of [fetchKeyFiles] for one file: [continue] on a
    failed fetch, [break] after a successful one. *)
Fixpoint try_patterns (client : Client) (file filename : string)
    (patterns : list string) (keyFiles : gmap string string)
    : gmap string string :=
  match patterns with
  | [] => keyFiles
  | pattern :: rest =>
      if String.eqb filename pattern then
        match GetRepositoryContent client file with
        | Err _ => try_patterns client file filename rest keyFiles
        | Ok content => <[file := content]> keyFiles
        end
      else try_patterns client file filename rest keyFiles
  end.

Definition fetchKeyFiles (client : Client) (files : list string)
    : gmap string string :=
  fold_left
    (fun keyFiles file =>
       try_patterns client file (filepath.Base file) keyFilePatterns keyFiles)
    files ∅.

Definition extractPipDependencies (content : string) : list string :=
  fold_left
    (fun deps line =>
       let line := TrimSpace line in
       if String.eqb line EmptyString || HasPrefix line "#" then deps
       else
         let parts :=
           FieldsFunc line
             (fun r => Ascii.eqb r "="%char || Ascii.eqb r ">"%char
                       || Ascii.eqb r "<"%char || Ascii.eqb r "~"%char
                       || Ascii.eqb r "!"%char) in
         match parts with
         | p0 :: _ => (deps ++ [TrimSpace p0])%list
         | [] => deps
         end)
    (Split content "010"%char) [].

(** The loop of [extractGoModDependencies], with its two variables. *)
Definition gomod_line (acc : list string * bool) (line : string)
    : list string * bool :=
  let '(deps, inRequireBlock) := acc in
  let line := TrimSpace line in
  if HasPrefix line "require (" then (deps, true)
  else if inRequireBlock && String.eqb line ")" then (deps, false)
  else if inRequireBlock || HasPrefix line "require " then
    match Fields line with
    | p0 :: _ => ((deps ++ [TrimPrefix p0 "require "])%list, inRequireBlock)
    | [] => (deps, inRequireBlock)
    end
  else (deps, inRequireBlock).

Definition extractGoModDependencies (content : string) : list string :=
  fst (fold_left gomod_line (Split content "010"%char) ([], false)).

(** The loop of [extractCargoDependencies]. *)
Definition cargo_line (acc : list string * bool) (line : string)
    : list string * bool :=
  let '(deps, inDepsSection) := acc in
  let line := TrimSpace line in
  if HasPrefix line "[dependencies]" then (deps, true)
  else
    let inDepsSection := if HasPrefix line "[" then false else inDepsSection in
    if inDepsSection && Contains line "="%char then
      match Split line "="%char with
      | p0 :: _ => ((deps ++ [TrimSpace p0])%list, inDepsSection)
      | [] => (deps, inDepsSection)
      end
    else (deps, inDepsSection).

Definition extractCargoDependencies (content : string) : list string :=
  fst (fold_left cargo_line (Split content "010"%char) ([], false)).

Definition extractGemDependencies (content : string) : list string :=
  fold_left
    (fun deps line =>
       let line := TrimSpace line in
       if HasPrefix line "gem " then
         match Fields line with
         | _ :: p1 :: _ => (deps ++ [Trim p1 (lit "'\q")])%list
         | _ => deps
         end
       else deps)
    (Split content "010"%char) [].

Section WithJSON.

(** [encoding/json] on the two objects of a [package.json] that
    [extractNpmDependencies] reads: [None] when decoding fails. *)
Variable json_Unmarshal_package :
  string -> option (gmap string string * gmap string string).

Definition extractNpmDependencies (o : profile_service.MapOrder)
    (content : string) : list string :=
  match json_Unmarshal_package content with
  | None => []
  | Some (Dependencies, DevDependencies) =>
      (List.map fst (profile_service.range o Dependencies)
       ++ List.map fst (profile_service.range o DevDependencies))%list
  end.

(** [dependencies[eco] = deps] when [deps] is not empty. *)
Definition set_nonempty (dependencies : gmap string (list string))
    (eco : string) (deps : list string) : gmap string (list string) :=
  if (0 <? length deps)%nat then <[eco := deps]> dependencies else dependencies.

Definition extractDependencies (o : profile_service.MapOrder)
    (keyFiles : gmap string string) : gmap string (list string) :=
  fold_left
    (fun dependencies (kv : string * string) =>
       let filename := filepath.Base (fst kv) in
       let content := snd kv in
       if String.eqb filename "package.json"
       then set_nonempty dependencies "npm" (extractNpmDependencies o content)
       else if String.eqb filename "requirements.txt"
       then set_nonempty dependencies "pip" (extractPipDependencies content)
       else if String.eqb filename "go.mod"
       then set_nonempty dependencies "go" (extractGoModDependencies content)
       else if String.eqb filename "Cargo.toml"
       then set_nonempty dependencies "cargo" (extractCargoDependencies content)
       else if String.eqb filename "Gemfile"
       then set_nonempty dependencies "gem" (extractGemDependencies content)
       else dependencies)
    (profile_service.range o keyFiles) ∅.

(** [Analyzer.AnalyzeRepository]. *)
Definition AnalyzeRepository (o : profile_service.MapOrder) (client : Client)
    : result RepositoryAnalysis :=
  match GetRepository client with
  | Err err => Err (ErrorfW "failed to get repository: %w" [] err)
  | Ok repository =>
      match GetRepositoryLanguages client with
      | Err err => Err (ErrorfW "failed to get languages: %w" [] err)
      | Ok languages =>
          match listAllFiles client with
          | Err err => Err (ErrorfW "failed to list files: %w" [] err)
          | Ok files =>
              let keyFiles := fetchKeyFiles client files in
              let dependencies := extractDependencies o keyFiles in
              let commitCount :=
                match GetCommitCount client with
                | Ok n => n
                | Err _ => 0
                end in
              let contributorCount :=
                match GetContributorCount client with
                | Ok n => n
                | Err _ => 0
                end in
              Ok (mkRepositoryAnalysis (Some (services.to_model repository))
                    languages files dependencies keyFiles commitCount
                    contributorCount)
          end
      end
  end.

End WithJSON.

End analyzer.

(* ===================================================================== *)
(** ** package services: GitHubService.AnalyzeRepository and the deploy *)
(* ===================================================================== *)

Module github_service.

Import Go models analysis_cache.

(** [AnalyzeRepository].  [repoInfo] is the answer of
    [githubClient.GetRepository] and [analyzed] that of the analyzer,
    which is asked only when the cache has nothing to serve. *)
Definition AnalyzeRepository
    (repoInfo : result services.github_Repository)
    (analyzed : result RepositoryAnalysis)
    (fault_get fault_set : option error) (tbl : AnalysisCache)
    (now expiresAt : Time) (owner repo : string)
    : result RepositoryAnalysis * AnalysisCache * list services.LogLine :=
  match repoInfo with
  | Err err => (Err (ErrorfW "failed to get repository info: %w" [] err), tbl, [])
  | Ok repoInfo =>
      let githubID := services.GetID repoInfo in
      let fullName := Sprintf "%s/%s" [S_ owner; S_ repo] in
      match GetRepositoryAnalysis fault_get tbl now githubID with
      | Ok (Some cachedAnalysis) => (Ok cachedAnalysis, tbl, [])
      | _ =>
          match analyzed with
          | Err err =>
              (Err (ErrorfW "failed to analyze repository: %w" [] err), tbl, [])
          | Ok analysis =>
              match SetRepositoryAnalysis fault_set tbl expiresAt githubID
                      fullName analysis with
              | (tbl', Some err) =>
                  (Ok analysis, tbl', [("Failed to cache repository analysis", err)])
              | (tbl', None) => (Ok analysis, tbl', [])
              end
          end
      end
  end.

(** [DeployProfileREADME].  [readmeSHA] is the answer of
    [GetProfileReadmeSHA]; [CreateOrUpdateFile] takes the token, the
    owner, the repository, the path, the message, the content and the
    SHA. *)
Definition DeployProfileREADME
    (readmeSHA : result string)
    (CreateOrUpdateFile :
       string -> string -> string -> string -> string -> string -> string
       -> option error)
    (accessToken username content : string) : option error :=
  let currentSHA :=
    match readmeSHA with
    | Ok sha => sha
    | Err _ => EmptyString
    end in
  let message :=
    if String.eqb currentSHA EmptyString
    then "Create profile README via GitRight"
    else "Update profile README via GitRight" in
  match CreateOrUpdateFile accessToken username username "README.md" message
          content currentSHA with
  | Some err => Some (ErrorfW "failed to deploy README: %w" [] err)
  | None => None
  end.

End github_service.

(* ===================================================================== *)
(** ** More sample inputs *)
(* ===================================================================== *)

Module more_samples.

Import Go models.

(** Two repositories as GitHub lists them, one public and one private. *)
Definition public_repo : services.github_Repository :=
  services.mkGithubRepository 7 "hello" "octocat/hello" "A greeting" false false
    "Go" 3 0 0 "main" ["cli"] "https://github.com/octocat/hello"
    "https://github.com/octocat/hello.git" 0 0 0.

Definition private_repo : services.github_Repository :=
  services.mkGithubRepository 8 "secret" "octocat/secret" EmptyString true false
    "Go" 0 0 0 "main" [] "https://github.com/octocat/secret"
    "https://github.com/octocat/secret.git" 0 0 0.

(** A table of sessions with one revocation that lapsed at instant 5. *)
Definition lapsed : repository.Sessions :=
  {[ "revoked:0a" := repository.mkSession "revoked_token" "revoked" 5 ]}.

(** A second project and a second request of [octocat], which agrees
    with [samples.request1] on the role, the tone and the number of
    projects and on nothing else. *)
Definition world : Repository :=
  mkRepository 9 9 "world" "octocat/world" "A map" false false "Rust"
    1 0 0 "main" ["maps"] "https://github.com/octocat/world"
    "https://github.com/octocat/world.git" 0 0 0.

Definition world_analysis : RepositoryAnalysis :=
  mkRepositoryAnalysis (Some world) {["Rust" := 800]} [] ∅ ∅ 3 1.

Definition second_request : ContentGenerationRequest :=
  mkContentGenerationRequest "Backend Engineer" ["rust"] "professional"
    (mkContactPreferences EmptyString "https://octocat.example" EmptyString
       EmptyString [])
    [world_analysis] "another-key".

(** A [requirements.txt]. *)
Definition requirements : string :=
  lit "flask==2.3.2\n# pinned\nrequests>=2.31\n\nuvicorn[standard]~=0.23\n".

End more_samples.

(* ===================================================================== *)
(** ** package config *)
(* ===================================================================== *)

Module config.

Import Go.

Record GitHubConfig : Type := mkGitHubConfig {
  ClientID : string;
  ClientSecret : string;
  RedirectURI : string;
  Scopes : list string
}.

(** Durations are in nanoseconds. *)
Record GoogleAIConfig : Type := mkGoogleAIConfig {
  APIKey : string;
  Model : string;
  UseGrounding : bool;
  Timeout : Z;
  MaxRetries : Z
}.

Record DatabaseConfig : Type := mkDatabaseConfig {
  URL : string;
  MaxOpenConns : Z;
  MaxIdleConns : Z;
  ConnMaxLifetime : Z
}.

Record SessionConfig : Type := mkSessionConfig {
  Secret : string;
  MaxAge : Z;
  EncryptionKey : string
}.

Record CORSConfig : Type := mkCORSConfig {
  AllowedOrigins : list string;
  AllowedMethods : list string;
  AllowedHeaders : list string
}.

Record RateLimitConfig : Type := mkRateLimitConfig {
  RequestsPerMinute : Z;
  Burst : Z
}.

Record SecurityConfig : Type := mkSecurityConfig {
  EnableHTTPS : bool;
  CertFile : string;
  KeyFile : string
}.

Record Config : Type := mkConfig {
  Environment : string;
  Host : string;
  Port : Z;
  LogLevel : string;
  FrontendURL : string;
  HTTPTimeout : Z;
  GitHub : GitHubConfig;
  GoogleAI : GoogleAIConfig;
  Database : DatabaseConfig;
  Session : SessionConfig;
  CORS : CORSConfig;
  RateLimit : RateLimitConfig;
  Security : SecurityConfig
}.

(** [time.Minute], in nanoseconds. *)
Definition Minute : Z := 60 * 1000000000.

Definition Validate (c : Config) : option error :=
  if negb (String.length (EncryptionKey (Session c)) =? 32)%nat
  then Some (Errorf "TOKEN_ENCRYPTION_KEY must be exactly 32 bytes for AES-256" [])
  else if EnableHTTPS (Security c)
          && (String.eqb (CertFile (Security c)) EmptyString
              || String.eqb (KeyFile (Security c)) EmptyString)
  then Some (Errorf "CERT_FILE and KEY_FILE must be set when HTTPS is enabled" [])
  else None.

Section WithEnvironment.

(** [os.Getenv], which gives the empty string for a variable that is not
    set, and the three parsers of the standard library, [None] standing
    for their error. *)
Variable Getenv : string -> string.
Variable strconv_Atoi : string -> option Z.
Variable strconv_ParseBool : string -> option bool.
Variable time_ParseDuration : string -> option Z.

Definition getEnv (key defaultValue : string) : string :=
  if negb (String.eqb (Getenv key) EmptyString) then Getenv key else defaultValue.

Definition getEnvAsInt (key : string) (defaultValue : Z) : Z :=
  let valueStr := Getenv key in
  if String.eqb valueStr EmptyString then defaultValue
  else match strconv_Atoi valueStr with
       | Some value => value
       | None => defaultValue
       end.

Definition getEnvAsBool (key : string) (defaultValue : bool) : bool :=
  let valueStr := Getenv key in
  if String.eqb valueStr EmptyString then defaultValue
  else match strconv_ParseBool valueStr with
       | Some value => value
       | None => defaultValue
       end.

Definition getEnvAsDuration (key : string) (defaultValue : Z) : Z :=
  let valueStr := Getenv key in
  if String.eqb valueStr EmptyString then defaultValue
  else match time_ParseDuration valueStr with
       | Some value => value
       | None => defaultValue
       end.

(** The closure [requireEnv] of [Load]: the value, and the slice
    [missing] afterwards. *)
Definition requireEnv (missing : list error) (key : string)
    : string * list error :=
  let v := Getenv key in
  if String.eqb v EmptyString
  then (v, (missing ++ [Errorf "required environment variable %s is not set" [key]])%list)
  else (v, missing).

Definition Load : result Config :=
  let missing : list error := [] in
  let '(githubClientID, missing) := requireEnv missing "GITHUB_CLIENT_ID" in
  let '(githubClientSecret, missing) := requireEnv missing "GITHUB_CLIENT_SECRET" in
  let '(databaseURL, missing) := requireEnv missing "DATABASE_URL" in
  let '(sessionSecret, missing) := requireEnv missing "SESSION_SECRET" in
  let '(tokenEncryptionKey, missing) := requireEnv missing "TOKEN_ENCRYPTION_KEY" in
  if (0 <? length missing)%nat
  then Err (ErrorfW (lit "configuration errors:\n%w") [] (joinError missing))
  else
    let cfg :=
      mkConfig
        (getEnv "ENV" "development")
        (getEnv "HOST" "0.0.0.0")
        (getEnvAsInt "PORT" 8080)
        (getEnv "LOG_LEVEL" "info")
        (getEnv "FRONTEND_URL" "http://localhost:3000")
        (getEnvAsDuration "HTTP_TIMEOUT" (5 * Minute))
        (mkGitHubConfig githubClientID githubClientSecret
           (getEnv "GITHUB_REDIRECT_URI" "http://localhost:3000/auth/callback")
           (Split (getEnv "GITHUB_OAUTH_SCOPES" "repo,user:email") ","%char))
        (mkGoogleAIConfig
           (getEnv "GOOGLE_AI_API_KEY" EmptyString)
           (getEnv "GOOGLE_AI_MODEL" "gemini-2.5-flash-preview-0409-2025")
           (getEnvAsBool "GOOGLE_AI_USE_GROUNDING" false)
           (getEnvAsDuration "GOOGLE_AI_TIMEOUT" (5 * Minute))
           (getEnvAsInt "GOOGLE_AI_MAX_RETRIES" 2))
        (mkDatabaseConfig databaseURL
           (getEnvAsInt "DATABASE_MAX_OPEN_CONNS" 25)
           (getEnvAsInt "DATABASE_MAX_IDLE_CONNS" 5)
           (getEnvAsDuration "DATABASE_CONN_MAX_LIFETIME" (5 * Minute)))
        (mkSessionConfig sessionSecret
           (getEnvAsInt "SESSION_MAX_AGE" 86400)
           tokenEncryptionKey)
        (mkCORSConfig
           (Split (getEnv "CORS_ALLOWED_ORIGINS" "http://localhost:3000") ","%char)
           (Split (getEnv "CORS_ALLOWED_METHODS" "GET,POST,PUT,DELETE,OPTIONS")
              ","%char)
           (Split (getEnv "CORS_ALLOWED_HEADERS" "Content-Type,Authorization")
              ","%char))
        (mkRateLimitConfig
           (getEnvAsInt "RATE_LIMIT_REQUESTS_PER_MINUTE" 60)
           (getEnvAsInt "RATE_LIMIT_BURST" 10))
        (mkSecurityConfig
           (getEnvAsBool "ENABLE_HTTPS" false)
           (getEnv "CERT_FILE" EmptyString)
           (getEnv "KEY_FILE" EmptyString)) in
    match Validate cfg with
    | Some err => Err (ErrorfW "invalid configuration: %w" [] err)
    | None => Ok cfg
    end.

End WithEnvironment.

(** The five variables [Load] requires, in the order it reads them. *)
Definition required : list string :=
  ["GITHUB_CLIENT_ID"; "GITHUB_CLIENT_SECRET"; "DATABASE_URL"; "SESSION_SECRET";
   "TOKEN_ENCRYPTION_KEY"].

End config.

(* ===================================================================== *)
(** ** The dashboard of the frontend (DashboardPage.tsx) *)
(* ===================================================================== *)

Module dashboard.

(** A JavaScript [Set] of strings: its elements in the order of
    insertion, none twice. *)
Definition JSSet : Type := list string.

Definition has (s : JSSet) (x : string) : bool := existsb (String.eqb x) s.

Definition delete_ (s : JSSet) (x : string) : JSSet :=
  List.filter (fun y => negb (String.eqb y x)) s.

Definition add (s : JSSet) (x : string) : JSSet :=
  if has s x then s else (s ++ [x])%list.

Definition size (s : JSSet) : nat := length s.

(** [toggleRepository]: the state [selectedRepos] after a click. *)
Definition toggleRepository (selectedRepos : JSSet) (fullName : string) : JSSet :=
  let newSelected := selectedRepos in
  if has newSelected fullName then delete_ newSelected fullName
  else if (size newSelected <? 6)%nat then add newSelected fullName
  else newSelected.

(** [handleContinue]: the field [repositories] of the body it posts to
    the batch endpoint, [None] when it returns without posting. *)
Definition handleContinue (selectedRepos : JSSet) : option (list string) :=
  if (size selectedRepos =? 0)%nat then None else Some selectedRepos.

(** The selection after the clicks on [names], one after the other, from
    the empty selection of the first render. *)
Definition clicks (names : list string) : JSSet :=
  fold_left toggleRepository names [].

End dashboard.

(* ===================================================================== *)
(** ** package services: AuthService *)
(* ===================================================================== *)

Module auth_service.

Import Go models.

(** [base64.URLEncoding.EncodeToString]: the alphabet of the raw
    encoding, padded with [=] to a multiple of four characters. *)
Definition URLEncoding_EncodeToString (src : string) : string :=
  base64.EncodeToString src
  ++ match (String.length src mod 3)%nat with
     | 1%nat => "=="
     | 2%nat => "="
     | _ => EmptyString
     end.

(** [10 * time.Minute], in nanoseconds. *)
Definition ten_minutes : Z := 10 * 60 * 1000000000.

(** [GenerateOAuthState].  [b] is the 32-byte slice once [rand.Read] has
    filled it, [None] when [rand.Read] fails; [now] is [time.Now()]. *)
Definition GenerateOAuthState (b : option (vec ascii 32))
    (fault : option error) (tbl : repository.Sessions) (now : Time)
    : repository.Sessions * result string :=
  match b with
  | None => (tbl, Err (ErrorfW "failed to generate state: %w" [] (Errorf "rand.Read" [])))
  | Some b =>
      let state :=
        URLEncoding_EncodeToString (string_of_list_ascii (vec_to_list b)) in
      let expiresAt := now + ten_minutes in
      match repository.CreateOAuthState fault tbl state expiresAt with
      | (tbl', Some err) => (tbl', Err (ErrorfW "failed to store state: %w" [] err))
      | (tbl', None) => (tbl', Ok state)
      end
  end.

(** [ValidateOAuthState]; [now] is the clock of the database. *)
Definition ValidateOAuthState (fault : option error) (tbl : repository.Sessions)
    (now : Time) (state : string) : option error :=
  match repository.ValidateOAuthState fault tbl now state with
  | Err err => Some (ErrorfW "state validation error: %w" [] err)
  | Ok valid =>
      if negb valid then Some (Errorf "state not found or expired" [])
      else None
  end.

Definition DeleteOAuthState (fault : option error) (tbl : repository.Sessions)
    (state : string) : repository.Sessions * option error :=
  repository.DeleteOAuthState fault tbl state.

End auth_service.

(* ===================================================================== *)
(** ** package handlers: AuthHandler and ProfileHandler *)
(* ===================================================================== *)

Module auth_handler.

Import Go models.

Record AuthHandler : Type := mkAuthHandler {
  githubBaseURL : string;
  clientID : string;
  redirectURI : string;
  frontendURL : string;
  jwtSecret : string;
  scopes : list string
}.

(** [time.Hour], in nanoseconds. *)
Definition Hour : Z := 3600 * 1000000000.

(** [Login]: the answer and the table of sessions afterwards. *)
Definition Login (h : AuthHandler) (b : option (vec ascii 32))
    (fault : option error) (tbl : repository.Sessions) (now : Time)
    : repository.Sessions * Response handlers.Message :=
  match auth_service.GenerateOAuthState b fault tbl now with
  | (tbl', Err _) =>
      (tbl', HTTPError StatusInternalServerError "Failed to generate auth state")
  | (tbl', Ok state) =>
      let authURL :=
        githubBaseURL h ++ "/login/oauth/authorize"
        ++ "?client_id=" ++ clientID h
        ++ "&redirect_uri=" ++ redirectURI h
        ++ "&scope=" ++ Join (scopes h) ","
        ++ "&state=" ++ state in
      (tbl', JSON StatusOK [("auth_url", authURL); ("state", state)])
  end.

(** The body of a successful [Callback]. *)
Record CallbackBody : Type := mkCallbackBody {
  user : User;
  token : string
}.

Section Callback.

(** [authService.HandleCallback] talks to GitHub and to the table of
    users; here it is any function of the state [W] of those
    surroundings.  [Error] is the method of that name of an [error]. *)
Context {W : Type}.
Variable HandleCallback : W -> string -> W * result (User * string).
Variable Error : error -> string.
Variable hmac_sha256 : string -> string -> string.
Variable json_Marshal : middleware.JWTClaims -> string.

(** [Callback].  [code] and [state] are the two query parameters, empty
    when absent; [db_now] is the clock of the database and [now] that of
    the server; [jtiBytes] is what [rand.Read] gives [GenerateJWT].  The
    function returns the surroundings and the table of sessions
    afterwards, its answer, and the lines it logged. *)
Definition Callback (h : AuthHandler) (w : W) (tbl : repository.Sessions)
    (fault_validate fault_delete : option error) (db_now : Time)
    (jtiBytes : option (vec ascii 16)) (now : Time) (code state : string)
    : W * repository.Sessions * Response CallbackBody * list services.LogLine :=
  if String.eqb code EmptyString || String.eqb state EmptyString
  then (w, tbl, HTTPError StatusBadRequest "Missing code or state", [])
  else
    match auth_service.ValidateOAuthState fault_validate tbl db_now state with
    | Some err =>
        (w, tbl,
         HTTPError StatusBadRequest
           (Sprintf "Invalid or expired state: %v" [S_ (Error err)]), [])
    | None =>
        match HandleCallback w code with
        | (w', Err err) =>
            (w', tbl,
             HTTPError StatusInternalServerError
               (Sprintf "Authentication failed: %v" [S_ (Error err)]), [])
        | (w', Ok (user, _)) =>
            match middleware.GenerateJWT hmac_sha256 json_Marshal jtiBytes now
                    (User_ID user) (Username user) (jwtSecret h) (24 * Hour) with
            | Err _ =>
                (w', tbl,
                 HTTPError StatusInternalServerError "Failed to generate token", [])
            | Ok jwtToken =>
                match auth_service.DeleteOAuthState fault_delete tbl state with
                | (tbl', Some err) =>
                    (w', tbl', JSON StatusOK (mkCallbackBody user jwtToken),
                     [("Failed to delete OAuth state after successful auth: ", err)])
                | (tbl', None) =>
                    (w', tbl', JSON StatusOK (mkCallbackBody user jwtToken), [])
                end
            end
        end
    end.

End Callback.

(** [Me]; [user] is the type assertion on the context. *)
Definition Me (user : option User) : Response User :=
  match user with
  | None => HTTPError StatusUnauthorized "Unauthorized"
  | Some user => JSON StatusOK user
  end.

End auth_handler.

Module profile_handler.

Import Go models profile_service.

(** The body of [Preview]: the fields [markdown] and [preview]. *)
Record PreviewBody : Type := mkPreviewBody {
  markdown : string;
  preview : bool
}.

Section Handlers.

Variable GenerateBatchedProfile :
  string -> BatchProfileRequest -> result BatchProfileResponse.
Variable Error : error -> string.

(** [ProfileService.DeployProfile]. *)
Definition DeployProfile (readmeSHA : result string)
    (CreateOrUpdateFile :
       string -> string -> string -> string -> string -> string -> string
       -> option error)
    (accessToken username markdown : string) : option error :=
  match github_service.DeployProfileREADME readmeSHA CreateOrUpdateFile
          accessToken username markdown with
  | Some err => Some (ErrorfW "failed to deploy profile: %w" [] err)
  | None => None
  end.

(** [Generate].  [user] is the type assertion on the context and [req]
    the body once [c.Bind] has run, [None] when binding fails.  Beside
    the answer, the cache table afterwards and the lines logged. *)
Definition Generate (o : MapOrder) (fault_get fault_set : option error)
    (tbl : repository.ProfileCache) (now : Time)
    (user : option User) (req : option ContentGenerationRequest)
    : Response ContentGenerationResponse * repository.ProfileCache
      * list services.LogLine :=
  match user with
  | None => (HTTPError StatusUnauthorized "Unauthorized", tbl, [])
  | Some user =>
      match req with
      | None => (HTTPError StatusBadRequest "Invalid request body", tbl, [])
      | Some req =>
          match GenerateProfile GenerateBatchedProfile o fault_get fault_set tbl
                  now req user with
          | (Err err, tbl', log) =>
              (HTTPError StatusInternalServerError (Error err), tbl', log)
          | (Ok response, tbl', log) => (JSON StatusOK response, tbl', log)
          end
      end
  end.

(** [Deploy].  [access_token], [username] and [user] are the three type
    assertions on the context. *)
Definition Deploy (o : MapOrder) (fault_get fault_set : option error)
    (tbl : repository.ProfileCache) (now : Time)
    (readmeSHA : result string)
    (CreateOrUpdateFile :
       string -> string -> string -> string -> string -> string -> string
       -> option error)
    (access_token username : option string)
    (user : option User) (req : option ContentGenerationRequest)
    : Response handlers.Message * repository.ProfileCache
      * list services.LogLine :=
  match access_token with
  | None => (HTTPError StatusUnauthorized "Unauthorized", tbl, [])
  | Some accessToken =>
      match username with
      | None => (HTTPError StatusUnauthorized "Unauthorized", tbl, [])
      | Some username =>
          if String.eqb username EmptyString
          then (HTTPError StatusUnauthorized "Unauthorized", tbl, [])
          else
            match user with
            | None => (HTTPError StatusUnauthorized "Unauthorized", tbl, [])
            | Some user =>
                match req with
                | None =>
                    (HTTPError StatusBadRequest "Invalid request body", tbl, [])
                | Some req =>
                    match GenerateProfile GenerateBatchedProfile o fault_get
                            fault_set tbl now req user with
                    | (Err err, tbl', log) =>
                        (HTTPError StatusInternalServerError (Error err), tbl', log)
                    | (Ok response, tbl', log) =>
                        match DeployProfile readmeSHA CreateOrUpdateFile
                                accessToken username (Markdown response) with
                        | Some err =>
                            (HTTPError StatusInternalServerError (Error err),
                             tbl', log)
                        | None =>
                            (JSON StatusOK
                               [("message", "Profile deployed successfully");
                                ("url", "https://github.com/" ++ username)],
                             tbl', log)
                        end
                    end
                end
            end
      end
  end.

(** [Preview]. *)
Definition Preview (o : MapOrder) (fault_get fault_set : option error)
    (tbl : repository.ProfileCache) (now : Time)
    (user : option User) (req : option ContentGenerationRequest)
    : Response PreviewBody * repository.ProfileCache * list services.LogLine :=
  match user with
  | None => (HTTPError StatusUnauthorized "Unauthorized", tbl, [])
  | Some user =>
      match req with
      | None => (HTTPError StatusBadRequest "Invalid request body", tbl, [])
      | Some req =>
          match GenerateProfile GenerateBatchedProfile o fault_get fault_set tbl
                  now req user with
          | (Err err, tbl', log) =>
              (HTTPError StatusInternalServerError (Error err), tbl', log)
          | (Ok response, tbl', log) =>
              (JSON StatusOK (mkPreviewBody (Markdown response) true), tbl', log)
          end
      end
  end.

End Handlers.

End profile_handler.

(* ===================================================================== *)
(** ** Sample values for signing in and deploying *)
(* ===================================================================== *)

Module sign_in_samples.

Import Go models.

Definition handler : auth_handler.AuthHandler :=
  auth_handler.mkAuthHandler "https://github.com" "client-id"
    "http://localhost:3000/auth/callback" "http://localhost:3000"
    stand_in.secret ["repo"; "user:email"].

(** Thirty-two bytes in the place of [rand.Read]'s. *)
Definition stateBytes : vec ascii 32 :=
  Vector.map ascii_of_nat
    [# 0; 8; 16; 24; 32; 40; 48; 56; 64; 72; 80; 88; 96; 104; 112; 120;
       128; 136; 144; 152; 160; 168; 176; 184; 192; 200; 208; 216; 224; 232;
       240; 248]%nat.

Definition state : string :=
  auth_service.URLEncoding_EncodeToString
    (string_of_list_ascii (vec_to_list stateBytes)).

(** An exchange with GitHub that knows one code; its state counts the
    calls. *)
Definition HandleCallback (w : nat) (code : string) : nat * result (User * string) :=
  if String.eqb code "good" then (S w, Ok (samples.octocat, "gho_token"))
  else (S w, Err (Errorf "failed to exchange code" [])).

(** A rendering of errors that keeps the outermost format. *)
Definition Error (e : error) : string :=
  match e with
  | Errorf format _ => format
  | ErrorfW format _ _ => format
  | joinError _ => EmptyString
  end.

(** The table of sessions after a login at time 0. *)
Definition login :=
  auth_handler.Login handler (Some stateBytes) None ∅ 0.

(** The callback for that login, with the good code, at [db_now]. *)
Definition callback (db_now : Time) :=
  auth_handler.Callback HandleCallback Error stand_in.keyed_checksum
    stand_in.json_Marshal handler 0%nat (fst login) None None db_now
    (Some stand_in.jtiBytes) 0 "good" state.

(** A GitHub that accepts every write but that of one content. *)
Definition CreateOrUpdateFile (refused : string)
    (token owner repo path message content sha : string) : option error :=
  if String.eqb content refused then Some (Errorf "this content is refused" [])
  else None.

(** A model whose reply differs from that of [samples.GenerateBatchedProfile]
    in the pitch. *)
Definition GenerateBatchedProfile (apiKey : string)
    (req : profile_service.BatchProfileRequest)
    : result profile_service.BatchProfileResponse :=
  Ok (profile_service.mkBatchProfileResponse "I draw maps."
        [profile_service.mkProjectSummaryData "hello" "Says hello." ["Go"]]
        ["docker"] 0).

End sign_in_samples.

(* ===================================================================== *)
(** ** SessionRepository.GetStats *)
(* ===================================================================== *)

Module session_stats.

Import Go models repository.

(** [GetStats]: the two counts of its query, over the table of sessions
    at the instant [now] of the database, in the map it returns. *)
Definition GetStats (fault : option error) (tbl : Sessions) (now : Time)
    : result (gmap string Z) :=
  match fault with
  | Some err => Err (ErrorfW "failed to get session stats: %w" [] err)
  | None =>
      let oauthStatesCount :=
        Z.of_nat
          (size (filter (fun kv : string * Session =>
                           state_type (snd kv) = "oauth_state") tbl)) in
      let expiredCount :=
        Z.of_nat
          (size (filter (fun kv : string * Session =>
                           expires_at (snd kv) < now) tbl)) in
      Ok (<["oauth_states" := oauthStatesCount]>
            (<["expired" := expiredCount]> ∅))
  end.

End session_stats.

(* ===================================================================== *)
(** * Properties *)
(* ===================================================================== *)

Import Go models.

(** ** Strings *)

Lemma eqb_empty_false (s : string) :
  s <> EmptyString -> String.eqb s EmptyString = false.
Proof. intros H. now apply String.eqb_neq. Qed.

Ltac string_cases :=
  repeat match goal with
    | |- context [String.eqb ?a ?b] =>
        let E := fresh "E" in
        destruct (String.eqb a b) eqn:E;
        [apply String.eqb_eq in E | apply String.eqb_neq in E]
    end.

(** ** The cache of repository lists (C10) *)

(** C10. [ClearUserCache] returns nil for every input: a failure of the
    invalidation is logged and swallowed.  So the handler [ClearCache]
    never answers 500, and answers 200 whenever the context carries the
    user id, as it does behind the authentication middleware. *)
Theorem ClearUserCache_always_nil :
  forall (fault : option error) (tbl : repository.RepoListCache) (userID : Z),
    fst (fst (services.ClearUserCache fault tbl userID)) = None
    /\ (forall err, fault = Some err ->
          snd (services.ClearUserCache fault tbl userID)
          = [("Failed to invalidate repository list cache",
              ErrorfW "failed to invalidate all repository lists: %w" [] err)])
    /\ snd (handlers.ClearCache fault tbl (Some userID))
       = JSON StatusOK [("message", "Cache cleared successfully")]
    /\ (forall user_id,
          status (snd (handlers.ClearCache fault tbl user_id))
          <> StatusInternalServerError).
Proof.
  intros fault tbl userID. repeat split.
  - unfold services.ClearUserCache, repository.InvalidateAllRepositoryLists.
    now destruct fault.
  - intros err ->. reflexivity.
  - unfold handlers.ClearCache, services.ClearUserCache,
      repository.InvalidateAllRepositoryLists.
    now destruct fault.
  - intros [uid|]; unfold handlers.ClearCache, services.ClearUserCache,
      repository.InvalidateAllRepositoryLists; destruct fault; simpl;
      discriminate.
Qed.

(** ** Batch analysis (C4, C6) *)

Section BatchFacts.

Context {W : Type}.
Variable AnalyzeRepository : W -> string -> string -> W * result RepositoryAnalysis.

Import batch_spec.

(** The loop adds the successes to [results], later entries overwriting
    earlier ones of the same name, and the failures to [errs]. *)
Lemma batch_loop_outcomes (repos : list string) :
  forall (w : W) (results : gmap string RepositoryAnalysis) (errs : list error),
    let outs := entry_outcomes AnalyzeRepository w repos in
    snd (fst (services.batch_loop AnalyzeRepository w results errs repos))
      = fold_left (fun m kv => <[fst kv := snd kv]> m) (successes outs) results
    /\ snd (services.batch_loop AnalyzeRepository w results errs repos)
      = (errs ++ failures outs)%list.
Proof.
  induction repos as [|fullName rest IH]; intros w results errs; simpl.
  - split; [reflexivity | now rewrite app_nil_r].
  - destruct (Split fullName "/"%char) as [|owner [|repo [|x l]]];
      try (destruct (IH w results
             (errs ++ [Errorf "invalid repository name %q: must be owner/repo"
                         [fullName]])%list) as [IH1 IH2];
           unfold successes, failures in *; simpl in *;
           rewrite IH1, IH2, <- app_assoc; split; reflexivity).
    destruct (AnalyzeRepository w owner repo) as [w' [analysis|err]].
    + destruct (IH w' (<[fullName := analysis]> results) errs) as [IH1 IH2].
      unfold successes, failures in *; simpl in *.
      rewrite IH1, IH2. split; reflexivity.
    + destruct (IH w' results
                  (errs ++ [ErrorfW "repository %q: %w" [fullName] err])%list)
        as [IH1 IH2].
      unfold successes, failures in *; simpl in *.
      rewrite IH1, IH2, <- app_assoc. split; reflexivity.
Qed.

Lemma entry_outcomes_names (repos : list string) :
  forall w : W, List.map fst (entry_outcomes AnalyzeRepository w repos) = repos.
Proof.
  induction repos as [|fullName rest IH]; intros w; simpl; [reflexivity|].
  destruct (Split fullName "/"%char) as [|owner [|repo [|x l]]]; simpl;
    try (now rewrite IH).
  destruct (AnalyzeRepository w owner repo) as [w' [analysis|err]]; simpl;
    now rewrite IH.
Qed.

Lemma entry_outcomes_malformed (repos : list string) :
  forall (w : W) fullName r,
    In (fullName, r) (entry_outcomes AnalyzeRepository w repos) ->
    ~ well_formed fullName -> exists e, r = Err e.
Proof.
  induction repos as [|x rest IH]; intros w fullName r; simpl; [tauto|].
  destruct (Split x "/"%char) as [|owner [|repo [|y l]]] eqn:E; simpl;
    try (intros [H|H] Hwf; [inversion H; subst; eauto | eapply IH; eauto]).
  destruct (AnalyzeRepository w owner repo) as [w' [analysis|err]]; simpl;
    intros [H|H] Hwf; try (now eapply IH; eauto); inversion H; subst; eauto.
  exfalso. apply Hwf. now exists owner, repo.
Qed.

Lemma failures_nil_iff (outs : list (string * result RepositoryAnalysis)) :
  failures outs = [] <-> Forall succeeded outs.
Proof.
  unfold failures, succeeded.
  induction outs as [|[k [a|e]] outs IH]; simpl.
  - split; [constructor | reflexivity].
  - rewrite IH. split.
    + intros H. constructor; [now exists a | assumption].
    + intros H. now inversion H.
  - split; [discriminate|]. intros H. inversion H as [|? ? [a Ha] ?].
    discriminate.
Qed.

Lemma lookup_fold_insert (l : list (string * RepositoryAnalysis)) :
  forall (m : gmap string RepositoryAnalysis) (k : string),
    fold_left (fun m kv => <[fst kv := snd kv]> m) l m !! k
    = match list_find (fun kv => fst kv = k) (rev l) with
      | Some (_, kv) => Some (snd kv)
      | None => m !! k
      end.
Proof.
  induction l as [|[k' a] l IH] using rev_ind; intros m k; [reflexivity|].
  rewrite fold_left_app, rev_app_distr. simpl.
  destruct (decide (k' = k)) as [->|Hne].
  - now rewrite lookup_insert_eq.
  - rewrite lookup_insert_ne by assumption. rewrite IH.
    destruct (list_find _ (rev l)) as [[i kv]|]; reflexivity.
Qed.

(** C4. For every list of repository names, [BatchAnalyzeRepositories]
    returns the map of exactly the analyses that succeeded (under each
    name, the analysis of its last successful entry, and nothing under
    any other name), together with the join of one error per malformed or
    failed entry, in order; the error is nil if and only if every entry
    succeeded.  Both values reach the caller of the batch operation, the
    handler [BatchAnalyze], whose answer is decided by them: 200 with the
    map when the error is nil, 500 otherwise. *)
Theorem BatchAnalyzeRepositories_partial_results :
  forall (w : W) (repos : list string),
    let outs := entry_outcomes AnalyzeRepository w repos in
    let results :=
      snd (fst (services.BatchAnalyzeRepositories AnalyzeRepository w repos)) in
    let err := snd (services.BatchAnalyzeRepositories AnalyzeRepository w repos) in
    List.map fst outs = repos
    /\ (forall fullName r, In (fullName, r) outs ->
          ~ well_formed fullName -> exists e, r = Err e)
    /\ (forall k,
          results !! k
          = match list_find (fun kv => fst kv = k) (rev (successes outs)) with
            | Some (_, kv) => Some (snd kv)
            | None => None
            end)
    /\ (forall k, is_Some (results !! k) <-> exists a, In (k, Ok a) outs)
    /\ err = errors_Join (failures outs)
    /\ length (failures outs) = length (List.filter
                                          (fun kv => match snd kv with
                                                     | Ok _ => false
                                                     | Err _ => true
                                                     end) outs)
    /\ (err = None <-> Forall succeeded outs)
    /\ (forall token,
          (1 <= length repos <= 10)%nat ->
          snd (fst (handlers.BatchAnalyze AnalyzeRepository w (Some token) (Some repos)))
          = match err with
            | None => JSON StatusOK results
            | Some _ =>
                HTTPError StatusInternalServerError "Failed to analyze repositories"
            end).
Proof.
  intros w repos outs results err.
  assert (Hres : results
                 = fold_left (fun m kv => <[fst kv := snd kv]> m) (successes outs) ∅
                 /\ err = errors_Join (failures outs)).
  { subst results err outs. unfold services.BatchAnalyzeRepositories.
    destruct (batch_loop_outcomes repos w ∅ []) as [H1 H2].
    destruct (services.batch_loop AnalyzeRepository w ∅ [] repos) as [[w' rs] es].
    simpl in *. now subst. }
  destruct Hres as [Hres Herr].
  assert (Hlook : forall k,
            results !! k
            = match list_find (fun kv => fst kv = k) (rev (successes outs)) with
              | Some (_, kv) => Some (snd kv)
              | None => None
              end).
  { intros k. rewrite Hres, lookup_fold_insert.
    destruct (list_find _ _) as [[i kv]|]; [reflexivity | apply lookup_empty]. }
  repeat split.
  - apply entry_outcomes_names.
  - apply entry_outcomes_malformed.
  - exact Hlook.
  - rewrite Hlook. intros Hs.
    destruct (list_find _ _) as [[i [k' a]]|] eqn:E; [|now destruct Hs].
    apply list_find_Some in E as (Hi & Hk & _). simpl in Hk. subst k'.
    apply list_elem_of_lookup_2 in Hi. apply list_elem_of_In in Hi.
    apply in_rev in Hi. exists a.
    unfold successes in Hi. apply list_elem_of_In in Hi.
    apply list_elem_of_omap in Hi as ([k2 [a2|e2]] & Hin & Heq); simpl in Heq;
      [|discriminate].
    inversion Heq; subst. now apply list_elem_of_In.
  - rewrite Hlook. intros [a Hin].
    assert (Hs : (k, a) ∈ rev (successes outs)).
    { rewrite list_elem_of_In, <- in_rev, <- list_elem_of_In.
      unfold successes. apply list_elem_of_omap.
      exists (k, Ok a). split; [now apply list_elem_of_In | reflexivity]. }
    destruct (list_find (fun kv => fst kv = k) (rev (successes outs)))
      as [[i kv]|] eqn:E; [eauto|].
    exfalso. apply list_find_None in E.
    rewrite Forall_forall in E. now apply (E (k, a)).
  - exact Herr.
  - clear. unfold failures. induction outs as [|[k [a|e]] outs IH]; simpl;
      [reflexivity | assumption | now f_equal].
  - rewrite Herr. intros H. apply failures_nil_iff.
    destruct (failures outs); [reflexivity | discriminate].
  - rewrite Herr. intros H. apply failures_nil_iff in H. now rewrite H.
  - intros token [Hlo Hhi]. unfold handlers.BatchAnalyze.
    destruct (length repos =? 0)%nat eqn:E0; [apply Nat.eqb_eq in E0; lia|].
    destruct (10 <? length repos)%nat eqn:E1; [apply Nat.ltb_lt in E1; lia|].
    subst results err.
    destruct (services.BatchAnalyzeRepositories AnalyzeRepository w repos)
      as [[w' rs] [e|]]; reflexivity.
Qed.

(** C6. The handler [BatchAnalyze], on an authenticated request, answers
    400 whenever the body does not bind, the list of repositories is
    empty, or it has more than 10 entries, and in none of these cases is
    the analysis service called; whatever the request, a list passed to
    the service has between 1 and 10 entries. *)
Theorem BatchAnalyze_validation :
  forall (w : W) (token : string) (req : handlers.BatchBody),
    ((req = None
      \/ exists repos, req = Some repos
                       /\ (length repos = 0 \/ 10 < length repos)%nat) ->
     status (snd (fst (handlers.BatchAnalyze AnalyzeRepository w (Some token) req)))
       = StatusBadRequest
     /\ snd (handlers.BatchAnalyze AnalyzeRepository w (Some token) req) = None)
    /\ (forall access_token passed,
          snd (handlers.BatchAnalyze AnalyzeRepository w access_token req)
            = Some passed ->
          req = Some passed /\ (1 <= length passed <= 10)%nat).
Proof.
  intros w token req. split.
  - intros [->|(repos & -> & Hlen)]; [split; reflexivity|].
    unfold handlers.BatchAnalyze.
    destruct (length repos =? 0)%nat eqn:E0; [split; reflexivity|].
    destruct (10 <? length repos)%nat eqn:E1; [split; reflexivity|].
    apply Nat.eqb_neq in E0. apply Nat.ltb_ge in E1. lia.
  - intros access_token passed. unfold handlers.BatchAnalyze.
    destruct access_token; [|discriminate].
    destruct req as [repos|]; [|discriminate].
    destruct (length repos =? 0)%nat eqn:E0; [discriminate|].
    destruct (10 <? length repos)%nat eqn:E1; [discriminate|].
    apply Nat.eqb_neq in E0. apply Nat.ltb_ge in E1.
    destruct (services.BatchAnalyzeRepositories AnalyzeRepository w repos)
      as [[w' rs] [e|]]; simpl; intros H; inversion H; subst; split;
      try reflexivity; lia.
Qed.

End BatchFacts.

(** A batch of three names, one malformed and one whose analysis fails. *)
Lemma BatchAnalyzeRepositories_partial_results_witness :
  let repos := ["octocat/hello"; "malformed"; "octocat/bad"] in
  let r := services.BatchAnalyzeRepositories samples.AnalyzeRepository 0%nat repos in
  (1 <= length repos <= 10)%nat
  /\ snd (fst r) !! "octocat/hello" = Some samples.analysis
  /\ snd (fst r) !! "malformed" = None
  /\ snd r <> None
  /\ snd (fst (handlers.BatchAnalyze samples.AnalyzeRepository 0%nat (Some "token")
                 (Some repos)))
     = HTTPError StatusInternalServerError "Failed to analyze repositories".
Proof.
  intros repos r.
  destruct (BatchAnalyzeRepositories_partial_results samples.AnalyzeRepository
              0%nat repos) as (_ & _ & Hlook & _ & Herr & _ & _ & Hhandler).
  assert (Hlen : (1 <= length repos <= 10)%nat) by (simpl; lia).
  split; [exact Hlen|]. split; [|split; [|split]].
  - subst r. rewrite Hlook. reflexivity.
  - subst r. rewrite Hlook. reflexivity.
  - subst r. rewrite Herr. discriminate.
  - rewrite (Hhandler "token" Hlen). reflexivity.
Defined.

(** What the handler makes of the two values it receives.  A batch with
    one analysis done and one malformed name, and a batch whose only
    analysis fails, differ in their partial results and in their joined
    errors, and get the same answer from [BatchAnalyze]: 500 with a fixed
    message. *)
Lemma BatchAnalyze_drops_partial_results :
  let service := services.BatchAnalyzeRepositories samples.AnalyzeRepository 0%nat in
  let handler := fun repos =>
    snd (fst (handlers.BatchAnalyze samples.AnalyzeRepository 0%nat (Some "token")
                (Some repos))) in
  snd (fst (service ["octocat/hello"; "malformed"])) !! "octocat/hello"
    = Some samples.analysis
  /\ snd (fst (service ["octocat/bad"])) !! "octocat/hello" = None
  /\ snd (service ["octocat/hello"; "malformed"]) <> snd (service ["octocat/bad"])
  /\ handler ["octocat/hello"; "malformed"]
     = HTTPError StatusInternalServerError "Failed to analyze repositories"
  /\ handler ["octocat/bad"] = handler ["octocat/hello"; "malformed"].
Proof.
  cbv zeta. repeat split; try reflexivity. vm_compute. discriminate.
Qed.

(** A request with eleven repositories. *)
Lemma BatchAnalyze_validation_witness :
  let eleven := replicate 11 "octocat/hello" in
  (Some eleven = None
   \/ exists repos, Some eleven = Some repos
                    /\ (length repos = 0 \/ 10 < length repos)%nat)
  /\ status (snd (fst (handlers.BatchAnalyze samples.AnalyzeRepository 0%nat
                         (Some "token") (Some eleven))))
     = StatusBadRequest
  /\ snd (handlers.BatchAnalyze samples.AnalyzeRepository 0%nat (Some "token")
            (Some eleven)) = None.
Proof.
  intros eleven.
  assert (H : Some eleven = None
              \/ exists repos, Some eleven = Some repos
                               /\ (length repos = 0 \/ 10 < length repos)%nat).
  { right. exists eleven. split; [reflexivity | right; simpl; lia]. }
  split; [exact H|].
  exact (proj1 (BatchAnalyze_validation samples.AnalyzeRepository 0%nat "token"
                  (Some eleven)) H).
Defined.

(** ** Best-effort cache writes and the profile cache (C7, C9) *)

(** The write of the profile cache either is made, without error, or
    leaves the table as it was, with an error. *)
Lemma Set_outcome (fault : option error) (tbl : repository.ProfileCache)
    (now : Time) (userID configID : Z) (cacheKey : string)
    (response : ContentGenerationResponse) (ttl : Z) :
  (exists tbl',
      repository.Set_ fault tbl now userID configID cacheKey response ttl
      = (tbl', None))
  \/ (exists err,
        repository.Set_ fault tbl now userID configID cacheKey response ttl
        = (tbl, Some err)).
Proof.
  unfold repository.Set_. destruct fault as [err|]; [right; eauto|].
  destruct (repository.profiles tbl !! cacheKey); [left; eauto|].
  destruct (bool_decide _); [left | right]; eauto.
Qed.

(** Without a row for the key and without the profile configuration it
    names, the write is refused and the table is as it was. *)
Lemma Set_refused (fault : option error) (tbl : repository.ProfileCache)
    (now : Time) (userID configID : Z) (cacheKey : string)
    (response : ContentGenerationResponse) (ttl : Z) :
  configID ∉ repository.profile_configs tbl ->
  repository.profiles tbl !! cacheKey = None ->
  exists err,
    repository.Set_ fault tbl now userID configID cacheKey response ttl
    = (tbl, Some (ErrorfW "failed to set cached profile: %w" [] err)).
Proof.
  intros Hfk Hrow. unfold repository.Set_. destruct fault as [err|]; [eauto|].
  rewrite Hrow. rewrite bool_decide_eq_false_2 by exact Hfk. eauto.
Qed.

Section GenerateFacts.

Variable GenerateBatchedProfile :
  string -> profile_service.BatchProfileRequest
  -> result profile_service.BatchProfileResponse.

Let GenerateProfile := profile_service.GenerateProfile GenerateBatchedProfile.

(** C7. A failing cache write changes neither result: whatever the
    outcome of [profileCacheRepo.Set], [GenerateProfile] returns the same
    value, and whatever the outcome of [SetRepositoryList],
    [ListUserRepositories] returns the same value.  When a generation (a
    listing) that is not served from the cache succeeds, the same call
    with a failing write returns the same response (the same list),
    leaves the table as it was and logs the error of the write, once. *)
Theorem cache_writes_are_best_effort :
  (forall o fault_get tbl now req user (fault_set : option error),
      fst (fst (GenerateProfile o fault_get fault_set tbl now req user))
      = fst (fst (GenerateProfile o fault_get None tbl now req user)))
  /\ (forall o fault_get tbl now req user err response tbl' log,
        (forall cached,
            repository.Get fault_get tbl now
              (repository.GetCacheKey (Username user) (TargetRole req)
                 (ToneOfVoice req) (Z.of_nat (length (Projects req))))
            <> Ok (Some cached)) ->
        GenerateProfile o fault_get None tbl now req user = (Ok response, tbl', log) ->
        GenerateProfile o fault_get (Some err) tbl now req user
        = (Ok response, tbl,
           [("Failed to cache profile generation result",
             ErrorfW "failed to set cached profile: %w" [] err)]))
  /\ (forall fault_get tbl now listed userID includePrivate (fault_set : option error),
        fst (fst (services.ListUserRepositories fault_get fault_set tbl now listed
                    userID includePrivate))
        = fst (fst (services.ListUserRepositories fault_get None tbl now listed
                      userID includePrivate)))
  /\ (forall fault_get tbl now listed userID includePrivate err repos tbl' log,
        (forall cached,
            repository.GetRepositoryList fault_get tbl now userID includePrivate
            <> Ok (Some cached)) ->
        services.ListUserRepositories fault_get None tbl now listed userID
          includePrivate = (Ok repos, tbl', log) ->
        services.ListUserRepositories fault_get (Some err) tbl now listed userID
          includePrivate
        = (Ok repos, tbl,
           [("Failed to cache repository list",
             ErrorfW "failed to set repository list cache: %w" [] err)])).
Proof.
  repeat split.
  - intros. subst GenerateProfile. unfold profile_service.GenerateProfile.
    destruct (String.eqb _ _); [reflexivity|].
    destruct (_ =? _)%nat; [reflexivity|].
    destruct (repository.Get _ _ _ _) as [[c|]|e];
      try reflexivity;
      (destruct (GenerateBatchedProfile _ _); [|reflexivity]);
      match goal with
      | |- context [repository.Set_ fault_set ?t ?n ?u ?c ?k ?r ?d] =>
          destruct (Set_outcome fault_set t n u c k r d) as [[t1 E1]|[e1 E1]];
          destruct (Set_outcome None t n u c k r d) as [[t2 E2]|[e2 E2]];
          rewrite E1, E2; reflexivity
      end.
  - intros o fault_get tbl now req user err response tbl' log Hmiss.
    subst GenerateProfile. unfold profile_service.GenerateProfile.
    destruct (String.eqb _ _); [discriminate|].
    destruct (_ =? _)%nat; [discriminate|].
    destruct (repository.Get _ _ _ _) as [[c|]|e];
      try (now destruct (Hmiss c));
      (destruct (GenerateBatchedProfile _ _); [|discriminate]);
      match goal with
      | |- context [repository.Set_ None ?t ?n ?u ?c ?k ?r ?d] =>
          destruct (Set_outcome None t n u c k r d) as [[t2 E2]|[e2 E2]];
          rewrite E2
      end;
      intros H; inversion H; subst; reflexivity.
  - intros. unfold services.ListUserRepositories.
    destruct (repository.GetRepositoryList _ _ _ _ _) as [[c|]|e];
      try reflexivity; destruct listed; try reflexivity;
      destruct fault_set; reflexivity.
  - intros fault_get tbl now listed userID includePrivate err repos tbl' log Hmiss.
    unfold services.ListUserRepositories.
    destruct (repository.GetRepositoryList _ _ _ _ _) as [[c|]|e];
      try (now destruct (Hmiss c));
      (destruct listed; [|discriminate]);
      simpl; intros H; inversion H; subst; reflexivity.
Qed.

End GenerateFacts.

Section ProfileCacheFacts.

Import repository.

(** Without the profile configuration 0 and without a row under the key
    of the request, a generation leaves the table as it was, and logs the
    failure of the write when it succeeds. *)
Lemma GenerateProfile_caches_nothing
    (gen : string -> profile_service.BatchProfileRequest
           -> result profile_service.BatchProfileResponse)
    (o : profile_service.MapOrder) (fault_get fault_set : option error)
    (tbl : ProfileCache) (now : Time) (req : ContentGenerationRequest)
    (user : User) :
  0 ∉ profile_configs tbl ->
  profiles tbl
    !! GetCacheKey (Username user) (TargetRole req) (ToneOfVoice req)
         (Z.of_nat (length (Projects req))) = None ->
  let run :=
    profile_service.GenerateProfile gen o fault_get fault_set tbl now req user in
  snd (fst run) = tbl
  /\ (forall response,
        fst (fst run) = Ok response ->
        exists err,
          snd run
          = [("Failed to cache profile generation result",
              ErrorfW "failed to set cached profile: %w" [] err)]).
Proof.
  set (k := GetCacheKey (Username user) (TargetRole req) (ToneOfVoice req)
              (Z.of_nat (length (Projects req)))).
  intros Hfk Hrow run. subst run.
  unfold profile_service.GenerateProfile. fold k.
  destruct (String.eqb _ _); [split; [reflexivity | discriminate]|].
  destruct (_ =? _)%nat; [split; [reflexivity | discriminate]|].
  assert (Hget : Get fault_get tbl now k = Ok None
                 \/ exists e, Get fault_get tbl now k = Err e).
  { unfold Get. unfold Time in *. destruct fault_get; [right; eauto|]. left.
    now rewrite Hrow. }
  destruct Hget as [Hget|[e Hget]]; rewrite Hget;
    (destruct (gen _ _) as [batchResp|e'];
     [|split; [reflexivity | discriminate]]);
    match goal with
    | |- context [Set_ fault_set tbl ?n ?u 0 k ?r ?d] =>
        destruct (Set_refused fault_set tbl n u 0 k r d Hfk Hrow)
          as [err E]; rewrite E
    end;
    (split; [reflexivity | intros response _; eauto]).
Qed.

(** Without a row under the key of the request, a generation returns
    what it returns on the empty database. *)
Lemma GenerateProfile_without_row
    (gen : string -> profile_service.BatchProfileRequest
           -> result profile_service.BatchProfileResponse)
    (o : profile_service.MapOrder) (fault_set : option error)
    (tbl : ProfileCache) (now : Time) (req : ContentGenerationRequest)
    (user : User) :
  profiles tbl
    !! GetCacheKey (Username user) (TargetRole req) (ToneOfVoice req)
         (Z.of_nat (length (Projects req))) = None ->
  fst (fst (profile_service.GenerateProfile gen o None fault_set tbl now req user))
  = fst (fst (profile_service.GenerateProfile gen o None None ∅ now req user)).
Proof.
  set (k := GetCacheKey (Username user) (TargetRole req) (ToneOfVoice req)
              (Z.of_nat (length (Projects req)))).
  intros Hrow. unfold profile_service.GenerateProfile. fold k.
  destruct (String.eqb _ _); [reflexivity|].
  destruct (_ =? _)%nat; [reflexivity|].
  unfold Get. unfold Time in *. rewrite Hrow.
  change (profiles ∅) with (∅ : gmap string (ContentGenerationResponse * Z)).
  rewrite lookup_empty.
  destruct (gen _ _) as [batchResp|e']; [|reflexivity].
  match goal with
  | |- context [Set_ fault_set tbl ?n ?u 0 ?k ?r ?d] =>
      destruct (Set_outcome fault_set tbl n u 0 k r d) as [[t1 E1]|[e1 E1]];
      destruct (Set_outcome None ∅ n u 0 k r d) as [[t2 E2]|[e2 E2]];
      rewrite E1, E2; reflexivity
  end.
Qed.

(** C9. The key of the profile cache is made of the username, the target
    role, the tone of voice and the number of projects, so two requests
    of a user that agree on these get the same key; and [GenerateProfile]
    is built to answer the second with the profile cached for the first:
    a row that sits under the key and has not expired is returned to any
    request with that key, whatever its projects, emphasized skills and
    contact preferences, without the model being called.  But no such
    row is ever written.  [GenerateProfile] writes with the configuration
    id 0, which is the id of no row of [profile_configs] (nothing in the
    repository inserts one), so the database refuses the row: the first
    generation leaves the table as it was and logs the failure of the
    write, and the second request, in place of the cached profile, gets
    what it would get had the first never been made: a generation of its
    own, from its own inputs.  (For projects that carry their
    repository.) *)
Theorem profile_cache_is_read_but_never_filled :
  forall (user : User) (req1 req2 : ContentGenerationRequest),
    let key := fun req : ContentGenerationRequest =>
      GetCacheKey (Username user) (TargetRole req) (ToneOfVoice req)
        (Z.of_nat (length (Projects req))) in
    (TargetRole req1 = TargetRole req2 ->
     ToneOfVoice req1 = ToneOfVoice req2 ->
     length (Projects req1) = length (Projects req2) ->
     key req1 = key req2)
    /\ (forall gen o fault_set tbl now response expiresAt,
          key req2 = key req1 ->
          UserAPIKey req2 <> EmptyString -> Projects req2 <> [] ->
          profiles tbl !! key req1 = Some (response, expiresAt) ->
          now < expiresAt ->
          profile_service.GenerateProfile gen o None fault_set tbl now req2 user
          = (Ok response, tbl, []))
    /\ (forall gen o fault_get fault_set tbl now,
          0 ∉ profile_configs tbl ->
          profiles tbl !! key req1 = None ->
          Forall (fun p => RA_Repository p <> None) (Projects req1) ->
          let run :=
            profile_service.GenerateProfile gen o fault_get fault_set tbl now
              req1 user in
          snd (fst run) = tbl
          /\ (forall response,
                fst (fst run) = Ok response ->
                exists err,
                  snd run
                  = [("Failed to cache profile generation result",
                      ErrorfW "failed to set cached profile: %w" [] err)]))
    /\ (forall gen1 gen2 o1 o2 fault_get fault_set1 fault_set2 tbl now now',
          0 ∉ profile_configs tbl ->
          profiles tbl !! key req1 = None ->
          key req2 = key req1 ->
          Forall (fun p => RA_Repository p <> None) (Projects req1) ->
          Forall (fun p => RA_Repository p <> None) (Projects req2) ->
          let tbl1 :=
            snd (fst (profile_service.GenerateProfile gen1 o1 fault_get
                        fault_set1 tbl now req1 user)) in
          fst (fst (profile_service.GenerateProfile gen2 o2 None fault_set2 tbl1
                      now' req2 user))
          = fst (fst (profile_service.GenerateProfile gen2 o2 None None ∅ now'
                        req2 user))).
Proof.
  intros user req1 req2 key. subst key. cbv beta.
  split; [|split; [|split]].
  - intros Hrole Htone Hlen. now rewrite Hrole, Htone, Hlen.
  - intros gen o fault_set tbl now response expiresAt Hkey Hapi Hprojects
      Hrow Hnow.
    unfold profile_service.GenerateProfile.
    rewrite (eqb_empty_false _ Hapi).
    assert (Hlen : (length (Projects req2) =? 0)%nat = false)
      by (destruct (Projects req2); [now destruct Hprojects | reflexivity]).
    rewrite Hlen, Hkey. unfold Get. unfold Time in *. rewrite Hrow.
    apply Z.ltb_lt in Hnow. now rewrite Hnow.
  - intros gen o fault_get fault_set tbl now Hfk Hrow _.
    exact (GenerateProfile_caches_nothing gen o fault_get fault_set tbl now req1
             user Hfk Hrow).
  - intros gen1 gen2 o1 o2 fault_get fault_set1 fault_set2 tbl now now'
      Hfk Hrow Hkey _ _ tbl1.
    assert (E1 : tbl1 = tbl)
      by exact (proj1 (GenerateProfile_caches_nothing gen1 o1 fault_get
                         fault_set1 tbl now req1 user Hfk Hrow)).
    rewrite E1. apply GenerateProfile_without_row. now rewrite Hkey.
Qed.

End ProfileCacheFacts.

(** The sample generation with the database refusing the write. *)
Lemma cache_writes_are_best_effort_witness :
  (forall cached,
      repository.Get None ∅ 0
        (repository.GetCacheKey (Username samples.octocat)
           (TargetRole samples.request1) (ToneOfVoice samples.request1)
           (Z.of_nat (length (Projects samples.request1))))
      <> Ok (Some cached))
  /\ samples.generated1
     = (Ok samples.response1, snd (fst samples.generated1), snd samples.generated1)
  /\ profile_service.GenerateProfile samples.GenerateBatchedProfile
       profile_service.ascending None (Some (Errorf "connection refused" []))
       ∅ 0 samples.request1 samples.octocat
     = (Ok samples.response1, ∅,
        [("Failed to cache profile generation result",
          ErrorfW "failed to set cached profile: %w" []
            (Errorf "connection refused" []))]).
Proof.
  assert (Hmiss : forall cached,
            repository.Get None ∅ 0
              (repository.GetCacheKey (Username samples.octocat)
                 (TargetRole samples.request1) (ToneOfVoice samples.request1)
                 (Z.of_nat (length (Projects samples.request1))))
            <> Ok (Some cached)) by (intros cached; discriminate).
  assert (Hgen : samples.generated1
                 = (Ok samples.response1, snd (fst samples.generated1),
                    snd samples.generated1)) by (vm_compute; reflexivity).
  split; [exact Hmiss|]. split; [exact Hgen|].
  exact (proj1 (proj2 (cache_writes_are_best_effort samples.GenerateBatchedProfile))
           profile_service.ascending None ∅ 0 samples.request1 samples.octocat
           (Errorf "connection refused" []) samples.response1
           (snd (fst samples.generated1)) (snd samples.generated1) Hmiss Hgen).
Defined.

(** The two sample requests, which agree on the role, the tone and the
    number of projects, on the database as the migrations create it: the
    first generation caches nothing, and the second request, a day less
    an instant later, calls the model again; with the same reply of the
    model it gets another profile than the first. *)
Lemma profile_cache_is_read_but_never_filled_witness :
  let second := fun gen =>
    profile_service.GenerateProfile gen profile_service.descending None None
      (snd (fst samples.generated1)) (profile_service.day - 1) more_samples.second_request
      samples.octocat in
  fst (fst samples.generated1) = Ok samples.response1
  /\ snd (fst samples.generated1) = ∅
  /\ (exists err,
        snd samples.generated1
        = [("Failed to cache profile generation result",
            ErrorfW "failed to set cached profile: %w" [] err)])
  /\ fst (fst (second (fun _ _ => Err (Errorf "the model is called" []))))
     = Err (ErrorfW "generation failed: %w" [] (Errorf "the model is called" []))
  /\ fst (fst (second samples.GenerateBatchedProfile)) <> Ok samples.response1.
Proof.
  intros second.
  pose proof (profile_cache_is_read_but_never_filled samples.octocat
                samples.request1 more_samples.second_request) as H.
  cbv zeta in H. destruct H as (_ & _ & Hwrite & Hsecond).
  assert (Hfk : 0 ∉ repository.profile_configs ∅) by apply not_elem_of_empty.
  assert (Hrow : repository.profiles ∅
                   !! repository.GetCacheKey (Username samples.octocat)
                        (TargetRole samples.request1)
                        (ToneOfVoice samples.request1)
                        (Z.of_nat (length (Projects samples.request1)))
                 = None) by apply lookup_empty.
  assert (Hrepo1 : Forall (fun p => RA_Repository p <> None)
                     (Projects samples.request1))
    by (repeat constructor; discriminate).
  assert (Hrepo2 : Forall (fun p => RA_Repository p <> None)
                     (Projects more_samples.second_request))
    by (repeat constructor; discriminate).
  assert (Hok : fst (fst samples.generated1) = Ok samples.response1)
    by (vm_compute; reflexivity).
  destruct (Hwrite samples.GenerateBatchedProfile profile_service.ascending
              None None ∅ 0 Hfk Hrow Hrepo1) as [Htbl Hlog].
  split; [exact Hok|]. split; [exact Htbl|]. split; [exact (Hlog _ Hok)|].
  split.
  - subst second. cbv beta. unfold samples.generated1.
    rewrite (Hsecond samples.GenerateBatchedProfile
               (fun _ _ => Err (Errorf "the model is called" []))
               profile_service.ascending profile_service.descending None None
               None ∅ 0 (profile_service.day - 1) Hfk Hrow eq_refl Hrepo1 Hrepo2).
    reflexivity.
  - subst second. cbv beta. unfold samples.generated1.
    rewrite (Hsecond samples.GenerateBatchedProfile
               samples.GenerateBatchedProfile
               profile_service.ascending profile_service.descending None None
               None ∅ 0 (profile_service.day - 1) Hfk Hrow eq_refl Hrepo1 Hrepo2).
    assert (E : match
                  fst (fst (profile_service.GenerateProfile
                              samples.GenerateBatchedProfile
                              profile_service.descending None None ∅
                              (profile_service.day - 1)
                              more_samples.second_request samples.octocat))
                with
                | Ok r => String.eqb (Markdown r) (Markdown samples.response1)
                | Err _ => false
                end = false) by (vm_compute; reflexivity).
    intros H. rewrite H in E. rewrite String.eqb_refl in E. discriminate E.
Defined.

(** ** base64, hex and Split *)

Section Base64Facts.

Open Scope nat_scope.

Lemma list_ind3 {A : Type} (P : list A -> Prop) :
  P [] -> (forall a, P [a]) -> (forall a b, P [a; b]) ->
  (forall a b c l, P l -> P (a :: b :: c :: l)) ->
  forall l, P l.
Proof.
  intros H0 H1 H2 H3 l.
  assert (H : P l /\ (forall a, P (a :: l)) /\ (forall a b, P (a :: b :: l))).
  { induction l as [|x l (IH0 & IH1 & IH2)]; [now auto|].
    repeat split; auto. }
  apply H.
Qed.

Lemma divmod_join (r q k : nat) :
  q < k -> (r * k + q) / k = r /\ (r * k + q) mod k = q.
Proof.
  intros H. split.
  - rewrite Nat.div_add_l by lia. rewrite Nat.div_small by lia. lia.
  - rewrite Nat.add_comm, Nat.Div0.mod_add. apply Nat.mod_small. lia.
Qed.

Lemma sextets_of_bytes_lt (l : list nat) :
  Forall (fun b => b < 256) l ->
  Forall (fun s => s < 64) (base64.sextets_of_bytes l).
Proof.
  induction l as [|a|a b|a b c l IH] using list_ind3; intros H;
    cbn [base64.sextets_of_bytes].
  - apply Forall_nil_2.
  - inversion H as [|? ? Ha _]; subst.
    repeat first [apply Forall_nil_2 | apply Forall_cons_2].
    + apply Nat.Div0.div_lt_upper_bound; lia.
    + pose proof (Nat.mod_upper_bound a 4). lia.
  - inversion H as [|? ? Ha H']; subst. inversion H' as [|? ? Hb _]; subst.
    assert (b / 16 < 16) by (apply Nat.Div0.div_lt_upper_bound; lia).
    repeat first [apply Forall_nil_2 | apply Forall_cons_2].
    + apply Nat.Div0.div_lt_upper_bound; lia.
    + pose proof (Nat.mod_upper_bound a 4). lia.
    + pose proof (Nat.mod_upper_bound b 16). lia.
  - inversion H as [|? ? Ha H']; subst. inversion H' as [|? ? Hb H'']; subst.
    inversion H'' as [|? ? Hc Hl]; subst.
    assert (b / 16 < 16) by (apply Nat.Div0.div_lt_upper_bound; lia).
    assert (c / 64 < 4) by (apply Nat.Div0.div_lt_upper_bound; lia).
    apply Forall_cons_2; [apply Nat.Div0.div_lt_upper_bound; lia|].
    apply Forall_cons_2; [pose proof (Nat.mod_upper_bound a 4); lia|].
    apply Forall_cons_2; [pose proof (Nat.mod_upper_bound b 16); lia|].
    apply Forall_cons_2; [apply Nat.mod_upper_bound; lia|].
    now apply IH.
Qed.

Lemma bytes_of_sextets_of_bytes (l : list nat) :
  Forall (fun b => b < 256) l ->
  base64.bytes_of_sextets (base64.sextets_of_bytes l) = Some l.
Proof.
  induction l as [|a|a b|a b c l IH] using list_ind3; intros H;
    cbn [base64.sextets_of_bytes base64.bytes_of_sextets].
  - reflexivity.
  - inversion H as [|? ? Ha _]; subst.
    assert (H0 : 0 < 16) by lia.
    destruct (divmod_join (a mod 4) 0 16 H0) as [E _].
    rewrite Nat.add_0_r in E. rewrite E.
    pose proof (Nat.div_mod_eq a 4). do 2 f_equal. lia.
  - inversion H as [|? ? Ha H']; subst. inversion H' as [|? ? Hb _]; subst.
    assert (Hq : b / 16 < 16) by (apply Nat.Div0.div_lt_upper_bound; lia).
    destruct (divmod_join (a mod 4) (b / 16) 16 Hq) as [E1 E2].
    assert (H0 : 0 < 4) by lia.
    destruct (divmod_join (b mod 16) 0 4 H0) as [E3 _].
    rewrite Nat.add_0_r in E3. rewrite E1, E2, E3.
    pose proof (Nat.div_mod_eq a 4). pose proof (Nat.div_mod_eq b 16).
    do 2 f_equal; [lia|]. f_equal. lia.
  - inversion H as [|? ? Ha H']; subst. inversion H' as [|? ? Hb H'']; subst.
    inversion H'' as [|? ? Hc Hl]; subst.
    rewrite (IH Hl).
    assert (Hq : b / 16 < 16) by (apply Nat.Div0.div_lt_upper_bound; lia).
    assert (Hq' : c / 64 < 4) by (apply Nat.Div0.div_lt_upper_bound; lia).
    destruct (divmod_join (a mod 4) (b / 16) 16 Hq) as [E1 E2].
    destruct (divmod_join (b mod 16) (c / 64) 4 Hq') as [E3 E4].
    rewrite E1, E2, E3, E4.
    pose proof (Nat.div_mod_eq a 4). pose proof (Nat.div_mod_eq b 16).
    pose proof (Nat.div_mod_eq c 64).
    do 2 f_equal; [lia|]. f_equal; [lia|]. f_equal. lia.
Qed.

Lemma enc6_ok_all (n : nat) : n < 64 -> base64.enc6_ok n = true.
Proof.
  intros H.
  assert (Hall : forallb base64.enc6_ok (seq 0 64) = true) by (vm_compute; reflexivity).
  rewrite forallb_forall in Hall. apply Hall. apply in_seq. lia.
Qed.

Lemma sextets_of_chars_enc6 (ns : list nat) :
  Forall (fun s => s < 64) ns ->
  base64.sextets_of_chars (List.map base64.enc6 ns) = Some ns.
Proof.
  induction 1 as [|n ns Hn _ IH]; [reflexivity|].
  cbn [List.map base64.sextets_of_chars]. rewrite IH.
  pose proof (enc6_ok_all n Hn) as Hok. unfold base64.enc6_ok in Hok.
  repeat (apply andb_prop in Hok; destruct Hok as [Hok ?]).
  destruct (base64.dec6 (base64.enc6 n)) as [m|]; [|discriminate].
  apply Nat.eqb_eq in Hok. subst m.
  destruct (Ascii.eqb (base64.enc6 n) "010"%char); [discriminate|].
  destruct (Ascii.eqb (base64.enc6 n) "013"%char); [discriminate|].
  reflexivity.
Qed.

Lemma Contains_enc6 (ns : list nat) :
  Forall (fun s => s < 64) ns ->
  Contains (string_of_list_ascii (List.map base64.enc6 ns)) "."%char = false.
Proof.
  induction 1 as [|n ns Hn _ IH]; [reflexivity|].
  cbn [List.map string_of_list_ascii Contains]. rewrite IH.
  pose proof (enc6_ok_all n Hn) as Hok. unfold base64.enc6_ok in Hok.
  repeat (apply andb_prop in Hok; destruct Hok as [Hok ?]).
  destruct (Ascii.eqb (base64.enc6 n) "."%char); [discriminate | reflexivity].
Qed.

Lemma bytes_of_string_lt (s : string) :
  Forall (fun b => b < 256) (base64.bytes_of_string s).
Proof.
  unfold base64.bytes_of_string.
  induction s as [|a s IH]; simpl; constructor; [apply nat_ascii_bounded | exact IH].
Qed.

Lemma string_of_bytes_of_string (s : string) :
  base64.string_of_bytes (base64.bytes_of_string s) = s.
Proof.
  unfold base64.string_of_bytes, base64.bytes_of_string.
  induction s as [|a s IH]; simpl; [reflexivity|].
  now rewrite ascii_nat_embedding, IH.
Qed.

(** Decoding undoes encoding, and an encoding contains no dot. *)
Lemma DecodeString_EncodeToString (s : string) :
  base64.DecodeString (base64.EncodeToString s) = Some s.
Proof.
  unfold base64.DecodeString, base64.EncodeToString.
  rewrite list_ascii_of_string_of_list_ascii.
  rewrite sextets_of_chars_enc6
    by apply sextets_of_bytes_lt, bytes_of_string_lt.
  rewrite bytes_of_sextets_of_bytes by apply bytes_of_string_lt.
  now rewrite string_of_bytes_of_string.
Qed.

Lemma EncodeToString_no_dot (s : string) :
  Contains (base64.EncodeToString s) "."%char = false.
Proof.
  apply Contains_enc6, sextets_of_bytes_lt, bytes_of_string_lt.
Qed.

End Base64Facts.

Lemma string_app_assoc (a b c : string) : ((a ++ b) ++ c = a ++ (b ++ c))%string.
Proof.
  induction a as [|x a IH]; [reflexivity|].
  change (String x ((a ++ b) ++ c) = String x (a ++ (b ++ c)))%string.
  now rewrite IH.
Qed.

Lemma Split_cons_nonempty (s : string) (c : ascii) : Split s c <> [].
Proof.
  destruct s as [|a s]; simpl; [discriminate|].
  destruct (Ascii.eqb a c); [discriminate|].
  destruct (Split s c); discriminate.
Qed.

Lemma Split_no_sep (s : string) (c : ascii) :
  Contains s c = false -> Split s c = [s].
Proof.
  induction s as [|a s IH]; simpl; [reflexivity|].
  destruct (Ascii.eqb a c); [discriminate|]. simpl. intros H.
  now rewrite IH.
Qed.

Lemma Split_app (s t : string) (c : ascii) :
  Contains s c = false -> Split (s ++ String c t) c = s :: Split t c.
Proof.
  induction s as [|a s IH]; simpl.
  - intros _. now rewrite Ascii.eqb_refl.
  - destruct (Ascii.eqb a c); [discriminate|]. simpl. intros H.
    now rewrite IH.
Qed.

Lemma Split_three (a b d : string) (c : ascii) :
  Contains a c = false -> Contains b c = false -> Contains d c = false ->
  Split (a ++ String c (b ++ String c d)) c = [a; b; d].
Proof.
  intros Ha Hb Hd. rewrite Split_app by assumption.
  rewrite Split_app by assumption. now rewrite Split_no_sep.
Qed.

Lemma hex_nonempty (v : vec ascii 16) :
  hex.EncodeToString (string_of_list_ascii (vec_to_list v)) <> EmptyString.
Proof. inv_vec v. intros a v. simpl. discriminate. Qed.

(** ** Tokens and the authentication middleware (C3, C5, C2) *)

Section MiddlewareFacts.

Import middleware.

Variable hmac_sha256 : string -> string -> string.
Variable json_Marshal : JWTClaims -> string.
Variable json_Unmarshal : string -> option JWTClaims.

Abbreviation createSignature := (middleware.createSignature hmac_sha256).
Abbreviation GenerateJWT := (middleware.GenerateJWT hmac_sha256 json_Marshal).
Abbreviation validateJWT := (middleware.validateJWT hmac_sha256 json_Unmarshal).
Abbreviation AuthMiddleware :=
  (middleware.AuthMiddleware hmac_sha256 json_Unmarshal).

(** A token is accepted exactly when it has three parts, the third is the
    signature of the first two, and the second decodes to claims. *)
Lemma validateJWT_Some (token secret : string) (claims : JWTClaims) :
  validateJWT token secret = Some claims <->
  exists header payload payloadBytes,
    Split token "."%char
      = [header; payload; createSignature (header ++ "." ++ payload) secret]
    /\ base64.DecodeString payload = Some payloadBytes
    /\ json_Unmarshal payloadBytes = Some claims.
Proof.
  unfold middleware.validateJWT. split.
  - destruct (Split token "."%char) as [|p0 [|p1 [|p2 [|x l]]]]; try discriminate.
    destruct (String.eqb p2 _) eqn:E; [|discriminate]. apply String.eqb_eq in E.
    simpl. destruct (base64.DecodeString p1) as [payloadBytes|] eqn:D;
      [|discriminate].
    intros H. exists p0, p1, payloadBytes. now subst.
  - intros (header & payload & payloadBytes & -> & -> & ->).
    now rewrite String.eqb_refl.
Qed.

(** C3. A token produced by [GenerateJWT] is accepted by [validateJWT]
    under the same secret, and the claims returned carry the same UserID
    and Username, a non-empty JTI, and as ExpiresAt the time of issue plus
    [expiresIn] in whole Unix seconds; this for every user id, username,
    secret and [expiresIn] (positive or not), the JSON library being taken
    to read back the claims it has written.  And [validateJWT] rejects
    every token that is not of three parts whose third is the base64 of
    the HMAC-SHA256, under the secret, of the first two joined by a dot. *)
Theorem jwt_roundtrip :
  forall (userID : Z) (username secret : string) (expiresIn : Z)
         (now : Time) (jtiBytes : vec ascii 16),
    (let claims :=
       mkJWTClaims userID username
         (hex.EncodeToString (string_of_list_ascii (vec_to_list jtiBytes)))
         (Unix (now + expiresIn)) in
     json_Unmarshal (json_Marshal claims) = Some claims) ->
    (exists token claims,
        GenerateJWT (Some jtiBytes) now userID username secret expiresIn = Ok token
        /\ validateJWT token secret = Some claims
        /\ UserID claims = userID
        /\ Username claims = username
        /\ JTI claims <> EmptyString
        /\ ExpiresAt claims = (now + expiresIn) / 1000000000)
    /\ (forall token secret',
          (~ exists header payload,
               Split token "."%char
               = [header; payload;
                  base64.EncodeToString
                    (hmac_sha256 secret' (header ++ "." ++ payload))]) ->
          validateJWT token secret' = None).
Proof.
  intros userID username secret expiresIn now jtiBytes Hjson. split.
  - unfold middleware.GenerateJWT.
    set (jti := hex.EncodeToString _) in *.
    set (claims := mkJWTClaims userID username jti (Unix (now + expiresIn))) in *.
    set (header := base64.EncodeToString _).
    set (payload := base64.EncodeToString (json_Marshal claims)).
    eexists. exists claims. split; [reflexivity|].
    split; [|repeat split; [apply hex_nonempty]].
    apply validateJWT_Some. exists header, payload, (json_Marshal claims).
    split; [|split; [apply DecodeString_EncodeToString | exact Hjson]].
    assert (Hh : Contains header "."%char = false)
      by apply EncodeToString_no_dot.
    assert (Hp : Contains payload "."%char = false)
      by apply EncodeToString_no_dot.
    assert (Hs : Contains (createSignature (header ++ "." ++ payload) secret)
                   "."%char = false)
      by apply EncodeToString_no_dot.
    clearbody header payload.
    set (sig := createSignature (header ++ "." ++ payload) secret) in *.
    clearbody sig.
    replace ((header ++ "." ++ payload) ++ "." ++ sig)%string
      with (header ++ String "."%char (payload ++ String "."%char sig))%string.
    + now apply Split_three.
    + change (header ++ String "."%char (payload ++ String "."%char sig)
              = (header ++ String "."%char payload) ++ String "."%char sig)%string.
      now rewrite string_app_assoc.
  - intros token secret' Hno.
    destruct (validateJWT token secret') as [claims|] eqn:E; [|reflexivity].
    exfalso. apply Hno. apply validateJWT_Some in E.
    destruct E as (header & payload & _ & E & _). now exists header, payload.
Qed.

(** C5. The middleware answers 401 when and only when the Authorization
    header is missing, or is not [Bearer], one blank and a token, or the
    token fails validation, or its expiry is in the past, or its JTI (if
    it carries one) is revoked or the revocation check errors, or the
    lookup of its user fails; in every other case the request goes to the
    next handler, with the user, the user id, the username, the access
    token, the JTI and the expiry set in the context. *)
Theorem AuthMiddleware_unauthorized_iff :
  forall (secret : string) (env : Env) (authHeader : string),
    (AuthMiddleware secret env authHeader = ErrUnauthorized <->
       authHeader = EmptyString
       \/ (~ exists token, Split authHeader " "%char = ["Bearer"; token])
       \/ exists token,
            Split authHeader " "%char = ["Bearer"; token]
            /\ (validateJWT token secret = None
                \/ exists claims,
                     validateJWT token secret = Some claims
                     /\ (ExpiresAt claims < Unix (now env)
                         \/ (JTI claims <> EmptyString
                             /\ (revocation_check env (JTI claims) = Ok true
                                 \/ exists e,
                                      revocation_check env (JTI claims) = Err e))
                         \/ exists e, user_lookup env (UserID claims) = Err e)))
    /\ (AuthMiddleware secret env authHeader <> ErrUnauthorized ->
        exists token claims user,
          Split authHeader " "%char = ["Bearer"; token]
          /\ validateJWT token secret = Some claims
          /\ user_lookup env (UserID claims) = Ok user
          /\ AuthMiddleware secret env authHeader
             = Next (mkContext user (UserID claims) (Username claims)
                       (AccessToken user) (JTI claims) (ExpiresAt claims))).
Proof.
  intros secret env authHeader.
  unfold middleware.AuthMiddleware, revocation_check, user_lookup.
  destruct (String.eqb authHeader EmptyString) eqn:Eh.
  { apply String.eqb_eq in Eh. split; [split; auto | congruence]. }
  apply String.eqb_neq in Eh.
  destruct (Split authHeader " "%char) as [|p0 [|token [|x l]]] eqn:Es;
    try (split; [split; [intros _; right; left; intros [t Ht]; discriminate
                        | reflexivity]
                | congruence]).
  destruct (String.eqb p0 "Bearer") eqn:Eb; simpl.
  2:{ apply String.eqb_neq in Eb.
      split; [split; [intros _; right; left; intros [t Ht]; congruence
                     | reflexivity]
             | congruence]. }
  apply String.eqb_eq in Eb. subst p0.
  destruct (validateJWT token secret) as [claims|] eqn:Ev.
  2:{ split; [split; [intros _; right; right; exists token; auto | reflexivity]
             | congruence]. }
  destruct (ExpiresAt claims <? Unix (now env)) eqn:Ex.
  { apply Z.ltb_lt in Ex.
    split; [split; [intros _; right; right; exists token; split; [reflexivity|];
                    right; exists claims; auto
                   | reflexivity]
           | congruence]. }
  apply Z.ltb_ge in Ex.
  destruct (String.eqb (JTI claims) EmptyString) eqn:Ej; simpl.
  - apply String.eqb_eq in Ej.
    destruct (repository.GetByID _ _ _) as [user|e] eqn:Eu.
    + split.
      * split; [discriminate|].
        intros [H|[H|(t & Ht & H)]]; [congruence | destruct H; eauto |].
        inversion Ht; subst t.
        destruct H as [H|(c & Hc & H)]; [congruence|].
        assert (c = claims) by congruence. subst c.
        destruct H as [H|[[H _]|[e H]]]; [lia | congruence | congruence].
      * intros _. exists token, claims, user. auto.
    + split; [split; [intros _; right; right; exists token; split; [reflexivity|];
                      right; exists claims; split; [assumption|]; right; right;
                      eauto
                     | reflexivity]
             | congruence].
  - apply String.eqb_neq in Ej.
    destruct (repository.IsTokenRevoked _ _ _ _) as [[|]|e] eqn:Er.
    + split; [split; [intros _; right; right; exists token; split; [reflexivity|];
                      right; exists claims; split; [assumption|]; right; left;
                      auto
                     | reflexivity]
             | congruence].
    + destruct (repository.GetByID _ _ _) as [user|e] eqn:Eu.
      * split.
        -- split; [discriminate|].
           intros [H|[H|(t & Ht & H)]]; [congruence | destruct H; eauto |].
           inversion Ht; subst t.
           destruct H as [H|(c & Hc & H)]; [congruence|].
           assert (c = claims) by congruence. subst c.
           destruct H as [H|[[_ [H|[e H]]]|[e H]]]; [lia | congruence..].
        -- intros _. exists token, claims, user. auto.
      * split; [split; [intros _; right; right; exists token;
                        split; [reflexivity|];
                        right; exists claims; split; [assumption|]; right; right;
                        eauto
                       | reflexivity]
               | congruence].
    + split; [split; [intros _; right; right; exists token; split; [reflexivity|];
                      right; exists claims; split; [assumption|]; right; left;
                      split; [assumption|]; right; eauto
                     | reflexivity]
             | congruence].
Qed.

End MiddlewareFacts.

(** The token issued to the sample user. *)
Lemma jwt_roundtrip_witness :
  stand_in.json_Unmarshal (stand_in.json_Marshal stand_in.claims)
    = Some stand_in.claims
  /\ exists token claims,
       middleware.GenerateJWT stand_in.keyed_checksum stand_in.json_Marshal
         (Some stand_in.jtiBytes) 0 1 "octocat" stand_in.secret
         profile_service.day = Ok token
       /\ middleware.validateJWT stand_in.keyed_checksum stand_in.json_Unmarshal
            token stand_in.secret = Some claims
       /\ middleware.UserID claims = 1
       /\ middleware.Username claims = "octocat"
       /\ middleware.JTI claims <> EmptyString
       /\ middleware.ExpiresAt claims = (0 + profile_service.day) / 1000000000.
Proof.
  assert (H : stand_in.json_Unmarshal (stand_in.json_Marshal stand_in.claims)
              = Some stand_in.claims) by (vm_compute; reflexivity).
  split; [exact H|].
  exact (proj1 (jwt_roundtrip stand_in.keyed_checksum stand_in.json_Marshal
                  stand_in.json_Unmarshal 1 "octocat" stand_in.secret
                  profile_service.day 0 stand_in.jtiBytes H)).
Defined.

(** The middleware on the sample token: passed on before the expiry,
    answered 401 after it. *)
Example AuthMiddleware_sample :
  middleware.AuthMiddleware stand_in.keyed_checksum stand_in.json_Unmarshal
    stand_in.secret
    (middleware.mkEnv (5 * middleware.second) (5 * middleware.second) ∅
       stand_in.users None None)
    ("Bearer " ++ stand_in.token)
  = middleware.Next
      (middleware.mkContext samples.octocat 1 "octocat" "gho_token"
         stand_in.jti 86400)
  /\ middleware.AuthMiddleware stand_in.keyed_checksum stand_in.json_Unmarshal
       stand_in.secret
       (middleware.mkEnv (86401 * middleware.second) (86401 * middleware.second) ∅
          stand_in.users None None)
       ("Bearer " ++ stand_in.token)
     = middleware.ErrUnauthorized.
Proof. split; vm_compute; reflexivity. Qed.

(** ** Revocation over time (C2) *)

Section RevocationFacts.

Import middleware history.

Lemma revoked_key_inj (a b : string) :
  ("revoked:" ++ a)%string = ("revoked:" ++ b)%string -> a = b.
Proof. apply String.app_inj. Qed.

Lemma oauth_key_not_revoked (state jti : string) :
  ("oauth_state:" ++ state)%string <> ("revoked:" ++ jti)%string.
Proof.
  change ("oauth_state:" ++ state)%string
    with (String "o"%char ("auth_state:" ++ state)%string).
  change ("revoked:" ++ jti)%string
    with (String "r"%char ("evoked:" ++ jti)%string).
  discriminate.
Qed.

(** A logout answers 200 exactly when the write is made: no fault and a
    non-empty JTI; it then upserts the revocation row. *)
Lemma Logout_ok (fault : option error) (tbl : repository.Sessions)
    (jti : string) (exp : Z) :
  status (snd (handlers.Logout fault tbl (Some jti) (Some exp))) = StatusOK <->
  fault = None /\ jti <> EmptyString.
Proof.
  unfold handlers.Logout, services.RevokeSession, repository.RevokeToken.
  destruct (String.eqb jti EmptyString) eqn:E.
  - apply String.eqb_eq in E. simpl. split; [discriminate | tauto].
  - apply String.eqb_neq in E. destruct fault; simpl; split;
      try discriminate; try tauto. intros [H _]. discriminate.
Qed.

Lemma logged_out_Some (ev : Event) (jti : string) (e : Time) :
  logged_out ev = Some (jti, e) <->
  exists exp, ev = DoLogout None (Some jti) (Some exp)
              /\ jti <> EmptyString /\ e = time_Unix exp.
Proof.
  unfold logged_out. split.
  - destruct ev as [dt|fault [j|] [x|]|f s t|f s|f]; try discriminate.
    unfold handlers.Logout, services.RevokeSession, repository.RevokeToken.
    destruct (String.eqb j EmptyString) eqn:E; [discriminate|].
    apply String.eqb_neq in E.
    destruct fault; simpl; [discriminate|].
    intros H. inversion H; subst. eauto.
  - intros (exp & -> & Hne & ->).
    unfold handlers.Logout, services.RevokeSession, repository.RevokeToken.
    now rewrite (eqb_empty_false _ Hne).
Qed.

Lemma upsert_lookup_same tbl id ty val expiresAt :
  exists row,
    repository.upsert_session tbl id ty val expiresAt !! id = Some row
    /\ repository.expires_at row = expiresAt
    /\ repository.state_type row
       = match tbl !! id with
         | Some old => repository.state_type old
         | None => ty
         end.
Proof.
  unfold repository.upsert_session.
  destruct (tbl !! id) as [old|]; rewrite lookup_insert_eq; eauto.
Qed.

Lemma upsert_lookup_other tbl id id' ty val expiresAt :
  id <> id' ->
  repository.upsert_session tbl id ty val expiresAt !! id' = tbl !! id'.
Proof.
  intros Hne. unfold repository.upsert_session.
  destruct (tbl !! id); now rewrite lookup_insert_ne.
Qed.

Lemma exec_wf (w : World) (ev : Event) :
  wf_sessions (w_sessions w) -> wf_sessions (w_sessions (exec w ev)).
Proof.
  intros Hwf jti row. destruct ev as [dt|fault [j|] [x|]|f s t|f s|f]; simpl;
    try (now apply Hwf).
  - unfold handlers.Logout. destruct (String.eqb j EmptyString); [apply Hwf|].
    unfold services.RevokeSession, repository.RevokeToken.
    destruct fault; simpl; [apply Hwf|].
    destruct (decide (j = jti)) as [->|Hne].
    + destruct (upsert_lookup_same (w_sessions w) ("revoked:" ++ jti)%string
                  "revoked_token" "revoked" (time_Unix x))
        as (row' & Hrow & _ & Hty).
      rewrite Hrow. intros H. inversion H; subst row'. rewrite Hty.
      destruct (w_sessions w !! ("revoked:" ++ jti)%string) eqn:E;
        [now apply (Hwf jti) | reflexivity].
    + rewrite upsert_lookup_other; [apply Hwf|].
      intros H. apply Hne. now apply revoked_key_inj.
  - unfold handlers.Logout. destruct (String.eqb j EmptyString); apply Hwf.
  - unfold repository.CreateOAuthState. destruct f; simpl; [apply Hwf|].
    rewrite upsert_lookup_other by apply oauth_key_not_revoked. apply Hwf.
  - unfold repository.DeleteOAuthState. destruct f; simpl; [apply Hwf|].
    destruct (w_sessions w !! ("oauth_state:" ++ s)%string); [|apply Hwf].
    destruct (String.eqb _ _); simpl; [|apply Hwf].
    rewrite lookup_delete_ne by apply oauth_key_not_revoked. apply Hwf.
  - unfold repository.CleanupExpiredSessions. destruct f; simpl; [apply Hwf|].
    intros H. apply map_lookup_filter_Some in H as [H _]. now apply (Hwf jti).
Qed.

Lemma exec_records (w : World) (ev : Event) (jti : string) (e : Time) :
  wf_sessions (w_sessions w) ->
  logged_out ev = Some (jti, e) ->
  recorded (exec w ev) jti e.
Proof.
  intros Hwf H. apply logged_out_Some in H as (exp & -> & Hne & ->).
  left. simpl. unfold handlers.Logout.
  rewrite (eqb_empty_false _ Hne). simpl.
  destruct (upsert_lookup_same (w_sessions w) ("revoked:" ++ jti)%string
              "revoked_token" "revoked" (time_Unix exp))
    as (row' & Hrow & Hexp & Hty).
  exists row'. split; [exact Hrow|]. split; [|exact Hexp].
  rewrite Hty.
  destruct (w_sessions w !! ("revoked:" ++ jti)%string) eqn:E;
    [now apply (Hwf jti) | reflexivity].
Qed.

Lemma exec_keeps (w : World) (ev : Event) (jti : string) (e : Time) :
  (forall e', logged_out ev <> Some (jti, e')) ->
  recorded w jti e -> recorded (exec w ev) jti e.
Proof.
  intros Hother [(row & Hrow & Hty & Hexp)|Hpast].
  2:{ right. destruct ev; simpl; lia. }
  destruct ev as [dt|fault [j|] [x|]|f s t|f s|f]; simpl;
    try (left; exists row; now auto).
  - left. exists row. split; [|now auto]. unfold handlers.Logout.
    destruct (String.eqb j EmptyString) eqn:Ej; [exact Hrow|].
    apply String.eqb_neq in Ej.
    unfold services.RevokeSession, repository.RevokeToken.
    destruct fault as [err|]; simpl; [exact Hrow|].
    rewrite upsert_lookup_other; [exact Hrow|].
    intros H. apply revoked_key_inj in H. subst j.
    apply (Hother (time_Unix x)). apply logged_out_Some. eauto.
  - left. exists row. split; [|now auto]. unfold handlers.Logout.
    destruct (String.eqb j EmptyString); exact Hrow.
  - left. exists row. split; [|now auto].
    unfold repository.CreateOAuthState. destruct f; simpl; [exact Hrow|].
    now rewrite upsert_lookup_other by apply oauth_key_not_revoked.
  - left. exists row. split; [|now auto].
    unfold repository.DeleteOAuthState. destruct f; simpl; [exact Hrow|].
    destruct (w_sessions w !! ("oauth_state:" ++ s)%string); [|exact Hrow].
    destruct (String.eqb _ _); simpl; [|exact Hrow].
    now rewrite lookup_delete_ne by apply oauth_key_not_revoked.
  - unfold repository.CleanupExpiredSessions. destruct f; simpl;
      [left; exists row; now auto|].
    destruct (decide (repository.expires_at row < w_db_now w)) as [Hlt|Hge].
    + right. now subst e.
    + left. exists row. split; [|now auto].
      apply map_lookup_filter_Some. split; [exact Hrow | exact Hge].
Qed.

Lemma last_revocation_snoc (evs : list Event) (ev : Event) (jti : string) :
  last_revocation (evs ++ [ev]) jti
  = match logged_out ev with
    | Some (j, e) => if String.eqb j jti then Some e else last_revocation evs jti
    | None => last_revocation evs jti
    end.
Proof. unfold last_revocation. now rewrite fold_left_app. Qed.

(** The invariant of the table over every history. *)
Lemma history_invariant (w0 : World) (evs : list Event) :
  wf_sessions (w_sessions w0) ->
  wf_sessions (w_sessions (run w0 evs))
  /\ forall jti e, last_revocation evs jti = Some e -> recorded (run w0 evs) jti e.
Proof.
  intros Hwf0. induction evs as [|ev evs [IHwf IH]] using rev_ind.
  - split; [exact Hwf0 | discriminate].
  - unfold run in *. rewrite fold_left_app. simpl.
    split; [now apply exec_wf|].
    intros jti e. rewrite last_revocation_snoc.
    destruct (logged_out ev) as [[j e']|] eqn:El.
    + destruct (String.eqb j jti) eqn:Ej.
      * apply String.eqb_eq in Ej. subst j. intros H. inversion H; subst e'.
        now apply exec_records.
      * apply String.eqb_neq in Ej. intros H. apply exec_keeps; [|now apply IH].
        intros e'' H'. congruence.
    + intros H. apply exec_keeps; [|now apply IH]. intros e'' H'. congruence.
Qed.

Lemma last_revocation_app (pre post : list Event) (jti : string) :
  last_revocation (pre ++ post) jti
  = match last_revocation post jti with
    | Some e => Some e
    | None => last_revocation pre jti
    end.
Proof.
  induction post as [|ev post IH] using rev_ind.
  - now rewrite app_nil_r.
  - rewrite app_assoc, !last_revocation_snoc, IH.
    destruct (logged_out ev) as [[j e]|]; [|reflexivity].
    destruct (String.eqb j jti); [reflexivity|].
    reflexivity.
Qed.

Lemma last_revocation_nonempty (evs : list Event) (jti : string) (e : Time) :
  last_revocation evs jti = Some e -> jti <> EmptyString.
Proof.
  induction evs as [|ev evs IH] using rev_ind; [discriminate|].
  rewrite last_revocation_snoc.
  destruct (logged_out ev) as [[j e']|] eqn:El; [|exact IH].
  destruct (String.eqb j jti) eqn:Ej; [|exact IH].
  apply String.eqb_eq in Ej. subst j. intros _.
  apply logged_out_Some in El as (exp & _ & Hne & _). exact Hne.
Qed.

Variable hmac_sha256 : string -> string -> string.
Variable json_Unmarshal : string -> option JWTClaims.

Abbreviation validateJWT := (middleware.validateJWT hmac_sha256 json_Unmarshal).
Abbreviation AuthMiddleware :=
  (middleware.AuthMiddleware hmac_sha256 json_Unmarshal).

(** A request that reaches the next handler carries the JTI of its
    claims, and that JTI, if any, was found not revoked. *)
Lemma AuthMiddleware_Next (secret : string) (env : Env) (authHeader : string)
    (c : Context) :
  AuthMiddleware secret env authHeader = Next c ->
  exists token claims,
    Split authHeader " "%char = ["Bearer"; token]
    /\ validateJWT token secret = Some claims
    /\ ctx_jwt_jti c = JTI claims
    /\ (JTI claims <> EmptyString ->
        revocation_check env (JTI claims) = Ok false).
Proof.
  unfold middleware.AuthMiddleware, revocation_check.
  destruct (String.eqb authHeader EmptyString); [discriminate|].
  destruct (Split authHeader " "%char) as [|p0 [|token [|x l]]]; try discriminate.
  destruct (String.eqb p0 "Bearer") eqn:Eb; [|discriminate].
  apply String.eqb_eq in Eb. subst p0. simpl.
  destruct (validateJWT token secret) as [claims|] eqn:Ev; [|discriminate].
  destruct (ExpiresAt claims <? Unix (now env)); [discriminate|].
  destruct (String.eqb (JTI claims) EmptyString) eqn:Ej; simpl.
  - apply String.eqb_eq in Ej.
    destruct (repository.GetByID _ _ _); [|discriminate].
    intros H. inversion H; subst. exists token, claims. simpl.
    repeat split; try reflexivity; try assumption. intros Hne. now destruct Hne.
  - destruct (repository.IsTokenRevoked _ _ _ _) as [[|]|e] eqn:Er;
      try discriminate.
    destruct (repository.GetByID _ _ _); [|discriminate].
    intros H. inversion H; subst. exists token, claims. simpl.
    repeat split; auto.
Qed.

(** C2. Once [Logout] has answered 200 for a token, having recorded its
    JTI through [RevokeToken] with the token's expiry, then after any
    further history of the table (time passing, other logouts, OAuth
    states created and deleted, clean-ups, with or without faults), and
    for as long as the recorded expiry is in the future on the database
    clock, the middleware answers 401 to every request that presents a
    token with that JTI, and passes no request on with that JTI. *)
Theorem revocation_is_effective :
  forall (secret : string) (w0 : World) (pre post : list Event)
         (fault : option error) (jti : string) (exp : Z),
    wf_sessions (w_sessions w0) ->
    status (snd (handlers.Logout fault (w_sessions (run w0 pre))
                   (Some jti) (Some exp))) = StatusOK ->
    let evs := (pre ++ DoLogout fault (Some jti) (Some exp) :: post)%list in
    let w := run w0 evs in
    exists e,
      last_revocation evs jti = Some e
      /\ (last_revocation post jti = None -> e = time_Unix exp)
      /\ (w_db_now w < e ->
          forall (app_now : Time) (users : repository.Users)
                 (f1 f2 : option error) (authHeader : string),
            let env := mkEnv app_now (w_db_now w) (w_sessions w) users f1 f2 in
            (forall token claims,
                Split authHeader " "%char = ["Bearer"; token] ->
                validateJWT token secret = Some claims ->
                JTI claims = jti ->
                AuthMiddleware secret env authHeader = ErrUnauthorized)
            /\ (forall c,
                  AuthMiddleware secret env authHeader = Next c ->
                  ctx_jwt_jti c <> jti)).
Proof.
  intros secret w0 pre post fault jti exp Hwf Hok evs w.
  apply Logout_ok in Hok as [-> Hne].
  assert (Hlast : exists e,
            last_revocation evs jti = Some e
            /\ (last_revocation post jti = None -> e = time_Unix exp)).
  { subst evs.
    change (DoLogout None (Some jti) (Some exp) :: post)
      with ([DoLogout None (Some jti) (Some exp)] ++ post)%list.
    rewrite app_assoc, last_revocation_app, last_revocation_snoc.
    assert (El : logged_out (DoLogout None (Some jti) (Some exp))
                 = Some (jti, time_Unix exp))
      by (apply logged_out_Some; eauto).
    rewrite El, String.eqb_refl.
    destruct (last_revocation post jti) as [e|]; eauto.
    eexists. split; [reflexivity | discriminate]. }
  destruct Hlast as (e & Hlast & He). exists e. split; [exact Hlast|].
  split; [exact He|].
  intros Hfuture app_now users f1 f2 authHeader env.
  destruct (history_invariant w0 evs Hwf) as [_ Hinv].
  assert (Hrev : revocation_check env jti <> Ok false).
  { unfold revocation_check, repository.IsTokenRevoked. simpl.
    destruct f1; [discriminate|].
    destruct (Hinv jti e Hlast) as [(row & Hrow & Hty & Hexp)|Hpast];
      [|fold w in Hpast; lia].
    fold w in Hrow. rewrite Hrow, Hty, Hexp. simpl.
    apply Z.ltb_lt in Hfuture. rewrite Hfuture. discriminate. }
  assert (Hnext : forall c,
            AuthMiddleware secret env authHeader = Next c -> ctx_jwt_jti c <> jti).
  { intros c Hc Heq.
    apply AuthMiddleware_Next in Hc as (token & claims & _ & _ & Hj & Hchk).
    rewrite Hj in Heq. subst jti. now apply Hrev, Hchk. }
  split; [|exact Hnext].
  intros token claims Hsplit Hval Hj.
  destruct (AuthMiddleware secret env authHeader) as [|c] eqn:E; [reflexivity|].
  exfalso. apply (Hnext c eq_refl).
  apply AuthMiddleware_Next in E as (token' & claims' & Hs' & Hv' & Hj' & _).
  rewrite Hsplit in Hs'. inversion Hs'; subst token'.
  rewrite Hval in Hv'. inversion Hv'; subst claims'. congruence.
Qed.

End RevocationFacts.

Lemma wf_sessions_empty : history.wf_sessions ∅.
Proof. intros jti row H. now rewrite lookup_empty in H. Qed.

(** The sample history: the token is refused an hour after the logout,
    though it is good for 24 hours. *)
Lemma revocation_is_effective_witness :
  history.wf_sessions (history.w_sessions stand_in.world0)
  /\ status (snd (handlers.Logout None
                    (history.w_sessions
                       (history.run stand_in.world0 stand_in.before_logout))
                    (Some stand_in.jti) (Some 86400))) = StatusOK
  /\ history.w_db_now stand_in.world1 < middleware.time_Unix 86400
  /\ middleware.AuthMiddleware stand_in.keyed_checksum stand_in.json_Unmarshal
       stand_in.secret
       (middleware.mkEnv (history.w_db_now stand_in.world1)
          (history.w_db_now stand_in.world1)
          (history.w_sessions stand_in.world1) stand_in.users None None)
       ("Bearer " ++ stand_in.token)
     = middleware.ErrUnauthorized.
Proof.
  assert (Hwf : history.wf_sessions (history.w_sessions stand_in.world0))
    by apply wf_sessions_empty.
  assert (Hok : status (snd (handlers.Logout None
                               (history.w_sessions
                                  (history.run stand_in.world0
                                     stand_in.before_logout))
                               (Some stand_in.jti) (Some 86400))) = StatusOK)
    by reflexivity.
  assert (Hnow : history.w_db_now stand_in.world1 < middleware.time_Unix 86400)
    by (vm_compute; reflexivity).
  split; [exact Hwf|]. split; [exact Hok|]. split; [exact Hnow|].
  destruct (revocation_is_effective stand_in.keyed_checksum
              stand_in.json_Unmarshal stand_in.secret stand_in.world0
              stand_in.before_logout stand_in.after_logout None stand_in.jti
              86400 Hwf Hok) as (e & _ & He & Hrej).
  assert (Ee : e = middleware.time_Unix 86400) by (apply He; reflexivity).
  subst e.
  refine (proj1 (Hrej Hnow (history.w_db_now stand_in.world1) stand_in.users
                   None None ("Bearer " ++ stand_in.token))
            stand_in.token stand_in.claims _ _ _).
  - vm_compute; reflexivity.
  - vm_compute; reflexivity.
  - reflexivity.
Defined.

(** ** The progress channel (C8) *)

Section ChannelFacts.

Import websocket.

(** On an open channel the closure [send] completes at once: it enqueues
    the update when the buffer has room and leaves the channel as it is
    when the buffer is full. *)
Lemma send_open (ch : Chan ProgressUpdate) (stage pct msg : string) :
  closed ch = false ->
  exists ch',
    send ch stage pct msg = Some ch'
    /\ cap ch' = cap ch /\ closed ch' = false
    /\ ((length (buf ch) < cap ch)%nat ->
        buf ch' = (buf ch ++ [mkProgressUpdate stage pct msg EmptyString])%list)
    /\ ((cap ch <= length (buf ch))%nat -> ch' = ch).
Proof.
  intros Hopen. unfold send, chan_send. rewrite Hopen.
  destruct (length (buf ch) <? cap ch)%nat eqn:E.
  - apply Nat.ltb_lt in E. eexists. split; [reflexivity|]. simpl.
    repeat split; auto. lia.
  - apply Nat.ltb_ge in E. exists ch. repeat split; auto. lia.
Qed.

Lemma send_at_invariant (s s' : State) (stage pct msg : string)
    (next : ProducerPC) :
  channel_invariant s -> before_close (pc s) = true ->
  before_close next = true ->
  send_at s stage pct msg next = Some s' -> channel_invariant s'.
Proof.
  intros (Hcap & Hlen & Hcl) Hpc Hnext. unfold send_at.
  rewrite Hpc in Hcl. simpl in Hcl.
  destruct (send_open (progressCh s) stage pct msg Hcl)
    as (ch' & -> & Hcap' & Hcl' & Hroom & Hfull).
  intros H. inversion H; subst s'. unfold channel_invariant. simpl.
  rewrite Hnext, Hcap', Hcap. repeat split; auto.
  destruct (Nat.lt_ge_cases (length (buf (progressCh s))) (cap (progressCh s)))
    as [Hlt|Hge].
  - rewrite (Hroom Hlt), length_app. simpl. lia.
  - now rewrite (Hfull Hge).
Qed.

Lemma step_invariant (nprojects : nat) (s s' : State) (m : Move) :
  channel_invariant s -> step nprojects s m = Some s' -> channel_invariant s'.
Proof.
  intros Hinv. pose proof Hinv as (Hcap & Hlen & Hcl).
  destruct m as [ok|write_ok| |]; simpl.
  - destruct (pc s) eqn:Epc;
      try (apply send_at_invariant; [exact Hinv | now rewrite Epc | reflexivity]).
    + intros H. inversion H; subst s'. unfold channel_invariant. simpl.
      simpl in Hcl.
      repeat split; auto. now destruct ok.
    + simpl in Hcl. rewrite Hcl.
      intros H. inversion H; subst s'. unfold channel_invariant. simpl. auto.
    + destruct (consumer_running s); [discriminate|].
      intros H. inversion H; subst s'. unfold channel_invariant. simpl.
      auto.
    + discriminate.
  - destruct (consumer_running s); [|discriminate].
    destruct (buf (progressCh s)) as [|update rest] eqn:Eb; [discriminate|].
    intros H. inversion H; subst s'. unfold channel_invariant. simpl.
    simpl in Hlen. repeat split; auto. lia.
  - destruct (_ && _ && _); [|discriminate].
    intros H. inversion H; subst s'. exact Hinv.
  - destruct (consumer_running s); [|discriminate].
    intros H. inversion H; subst s'. exact Hinv.
Qed.

Lemma reachable_invariant (nprojects : nat) (s : State) :
  reachable nprojects s -> channel_invariant s.
Proof.
  induction 1 as [|s m s' _ IH Hstep].
  - unfold channel_invariant. simpl. repeat split; auto. lia.
  - exact (step_invariant nprojects s s' m IH Hstep).
Qed.

(** C8. The progress channel is created with capacity 10 and never holds
    more.  A send of [generateWithProgress] never waits: on every open
    channel, whatever its buffer holds, the closure [send] completes at
    once, enqueueing the update when the buffer has room and dropping it,
    the channel left as it is, when the buffer is full; so in every state
    in which the handler stands at one of its four sends with the channel
    open, full buffer or not, and whatever the writer goroutine has or
    has not taken, the handler can make its move.  And in every state the
    handler can reach, the channel is open at each send and holds at most
    ten updates.  (The plain send statement, for comparison, cannot be
    made on a full buffer.) *)
Theorem progress_channel_never_blocks_the_producer :
  cap (progressCh initial) = 10%nat
  /\ buf (progressCh initial) = []
  /\ (forall (nprojects : nat) (s : State),
        reachable nprojects s ->
        cap (progressCh s) = 10%nat
        /\ (length (buf (progressCh s)) <= 10)%nat
        /\ (at_send (pc s) = true ->
            forall ok, exists s',
              step nprojects s (Produce ok) = Some s'
              /\ consumer_running s' = consumer_running s
              /\ written s' = written s
              /\ ((length (buf (progressCh s)) < 10)%nat ->
                  exists update,
                    buf (progressCh s') = (buf (progressCh s) ++ [update])%list)
              /\ (length (buf (progressCh s)) = 10%nat ->
                  progressCh s' = progressCh s)))
  /\ (forall (ch : Chan ProgressUpdate) (update : ProgressUpdate),
        closed ch = false -> (cap ch <= length (buf ch))%nat ->
        blocking_send ch update = None)
  /\ (forall (ch : Chan ProgressUpdate) (stage pct msg : string),
        closed ch = false ->
        ((length (buf ch) < cap ch)%nat ->
         send ch stage pct msg
         = Some (mkChan (buf ch ++ [mkProgressUpdate stage pct msg EmptyString])
                   (cap ch) false))
        /\ ((cap ch <= length (buf ch))%nat ->
            send ch stage pct msg = Some ch))
  /\ (forall (nprojects : nat) (s : State),
        closed (progressCh s) = false -> at_send (pc s) = true ->
        forall ok, exists s',
          step nprojects s (Produce ok) = Some s'
          /\ consumer_running s' = consumer_running s
          /\ written s' = written s
          /\ cap (progressCh s') = cap (progressCh s)
          /\ ((length (buf (progressCh s)) < cap (progressCh s))%nat ->
              exists update,
                buf (progressCh s') = (buf (progressCh s) ++ [update])%list)
          /\ ((cap (progressCh s) <= length (buf (progressCh s)))%nat ->
              progressCh s' = progressCh s))
  /\ (forall (nprojects : nat) (s : State),
        reachable nprojects s -> at_send (pc s) = true ->
        closed (progressCh s) = false).
Proof.
  assert (Hsend : forall (ch : Chan ProgressUpdate) (stage pct msg : string),
            closed ch = false ->
            ((length (buf ch) < cap ch)%nat ->
             send ch stage pct msg
             = Some (mkChan (buf ch ++ [mkProgressUpdate stage pct msg EmptyString])
                       (cap ch) false))
            /\ ((cap ch <= length (buf ch))%nat ->
                send ch stage pct msg = Some ch)).
  { intros ch stage pct msg Hopen. unfold send, chan_send. rewrite Hopen.
    split; intros H.
    - apply Nat.ltb_lt in H. now rewrite H.
    - apply Nat.ltb_ge in H. now rewrite H. }
  assert (Hmove : forall (nprojects : nat) (s : State),
            closed (progressCh s) = false -> at_send (pc s) = true ->
            forall ok, exists s',
              step nprojects s (Produce ok) = Some s'
              /\ consumer_running s' = consumer_running s
              /\ written s' = written s
              /\ cap (progressCh s') = cap (progressCh s)
              /\ ((length (buf (progressCh s)) < cap (progressCh s))%nat ->
                  exists update,
                    buf (progressCh s') = (buf (progressCh s) ++ [update])%list)
              /\ ((cap (progressCh s) <= length (buf (progressCh s)))%nat ->
                  progressCh s' = progressCh s)).
  { intros nprojects s Hopen Hat ok.
    assert (Hgen : forall stage pct msg next,
               exists s',
                 send_at s stage pct msg next = Some s'
                 /\ consumer_running s' = consumer_running s
                 /\ written s' = written s
                 /\ cap (progressCh s') = cap (progressCh s)
                 /\ ((length (buf (progressCh s)) < cap (progressCh s))%nat ->
                     exists update,
                       buf (progressCh s') = (buf (progressCh s) ++ [update])%list)
                 /\ ((cap (progressCh s) <= length (buf (progressCh s)))%nat ->
                     progressCh s' = progressCh s)).
    { intros stage pct msg next. unfold send_at.
      destruct (send_open (progressCh s) stage pct msg Hopen)
        as (ch' & -> & Hcap' & _ & Hroom & Hfull).
      eexists. split; [reflexivity|]. cbn [consumer_running written progressCh].
      repeat split; [exact Hcap' | | exact Hfull].
      intros Hlt. eexists. now apply Hroom. }
    destruct (pc s) eqn:Epc; try discriminate; cbn [step]; rewrite Epc;
      apply Hgen. }
  assert (Hopen_at : forall (nprojects : nat) (s : State),
            reachable nprojects s -> at_send (pc s) = true ->
            closed (progressCh s) = false).
  { intros nprojects s Hreach Hat.
    destruct (reachable_invariant nprojects s Hreach) as (_ & _ & Hcl).
    rewrite Hcl. destruct (pc s); cbn in *; congruence. }
  split; [reflexivity|]. split; [reflexivity|]. split; [|split; [|split; [|split]]].
  - intros nprojects s Hreach.
    destruct (reachable_invariant nprojects s Hreach) as (Hcap & Hlen & Hcl).
    split; [exact Hcap|]. split; [exact Hlen|].
    intros Hat ok.
    destruct (Hmove nprojects s (Hopen_at nprojects s Hreach Hat) Hat ok)
      as (s' & Hs & Hrun & Hwr & _ & Hroom & Hfull).
    exists s'. rewrite Hcap in Hroom, Hfull.
    split; [exact Hs|]. split; [exact Hrun|]. split; [exact Hwr|].
    split; [exact Hroom|]. intros Heq. apply Hfull. lia.
  - intros ch update Hopen Hfull. unfold blocking_send, chan_send.
    rewrite Hopen. apply Nat.ltb_ge in Hfull. now rewrite Hfull.
  - exact Hsend.
  - exact Hmove.
  - exact Hopen_at.
Qed.

End ChannelFacts.

(** The third send with a writer that has not run; and a send with the
    buffer full, as no run of the handler has it, where the handler
    still makes its move and the update is dropped. *)
Lemma progress_channel_never_blocks_the_producer_witness :
  websocket.reachable 1 samples.after_two_sends
  /\ websocket.at_send (websocket.pc samples.after_two_sends) = true
  /\ (exists s',
        websocket.step 1 samples.after_two_sends (websocket.Produce true) = Some s'
        /\ length (websocket.buf (websocket.progressCh s')) = 3%nat)
  /\ websocket.send samples.full_channel "finalizing" "0.95"
       "Assembling final profile..." = Some samples.full_channel
  /\ websocket.blocking_send samples.full_channel
       (websocket.mkProgressUpdate "finalizing" "0.95"
          "Assembling final profile..." EmptyString) = None
  /\ (exists s',
        websocket.step 1
          (websocket.mkState samples.full_channel websocket.SendFinalizing true [])
          (websocket.Produce true) = Some s'
        /\ websocket.progressCh s' = samples.full_channel).
Proof.
  assert (Hreach : websocket.reachable 1 samples.after_two_sends).
  { eapply websocket.reach_step with (m := websocket.Produce true);
      [eapply websocket.reach_step with (m := websocket.Produce true);
         [apply websocket.reach_initial | reflexivity]
      | reflexivity]. }
  assert (Hat : websocket.at_send (websocket.pc samples.after_two_sends) = true)
    by reflexivity.
  assert (Hopen : websocket.closed samples.full_channel = false) by reflexivity.
  assert (Hfull : (websocket.cap samples.full_channel
                   <= length (websocket.buf samples.full_channel))%nat)
    by (cbn; lia).
  split; [exact Hreach|]. split; [exact Hat|].
  destruct progress_channel_never_blocks_the_producer
    as (_ & _ & Hstep & Hblock & Hsend & Hmove & _).
  destruct (Hstep 1%nat samples.after_two_sends Hreach) as (_ & _ & Hnext).
  destruct (Hnext Hat true) as (s' & Hs' & _ & _ & Hroom & _).
  split; [|split; [|split]].
  - exists s'. split; [exact Hs'|].
    destruct Hroom as [update Hu]; [simpl; lia|].
    rewrite Hu, length_app. reflexivity.
  - exact (proj2 (Hsend samples.full_channel "finalizing" "0.95"
                    "Assembling final profile..." Hopen) Hfull).
  - apply Hblock; [exact Hopen | exact Hfull].
  - destruct (Hmove 1%nat
                (websocket.mkState samples.full_channel websocket.SendFinalizing
                   true [])
                Hopen eq_refl true) as (s2 & Hs2 & _ & _ & _ & _ & Hdrop).
    exists s2. split; [exact Hs2 | exact (Hdrop Hfull)].
Defined.

(** ** The assembled document and the order of map iteration (C1) *)

Section DocumentFacts.

Import profile_service.

Lemma fair_ascending : fair ascending.
Proof. intros A l. reflexivity. Qed.

Lemma fair_descending : fair descending.
Proof. intros A l. unfold descending. symmetry. apply Permutation_rev. Qed.

Lemma alias_pairs_ok : pairwise same_alias (map_to_list aliases) = true.
Proof. vm_compute. reflexivity. Qed.
Lemma catalog_ok : pairwise same_badge (map_to_list (buildBadgeCatalog ascending)) = true.
Proof. vm_compute. reflexivity. Qed.

Lemma badge_eqb_eq a b : badge_eqb a b = true -> a = b.
Proof.
  destruct a, b. unfold badge_eqb. cbn [Badge_Name URL Color]. intros H.
  apply andb_prop in H as [H H3]. apply andb_prop in H as [H1 H2].
  apply String.eqb_eq in H1, H2, H3. subst. reflexivity.
Qed.

Lemma pairwise_In {A} (P : A -> A -> bool) (l : list A) a b :
  pairwise P l = true -> In a l -> In b l -> P a b = true.
Proof.
  unfold pairwise. intros H Ha Hb.
  pose proof (proj1 (forallb_forall _ _) H a Ha) as H'.
  exact (proj1 (forallb_forall _ _) H' b Hb).
Qed.

Lemma alias_pairs (a b : string * string) :
  In a (map_to_list aliases) -> In b (map_to_list aliases) ->
  ToLower (fst a) = ToLower (fst b) -> a = b.
Proof.
  intros Ha Hb E.
  pose proof (pairwise_In same_alias _ a b alias_pairs_ok Ha Hb) as Hab.
  clear Ha Hb.
  unfold same_alias in Hab. apply String.eqb_eq in E. rewrite E in Hab.
  cbn [implb] in Hab. apply andb_prop in Hab as [H1 H2].
  apply String.eqb_eq in H1, H2. destruct a, b. 
  cbn [fst snd] in *. subst. reflexivity.
Qed.

Lemma fold_left_perm {A S : Type} (f : S -> A -> S) (l l' : list A) :
  (forall a b m, In a l -> In b l -> f (f m a) b = f (f m b) a) ->
  Permutation l l' -> forall m, fold_left f l m = fold_left f l' m.
Proof.
  intros Hc Hp. induction Hp as [|x l l' Hp IH|x y l|l l' l'' Hp1 IH1 Hp2 IH2];
    intros m; simpl.
  - reflexivity.
  - apply IH. intros a b m' Ha Hb. apply Hc; now right.
  - rewrite Hc; [reflexivity | now left | right; now left].
  - rewrite IH1 by assumption. apply IH2.
    intros a b m' Ha Hb. apply Hc; eapply Permutation_in; try eassumption;
      now symmetry.
Qed.

Lemma catalog_order_free (o : MapOrder) :
  fair o -> buildBadgeCatalog o = buildBadgeCatalog ascending.
Proof.
  intros Hfair. unfold buildBadgeCatalog.
  generalize (fold_left
      (fun (acc : gmap string Badge * gmap string Badge) e =>
         (<[ToLower (Badge_Name e) := e]> (fst acc),
          <[ToLower (Badge_Name e) := e]> (snd acc)))
      entries (∅, ∅)).
  intros [byName m0].
  unfold range, ascending. symmetry. apply fold_left_perm; [|symmetry; apply Hfair].
  intros a b m Ha Hb.
  destruct (decide (ToLower (fst a) = ToLower (fst b))) as [E|E].
  - rewrite (alias_pairs a b Ha Hb E). reflexivity.
  - clear Ha Hb.
    destruct (byName !! ToLower (snd a)), (byName !! ToLower (snd b));
      try reflexivity.
    apply insert_insert_ne. congruence.
Qed.

Lemma catalog_functional (k1 k2 : string) (b1 b2 : Badge) :
  buildBadgeCatalog ascending !! k1 = Some b1 ->
  buildBadgeCatalog ascending !! k2 = Some b2 ->
  Badge_Name b1 = Badge_Name b2 -> b1 = b2.
Proof.
  intros H1 H2 Hn.
  apply elem_of_map_to_list, list_elem_of_In in H1.
  apply elem_of_map_to_list, list_elem_of_In in H2.
  pose proof (pairwise_In same_badge _ _ _ catalog_ok H1 H2) as H.
  clear H1 H2. unfold same_badge in H. cbn [snd] in H.
  apply String.eqb_eq in Hn. rewrite Hn in H. cbn [implb] in H.
  apply badge_eqb_eq. exact H.
Qed.

Section Adds.

Variable C : gmap string Badge.
Hypothesis C_functional :
  forall k1 k2 b1 b2,
    C !! k1 = Some b1 -> C !! k2 = Some b2 ->
    Badge_Name b1 = Badge_Name b2 -> b1 = b2.

Lemma add_comm (m : gmap string Badge) (k1 k2 : string) :
  add C (add C m k1) k2 = add C (add C m k2) k1.
Proof.
  unfold add.
  destruct (C !! ToLower k1) as [b1|] eqn:E1;
    destruct (C !! ToLower k2) as [b2|] eqn:E2; try reflexivity.
  destruct (decide (Badge_Name b1 = Badge_Name b2)) as [En|En].
  - assert (b1 = b2) by (eapply C_functional; eassumption). subst b2.
    reflexivity.
  - destruct (m !! Badge_Name b1) eqn:M1; destruct (m !! Badge_Name b2) eqn:M2;
      rewrite ?lookup_insert_ne, ?M1, ?M2 by congruence; try reflexivity.
    apply insert_insert_ne. congruence.
Qed.

Lemma fold_left_swap {A S : Type} (g : S -> A -> S) (l1 l2 : list A) (m : S) :
  (forall a b m, g (g m a) b = g (g m b) a) ->
  fold_left g l1 (fold_left g l2 m) = fold_left g l2 (fold_left g l1 m).
Proof.
  intros Hc. rewrite <- !fold_left_app.
  apply fold_left_perm; [intros; apply Hc | apply Permutation_app_comm].
Qed.

Lemma range_perm {A : Type} (o1 o2 : MapOrder) (m : gmap string A) :
  fair o1 -> fair o2 -> Permutation (range o1 m) (range o2 m).
Proof.
  intros H1 H2. unfold range. rewrite (H1 A (map_to_list m)).
  symmetry. apply H2.
Qed.

Lemma languages_order_free (o1 o2 : MapOrder) (projects : list RepositoryAnalysis) :
  fair o1 -> fair o2 ->
  forall badgeMap,
    fold_left
      (fun badgeMap p =>
         fold_left (fun badgeMap (kv : string * Z) => add C badgeMap (fst kv))
           (range o1 (Languages p)) badgeMap)
      projects badgeMap
    = fold_left
        (fun badgeMap p =>
           fold_left (fun badgeMap (kv : string * Z) => add C badgeMap (fst kv))
             (range o2 (Languages p)) badgeMap)
        projects badgeMap.
Proof.
  intros H1 H2. induction projects as [|p projects IH]; intros badgeMap;
    [reflexivity|].
  cbn [fold_left]. rewrite IH. f_equal.
  apply fold_left_perm; [|now apply range_perm].
  intros a b m _ _. apply add_comm.
Qed.

Lemma dependencies_order_free (o1 o2 : MapOrder) (projects : list RepositoryAnalysis) :
  fair o1 -> fair o2 ->
  forall badgeMap,
    fold_left
      (fun badgeMap p =>
         fold_left
           (fun badgeMap (kv : string * list string) =>
              fold_left (fun badgeMap dep => add C badgeMap (dependency_key dep))
                (snd kv) badgeMap)
           (range o1 (Dependencies p)) badgeMap)
      projects badgeMap
    = fold_left
        (fun badgeMap p =>
           fold_left
             (fun badgeMap (kv : string * list string) =>
                fold_left (fun badgeMap dep => add C badgeMap (dependency_key dep))
                  (snd kv) badgeMap)
             (range o2 (Dependencies p)) badgeMap)
        projects badgeMap.
Proof.
  intros H1 H2. induction projects as [|p projects IH]; intros badgeMap;
    [reflexivity|].
  cbn [fold_left]. rewrite IH. f_equal.
  apply fold_left_perm; [|now apply range_perm].
  intros a b m _ _. apply fold_left_swap. intros x y m'. apply add_comm.
Qed.

End Adds.

(** Whatever the order of map iteration, a run returns the same badges:
    two runs on the same inputs differ in the order of the badge slice
    only. *)
Lemma badges_up_to_order (o1 o2 : MapOrder)
    (projects : list RepositoryAnalysis) (llmSkills emphasizedSkills : list string) :
  fair o1 -> fair o2 ->
  Permutation
    (buildBadgesFromProjectData o1 projects llmSkills emphasizedSkills)
    (buildBadgesFromProjectData o2 projects llmSkills emphasizedSkills).
Proof.
  intros H1 H2. unfold buildBadgesFromProjectData.
  rewrite (catalog_order_free o1 H1), (catalog_order_free o2 H2).
  cbv zeta.
  rewrite (languages_order_free _ catalog_functional o1 o2 projects H1 H2).
  rewrite (dependencies_order_free _ catalog_functional o1 o2 projects H1 H2).
  apply Permutation_map. now apply range_perm.
Qed.

(** C1, on the sample request (emphasized skills go and python, one
    project in Go, the skill docker extracted by the model): two runs that
    differ only in the order in which [range] visits the maps return the
    same three badges in different orders, and Markdown documents that
    differ (the badges of the group Languages are written in the order
    of the badge slice). *)
Theorem same_inputs_two_documents :
  let run o :=
    GenerateProfile samples.GenerateBatchedProfile o None None ∅ 0
      samples.request1 samples.octocat in
  fair ascending /\ fair descending
  /\ exists r1 r2,
       fst (fst (run ascending)) = Ok r1
       /\ fst (fst (run descending)) = Ok r2
       /\ SuggestedBadges r1
          = [B "Go" "00ADD8"; B "Docker" "2496ED"; B "Python" "3776AB"]
       /\ SuggestedBadges r2
          = [B "Python" "3776AB"; B "Docker" "2496ED"; B "Go" "00ADD8"]
       /\ Markdown r1 <> Markdown r2.
Proof.
  intros run. split; [apply fair_ascending|]. split; [apply fair_descending|].
  destruct (fst (fst (run ascending))) as [r1|e1] eqn:E1;
    [|vm_compute in E1; discriminate].
  destruct (fst (fst (run descending))) as [r2|e2] eqn:E2;
    [|vm_compute in E2; discriminate].
  exists r1, r2. split; [reflexivity|]. split; [reflexivity|].
  assert (H1 : Ok r1 = fst (fst (run ascending))) by (symmetry; exact E1).
  assert (H2 : Ok r2 = fst (fst (run descending))) by (symmetry; exact E2).
  vm_compute in H1. vm_compute in H2.
  inversion H1; subst r1. inversion H2; subst r2. clear.
  split; [reflexivity|]. split; [reflexivity|].
  apply String.eqb_neq. vm_compute. reflexivity.
Qed.

End DocumentFacts.

(** ** The table of sessions: OAuth states, clean-up, logout *)

Section SessionTableFacts.

Import repository.

(** X1. An OAuth state that has been stored is valid exactly until its
    expiry and not after its deletion; storing and deleting it change the
    answer for no other state and for no JTI. *)
Theorem oauth_state_lifecycle :
  forall (tbl : Sessions) (state : string) (expiresAt now : Time),
    (forall row, tbl !! ("oauth_state:" ++ state)%string = Some row ->
                 state_type row = "oauth_state") ->
    let tbl1 := fst (CreateOAuthState None tbl state expiresAt) in
    let tbl2 := fst (DeleteOAuthState None tbl1 state) in
    ValidateOAuthState None tbl1 now state = Ok (now <? expiresAt)
    /\ ValidateOAuthState None tbl2 now state = Ok false
    /\ (forall other, other <> state ->
          ValidateOAuthState None tbl1 now other
          = ValidateOAuthState None tbl now other
          /\ ValidateOAuthState None tbl2 now other
             = ValidateOAuthState None tbl now other)
    /\ (forall jti,
          IsTokenRevoked None tbl1 now jti = IsTokenRevoked None tbl now jti
          /\ IsTokenRevoked None tbl2 now jti = IsTokenRevoked None tbl now jti).
Proof.
  intros tbl state expiresAt now Hwf tbl1 tbl2.
  set (id := ("oauth_state:" ++ state)%string) in *.
  destruct (upsert_lookup_same tbl id "oauth_state" "valid" expiresAt)
    as (row & Hrow & Hexp & Hty).
  assert (Hty' : state_type row = "oauth_state").
  { rewrite Hty. destruct (tbl !! id) as [old|] eqn:E; [now apply Hwf | reflexivity]. }
  assert (Hval : state_value row = "valid").
  { revert Hrow. unfold upsert_session.
    destruct (tbl !! id); rewrite lookup_insert_eq; intros H; inversion H;
      reflexivity. }
  assert (E1 : tbl1 = upsert_session tbl id "oauth_state" "valid" expiresAt)
    by reflexivity.
  assert (E2 : tbl2 = delete id tbl1).
  { subst tbl2. unfold DeleteOAuthState. fold id. rewrite E1, Hrow, Hty'.
    reflexivity. }
  assert (Hkey : forall other, other <> state ->
            id <> ("oauth_state:" ++ other)%string).
  { intros other Hne H. apply Hne. symmetry.
    now apply (String.app_inj "oauth_state:"). }
  split; [|split; [|split]].
  - unfold ValidateOAuthState. fold id. rewrite E1, Hrow, Hty', Hexp, Hval.
    simpl. now destruct (now <? expiresAt).
  - unfold ValidateOAuthState. fold id. rewrite E2, lookup_delete_eq.
    reflexivity.
  - intros other Hne. unfold ValidateOAuthState.
    rewrite E2, lookup_delete_ne by now apply Hkey.
    rewrite E1, upsert_lookup_other by now apply Hkey. split; reflexivity.
  - intros jti. unfold IsTokenRevoked.
    rewrite E2, lookup_delete_ne by apply oauth_key_not_revoked.
    rewrite E1, upsert_lookup_other by apply oauth_key_not_revoked.
    split; reflexivity.
Qed.

(** X2. The clean-up removes the rows whose expiry lies before the
    database clock and no other, and adds none.  The two readers that
    decide a request, the revocation check and the validation of an
    OAuth state, answer then and later as they would have without it.
    [GetStats] does not: it counts the rows the clean-up removes, so at
    the instant of a clean-up its count of expired rows is zero, and was
    not if a row had lapsed. *)
Theorem cleanup_removes_the_lapsed_rows_only :
  forall (tbl : Sessions) (now now' : Time),
    now <= now' ->
    let tbl' := fst (CleanupExpiredSessions None tbl now) in
    (forall id row,
        tbl' !! id = Some row <-> tbl !! id = Some row /\ now <= expires_at row)
    /\ (forall jti,
          IsTokenRevoked None tbl' now' jti = IsTokenRevoked None tbl now' jti)
    /\ (forall state,
          ValidateOAuthState None tbl' now' state
          = ValidateOAuthState None tbl now' state)
    /\ (forall stats,
          session_stats.GetStats None tbl' now = Ok stats ->
          stats !! "expired" = Some 0)
    /\ (forall stats row id,
          session_stats.GetStats None tbl now = Ok stats ->
          tbl !! id = Some row -> expires_at row < now ->
          exists n, stats !! "expired" = Some n /\ 0 < n).
Proof.
  intros tbl now now' Hle tbl'.
  assert (Hlk : forall id row,
            tbl' !! id = Some row <-> tbl !! id = Some row /\ now <= expires_at row).
  { intros id row. subst tbl'. unfold CleanupExpiredSessions. cbn [fst].
    rewrite map_lookup_filter_Some. cbn [snd]. split; intros [H1 H2];
      (split; [exact H1 | lia]). }
  assert (Hgen : forall id,
            match tbl' !! id with
            | Some row => tbl !! id = Some row
            | None => match tbl !! id with
                      | Some row => expires_at row < now
                      | None => True
                      end
            end).
  { intros id. destruct (tbl' !! id) as [row|] eqn:E.
    - now apply Hlk in E.
    - destruct (tbl !! id) as [row|] eqn:E'; [|exact I].
      destruct (Z.lt_ge_cases (expires_at row) now) as [H|H]; [exact H|].
      assert (tbl' !! id = Some row) by (apply Hlk; auto). congruence. }
  split; [exact Hlk|]. split; [|split; [|split]].
  - intros jti. unfold IsTokenRevoked.
    specialize (Hgen ("revoked:" ++ jti)%string).
    destruct (tbl' !! ("revoked:" ++ jti)%string) as [row|].
    + now rewrite Hgen.
    + destruct (tbl !! ("revoked:" ++ jti)%string) as [row|]; [|reflexivity].
      assert (E : (now' <? expires_at row) = false) by (apply Z.ltb_ge; lia).
      rewrite E, andb_false_r. reflexivity.
  - intros state. unfold ValidateOAuthState.
    specialize (Hgen ("oauth_state:" ++ state)%string).
    destruct (tbl' !! ("oauth_state:" ++ state)%string) as [row|].
    + now rewrite Hgen.
    + destruct (tbl !! ("oauth_state:" ++ state)%string) as [row|]; [|reflexivity].
      assert (E : (now' <? expires_at row) = false) by (apply Z.ltb_ge; lia).
      rewrite E, andb_false_r. reflexivity.
  - intros stats. unfold session_stats.GetStats. intros H. inversion H; subst stats.
    rewrite lookup_insert_ne by discriminate. rewrite lookup_insert_eq.
    f_equal.
    assert (E : filter (fun kv : string * Session => expires_at (snd kv) < now) tbl'
                = ∅).
    { apply map_empty. intros id. apply eq_None_not_Some. intros [row Hrow].
      apply map_lookup_filter_Some in Hrow as [Hrow Hlt]. cbn [snd] in Hlt.
      apply Hlk in Hrow as [_ Hge]. lia. }
    rewrite E. reflexivity.
  - intros stats row id. unfold session_stats.GetStats. intros H Hrow Hlt.
    inversion H; subst stats.
    rewrite lookup_insert_ne by discriminate. rewrite lookup_insert_eq.
    eexists. split; [reflexivity|].
    assert (Hin : filter (fun kv : string * Session => expires_at (snd kv) < now) tbl
                    !! id = Some row)
      by (apply map_lookup_filter_Some; auto).
    assert (Hne : filter (fun kv : string * Session => expires_at (snd kv) < now) tbl
                  <> ∅).
    { intros E. rewrite E in Hin. rewrite lookup_empty in Hin. discriminate. }
    apply map_size_non_empty_iff in Hne. lia.
Qed.

(** X3. A logout writes at most one row, the revocation row of the JTI it
    is given: every other row of the table is left as it was, a logout
    that does not answer 200 leaves the whole table as it was, and a
    logout repeated with the same values changes nothing further. *)
Theorem Logout_touches_one_row :
  forall (fault : option error) (tbl : Sessions)
         (jwt_jti : option string) (jwt_exp : option Z),
    let tbl' := fst (handlers.Logout fault tbl jwt_jti jwt_exp) in
    (forall id,
        (forall jti, jwt_jti = Some jti -> id <> ("revoked:" ++ jti)%string) ->
        tbl' !! id = tbl !! id)
    /\ (status (snd (handlers.Logout fault tbl jwt_jti jwt_exp)) <> StatusOK ->
        tbl' = tbl)
    /\ fst (handlers.Logout fault tbl' jwt_jti jwt_exp) = tbl'.
Proof.
  intros fault tbl jwt_jti jwt_exp tbl'. subst tbl'.
  unfold handlers.Logout, services.RevokeSession, RevokeToken.
  destruct jwt_jti as [jti|]; [|now repeat split].
  destruct (String.eqb jti EmptyString) eqn:Ej; [now repeat split|].
  destruct jwt_exp as [exp|]; [|now repeat split].
  destruct fault as [err|]; cbn [fst snd]; [now repeat split|].
  split; [|split].
  - intros id Hid. apply upsert_lookup_other. intros H. now apply (Hid jti).
  - intros H. now destruct H.
  - unfold upsert_session.
    destruct (tbl !! ("revoked:" ++ jti)%string) as [old|] eqn:E;
      rewrite lookup_insert_eq; cbn [state_type]; now rewrite insert_insert_eq.
Qed.

End SessionTableFacts.

(** ** The last second of a revoked token *)

Section LastSecond.

Import repository middleware.

Variable hmac_sha256 : string -> string -> string.
Variable json_Unmarshal : string -> option JWTClaims.

(** X4. After a logout the middleware refuses the token before the
    second of its expiry and from the second after it; during the second
    of its expiry it passes the request on: the revocation row has lapsed
    ([expires_at > NOW()] is false from the first instant of that second)
    while the token has not ([time.Now().Unix() > claims.ExpiresAt] is
    false until the next second).  Server and database share one clock
    here, and the user of the token exists. *)
Theorem revocation_lapses_in_the_last_second :
  forall (secret : string) (tbl : Sessions) (users : Users)
         (authHeader token : string) (claims : JWTClaims) (user : User)
         (t : Time),
    Split authHeader " "%char = ["Bearer"; token] ->
    middleware.validateJWT hmac_sha256 json_Unmarshal token secret = Some claims ->
    JTI claims <> EmptyString ->
    (forall row, tbl !! ("revoked:" ++ JTI claims)%string = Some row ->
                 state_type row = "revoked_token") ->
    users !! UserID claims = Some user ->
    let tbl' :=
      fst (handlers.Logout None tbl (Some (JTI claims)) (Some (ExpiresAt claims))) in
    let env := mkEnv t t tbl' users None None in
    let answer :=
      middleware.AuthMiddleware hmac_sha256 json_Unmarshal secret env authHeader in
    (answer = ErrUnauthorized <->
       t < time_Unix (ExpiresAt claims) \/ time_Unix (ExpiresAt claims + 1) <= t)
    /\ (time_Unix (ExpiresAt claims) <= t < time_Unix (ExpiresAt claims + 1) ->
        answer = Next (mkContext user (UserID claims) (Username claims)
                         (AccessToken user) (JTI claims) (ExpiresAt claims))).
Proof.
  intros secret tbl users authHeader token claims user t Hsplit Hval Hjti Hwf
    Huser tbl' env answer.
  assert (Htbl : tbl' = upsert_session tbl ("revoked:" ++ JTI claims)%string
                          "revoked_token" "revoked" (time_Unix (ExpiresAt claims))).
  { subst tbl'. unfold handlers.Logout. rewrite (eqb_empty_false _ Hjti).
    reflexivity. }
  destruct (upsert_lookup_same tbl ("revoked:" ++ JTI claims)%string
              "revoked_token" "revoked" (time_Unix (ExpiresAt claims)))
    as (row & Hrow & Hexp & Hty).
  assert (Hty' : state_type row = "revoked_token").
  { rewrite Hty.
    destruct (tbl !! ("revoked:" ++ JTI claims)%string) eqn:E;
      [now apply Hwf | reflexivity]. }
  assert (Hne : String.eqb authHeader EmptyString = false).
  { apply String.eqb_neq. intros ->. discriminate. }
  assert (Hans : answer
                 = if ExpiresAt claims <? Unix t then ErrUnauthorized
                   else if t <? time_Unix (ExpiresAt claims) then ErrUnauthorized
                   else Next (mkContext user (UserID claims) (Username claims)
                                (AccessToken user) (JTI claims) (ExpiresAt claims))).
  { subst answer. unfold middleware.AuthMiddleware.
    rewrite Hne, Hsplit. cbn [String.eqb Ascii.eqb Bool.eqb negb].
    rewrite Hval. subst env. cbn [now db_now sessions middleware.users
                                   fault_IsTokenRevoked fault_GetByID].
    destruct (ExpiresAt claims <? Unix t); [reflexivity|].
    rewrite (eqb_empty_false _ Hjti). cbn [negb].
    unfold IsTokenRevoked. rewrite Htbl, Hrow, Hty', Hexp.
    cbn [String.eqb Ascii.eqb Bool.eqb andb].
    destruct (t <? time_Unix (ExpiresAt claims)); [reflexivity|].
    unfold GetByID. now rewrite Huser. }
  assert (Hunix : ExpiresAt claims < Unix t <-> time_Unix (ExpiresAt claims + 1) <= t).
  { unfold Unix, time_Unix, second. split; intros H.
    - assert (ExpiresAt claims + 1 <= t / 1000000000) by lia.
      pose proof (Z.mul_div_le t 1000000000 ltac:(lia)). nia.
    - apply Z.lt_le_trans with (m := (ExpiresAt claims + 1) - 0); [lia|].
      rewrite Z.sub_0_r. apply Z.div_le_lower_bound; lia. }
  rewrite Hans. split.
  - destruct (ExpiresAt claims <? Unix t) eqn:E1.
    + apply Z.ltb_lt in E1. split; [intros _; right; now apply Hunix | reflexivity].
    + apply Z.ltb_ge in E1.
      destruct (t <? time_Unix (ExpiresAt claims)) eqn:E2.
      * apply Z.ltb_lt in E2. split; [intros _; now left | reflexivity].
      * apply Z.ltb_ge in E2. split; [discriminate|].
        intros [H|H]; [lia|]. apply Hunix in H. lia.
  - intros [H1 H2].
    assert (E1 : (ExpiresAt claims <? Unix t) = false).
    { apply Z.ltb_ge. destruct (Z.lt_ge_cases (ExpiresAt claims) (Unix t)) as [H|H];
        [apply Hunix in H; lia | lia]. }
    assert (E2 : (t <? time_Unix (ExpiresAt claims)) = false)
      by (apply Z.ltb_ge; lia).
    now rewrite E1, E2.
Qed.

End LastSecond.

(** The sample token, logged out, presented at the first instant of the
    second of its expiry. *)
Lemma revocation_lapses_in_the_last_second_witness :
  let tbl' := fst (handlers.Logout None ∅ (Some stand_in.jti) (Some 86400)) in
  repository.IsTokenRevoked None tbl' (86399 * middleware.second) stand_in.jti
  = Ok true
  /\ middleware.AuthMiddleware stand_in.keyed_checksum stand_in.json_Unmarshal
       stand_in.secret
       (middleware.mkEnv (86400 * middleware.second) (86400 * middleware.second)
          tbl' stand_in.users None None)
       ("Bearer " ++ stand_in.token)
     = middleware.Next
         (middleware.mkContext samples.octocat 1 "octocat" "gho_token"
            stand_in.jti 86400).
Proof.
  intros tbl'. split; [vm_compute; reflexivity|].
  refine (proj2 (revocation_lapses_in_the_last_second stand_in.keyed_checksum
                   stand_in.json_Unmarshal stand_in.secret ∅ stand_in.users
                   ("Bearer " ++ stand_in.token) stand_in.token stand_in.claims
                   samples.octocat (86400 * middleware.second) _ _ _ _ _) _).
  - vm_compute; reflexivity.
  - vm_compute; reflexivity.
  - discriminate.
  - intros row H. now rewrite lookup_empty in H.
  - reflexivity.
  - vm_compute. split; [discriminate | reflexivity].
Defined.

(** ** What the progress handler delivers, and that it ends *)

Section DeliveryFacts.

Import websocket progress.

Lemma firstn_snoc_updates (n k : nat) (u : ProgressUpdate) :
  (k < 4)%nat -> nth_error (updates n) k = Some u ->
  firstn (S k) (updates n) = (firstn k (updates n) ++ [u])%list.
Proof.
  unfold updates. generalize (projects_message n). intros pm Hk Hu.
  destruct k as [|[|[|[|k]]]]; try lia;
    cbn [nth_error] in Hu; inversion Hu; reflexivity.
Qed.

Lemma send_at_delivery (n : nat) (s s' : State) (stage pct msg : string)
    (next : ProducerPC) :
  delivery_invariant n s ->
  before_close (pc s) = true -> before_close next = true ->
  sent_min (pc s) = sent_max (pc s) ->
  (sent_max (pc s) < 4)%nat ->
  (sent_min next <= S (sent_max (pc s)) <= sent_max next)%nat ->
  nth_error (updates n) (sent_max (pc s))
  = Some (mkProgressUpdate stage pct msg EmptyString) ->
  send_at s stage pct msg next = Some s' ->
  delivery_invariant n s'
  /\ buf (progressCh s')
     = (buf (progressCh s) ++ [mkProgressUpdate stage pct msg EmptyString])%list.
Proof.
  intros (k & lost & Hk & Hrange & Hlost & Hstop & Hcl & Hcap)
    Hpc Hnext Hmm Hlt Hmin Hnth.
  rewrite Hpc in Hcl. cbn [negb] in Hcl.
  assert (Ek : k = sent_max (pc s)) by lia.
  assert (Hlen : (length (buf (progressCh s)) <= k)%nat).
  { assert (H : length (firstn k (updates n))
                = length (written s ++ lost ++ buf (progressCh s))%list)
      by now rewrite Hk.
    rewrite length_firstn, !length_app in H. lia. }
  unfold send_at, send, chan_send. rewrite Hcl.
  assert (E : (length (buf (progressCh s)) <? cap (progressCh s))%nat = true)
    by (apply Nat.ltb_lt; lia).
  rewrite E. intros H. inversion H; subst s'. cbn [progressCh buf]. split; [|reflexivity].
  exists (S k), lost. cbn [progressCh pc written consumer_running buf cap closed].
  assert (Hk4 : (k < 4)%nat) by lia.
  rewrite <- Ek in Hnth.
  rewrite (firstn_snoc_updates n k _ Hk4 Hnth), Hk.
  rewrite Hnext. repeat split; auto; try lia.
  now rewrite <- !app_assoc.
Qed.

Lemma step_delivery (n : nat) (s s' : State) (m : Move) :
  delivery_invariant n s -> step n s m = Some s' -> delivery_invariant n s'.
Proof.
  intros Hinv. pose proof Hinv as (k & lost & Hk & Hrange & Hlost & Hstop & Hcl & Hcap).
  destruct m as [ok|write_ok| |]; cbn [step].
  - destruct (pc s) eqn:Epc.
    + intros H.
      apply (send_at_delivery n s s' _ _ _ _ Hinv) in H;
        rewrite ?Epc; try reflexivity; try tauto; cbn [sent_min sent_max]; lia.
    + intros H.
      apply (send_at_delivery n s s' _ _ _ _ Hinv) in H;
        rewrite ?Epc; try reflexivity; try tauto; cbn [sent_min sent_max]; lia.
    + intros H.
      apply (send_at_delivery n s s' _ _ _ _ Hinv) in H;
        rewrite ?Epc; try reflexivity; try tauto; cbn [sent_min sent_max]; lia.
    + intros H. inversion H; subst s'. exists k, lost.
      cbn [progressCh pc written consumer_running].
      cbn [sent_min sent_max before_close negb] in Hrange, Hcl.
      rewrite Hcl.
      destruct ok; cbn [sent_min sent_max before_close negb];
        repeat split; auto; lia.
    + intros H.
      apply (send_at_delivery n s s' _ _ _ _ Hinv) in H;
        rewrite ?Epc; try reflexivity; try tauto; cbn [sent_min sent_max]; lia.
    + cbn [before_close negb] in Hcl. rewrite Hcl.
      intros H. inversion H; subst s'. exists k, lost.
      cbn [progressCh pc written consumer_running buf cap closed].
      cbn [sent_min sent_max] in Hrange.
      cbn [sent_min sent_max before_close negb]. repeat split; auto; lia.
    + destruct (consumer_running s) eqn:Ec; [discriminate|].
      intros H. inversion H; subst s'. exists k, lost.
      cbn [progressCh pc written consumer_running buf cap closed].
      cbn [sent_min sent_max before_close negb] in Hrange, Hcl.
      cbn [sent_min sent_max before_close negb]. repeat split; auto; lia.
    + discriminate.
  - destruct (consumer_running s) eqn:Ec; [|discriminate].
    destruct (buf (progressCh s)) as [|update rest] eqn:Eb; [discriminate|].
    assert (El : lost = []).
    { destruct lost; [reflexivity|]. assert (true = false) by now apply Hstop.
      discriminate. }
    subst lost. cbn [app] in Hk.
    intros H. inversion H; subst s'.
    cbn [progressCh pc written consumer_running buf cap closed].
    destruct write_ok.
    + exists k, []. cbn [progressCh pc written consumer_running buf cap closed app].
      rewrite <- app_assoc. cbn [app length]. repeat split; auto; lia.
    + exists k, [update].
      cbn [progressCh pc written consumer_running buf cap closed app length].
      repeat split; auto; lia.
  - destruct (_ && _ && _); [|discriminate].
    intros H. inversion H; subst s'. exists k, lost.
    cbn [progressCh pc written consumer_running]. repeat split; auto; lia.
  - destruct (consumer_running s); [|discriminate].
    intros H. inversion H; subst s'. exists k, lost.
    cbn [progressCh pc written consumer_running]. repeat split; auto; lia.
Qed.

Lemma reachable_delivery (n : nat) (s : State) :
  reachable n s -> delivery_invariant n s.
Proof.
  induction 1 as [|s m s' _ IH Hstep].
  - exists 0%nat, [].
    cbn [firstn initial progressCh pc written consumer_running buf cap closed
         make_chan app sent_min sent_max before_close negb length].
    repeat split; auto; try lia. now intros [].
  - exact (step_delivery n s s' m IH Hstep).
Qed.

(** X5. The handler never drops an update.  In every state it can reach,
    the updates queued and written are at most four, far below the
    capacity of ten, so each of its sends finds room and enqueues its
    update; and what the writer has written is an initial part of the
    four updates, in the order they were sent. *)
Theorem progress_updates_are_never_dropped :
  forall (nprojects : nat) (s : State),
    reachable nprojects s ->
    (length (written s) + length (buf (progressCh s)) <= 4)%nat
    /\ (exists k, written s = firstn k (updates nprojects))
    /\ (at_send (pc s) = true ->
        forall ok, exists s' update,
          step nprojects s (Produce ok) = Some s'
          /\ In update (updates nprojects)
          /\ buf (progressCh s') = (buf (progressCh s) ++ [update])%list).
Proof.
  intros n s Hreach.
  pose proof (reachable_delivery n s Hreach) as Hinv.
  pose proof Hinv as (k & lost & Hk & Hrange & Hlost & Hstop & Hcl & Hcap).
  assert (Hlen : length (firstn k (updates n))
                 = length (written s ++ lost ++ buf (progressCh s))%list)
    by now rewrite Hk.
  rewrite length_firstn, !length_app in Hlen. cbn [updates length] in Hlen.
  split; [lia|]. split.
  - exists (length (written s)).
    rewrite <- (take_app_length (written s) (lost ++ buf (progressCh s))) at 1.
    rewrite <- Hk, take_take. f_equal. lia.
  - intros Hsend ok.
    assert (Hopen : closed (progressCh s) = false).
    { rewrite Hcl. destruct (pc s); cbn in *; congruence. }
    assert (Hgen : forall stage pct msg next,
               send_at s stage pct msg next
               = Some (mkState (mkChan (buf (progressCh s)
                                        ++ [mkProgressUpdate stage pct msg EmptyString])
                                  (cap (progressCh s)) (closed (progressCh s)))
                         next (consumer_running s) (written s))).
    { intros stage pct msg next. unfold send_at, send, chan_send. rewrite Hopen.
      assert (E : (length (buf (progressCh s)) <? cap (progressCh s))%nat = true)
        by (apply Nat.ltb_lt; lia).
      now rewrite E. }
    destruct (pc s) eqn:Epc; try discriminate; cbn [step]; rewrite Epc, Hgen;
      eexists; eexists; (split; [reflexivity|]); (split; [|reflexivity]);
      unfold updates; cbn [In]; tauto.
Qed.

(** X6. The handler always ends.  Every move of either goroutine lowers
    a bound that starts at fifteen, so no run is longer than that; and in
    every state the handler can reach short of its end, some move can be
    made that is neither a cancelled request nor a failed write.  So
    [<-done] never waits for ever: the writer drains the closed channel
    and stops. *)
Theorem progress_handler_always_finishes :
  forall nprojects : nat,
    moves_left initial = 15%nat
    /\ (forall s m s',
          step nprojects s m = Some s' -> (moves_left s' < moves_left s)%nat)
    /\ (forall s,
          reachable nprojects s -> pc s <> Finished ->
          exists m s',
            step nprojects s m = Some s' /\ m <> CtxDone /\ m <> Receive false).
Proof.
  intros n. split; [reflexivity|]. split.
  - intros s m s'. unfold moves_left.
    destruct m as [ok|write_ok| |]; cbn [step].
    + assert (Hsend : forall stage pct msg next,
                 (remaining next < remaining (pc s))%nat ->
                 send_at s stage pct msg next = Some s' ->
                 (2 * remaining (pc s') + length (buf (progressCh s'))
                  + (if consumer_running s' then 1 else 0)
                  < 2 * remaining (pc s) + length (buf (progressCh s))
                    + (if consumer_running s then 1 else 0))%nat).
      { intros stage pct msg next Hlt. unfold send_at, send, chan_send.
        destruct (closed (progressCh s)); [discriminate|].
        destruct (length (buf (progressCh s)) <? cap (progressCh s))%nat;
          intros H; inversion H; subst s'; cbn; rewrite ?length_app; cbn; lia. }
      destruct (pc s) eqn:Epc;
        try (apply Hsend; cbn; lia).
      * intros H. inversion H; subst s'. destruct ok; cbn; lia.
      * destruct (closed (progressCh s)); [discriminate|].
        intros H. inversion H; subst s'. cbn. lia.
      * destruct (consumer_running s); [discriminate|].
        intros H. inversion H; subst s'. cbn. lia.
      * discriminate.
    + destruct (consumer_running s); [|discriminate].
      destruct (buf (progressCh s)) as [|update rest]; [discriminate|].
      intros H. inversion H; subst s'. cbn. destruct write_ok; lia.
    + destruct (consumer_running s); [|discriminate]. cbn [andb].
      destruct (_ && _); [|discriminate].
      intros H. inversion H; subst s'. cbn. lia.
    + destruct (consumer_running s); [|discriminate].
      intros H. inversion H; subst s'. cbn. lia.
  - intros s Hreach Hpc.
    pose proof (reachable_delivery n s Hreach)
      as (k & lost & Hk & Hrange & Hlost & Hstop & Hcl & Hcap).
    assert (Hgen : forall stage pct msg next,
               closed (progressCh s) = false ->
               exists s', send_at s stage pct msg next = Some s').
    { intros stage pct msg next Hopen. unfold send_at, send, chan_send.
      rewrite Hopen. destruct (_ <? _)%nat; eauto. }
    assert (Hprod : forall s', step n s (Produce true) = Some s' ->
              exists m s', step n s m = Some s' /\ m <> CtxDone /\ m <> Receive false).
    { intros s' H. exists (Produce true), s'. repeat split; auto; discriminate. }
    destruct (pc s) eqn:Epc; cbn [before_close negb] in Hcl.
    + destruct (Hgen "init" "0.0" "Starting profile generation..." SendAnalyzing Hcl)
        as [s' Hs'].
      apply (Hprod s'). cbn [step]. rewrite Epc. exact Hs'.
    + destruct (Hgen "analyzing" "0.1" (projects_message n) SendGenerating Hcl)
        as [s' Hs'].
      apply (Hprod s'). cbn [step]. rewrite Epc. exact Hs'.
    + destruct (Hgen "generating" "0.4"
                  "Sending to AI — this may take up to 30 seconds..."
                  CallGenerateProfile Hcl) as [s' Hs'].
      apply (Hprod s'). cbn [step]. rewrite Epc. exact Hs'.
    + eapply Hprod. cbn [step]. rewrite Epc. reflexivity.
    + destruct (Hgen "finalizing" "0.95" "Assembling final profile..."
                  CloseProgressCh Hcl) as [s' Hs'].
      apply (Hprod s'). cbn [step]. rewrite Epc. exact Hs'.
    + eapply Hprod. cbn [step]. rewrite Epc, Hcl. reflexivity.
    + destruct (consumer_running s) eqn:Ec.
      * destruct (buf (progressCh s)) as [|update rest] eqn:Eb.
        -- exists ReceiveClosed. eexists. cbn [step]. rewrite Ec, Hcl, Eb.
           cbn [andb length Nat.eqb]. repeat split; discriminate.
        -- exists (Receive true). eexists. cbn [step]. rewrite Ec, Eb.
           repeat split; discriminate.
      * eapply Hprod. cbn [step]. rewrite Epc, Ec. reflexivity.
    + now destruct Hpc.
Qed.

End DeliveryFacts.

(** The state after two sends: the third finds room. *)
Lemma progress_updates_are_never_dropped_witness :
  websocket.reachable 1 samples.after_two_sends
  /\ exists s' update,
       websocket.step 1 samples.after_two_sends (websocket.Produce true) = Some s'
       /\ In update (progress.updates 1)
       /\ websocket.buf (websocket.progressCh s')
          = (websocket.buf (websocket.progressCh samples.after_two_sends)
             ++ [update])%list.
Proof.
  assert (Hreach : websocket.reachable 1 samples.after_two_sends).
  { eapply websocket.reach_step with (m := websocket.Produce true);
      [eapply websocket.reach_step with (m := websocket.Produce true);
         [apply websocket.reach_initial | reflexivity]
      | reflexivity]. }
  split; [exact Hreach|].
  exact (proj2 (proj2 (progress_updates_are_never_dropped 1 samples.after_two_sends
                         Hreach)) eq_refl true).
Defined.

(** ** The helpers of the README: typing lines, slugs, topics *)

Section ReadmeHelperFacts.

Import profile_service profile_facts.

Lemma typing_topics_le (topics lines : list string) :
  (length lines <= 5)%nat ->
  (length lines
   <= length (fold_left
                (fun lines t =>
                   if (5 <=? length lines)%nat then lines
                   else (lines ++ [encode t])%list)
                topics lines) <= 5)%nat.
Proof.
  revert lines. induction topics as [|t topics IH]; intros lines Hle; cbn [fold_left].
  - lia.
  - destruct (5 <=? length lines)%nat eqn:E.
    + now apply IH.
    + apply Nat.leb_gt in E.
      specialize (IH (lines ++ [encode t])%list).
      rewrite length_app in IH. cbn [length] in IH. lia.
Qed.

(** X7. The typing animation always has something to show and never more
    than five lines: at most one line each for the target role, the top
    languages and the first emphasized skill, then topics up to five
    lines in all, and the line [Software+Developer] when there is
    nothing else. *)
Theorem buildTypingLines_between_one_and_five :
  forall (config : ProfileConfig) (topLangs topics : list string),
    (1 <= length (buildTypingLines config topLangs topics) <= 5)%nat
    /\ (PC_TargetRole config = EmptyString -> topLangs = [] ->
        SkillsEmphasis config = [] -> topics = [] ->
        buildTypingLines config topLangs topics = ["Software+Developer"]).
Proof.
  intros config topLangs topics. split.
  - unfold buildTypingLines. cbv zeta.
    set (l1 := if negb (String.eqb (PC_TargetRole config) EmptyString)
               then _ else _).
    assert (H1 : (length l1 <= 1)%nat)
      by (subst l1; destruct (negb _); cbn; lia).
    set (l2 := match topLangs with [] => l1 | _ => _ end).
    assert (H2 : (length l2 <= 2)%nat).
    { subst l2. destruct topLangs as [|l0 [|l1' rest]];
        rewrite ?length_app; cbn [length]; lia. }
    set (l3 := match SkillsEmphasis config with [] => l2 | _ => _ end).
    assert (H3 : (length l3 <= 3)%nat).
    { subst l3. destruct (SkillsEmphasis config);
        rewrite ?length_app; cbn [length]; lia. }
    pose proof (typing_topics_le topics l3 ltac:(lia)) as H4.
    destruct (length _ =? 0)%nat eqn:E.
    + apply Nat.eqb_eq in E. rewrite length_app, E. cbn. lia.
    + apply Nat.eqb_neq in E. lia.
  - intros Hrole -> Hskills ->. unfold buildTypingLines.
    rewrite Hrole, Hskills. reflexivity.
Qed.

Lemma all_bytes_app (P : ascii -> bool) (s t : string) :
  all_bytes P (s ++ t) = all_bytes P s && all_bytes P t.
Proof.
  induction s as [|a s IH]; [reflexivity|].
  change (String a s ++ t)%string with (String a (s ++ t)).
  cbn [all_bytes]. now rewrite IH, andb_assoc.
Qed.

Lemma all_bytes_ReplaceAll (P Q : ascii -> bool) (s : string) (old : ascii)
    (new : string) :
  (forall a, P a = true -> Ascii.eqb a old = false -> Q a = true) ->
  all_bytes Q new = true ->
  all_bytes P s = true -> all_bytes Q (ReplaceAll s old new) = true.
Proof.
  intros HPQ Hnew. induction s as [|a s IH]; [reflexivity|].
  cbn [all_bytes ReplaceAll]. intros H. apply andb_prop in H as [Ha Hs].
  destruct (Ascii.eqb a old) eqn:E.
  - rewrite all_bytes_app, Hnew. now apply IH.
  - cbn [all_bytes]. rewrite (HPQ a Ha E). now apply IH.
Qed.

Lemma all_bytes_ToLower (s : string) :
  all_bytes (fun a => negb ((65 <=? nat_of_ascii a) && (nat_of_ascii a <=? 90))%nat)
    (ToLower s) = true.
Proof.
  induction s as [|a s IH]; [reflexivity|].
  cbn [ToLower all_bytes]. rewrite IH, andb_true_r. clear.
  destruct a as [[] [] [] [] [] [] [] []]; reflexivity.
Qed.

Lemma special_slugs_ok :
  forallb (fun kv : string * string => all_bytes slug_byte_ok (snd kv))
    (map_to_list special) = true.
Proof. vm_compute. reflexivity. Qed.

(** X8. A logo slug never contains a blank, a dot, a plus, a hash or an
    upper-case letter, whatever the badge name: the names listed in the
    table get their slug from it, every other name is lowered and
    stripped of the four characters. *)
Theorem toLogoSlug_is_a_slug :
  forall name : string, all_bytes slug_byte_ok (toLogoSlug name) = true.
Proof.
  intros name. unfold toLogoSlug.
  destruct (special !! name) as [slug|] eqn:E.
  - apply elem_of_map_to_list, list_elem_of_In in E.
    pose proof (proj1 (forallb_forall _ _) special_slugs_ok _ E) as H.
    clear E. exact H.
  - clear E.
    apply (all_bytes_ReplaceAll
             (fun a => negb ((nat_of_ascii a =? 32) || (nat_of_ascii a =? 46)
                             || (nat_of_ascii a =? 43)
                             || ((65 <=? nat_of_ascii a) && (nat_of_ascii a <=? 90)))%nat));
      [clear; intros a; destruct a as [[] [] [] [] [] [] [] []];
         (reflexivity || discriminate)
      | reflexivity |].
    apply (all_bytes_ReplaceAll
             (fun a => negb ((nat_of_ascii a =? 32) || (nat_of_ascii a =? 46)
                             || ((65 <=? nat_of_ascii a) && (nat_of_ascii a <=? 90)))%nat));
      [clear; intros a; destruct a as [[] [] [] [] [] [] [] []];
         (reflexivity || discriminate)
      | reflexivity |].
    apply (all_bytes_ReplaceAll
             (fun a => negb ((nat_of_ascii a =? 32)
                             || ((65 <=? nat_of_ascii a) && (nat_of_ascii a <=? 90)))%nat));
      [clear; intros a; destruct a as [[] [] [] [] [] [] [] []];
         (reflexivity || discriminate)
      | reflexivity |].
    apply (all_bytes_ReplaceAll
             (fun a => negb ((65 <=? nat_of_ascii a) && (nat_of_ascii a <=? 90))%nat));
      [clear; intros a; destruct a as [[] [] [] [] [] [] [] []];
         (reflexivity || discriminate)
      | reflexivity |].
    apply all_bytes_ToLower.
Qed.

Lemma topics_inner (ts : list string) (acc : gmap string bool * list string) :
  (forall t, default false (fst acc !! t) = true <-> In t (snd acc)) ->
  List.NoDup (snd acc) ->
  let acc' :=
    fold_left
      (fun (acc : gmap string bool * list string) t =>
         if default false (fst acc !! t) then acc
         else (<[t := true]> (fst acc), (snd acc ++ [t])%list))
      ts acc in
  (forall t, default false (fst acc' !! t) = true <-> In t (snd acc'))
  /\ List.NoDup (snd acc')
  /\ (forall t, In t (snd acc') <-> In t (snd acc) \/ In t ts).
Proof.
  revert acc. induction ts as [|t0 ts IH]; intros acc Hseen Hnd; cbn [fold_left].
  - split; [exact Hseen|]. split; [exact Hnd|]. intros t. cbn [In]. tauto.
  - destruct (default false (fst acc !! t0)) eqn:E.
    + destruct (IH acc Hseen Hnd) as (H1 & H2 & H3).
      split; [exact H1|]. split; [exact H2|]. intros t. split.
      * intros H. apply H3 in H. destruct H as [H|H]; [now left | right; now right].
      * intros [H|[<-|H]]; apply H3; auto. left. now apply Hseen.
    + assert (Hnot : ~ In t0 (snd acc)).
      { intros H. apply Hseen in H. congruence. }
      destruct (IH (<[t0 := true]> (fst acc), (snd acc ++ [t0])%list)) as (H1 & H2 & H3).
      * intros t. cbn [fst snd]. rewrite in_app_iff. cbn [In].
        destruct (decide (t0 = t)) as [->|Hne].
        -- rewrite lookup_insert_eq. cbn. tauto.
        -- rewrite lookup_insert_ne by exact Hne. rewrite Hseen. tauto.
      * cbn [snd]. apply Permutation_NoDup with (l := t0 :: snd acc).
        -- apply Permutation_cons_append.
        -- now constructor.
      * split; [exact H1|]. split; [exact H2|]. intros t. rewrite H3.
        cbn [snd]. rewrite in_app_iff. cbn [In]. tauto.
Qed.

(** X9. The topics collected for the README are the topics of the
    projects that carry their repository, each listed once. *)
Theorem collectAllTopics_lists_each_topic_once :
  forall projects : list RepositoryAnalysis,
    List.NoDup (collectAllTopics projects)
    /\ forall t,
         In t (collectAllTopics projects) <->
         exists p repo,
           In p projects /\ RA_Repository p = Some repo /\ In t (Topics repo).
Proof.
  intros projects. unfold collectAllTopics.
  assert (Hgen : forall (acc : gmap string bool * list string),
            (forall t, default false (fst acc !! t) = true <-> In t (snd acc)) ->
            List.NoDup (snd acc) ->
            let acc' :=
              fold_left
                (fun (acc : gmap string bool * list string) p =>
                   match RA_Repository p with
                   | None => acc
                   | Some repo =>
                       fold_left
                         (fun (acc : gmap string bool * list string) t =>
                            if default false (fst acc !! t) then acc
                            else (<[t := true]> (fst acc), (snd acc ++ [t])%list))
                         (Topics repo) acc
                   end)
                projects acc in
            (forall t, default false (fst acc' !! t) = true <-> In t (snd acc'))
            /\ List.NoDup (snd acc')
            /\ (forall t, In t (snd acc') <->
                  In t (snd acc)
                  \/ exists p repo,
                       In p projects /\ RA_Repository p = Some repo
                       /\ In t (Topics repo))).
  { induction projects as [|p projects IH]; intros acc Hseen Hnd; cbn [fold_left].
    - split; [exact Hseen|]. split; [exact Hnd|]. intros t. split; [now left|].
      intros [H|(p & repo & H & _)]; [exact H | destruct H].
    - destruct (RA_Repository p) as [repo|] eqn:Er.
      + destruct (topics_inner (Topics repo) acc Hseen Hnd) as (H1 & H2 & H3).
        destruct (IH _ H1 H2) as (I1 & I2 & I3).
        split; [exact I1|]. split; [exact I2|]. intros t. split.
        * intros H. apply I3 in H. destruct H as [H|(q & r & Hq & Hr & Ht)].
          -- apply H3 in H. destruct H as [H|H]; [now left|].
             right. exists p, repo. cbn [In]. auto.
          -- right. exists q, r. cbn [In]. auto.
        * intros [H|(q & r & [<-|Hq] & Hr & Ht)]; apply I3.
          -- left. apply H3. now left.
          -- left. apply H3. right. congruence.
          -- right. eauto.
      + destruct (IH acc Hseen Hnd) as (I1 & I2 & I3).
        split; [exact I1|]. split; [exact I2|]. intros t. split.
        * intros H. apply I3 in H. destruct H as [H|(q & r & Hq & Hr & Ht)];
            [now left|]. right. exists q, r. cbn [In]. auto.
        * intros [H|(q & r & [<-|Hq] & Hr & Ht)]; apply I3;
            [now left | congruence | right; eauto]. }
  destruct (Hgen (∅, [])) as (_ & H2 & H3).
  - intros t. cbn [fst snd]. rewrite lookup_empty. cbn. split; [discriminate | tauto].
  - constructor.
  - split; [exact H2|]. intros t. rewrite H3. cbn [snd In]. tauto.
Qed.

End ReadmeHelperFacts.

(** ** Badges: which are suggested, and how they are filed *)

Section BadgeFacts.

Import profile_service profile_facts.

Lemma fair_In {A : Type} (o : MapOrder) (m : gmap string A) (kv : string * A) :
  fair o -> In kv (range o m) <-> m !! fst kv = Some (snd kv).
Proof.
  intros Hfair. unfold range. split.
  - intros H. apply (Permutation_in _ (Hfair A (map_to_list m))) in H.
    apply list_elem_of_In in H. destruct kv. now apply elem_of_map_to_list.
  - intros H. apply (Permutation_in _ (Permutation_sym (Hfair A (map_to_list m)))).
    apply list_elem_of_In. destruct kv. now apply elem_of_map_to_list.
Qed.

Lemma fair_NoDup_fst {A : Type} (o : MapOrder) (m : gmap string A) :
  fair o -> List.NoDup (List.map fst (range o m)).
Proof.
  intros Hfair. unfold range.
  apply Permutation_NoDup with (l := List.map fst (map_to_list m)).
  - apply Permutation_map. symmetry. apply Hfair.
  - apply NoDup_ListNoDup. apply NoDup_fst_map_to_list.
Qed.

(** The first loop of [organizeBadgesByCategory]. *)
Lemma organize_fill (badges : list Badge) (cats : gmap string (list Badge))
    (k : string) :
  (forall b, is_Some (cats !! category b)) ->
  fold_left
    (fun cats b =>
       if bool_decide (Badge_Name b ∈ langSet) then append_to cats "Languages" b
       else if bool_decide (Badge_Name b ∈ frameworkSet)
       then append_to cats "Frameworks & Libraries" b
       else if bool_decide (Badge_Name b ∈ dbSet) then append_to cats "Databases" b
       else append_to cats "Tools & Platforms" b)
    badges cats !! k
  = match cats !! k with
    | Some l =>
        Some (l ++ List.filter (fun b => String.eqb (category b) k) badges)%list
    | None => None
    end.
Proof.
  revert cats. induction badges as [|b badges IH]; intros cats Hdom; cbn [fold_left].
  - cbn [List.filter]. destruct (cats !! k); [now rewrite app_nil_r | reflexivity].
  - assert (Estep :
      (if bool_decide (Badge_Name b ∈ langSet) then append_to cats "Languages" b
       else if bool_decide (Badge_Name b ∈ frameworkSet)
       then append_to cats "Frameworks & Libraries" b
       else if bool_decide (Badge_Name b ∈ dbSet) then append_to cats "Databases" b
       else append_to cats "Tools & Platforms" b)
      = append_to cats (category b) b).
    { unfold category. destruct (bool_decide _); [reflexivity|].
      destruct (bool_decide _); [reflexivity|].
      destruct (bool_decide _); reflexivity. }
    rewrite Estep, IH.
    + unfold append_to. cbn [List.filter].
      destruct (String.eqb (category b) k) eqn:E.
      * apply String.eqb_eq in E. rewrite E, lookup_insert_eq.
        destruct (Hdom b) as [l Hl]. rewrite E in Hl. rewrite Hl. cbn [default].
        now rewrite <- app_assoc.
      * apply String.eqb_neq in E. now rewrite lookup_insert_ne.
    + intros b'. unfold append_to.
      destruct (decide (category b = category b')) as [E|E].
      * rewrite E, lookup_insert_eq. eauto.
      * rewrite lookup_insert_ne by exact E. apply Hdom.
Qed.

(** The second loop: the buckets left empty are deleted. *)
Lemma organize_drop (l : list (string * list Badge))
    (cats : gmap string (list Badge)) (k : string) :
  fold_left
    (fun (cats : gmap string (list Badge)) (kv : string * list Badge) =>
       if (length (snd kv) =? 0)%nat then delete (fst kv) cats else cats)
    l cats !! k
  = if existsb (fun kv : string * list Badge =>
                  String.eqb (fst kv) k && (length (snd kv) =? 0)%nat) l
    then None else cats !! k.
Proof.
  revert cats. induction l as [|kv l IH]; intros cats; cbn [fold_left existsb].
  - reflexivity.
  - rewrite IH. destruct (existsb _ l); [now rewrite orb_true_r|].
    rewrite orb_false_r.
    destruct (length (snd kv) =? 0)%nat; [|now rewrite andb_false_r].
    rewrite andb_true_r.
    destruct (String.eqb (fst kv) k) eqn:E.
    + apply String.eqb_eq in E. now rewrite E, lookup_delete_eq.
    + apply String.eqb_neq in E. now rewrite lookup_delete_ne.
Qed.

(** X10. Every badge is filed under exactly one of the four headings,
    the one of its name, and the badges under a heading keep the order of
    the slice; a heading with no badge is absent from the map.  The
    result does not depend on the order of map iteration. *)
Theorem organizeBadgesByCategory_files_each_badge_once :
  forall (o : MapOrder) (badges : list Badge) (k : string),
    fair o ->
    organizeBadgesByCategory o badges !! k
    = if bool_decide (k ∈ categories)
      then match List.filter (fun b => String.eqb (category b) k) badges with
           | [] => None
           | l => Some l
           end
      else None.
Proof.
  intros o badges k Hfair. unfold organizeBadgesByCategory. cbv zeta.
  set (cats0 := list_to_map _ : gmap string (list Badge)).
  assert (Hdom : forall b, is_Some (cats0 !! category b)).
  { intros b. unfold category.
    destruct (bool_decide _); [now eexists|].
    destruct (bool_decide _); [now eexists|].
    destruct (bool_decide _); now eexists. }
  set (cats1 := fold_left _ badges cats0).
  assert (H1 : forall k', cats1 !! k'
                = match cats0 !! k' with
                  | Some l =>
                      Some (l ++ List.filter (fun b => String.eqb (category b) k')
                                   badges)%list
                  | None => None
                  end)
    by (intros k'; apply organize_fill; exact Hdom).
  rewrite organize_drop, H1.
  assert (H0 : cats0 !! k = if bool_decide (k ∈ categories) then Some [] else None).
  { unfold categories. subst cats0.
    destruct (decide (k = "Languages")) as [->|N1]; [reflexivity|].
    destruct (decide (k = "Frameworks & Libraries")) as [->|N2]; [reflexivity|].
    destruct (decide (k = "Databases")) as [->|N3]; [reflexivity|].
    destruct (decide (k = "Tools & Platforms")) as [->|N4]; [reflexivity|].
    rewrite bool_decide_eq_false_2.
    - cbn [list_to_map foldr uncurry fst snd].
      now rewrite !lookup_insert_ne, lookup_empty by congruence.
    - rewrite !elem_of_cons, elem_of_nil. tauto. }
  rewrite H0.
  destruct (bool_decide (k ∈ categories)).
  - cbn [app].
    destruct (List.filter (fun b => String.eqb (category b) k) badges) as [|b l] eqn:Ef.
    + assert (Ex : existsb
                     (fun kv : string * list Badge =>
                        String.eqb (fst kv) k && (length (snd kv) =? 0)%nat)
                     (range o cats1) = true).
      { apply existsb_exists. exists (k, []). split.
        - apply fair_In; [exact Hfair|]. cbn [fst snd].
          rewrite H1, H0. cbn [app]. now rewrite Ef.
        - cbn [fst snd length]. now rewrite String.eqb_refl. }
      now rewrite Ex.
    + destruct (existsb _ _) eqn:Ex; [|reflexivity].
      exfalso. apply existsb_exists in Ex as ([k' l'] & Hin & Hkv).
      cbn [fst snd] in Hkv. apply andb_prop in Hkv as [Hk Hl].
      apply String.eqb_eq in Hk. subst k'. apply Nat.eqb_eq in Hl.
      apply fair_In in Hin; [|exact Hfair]. cbn [fst snd] in Hin.
      rewrite H1, H0 in Hin. cbn [app] in Hin. rewrite Ef in Hin.
      inversion Hin; subst l'. discriminate.
  - destruct (existsb _ _); reflexivity.
Qed.

Section Catalog.

Variable C : gmap string Badge.
Hypothesis C_functional :
  forall k1 k2 b1 b2,
    C !! k1 = Some b1 -> C !! k2 = Some b2 ->
    Badge_Name b1 = Badge_Name b2 -> b1 = b2.

Lemma badges_of_ext (K K' : string -> Prop) (m : gmap string Badge) :
  (forall k, K k <-> K' k) -> badges_of C K m -> badges_of C K' m.
Proof.
  intros HK [H1 H2]. split; [exact H1|]. intros b. rewrite H2.
  split; intros (key & Hk & Hc); exists key; (split; [now apply HK | exact Hc]).
Qed.

Lemma badges_of_add (K : string -> Prop) (m : gmap string Badge) (key : string) :
  badges_of C K m -> badges_of C (fun k => K k \/ k = key) (add C m key).
Proof.
  intros [H1 H2]. unfold add.
  destruct (C !! ToLower key) as [badge|] eqn:Ec.
  - destruct (m !! Badge_Name badge) as [b'|] eqn:Em.
    + split; [exact H1|]. intros b. rewrite H2. split.
      * intros (k & Hk & Hc). exists k. auto.
      * intros (k & [Hk| ->] & Hc); [exists k; auto|].
        assert (Hb' : exists n, m !! n = Some b') by eauto.
        apply H2 in Hb' as (k' & Hk' & Hc').
        assert (b' = badge).
        { eapply C_functional; [exact Hc' | exact Ec |]. now apply H1 in Em. }
        subst b'. rewrite Ec in Hc. inversion Hc; subst b. eauto.
    + split.
      * intros n b. destruct (decide (Badge_Name badge = n)) as [<-|Hne].
        -- rewrite lookup_insert_eq. now intros [= <-].
        -- rewrite lookup_insert_ne by exact Hne. apply H1.
      * intros b. split.
        -- intros (n & Hn). destruct (decide (Badge_Name badge = n)) as [<-|Hne].
           ++ rewrite lookup_insert_eq in Hn. inversion Hn; subst b.
              exists key. auto.
           ++ rewrite lookup_insert_ne in Hn by exact Hne.
              assert (Hb : exists n, m !! n = Some b) by eauto.
              apply H2 in Hb as (k & Hk & Hc). exists k. auto.
        -- intros (k & [Hk| ->] & Hc).
           ++ assert (Hb : exists n, m !! n = Some b) by (apply H2; eauto).
              destruct Hb as (n & Hn).
              exists n. rewrite lookup_insert_ne; [exact Hn|].
              intros <-. rewrite Em in Hn. discriminate.
           ++ rewrite Ec in Hc. inversion Hc; subst b.
              exists (Badge_Name badge). now rewrite lookup_insert_eq.
  - split; [exact H1|]. intros b. rewrite H2. split.
    + intros (k & Hk & Hc). exists k. auto.
    + intros (k & [Hk| ->] & Hc); [exists k; auto | congruence].
Qed.

Lemma badges_of_fold {A : Type} (g : A -> string) (l : list A)
    (K : string -> Prop) (m : gmap string Badge) :
  badges_of C K m ->
  badges_of C (fun k => K k \/ exists x, In x l /\ k = g x)
    (fold_left (fun m x => add C m (g x)) l m).
Proof.
  revert K m. induction l as [|x l IH]; intros K m H; cbn [fold_left].
  - eapply badges_of_ext; [|exact H]. intros k. split; [now left|].
    intros [Hk|(x & [] & _)]. exact Hk.
  - eapply badges_of_ext; [|apply IH, badges_of_add, H].
    intros k. cbn beta. split.
    + intros [[Hk| ->]|(y & Hy & ->)]; [now left | right | right].
      * exists x. split; [now left | reflexivity].
      * exists y. split; [now right | reflexivity].
    + intros [Hk|(y & [<-|Hy] & ->)]; [left; now left | left; now right |].
      right. eauto.
Qed.

Lemma badges_of_projects {A : Type} (inner : RepositoryAnalysis -> list A)
    (g : A -> string) (projects : list RepositoryAnalysis)
    (K : string -> Prop) (m : gmap string Badge) :
  badges_of C K m ->
  badges_of C
    (fun k => K k \/ exists p x, In p projects /\ In x (inner p) /\ k = g x)
    (fold_left
       (fun m p => fold_left (fun m x => add C m (g x)) (inner p) m)
       projects m).
Proof.
  revert K m. induction projects as [|p projects IH]; intros K m H; cbn [fold_left].
  - eapply badges_of_ext; [|exact H]. intros k. split; [now left|].
    intros [Hk|(p & x & [] & _)]. exact Hk.
  - eapply badges_of_ext;
      [|apply IH, (badges_of_fold g (inner p)), H].
    intros k. cbn beta. split.
    + intros [[Hk|(x & Hx & ->)]|(q & y & Hq & Hy & ->)]; [now left | right | right].
      * exists p, x. repeat split; auto. now left.
      * exists q, y. repeat split; auto. now right.
    + intros [Hk|(q & y & [<-|Hq] & Hy & ->)]; [left; now left | |].
      * left. right. eauto.
      * right. eauto.
Qed.

End Catalog.

(** X11. For skills, language names and dependency names in ASCII, the
    badges suggested for a profile are those the catalog holds for the
    emphasized skills, the languages and the dependency keys of the
    projects, and the skills extracted by the model, and no others; no
    two of them bear the same name.  (The order of the slice is that of a
    map iteration.  The names are taken in ASCII because the catalog is
    looked up under [strings.ToLower] of each, which is modelled on ASCII
    only.) *)
Theorem buildBadgesFromProjectData_suggests_the_catalog_badges :
  forall (o : MapOrder) (projects : list RepositoryAnalysis)
         (llmSkills emphasizedSkills : list string),
    fair o ->
    Forall (fun skill => gostrings.is_ascii skill = true) emphasizedSkills ->
    Forall (fun skill => gostrings.is_ascii skill = true) llmSkills ->
    (forall p lang,
        In p projects -> is_Some (Languages p !! lang) ->
        gostrings.is_ascii lang = true) ->
    (forall p eco deps dep,
        In p projects -> Dependencies p !! eco = Some deps -> In dep deps ->
        gostrings.is_ascii dep = true) ->
    let badges :=
      buildBadgesFromProjectData o projects llmSkills emphasizedSkills in
    List.NoDup (List.map Badge_Name badges)
    /\ forall b,
         In b badges <->
         exists key,
           badge_key projects llmSkills emphasizedSkills key
           /\ buildBadgeCatalog o !! ToLower key = Some b.
Proof.
  intros o projects llmSkills emphasizedSkills Hfair _ _ _ _ badges.
  subst badges. unfold buildBadgesFromProjectData. cbv zeta.
  rewrite (catalog_order_free o Hfair).
  set (C := buildBadgeCatalog ascending).
  assert (H0 : badges_of C (fun _ => False) ∅).
  { split.
    - intros n b H. now rewrite lookup_empty in H.
    - intros b. split.
      + intros (n & H). now rewrite lookup_empty in H.
      + intros (k & [] & _). }
  pose proof (badges_of_fold C catalog_functional (fun x : string => x)
                emphasizedSkills _ _ H0) as H1.
  pose proof (badges_of_projects C catalog_functional
                (fun p => range o (Languages p)) fst projects _ _ H1) as H2.
  pose proof (badges_of_projects C catalog_functional
                (fun p =>
                   flat_map (fun kv : string * list string => snd kv)
                     (range o (Dependencies p)))
                dependency_key projects _ _ H2) as H3.
  assert (Eflat : forall (l : list (string * list string)) (m : gmap string Badge),
            fold_left
              (fun badgeMap (kv : string * list string) =>
                 fold_left (fun badgeMap dep => add C badgeMap (dependency_key dep))
                   (snd kv) badgeMap)
              l m
            = fold_left (fun m dep => add C m (dependency_key dep))
                (flat_map (fun kv : string * list string => snd kv) l) m).
  { induction l as [|kv l IH]; intros m; [reflexivity|].
    cbn [fold_left flat_map]. now rewrite fold_left_app, IH. }
  assert (Edeps : forall (ps : list RepositoryAnalysis) (m : gmap string Badge),
            fold_left
              (fun badgeMap p =>
                 fold_left
                   (fun badgeMap (kv : string * list string) =>
                      fold_left
                        (fun badgeMap dep => add C badgeMap (dependency_key dep))
                        (snd kv) badgeMap)
                   (range o (Dependencies p)) badgeMap)
              ps m
            = fold_left
                (fun m p =>
                   fold_left (fun m dep => add C m (dependency_key dep))
                     (flat_map (fun kv : string * list string => snd kv)
                        (range o (Dependencies p))) m)
                ps m).
  { induction ps as [|p ps IH]; intros m; [reflexivity|].
    cbn [fold_left]. now rewrite IH, Eflat. }
  rewrite Edeps.
  pose proof (badges_of_fold C catalog_functional (fun x : string => x)
                llmSkills _ _ H3) as H4.
  match type of H4 with
  | badges_of _ _ ?m => set (badgeMap := m) in *
  end.
  change (fold_left (add C) llmSkills
            (fold_left
               (fun m p =>
                  fold_left (fun m dep => add C m (dependency_key dep))
                    (flat_map (fun kv : string * list string => snd kv)
                       (range o (Dependencies p))) m)
               projects
               (fold_left
                  (fun badgeMap p =>
                     fold_left (fun badgeMap (kv : string * Z) => add C badgeMap (fst kv))
                       (range o (Languages p)) badgeMap)
                  projects (fold_left (add C) emphasizedSkills ∅))))
    with badgeMap.
  apply (badges_of_ext C _ (badge_key projects llmSkills emphasizedSkills)) in H4.
  2:{ intros k. unfold badge_key. split.
      - intros [[[[[]|(x & Hx & ->)]|(p & kv & Hp & Hkv & ->)]
                |(p & dep & Hp & Hdep & ->)]|(x & Hx & ->)].
        + now left.
        + right. left. exists p. split; [exact Hp|].
          apply fair_In in Hkv; [|exact Hfair]. eauto.
        + right. right. left. apply in_flat_map in Hdep as ([eco deps] & Hkv & Hd).
          apply fair_In in Hkv; [|exact Hfair]. cbn [fst snd] in *.
          exists p, eco, deps, dep. auto.
        + right. right. now right.
      - intros [H|[(p & Hp & [v Hv])|[(p & eco & deps & dep & Hp & He & Hd & ->)|H]]].
        + left. left. left. right. eauto.
        + left. left. right. exists p, (k, v). repeat split; auto.
          apply fair_In; [exact Hfair | exact Hv].
        + left. right. exists p, dep. repeat split; auto.
          apply in_flat_map. exists (eco, deps). split; [|exact Hd].
          apply fair_In; [exact Hfair | exact He].
        + right. eauto. }
  clearbody badgeMap. destruct H4 as [Hname Hval]. split.
  - rewrite map_map.
    rewrite (map_ext_in _ fst).
    + now apply fair_NoDup_fst.
    + intros [n b] Hin. apply fair_In in Hin; [|exact Hfair]. cbn [fst snd] in *.
      now apply Hname.
  - intros b. rewrite <- Hval. rewrite in_map_iff. split.
    + intros ([n b'] & <- & Hin). apply fair_In in Hin; [|exact Hfair]. eauto.
    + intros (n & Hn). exists (n, b). split; [reflexivity|].
      apply fair_In; [exact Hfair | exact Hn].
Qed.

End BadgeFacts.

(** ** The top languages *)

Section LanguageFacts.

Import profile_service profile_facts.

Lemma wrap64_add_l (a b : Z) : wrap64 (wrap64 a + b) = wrap64 (a + b).
Proof.
  unfold wrap64.
  replace ((a + 2 ^ 63) mod 2 ^ 64 - 2 ^ 63 + b + 2 ^ 63)
    with ((a + 2 ^ 63) mod 2 ^ 64 + b) by lia.
  replace (a + b + 2 ^ 63) with (a + 2 ^ 63 + b) by lia.
  now rewrite Zplus_mod_idemp_l.
Qed.

Lemma wrap64_idem (a : Z) : wrap64 (wrap64 a) = wrap64 a.
Proof.
  replace (wrap64 a) with (wrap64 a + 0) at 1 by lia.
  rewrite wrap64_add_l. f_equal. lia.
Qed.

(** One project's languages added to [totals]. *)
Lemma totals_inner (l : list (string * Z)) (totals : gmap string Z) (lang : string) :
  List.NoDup (List.map fst l) ->
  let totals' :=
    fold_left
      (fun (totals : gmap string Z) (kv : string * Z) =>
         <[fst kv := wrap64 (default 0 (totals !! fst kv) + snd kv)]> totals)
      l totals in
  (forall v, In (lang, v) l ->
             totals' !! lang = Some (wrap64 (default 0 (totals !! lang) + v)))
  /\ ((forall v, ~ In (lang, v) l) -> totals' !! lang = totals !! lang).
Proof.
  revert totals. induction l as [|[k v0] l IH]; intros totals Hnd; cbn [fold_left].
  - split; [intros v []|reflexivity].
  - cbn [List.map fst] in Hnd. inversion Hnd as [|? ? Hk Hnd']; subst.
    cbn [fst snd].
    destruct (IH (<[k := wrap64 (default 0 (totals !! k) + v0)]> totals) Hnd')
      as [IH1 IH2].
    split.
    + intros v [H|H].
      * inversion H; subst k v0. rewrite IH2.
        -- now rewrite lookup_insert_eq.
        -- intros v' Hin. apply Hk. apply in_map_iff. now exists (lang, v').
      * rewrite (IH1 v H). rewrite lookup_insert_ne; [reflexivity|].
        intros ->. apply Hk. apply in_map_iff. now exists (lang, v).
    + intros Hnone. rewrite IH2.
      * rewrite lookup_insert_ne; [reflexivity|].
        intros ->. apply (Hnone v0). now left.
      * intros v Hin. apply (Hnone v). now right.
Qed.

Lemma language_totals_snoc (o : MapOrder) (ps : list RepositoryAnalysis)
    (p : RepositoryAnalysis) :
  language_totals o (ps ++ [p])
  = fold_left
      (fun (totals : gmap string Z) (kv : string * Z) =>
         <[fst kv := wrap64 (default 0 (totals !! fst kv) + snd kv)]> totals)
      (range o (Languages p)) (language_totals o ps).
Proof. unfold language_totals. now rewrite fold_left_app. Qed.

Lemma language_bytes_snoc (ps : list RepositoryAnalysis) (p : RepositoryAnalysis)
    (lang : string) :
  language_bytes (ps ++ [p]) lang
  = wrap64 (language_bytes ps lang + default 0 (Languages p !! lang)).
Proof.
  unfold language_bytes. rewrite wrap64_add_l. f_equal.
  induction ps as [|q ps IH]; cbn [app fold_right]; [lia|]. rewrite IH. lia.
Qed.

Lemma has_language_snoc (ps : list RepositoryAnalysis) (p : RepositoryAnalysis)
    (lang : string) :
  has_language (ps ++ [p]) lang
  <-> has_language ps lang \/ is_Some (Languages p !! lang).
Proof.
  unfold has_language. split.
  - intros (q & Hq & Hl). apply in_app_iff in Hq as [Hq|[<-|[]]]; eauto.
  - intros [(q & Hq & Hl)|Hl].
    + exists q. rewrite in_app_iff. auto.
    + exists p. rewrite in_app_iff. cbn [In]. auto.
Qed.

Lemma classic_has (ps : list RepositoryAnalysis) (lang : string) :
  has_language ps lang \/ ~ has_language ps lang.
Proof.
  unfold has_language. induction ps as [|q ps IH].
  - right. intros (p & [] & _).
  - destruct (Languages q !! lang) as [v|] eqn:E.
    + left. exists q. split; [now left | eauto].
    + destruct IH as [(p & Hp & Hl)|IH].
      * left. exists p. split; [now right | exact Hl].
      * right. intros (p & [<-|Hp] & [v Hv]); [congruence|].
        apply IH. exists p. eauto.
Qed.

(** The map [totals] holds, for each language of some project, the sum
    of its bytes over the projects. *)
Lemma language_totals_lookup (o : MapOrder) (projects : list RepositoryAnalysis)
    (lang : string) :
  fair o ->
  (has_language projects lang ->
   language_totals o projects !! lang = Some (language_bytes projects lang))
  /\ (~ has_language projects lang -> language_totals o projects !! lang = None).
Proof.
  intros Hfair. induction projects as [|p ps [IH1 IH2]] using rev_ind.
  - split.
    + intros (q & [] & _).
    + intros _. apply lookup_empty.
  - rewrite language_totals_snoc.
    destruct (totals_inner (range o (Languages p)) (language_totals o ps) lang
                (fair_NoDup_fst o (Languages p) Hfair)) as [T1 T2].
    assert (Hno : ~ has_language ps lang ->
                  language_bytes ps lang = 0).
    { clear. intros Hno. unfold language_bytes.
      assert (E : fold_right
                    (fun p acc => default 0 (Languages p !! lang) + acc) 0 ps = 0).
      { induction ps as [|q ps IH]; [reflexivity|]. cbn [fold_right].
        rewrite IH.
        - destruct (Languages q !! lang) as [v|] eqn:E; [|reflexivity].
          exfalso. apply Hno. exists q. split; [now left | eauto].
        - intros (r & Hr & Hl). apply Hno. exists r. split; [now right | exact Hl]. }
      now rewrite E. }
    split.
    + intros Hhas. rewrite language_bytes_snoc.
      destruct (Languages p !! lang) as [v|] eqn:Ev.
      * rewrite (T1 v); [|apply fair_In; [exact Hfair | exact Ev]].
        cbn [default].
        destruct (classic_has ps lang) as [Hps|Hps].
        -- rewrite (IH1 Hps). reflexivity.
        -- rewrite (IH2 Hps), (Hno Hps). reflexivity.
      * rewrite T2.
        -- apply has_language_snoc in Hhas as [Hps|[v Hv]]; [|congruence].
           rewrite (IH1 Hps). cbn [default]. f_equal.
           rewrite Z.add_0_r. unfold language_bytes. now rewrite wrap64_idem.
        -- intros v Hin. apply fair_In in Hin; [|exact Hfair]. cbn in Hin. congruence.
    + intros Hnot. rewrite T2.
      * apply IH2. intros H. apply Hnot. apply has_language_snoc. now left.
      * intros v Hin. apply fair_In in Hin; [|exact Hfair]. cbn [fst snd] in Hin.
        apply Hnot. apply has_language_snoc. right. eauto.
Qed.

(** [sort.Slice] by decreasing byte count: a rearrangement, sorted. *)
Lemma sort_insert_perm {A : Type} (less : A -> A -> bool) (x : A) (r : list A) :
  Permutation (sort_insert less x r) (x :: r).
Proof.
  induction r as [|y r IH]; cbn [sort_insert]; [reflexivity|].
  destruct (less x y); [|reflexivity].
  rewrite IH. apply perm_swap.
Qed.

Lemma sort_Slice_perm {A : Type} (less : A -> A -> bool) (l : list A) :
  Permutation (sort_Slice less l) l.
Proof.
  unfold sort_Slice. rewrite <- Permutation_rev.
  assert (H : forall acc,
            Permutation (fold_left (fun rprefix a => sort_insert less a rprefix) l acc)
              (l ++ acc)).
  { induction l as [|a l IH]; intros acc; cbn [fold_left app]; [reflexivity|].
    rewrite IH, sort_insert_perm. symmetry. apply Permutation_middle. }
  rewrite H. now rewrite app_nil_r.
Qed.

Lemma sort_insert_sorted (x : string * Z) (r : list (string * Z)) :
  StronglySorted (fun a b : string * Z => snd a <= snd b) r ->
  StronglySorted (fun a b : string * Z => snd a <= snd b)
    (sort_insert (fun i j : string * Z => snd j <? snd i) x r).
Proof.
  induction r as [|y r IH]; intros Hs; cbn [sort_insert].
  - constructor; constructor.
  - inversion Hs as [|? ? Hr Hy]; subst.
    destruct (snd y <? snd x) eqn:E.
    + apply Z.ltb_lt in E. constructor; [now apply IH|].
      apply List.Forall_forall. intros z Hz.
      apply (Permutation_in _ (sort_insert_perm _ x r)) in Hz.
      destruct Hz as [<-|Hz]; [lia|].
      exact (proj1 (List.Forall_forall _ _) Hy z Hz).
    + apply Z.ltb_ge in E. constructor; [exact Hs|].
      constructor; [exact E|].
      apply List.Forall_forall. intros z Hz.
      pose proof (proj1 (List.Forall_forall _ _) Hy z Hz) as Hyz.
      cbn beta in Hyz. lia.
Qed.

Lemma sorted_rev (l : list (string * Z)) :
  StronglySorted (fun a b : string * Z => snd a <= snd b) l ->
  StronglySorted (fun a b : string * Z => snd b <= snd a) (rev l).
Proof.
  induction 1 as [|a l Hl IH Ha]; cbn [rev]; [constructor|].
  clear Hl. revert IH. 
  assert (Hall : Forall (fun z : string * Z => snd a <= snd z) (rev l)).
  { apply List.Forall_forall. intros z Hz. apply in_rev in Hz.
    now apply (proj1 (List.Forall_forall _ _) Ha). }
  clear Ha. induction (rev l) as [|b r IHr]; intros Hs; cbn [app].
  - constructor; constructor.
  - inversion Hs as [|? ? Hr Hb]; subst. inversion Hall as [|? ? Hab Hall']; subst.
    constructor; [now apply IHr|].
    apply Forall_app. split; [exact Hb|]. constructor; [exact Hab | constructor].
Qed.

Lemma sort_Slice_sorted (l : list (string * Z)) :
  StronglySorted (fun a b : string * Z => snd b <= snd a)
    (sort_Slice (fun i j : string * Z => snd j <? snd i) l).
Proof.
  unfold sort_Slice. apply sorted_rev.
  assert (H : forall acc,
            StronglySorted (fun a b : string * Z => snd a <= snd b) acc ->
            StronglySorted (fun a b : string * Z => snd a <= snd b)
              (fold_left
                 (fun rprefix a =>
                    sort_insert (fun i j : string * Z => snd j <? snd i) a rprefix)
                 l acc)).
  { induction l as [|a l IH]; intros acc Hacc; cbn [fold_left]; [exact Hacc|].
    now apply IH, sort_insert_sorted. }
  apply H. constructor.
Qed.

Lemma sorted_app_l {A : Type} (R : A -> A -> Prop) (l1 l2 : list A) :
  StronglySorted R (l1 ++ l2) -> StronglySorted R l1.
Proof.
  induction l1 as [|a l1 IH]; cbn [app]; intros H; [constructor|].
  inversion H as [|? ? Hs Ha]; subst. constructor; [now apply IH|].
  apply Forall_app in Ha. tauto.
Qed.

(** X12. The top languages are the [n] languages with the most bytes,
    summed over the projects in 64-bit arithmetic, the largest first, or
    all the languages when there are fewer than [n]; each is listed
    once.  (Languages with equal sums come in the order of a map
    iteration.) *)
Theorem collectTopLanguages_takes_the_largest :
  forall (o : MapOrder) (projects : list RepositoryAnalysis) (n : nat),
    fair o ->
    let top := collectTopLanguages o projects n in
    let bytes := language_bytes projects in
    (length top <= n)%nat
    /\ List.NoDup top
    /\ (forall lang, In lang top -> has_language projects lang)
    /\ StronglySorted (fun a b => bytes b <= bytes a) top
    /\ (forall a b,
          In a top -> has_language projects b -> ~ In b top -> bytes b <= bytes a)
    /\ ((length top < n)%nat ->
        forall lang, has_language projects lang -> In lang top).
Proof.
  intros o projects n Hfair top bytes.
  assert (Etop : top = List.map fst
                         (firstn n
                            (sort_Slice (fun i j : string * Z => snd j <? snd i)
                               (range o (language_totals o projects)))))
    by reflexivity.
  clearbody top.
  set (sorted := sort_Slice (fun i j : string * Z => snd j <? snd i)
                   (range o (language_totals o projects))) in *.
  assert (Hperm : Permutation sorted (range o (language_totals o projects)))
    by apply sort_Slice_perm.
  assert (Hsorted : StronglySorted (fun a b : string * Z => snd b <= snd a) sorted)
    by apply sort_Slice_sorted.
  assert (Hin : forall kv, In kv sorted <->
                  has_language projects (fst kv) /\ snd kv = bytes (fst kv)).
  { intros [lang v]. cbn [fst snd]. split.
    - intros H. apply (Permutation_in _ Hperm) in H.
      apply fair_In in H; [|exact Hfair]. cbn [fst snd] in H.
      destruct (language_totals_lookup o projects lang Hfair) as [L1 L2].
      destruct (classic_has projects lang) as [Hh|Hh].
      + rewrite (L1 Hh) in H. inversion H. auto.
      + rewrite (L2 Hh) in H. discriminate.
    - intros [Hh ->]. apply (Permutation_in _ (Permutation_sym Hperm)).
      apply fair_In; [exact Hfair|]. cbn [fst snd].
      now apply (language_totals_lookup o projects lang Hfair). }
  assert (Hnd : List.NoDup (List.map fst sorted)).
  { apply Permutation_NoDup with (l := List.map fst (range o (language_totals o projects))).
    - apply Permutation_map. now symmetry.
    - now apply fair_NoDup_fst. }
  clearbody sorted. clear Hperm.
  rewrite <- (firstn_skipn n sorted) in Hsorted, Hnd, Hin.
  set (l1 := firstn n sorted) in *. set (l2 := skipn n sorted) in *.
  assert (Hlen : (length l1 <= n)%nat) by (subst l1; rewrite length_firstn; lia).
  assert (Hshort : (length l1 < n)%nat -> l2 = []).
  { subst l1 l2. rewrite length_firstn. intros H.
    apply skipn_all2. lia. }
  clearbody l1 l2. subst top. rewrite map_app in Hnd.
  split; [now rewrite length_map|]. split.
  { now apply NoDup_app_remove_r in Hnd. }
  split.
  { intros lang H. apply in_map_iff in H as (kv & <- & Hkv).
    apply (Hin kv). apply in_app_iff. now left. }
  split.
  { apply sorted_app_l in Hsorted.
    assert (Hb : forall kv, In kv l1 -> snd kv = bytes (fst kv)).
    { intros kv Hkv. apply (Hin kv). apply in_app_iff. now left. }
    clear -Hsorted Hb. induction Hsorted as [|a l Hl IH Ha]; cbn [List.map];
      constructor.
    - apply IH. intros kv Hkv. apply Hb. now right.
    - apply List.Forall_forall. intros z Hz. apply in_map_iff in Hz as (kv & <- & Hkv).
      pose proof (proj1 (List.Forall_forall _ _) Ha kv Hkv) as Hle. cbn beta in Hle.
      rewrite <- (Hb kv), <- (Hb a); [exact Hle | now left | now right]. }
  split.
  { intros a b Ha Hb Hnb.
    apply in_map_iff in Ha as (kva & <- & Hkva).
    assert (Hkvb : In (b, bytes b) (l1 ++ l2)) by (apply Hin; auto).
    apply in_app_iff in Hkvb as [Hkvb|Hkvb].
    - exfalso. apply Hnb. apply in_map_iff. now exists (b, bytes b).
    - assert (Ea : snd kva = bytes (fst kva)).
      { apply (Hin kva). apply in_app_iff. now left. }
      rewrite <- Ea.
      clear -Hsorted Hkva Hkvb. induction l1 as [|c l1 IH]; [destruct Hkva|].
      cbn [app] in Hsorted. inversion Hsorted as [|? ? Hs Hc]; subst.
      destruct Hkva as [->|Hkva].
      + pose proof (proj1 (List.Forall_forall _ _) Hc (b, bytes b)) as H.
        cbn [snd] in H. apply H. apply in_app_iff. now right.
      + now apply IH. }
  { intros Hlt lang Hh. rewrite length_map in Hlt.
    rewrite (Hshort Hlt), app_nil_r in Hin.
    apply in_map_iff. exists (lang, bytes lang). split; [reflexivity|].
    apply Hin. auto. }
Qed.

End LanguageFacts.

(** ** Repository lists: what is listed, cached and cleared *)

Section RepositoryListFacts.

Import repository services.

(** X13. A listing that is not served from the cache returns the
    repositories GitHub listed, in GitHub's order, converted one by one;
    without [includePrivate] the private ones are left out, so no private
    repository is returned. *)
Theorem ListUserRepositories_leaves_out_private :
  forall (fault_get fault_set : option error) (tbl : RepoListCache) (now : Time)
         (githubRepos : list github_Repository) (userID : Z)
         (includePrivate : bool),
    (forall cached,
        GetRepositoryList fault_get tbl now userID includePrivate
        <> Ok (Some cached)) ->
    exists repos,
      fst (fst (ListUserRepositories fault_get fault_set tbl now (Ok githubRepos)
                  userID includePrivate)) = Ok repos
      /\ repos
         = List.map to_model
             (List.filter (fun gr => includePrivate || negb (GetPrivate gr))
                githubRepos)
      /\ (includePrivate = true -> length repos = length githubRepos)
      /\ (includePrivate = false -> forall r, In r repos -> Private r = false).
Proof.
  intros fault_get fault_set tbl now githubRepos userID includePrivate Hmiss.
  exists (List.map to_model
            (List.filter (fun gr => includePrivate || negb (GetPrivate gr))
               githubRepos)).
  assert (Ef : forall gr,
            negb (negb includePrivate && GetPrivate gr)
            = includePrivate || negb (GetPrivate gr))
    by (intros gr; destruct includePrivate, (GetPrivate gr); reflexivity).
  split; [|split; [reflexivity|split]].
  - unfold ListUserRepositories.
    rewrite (filter_ext _ _ Ef).
    destruct (GetRepositoryList fault_get tbl now userID includePrivate)
      as [[c|]|e] eqn:E; [now destruct (Hmiss c)| |];
      unfold SetRepositoryList; destruct fault_set; reflexivity.
  - intros ->. rewrite length_map.
    induction githubRepos as [|gr l IH]; [reflexivity|].
    cbn [List.filter orb length]. now f_equal.
  - intros -> r Hr. apply in_map_iff in Hr as (gr & <- & Hgr).
    apply filter_In in Hgr as [_ Hp]. cbn [orb] in Hp.
    unfold to_model. cbn [Private]. now destruct (GetPrivate gr).
Qed.

(** X14. A listing that has been cached is served again for five
    minutes, for the same user and the same [includePrivate], without
    GitHub being asked: the second call answers with the first list
    whatever GitHub would answer, even an error.  The list cached with
    private repositories is never served to a call without. *)
Theorem ListUserRepositories_serves_the_cached_list :
  forall (tbl : RepoListCache) (now now' : Time)
         (githubRepos : list github_Repository) (userID : Z)
         (includePrivate : bool) (repos : list Repository)
         (tbl' : RepoListCache) (log : list LogLine),
    GetRepositoryList None tbl now userID includePrivate = Ok None ->
    ListUserRepositories None None tbl now (Ok githubRepos) userID includePrivate
    = (Ok repos, tbl', log) ->
    now' < now + five_minutes ->
    (forall listed' fault_set,
        ListUserRepositories None fault_set tbl' now' listed' userID includePrivate
        = (Ok repos, tbl', []))
    /\ GetRepositoryList None tbl' now' userID (negb includePrivate)
       = GetRepositoryList None tbl now' userID (negb includePrivate).
Proof.
  intros tbl now now' githubRepos userID includePrivate repos tbl' log Hmiss
    Hfirst Hnow.
  unfold ListUserRepositories in Hfirst. rewrite Hmiss in Hfirst.
  cbn in Hfirst. inversion Hfirst; subst. clear Hfirst. split.
  - intros listed' fault_set. unfold ListUserRepositories, GetRepositoryList.
    unfold Time in *. rewrite lookup_insert_eq. apply Z.ltb_lt in Hnow. now rewrite Hnow.
  - unfold GetRepositoryList. unfold Time in *.
    rewrite lookup_insert_ne; [reflexivity|].
    intros H. inversion H. now destruct includePrivate.
Qed.

(** X15. Clearing a user's cache removes both of the user's lists, so
    the next listing asks GitHub again, and leaves the lists of every
    other user as they were; when the deletion fails the table is as it
    was, and the lists stay served although [ClearUserCache] returns
    nil. *)
Theorem ClearUserCache_clears_that_user_only :
  forall (tbl : RepoListCache) (userID : Z) (now : Time) (includePrivate : bool),
    let cleared := snd (fst (ClearUserCache None tbl userID)) in
    GetRepositoryList None cleared now userID includePrivate = Ok None
    /\ (forall listed fault_set,
          fst (fst (ListUserRepositories None fault_set cleared now listed userID
                      includePrivate))
          = fst (fst (ListUserRepositories None fault_set ∅ now listed userID
                        includePrivate)))
    /\ (forall other,
          other <> userID ->
          GetRepositoryList None cleared now other includePrivate
          = GetRepositoryList None tbl now other includePrivate)
    /\ (forall err, snd (fst (ClearUserCache (Some err) tbl userID)) = tbl).
Proof.
  intros tbl userID now includePrivate cleared.
  assert (Ec : cleared = filter (fun kv => fst (fst kv) <> userID) tbl)
    by reflexivity.
  clearbody cleared. unfold Time in *.
  assert (Hnone : cleared !! (userID, includePrivate) = None).
  { rewrite Ec. apply map_lookup_filter_None. right. intros x _ H. now apply H. }
  assert (Hmiss : GetRepositoryList None cleared now userID includePrivate = Ok None).
  { unfold GetRepositoryList. unfold Time in *. now rewrite Hnone. }
  split; [exact Hmiss|]. split; [|split].
  - intros listed fault_set. unfold ListUserRepositories. rewrite Hmiss.
    unfold GetRepositoryList at 1. unfold Time in *. rewrite lookup_empty.
    destruct listed; [|reflexivity].
    unfold SetRepositoryList. destruct fault_set; reflexivity.
  - intros other Hne. unfold GetRepositoryList. unfold Time in *.
    destruct (tbl !! (other, includePrivate)) as [row|] eqn:E.
    + assert (E' : cleared !! (other, includePrivate) = Some row).
      { rewrite Ec. apply map_lookup_filter_Some. split; [exact E | exact Hne]. }
      now rewrite E'.
    + assert (E' : cleared !! (other, includePrivate) = None).
      { rewrite Ec. apply map_lookup_filter_None. now left. }
      now rewrite E'.
  - reflexivity.
Qed.

End RepositoryListFacts.

(** ** Profile generation: failures, and what two runs agree on *)

Section GenerationFacts.

Import repository profile_service.

Variable GenerateBatchedProfile :
  string -> BatchProfileRequest -> result BatchProfileResponse.

(** X16. A generation that fails leaves the cache table as it was.  A
    request without an API key, or without projects, fails with its own
    message before the cache is read or the model called, even when a
    profile is cached for it, and nothing is logged for it.  (A request
    that gets as far as the model is taken to have projects that carry
    their repository.) *)
Theorem GenerateProfile_failure_leaves_the_cache_alone :
  forall (o : MapOrder) (fault_get fault_set : option error) (tbl : ProfileCache)
         (now : Time) (req : ContentGenerationRequest) (user : User),
    let run := GenerateProfile GenerateBatchedProfile o fault_get fault_set tbl now
                 req user in
    (Forall (fun p => RA_Repository p <> None) (Projects req) ->
     forall e, fst (fst run) = Err e -> snd (fst run) = tbl)
    /\ (UserAPIKey req = EmptyString ->
        run = (Err (Errorf "API key required - get free key: https://aistudio.google.com/app/apikey" []),
               tbl, []))
    /\ (UserAPIKey req <> EmptyString -> Projects req = [] ->
        run = (Err (Errorf "at least one project required" []), tbl, [])).
Proof.
  intros o fault_get fault_set tbl now req user run. subst run.
  unfold GenerateProfile. split; [|split].
  - intros _ e.
    destruct (String.eqb _ _); [auto|].
    destruct (_ =? _)%nat; [auto|].
    destruct (Get _ _ _ _) as [[c|]|e'];
      try discriminate;
      (destruct (GenerateBatchedProfile _ _); [|auto]);
      match goal with
      | |- context [Set_ fault_set ?t ?n ?u ?c ?k ?r ?d] =>
          destruct (Set_outcome fault_set t n u c k r d) as [[t1 E1]|[e1 E1]];
          rewrite E1; discriminate
      end.
  - intros ->. reflexivity.
  - intros Hkey ->. now rewrite (eqb_empty_false _ Hkey).
Qed.

End GenerationFacts.

Section ReplyFacts.

Import repository profile_service.

(** X17. What a generation returns is decided by the reply of the model,
    up to the order of the badges and the text assembled from them: two
    runs on the same inputs to which the model gives the same reply
    succeed or fail together, whatever the order of map iteration in
    each, and return the same extracted skills and confidence, and the
    same badges up to order.  (The replies of the model to two runs need
    not be the same: it is sampled, and its prompt lists the languages
    and dependencies of a project in the order of a map iteration.  The
    projects are taken to carry their repository.) *)
Theorem GenerateProfile_is_decided_by_the_reply_up_to_badge_order :
  forall (gen1 gen2 : string -> BatchProfileRequest -> result BatchProfileResponse)
         (o1 o2 : MapOrder) (fault_get fault_set : option error)
         (tbl : ProfileCache) (now : Time) (req : ContentGenerationRequest)
         (user : User),
    fair o1 -> fair o2 ->
    Forall (fun p => RA_Repository p <> None) (Projects req) ->
    (let batchReq :=
       mkBatchProfileRequest (Username user) (Bio user) (Location user)
         (Company user) (TargetRole req) (ToneOfVoice req)
         (EmphasizedSkills req) (Projects req) in
     gen1 (UserAPIKey req) batchReq = gen2 (UserAPIKey req) batchReq) ->
    match fst (fst (GenerateProfile gen1 o1 fault_get fault_set tbl now req user)),
          fst (fst (GenerateProfile gen2 o2 fault_get fault_set tbl now req user))
    with
    | Ok r1, Ok r2 =>
        ExtractedSkills r1 = ExtractedSkills r2
        /\ Confidence r1 = Confidence r2
        /\ Permutation (SuggestedBadges r1) (SuggestedBadges r2)
    | Err e1, Err e2 => e1 = e2
    | _, _ => False
    end.
Proof.
  intros gen1 gen2 o1 o2 fault_get fault_set tbl now req user H1 H2 _ Hreply.
  cbv zeta in Hreply. unfold GenerateProfile.
  destruct (String.eqb _ _); [reflexivity|].
  destruct (_ =? _)%nat; [reflexivity|].
  rewrite <- Hreply.
  destruct (Get _ _ _ _) as [[c|]|e'];
    try (cbn [fst]; repeat split; reflexivity);
    (destruct (gen1 _ _) as [batchResp|e]; [|reflexivity]);
    repeat match goal with
      | |- context [Set_ fault_set ?t ?n ?u ?c ?k ?r ?d] =>
          let E := fresh "E" in
          destruct (Set_outcome fault_set t n u c k r d) as [[? E]|[? E]];
          rewrite E
      end;
    cbn [fst SuggestedBadges ExtractedSkills Confidence];
    (split; [reflexivity|]); (split; [reflexivity|]);
    now apply badges_up_to_order.
Qed.

End ReplyFacts.


(** ** The profile cache key *)

Section CacheKeyFacts.

Import repository.

Lemma cut_at_colon (u u' r r' : string) :
  Contains u ":"%char = false -> Contains u' ":"%char = false ->
  (u ++ String ":"%char r)%string = (u' ++ String ":"%char r')%string ->
  u = u' /\ r = r'.
Proof.
  revert u'. induction u as [|a u IH]; intros u' Hu Hu' E.
  - destruct u' as [|a' u'].
    + inversion E. auto.
    + change (String ":"%char r = String a' (u' ++ String ":"%char r')) in E.
      inversion E; subst a'. cbn [Contains] in Hu'.
      rewrite Ascii.eqb_refl in Hu'. discriminate.
  - destruct u' as [|a' u'].
    + change (String a (u ++ String ":"%char r) = String ":"%char r') in E.
      inversion E; subst a. cbn [Contains] in Hu.
      rewrite Ascii.eqb_refl in Hu. discriminate.
    + change (String a (u ++ String ":"%char r)
              = String a' (u' ++ String ":"%char r')) in E.
      inversion E; subst a'.
      cbn [Contains] in Hu, Hu'. apply orb_false_elim in Hu as [_ Hu].
      apply orb_false_elim in Hu' as [_ Hu'].
      destruct (IH u' Hu Hu' H1) as [-> ->]. auto.
Qed.

(** X18. The key of the profile cache joins its four parts with colons
    and escapes nothing.  When the username, the role and the tone hold
    no colon, the key determines all four parts; but the role and the
    tone are free text, and a colon moved from the one to the other gives
    the same key: the key does not tell such requests apart. *)
Theorem GetCacheKey_is_injective_without_colons_only :
  (forall u r t n u' r' t' n',
      Contains u ":"%char = false -> Contains r ":"%char = false ->
      Contains t ":"%char = false ->
      Contains u' ":"%char = false -> Contains r' ":"%char = false ->
      Contains t' ":"%char = false ->
      GetCacheKey u r t n = GetCacheKey u' r' t' n' ->
      u = u' /\ r = r' /\ t = t' /\ n = n')
  /\ (forall u r s t n,
        GetCacheKey u (r ++ ":" ++ s) t n = GetCacheKey u r (s ++ ":" ++ t) n).
Proof.
  split.
  - intros u r t n u' r' t' n' Hu Hr Ht Hu' Hr' Ht' E. unfold GetCacheKey in E.
    apply (String.app_inj "profile:v3:") in E.
    apply (cut_at_colon u u') in E as [-> E]; [|assumption..].
    apply (cut_at_colon r r') in E as [-> E]; [|assumption..].
    apply (cut_at_colon t t') in E as [-> E]; [|assumption..].
    apply pretty_Z_inj in E. auto.
  - intros u r s t n. unfold GetCacheKey.
    now rewrite <- !string_app_assoc.
Qed.

End CacheKeyFacts.

(** ** The cache of analyses and the analyzer *)

Section AnalysisFacts.

Import analysis_cache github_service.

(** X19. An analysis served from the cache is not the analysis that was
    stored: it has lost its [Repository] and its [Files].  Once an
    analysis has been cached, every further [AnalyzeRepository] of that
    repository, until the row expires, returns it so reduced, without
    asking the analyzer; and a project without [Repository] gets no card
    in the section Featured Projects and adds no topic. *)
Theorem cached_analysis_has_no_repository :
  forall (repoInfo : services.github_Repository) (analysis : RepositoryAnalysis)
         (tbl : AnalysisCache) (now now' expiresAt : Time) (owner repo : string),
    GetRepositoryAnalysis None tbl now (services.GetID repoInfo) = Ok None ->
    now' < expiresAt ->
    let first :=
      AnalyzeRepository (Ok repoInfo) (Ok analysis) None None tbl now expiresAt
        owner repo in
    let served :=
      mkRepositoryAnalysis None (Languages analysis) [] (Dependencies analysis)
        (KeyFiles analysis) (CommitCount analysis) (ContributorCount analysis) in
    fst (fst first) = Ok analysis
    /\ (forall analyzed' fault_set expiresAt',
          AnalyzeRepository (Ok repoInfo) analyzed' None fault_set
            (snd (fst first)) now' expiresAt' owner repo
          = (Ok served, snd (fst first), []))
    /\ (forall o username req len i summary techStack highlights,
          profile_service.featured_project o username req len i
            (mkProjectSummary (RA_Repository served) summary techStack highlights)
          = EmptyString)
    /\ profile_service.collectAllTopics [served] = [].
Proof.
  intros repoInfo analysis tbl now now' expiresAt owner repo Hmiss Hnow first served.
  assert (Efirst : first
                   = (Ok analysis,
                      <[services.GetID repoInfo :=
                          mkAnalysisRow (Sprintf "%s/%s" [S_ owner; S_ repo])
                            (Languages analysis) (Dependencies analysis)
                            (KeyFiles analysis) (CommitCount analysis)
                            (ContributorCount analysis) expiresAt]> tbl,
                      [])).
  { subst first. unfold AnalyzeRepository. now rewrite Hmiss. }
  clearbody first. subst first. cbn [fst snd].
  split; [reflexivity|]. split; [|split; reflexivity].
  intros analyzed' fault_set expiresAt'. unfold AnalyzeRepository.
  unfold GetRepositoryAnalysis. rewrite lookup_insert_eq. cbn [ar_expires_at].
  apply Z.ltb_lt in Hnow. rewrite Hnow. reflexivity.
Qed.

End AnalysisFacts.

Section AnalyzerFacts.

Import analyzer gostrings.

Variable json_Unmarshal_package :
  string -> option (gmap string string * gmap string string).

Lemma try_patterns_spec (client : Client) (file filename : string)
    (patterns : list string) (keyFiles : gmap string string) :
  try_patterns client file filename patterns keyFiles
  = match GetRepositoryContent client file with
    | Ok content =>
        if existsb (String.eqb filename) patterns
        then <[file := content]> keyFiles else keyFiles
    | Err _ => keyFiles
    end.
Proof.
  induction patterns as [|pattern rest IH]; cbn [try_patterns existsb].
  - now destruct (GetRepositoryContent client file).
  - destruct (String.eqb filename pattern); cbn [orb].
    + destruct (GetRepositoryContent client file) eqn:E; [reflexivity|].
      exact IH.
    + exact IH.
Qed.

Lemma fetchKeyFiles_lookup (client : Client) (files : list string)
    (path content : string) :
  fetchKeyFiles client files !! path = Some content <->
  In path files
  /\ In (filepath.Base path) keyFilePatterns
  /\ GetRepositoryContent client path = Ok content.
Proof.
  unfold fetchKeyFiles.
  assert (Hex : existsb (String.eqb (filepath.Base path)) keyFilePatterns = true
                <-> In (filepath.Base path) keyFilePatterns).
  { rewrite existsb_exists. split.
    - intros (p & Hp & Ep). apply String.eqb_eq in Ep. now subst p.
    - intros Hin. exists (filepath.Base path). split; [exact Hin|].
      apply String.eqb_refl. }
  assert (H : forall keyFiles,
            (forall c, keyFiles !! path = Some c ->
                       In (filepath.Base path) keyFilePatterns
                       /\ GetRepositoryContent client path = Ok c) ->
            fold_left
              (fun keyFiles file =>
                 try_patterns client file (filepath.Base file) keyFilePatterns
                   keyFiles)
              files keyFiles !! path = Some content <->
            (In path files
             /\ In (filepath.Base path) keyFilePatterns
             /\ GetRepositoryContent client path = Ok content)
            \/ keyFiles !! path = Some content).
  { induction files as [|file files IH]; intros keyFiles Hcons; cbn [fold_left In].
    - tauto.
    - rewrite IH; rewrite try_patterns_spec.
      + destruct (decide (file = path)) as [->|Hne].
        * destruct (GetRepositoryContent client path) as [c|e] eqn:E.
          -- destruct (existsb (String.eqb (filepath.Base path)) keyFilePatterns)
               eqn:Ex.
             ++ rewrite lookup_insert_eq. pose proof (proj1 Hex eq_refl) as Hin.
                split.
                ** intros [H|H]; [tauto|]. inversion H; subst c. left. auto.
                ** intros [(H1 & H2 & H3)|H]; [right; congruence|].
                   right. destruct (Hcons content H) as [_ H']. congruence.
             ++ assert (Hn : ~ In (filepath.Base path) keyFilePatterns)
                  by (intros Hin; apply Hex in Hin; discriminate).
                tauto.
          -- split; [intros [H|H]; [|tauto]|intros [H|H]; [|tauto]];
               destruct H as (_ & _ & H); discriminate.
        * assert (Hl : match GetRepositoryContent client file with
                       | Ok content0 =>
                           if existsb (String.eqb (filepath.Base file))
                                keyFilePatterns
                           then <[file := content0]> keyFiles else keyFiles
                       | Err _ => keyFiles
                       end !! path = keyFiles !! path).
          { destruct (GetRepositoryContent client file); [|reflexivity].
            destruct (existsb (String.eqb (filepath.Base file)) keyFilePatterns);
              [|reflexivity].
            now rewrite lookup_insert_ne. }
          rewrite Hl. split.
          -- intros [(H1 & H2)|H]; [left|right]; auto.
          -- intros [([H1|H1] & H2)|H]; [congruence | left | right]; auto.
      + intros c.
        destruct (decide (file = path)) as [->|Hne].
        * destruct (GetRepositoryContent client path) as [c'|e] eqn:E;
            [|apply Hcons].
          destruct (existsb (String.eqb (filepath.Base path)) keyFilePatterns)
            eqn:Ex; [|apply Hcons].
          rewrite lookup_insert_eq. intros H. inversion H; subst c'.
          pose proof (proj1 Hex eq_refl) as Hin. auto.
        * destruct (GetRepositoryContent client file); [|apply Hcons].
          destruct (existsb (String.eqb (filepath.Base file)) keyFilePatterns);
            [|apply Hcons].
          rewrite lookup_insert_ne by exact Hne. apply Hcons. }
  rewrite H.
  - rewrite lookup_empty. split; [intros [H'|H']; [exact H' | discriminate]|auto].
  - intros c Hc. now rewrite lookup_empty in Hc.
Qed.

(** X20. The analyzer fails only when the repository, its languages or
    its file listing cannot be read.  A commit count or a contributor
    count that cannot be read is reported as zero, and a key file that
    cannot be fetched is left out: the key files are exactly the listed
    files with one of the nineteen known names whose content could be
    fetched. *)
Theorem Analyzer_tolerates_secondary_failures :
  forall (o : profile_service.MapOrder) (client : Client),
    ((exists analysis,
         AnalyzeRepository json_Unmarshal_package o client = Ok analysis)
     <-> exists repository languages contents,
           GetRepository client = Ok repository
           /\ GetRepositoryLanguages client = Ok languages
           /\ ListRepositoryContents client = Ok contents)
    /\ forall analysis,
         AnalyzeRepository json_Unmarshal_package o client = Ok analysis ->
         (exists repository,
             GetRepository client = Ok repository
             /\ RA_Repository analysis = Some (services.to_model repository))
         /\ GetRepositoryLanguages client = Ok (Languages analysis)
         /\ listAllFiles client = Ok (Files analysis)
         /\ (forall e, GetCommitCount client = Err e -> CommitCount analysis = 0)
         /\ (forall e, GetContributorCount client = Err e ->
                       ContributorCount analysis = 0)
         /\ (forall path content,
               KeyFiles analysis !! path = Some content <->
               In path (Files analysis)
               /\ In (filepath.Base path) keyFilePatterns
               /\ GetRepositoryContent client path = Ok content).
Proof.
  intros o client. unfold AnalyzeRepository, listAllFiles. split.
  - split.
    + intros [analysis H].
      destruct (GetRepository client) as [r|]; [|discriminate].
      destruct (GetRepositoryLanguages client) as [l|]; [|discriminate].
      destruct (ListRepositoryContents client) as [c|]; [|discriminate].
      eauto 10.
    + intros (r & l & c & -> & -> & ->). eauto.
  - intros analysis.
    destruct (GetRepository client) as [r|]; [|discriminate].
    destruct (GetRepositoryLanguages client) as [l|]; [|discriminate].
    destruct (ListRepositoryContents client) as [c|]; [|discriminate].
    intros H. inversion H; subst analysis. clear H.
    cbn [RA_Repository Languages Files CommitCount ContributorCount KeyFiles].
    split; [eauto|]. split; [reflexivity|]. split; [reflexivity|].
    split; [now intros e ->|]. split; [now intros e ->|].
    intros path content. apply fetchKeyFiles_lookup.
Qed.

End AnalyzerFacts.

(** ** Dependencies read from key files *)

Section DependencyFacts.

Import analyzer gostrings profile_facts.

Lemma HasPrefix_app (s p : string) :
  HasPrefix s p = true -> exists rest, s = (p ++ rest)%string.
Proof.
  unfold HasPrefix. revert s. induction p as [|a p IH]; intros s H.
  - now exists s.
  - destruct s as [|b s]; [discriminate|]. cbn [String.prefix] in H.
    destruct (ascii_dec a b) as [->|]; [|discriminate].
    destruct (IH s H) as [rest ->]. now exists rest.
Qed.

Lemma Fields_require (rest : string) :
  Fields ("require " ++ rest) = "require" :: fields_from is_space rest None.
Proof. vm_compute. reflexivity. Qed.

(** X21. In a [go.mod] without a [require (] block, every dependency
    recorded is the word [require] itself, one for each line that starts
    with [require ]: the first field of such a line is that word, and the
    prefix the code then strips ends in a blank that no field has.  The
    module paths of single-line directives are never recorded. *)
Theorem extractGoModDependencies_single_line_require :
  forall content : string,
    is_ascii content = true ->
    (forall line,
        In line (Split content "010"%char) ->
        HasPrefix (TrimSpace line) "require (" = false) ->
    extractGoModDependencies content
    = List.map (fun _ => "require")
        (List.filter (fun line => HasPrefix (TrimSpace line) "require ")
           (Split content "010"%char)).
Proof.
  intros content _ Hnoblock. unfold extractGoModDependencies.
  assert (H : forall lines deps,
            (forall line, In line lines ->
                          HasPrefix (TrimSpace line) "require (" = false) ->
            fold_left gomod_line lines (deps, false)
            = ((deps ++ List.map (fun _ => "require")
                          (List.filter
                             (fun line => HasPrefix (TrimSpace line) "require ")
                             lines))%list,
               false)).
  { induction lines as [|line lines IH]; intros deps Hno; cbn [fold_left].
    - cbn [List.filter List.map]. now rewrite app_nil_r.
    - assert (Estep : gomod_line (deps, false) line
                      = (if HasPrefix (TrimSpace line) "require "
                         then (deps ++ ["require"])%list else deps,
                         false)).
      { unfold gomod_line. rewrite (Hno line) by now left. cbn [andb orb].
        destruct (HasPrefix (TrimSpace line) "require ") eqn:E; [|reflexivity].
        destruct (HasPrefix_app _ _ E) as [rest ->].
        rewrite Fields_require. reflexivity. }
      rewrite Estep, IH by (intros l Hl; apply Hno; now right).
      cbn [List.filter].
      destruct (HasPrefix (TrimSpace line) "require "); cbn [List.map];
        [now rewrite <- app_assoc | reflexivity]. }
  now rewrite (H _ [] Hnoblock).
Qed.

Lemma all_bytes_impl (P Q : ascii -> bool) (s : string) :
  (forall a, P a = true -> Q a = true) ->
  all_bytes P s = true -> all_bytes Q s = true.
Proof.
  intros HPQ. induction s as [|a s IH]; [reflexivity|].
  cbn [all_bytes]. intros H. apply andb_prop in H as [Ha Hs].
  now rewrite (HPQ a Ha), IH.
Qed.

Lemma all_bytes_rev_app (P : ascii -> bool) (s t : string) :
  all_bytes P (String.rev_app s t) = all_bytes P s && all_bytes P t.
Proof.
  revert t. induction s as [|a s IH]; intros t; [reflexivity|].
  cbn [String.rev_app all_bytes]. rewrite IH. cbn [all_bytes].
  destruct (P a), (all_bytes P s), (all_bytes P t); reflexivity.
Qed.

Lemma all_bytes_trim_left (P : ascii -> bool) (s : string) :
  all_bytes P s = true -> all_bytes P (trim_left s) = true.
Proof.
  induction s as [|a s IH]; [reflexivity|].
  cbn [trim_left]. destruct (is_space a); [|auto].
  cbn [all_bytes]. intros H. apply andb_prop in H as [_ Hs]. now apply IH.
Qed.

Lemma all_bytes_TrimSpace (P : ascii -> bool) (s : string) :
  all_bytes P s = true -> all_bytes P (TrimSpace s) = true.
Proof.
  intros H. unfold TrimSpace, String.rev.
  rewrite all_bytes_rev_app. cbn [all_bytes]. rewrite andb_true_r.
  apply all_bytes_trim_left.
  rewrite all_bytes_rev_app. cbn [all_bytes]. rewrite andb_true_r.
  now apply all_bytes_trim_left.
Qed.

Lemma all_bytes_snoc (P : ascii -> bool) (s : string) (a : ascii) :
  all_bytes P (s ++ String a EmptyString) = all_bytes P s && P a.
Proof.
  induction s as [|b s IH].
  - change (EmptyString ++ String a EmptyString)%string with (String a EmptyString).
    cbn [all_bytes]. now rewrite andb_true_r.
  - change (String b s ++ String a EmptyString)%string
      with (String b (s ++ String a EmptyString)).
    cbn [all_bytes]. now rewrite IH, andb_assoc.
Qed.

Lemma fields_from_all (f P : ascii -> bool) (s : string) (cur : option string) :
  all_bytes P s = true ->
  (forall w, cur = Some w -> all_bytes (fun a => P a && negb (f a)) w = true) ->
  forall w, In w (fields_from f s cur) ->
            all_bytes (fun a => P a && negb (f a)) w = true.
Proof.
  revert cur. induction s as [|a s IH]; intros cur Hs Hcur w; cbn [fields_from].
  - destruct cur as [w0|]; [|intros []]. intros [<-|[]]. now apply Hcur.
  - cbn [all_bytes] in Hs. apply andb_prop in Hs as [Ha Hs].
    destruct (f a) eqn:Ef.
    + destruct cur as [w0|].
      * intros [<-|Hw]; [now apply Hcur|].
        apply (IH None Hs); [discriminate | exact Hw].
      * apply (IH None Hs). discriminate.
    + apply (IH _ Hs). intros w' Hw'. inversion Hw'; subst w'.
      destruct cur as [w0|].
      * rewrite all_bytes_snoc, (Hcur w0 eq_refl), Ha, Ef. reflexivity.
      * cbn [all_bytes]. now rewrite Ha, Ef.
Qed.

Lemma Split_parts (P : ascii -> bool) (s : string) (sep : ascii) :
  all_bytes P s = true ->
  forall p, In p (Split s sep) ->
            all_bytes (fun a => P a && negb (Ascii.eqb a sep)) p = true.
Proof.
  induction s as [|a s IH]; intros Hs p; cbn [Split].
  - intros [<-|[]]. reflexivity.
  - cbn [all_bytes] in Hs. apply andb_prop in Hs as [Ha Hs].
    destruct (Ascii.eqb a sep) eqn:E.
    + intros [<-|Hp]; [reflexivity | now apply IH].
    + destruct (Split s sep) as [|h t] eqn:Es.
      * intros [<-|[]]. cbn [all_bytes]. now rewrite Ha, E.
      * intros [<-|Hp].
        -- cbn [all_bytes]. rewrite Ha, E. apply (IH Hs). now left.
        -- apply (IH Hs). now right.
Qed.

(** X22. A dependency read from a [requirements.txt] holds none of the
    characters that start a version constraint ([=], [>], [<], [~],
    [!]) and no line feed; blank lines and comment lines give none, so
    there are at most as many as lines. *)
Theorem extractPipDependencies_names_hold_no_constraint :
  forall content : string,
    is_ascii content = true ->
    (length (extractPipDependencies content)
     <= length (Split content "010"%char))%nat
    /\ forall dep,
         In dep (extractPipDependencies content) ->
         all_bytes
           (fun a => negb (Ascii.eqb a "="%char || Ascii.eqb a ">"%char
                           || Ascii.eqb a "<"%char || Ascii.eqb a "~"%char
                           || Ascii.eqb a "!"%char || Ascii.eqb a "010"%char))
           dep = true.
Proof.
  intros content _. unfold extractPipDependencies.
  set (f := fun r => Ascii.eqb r "="%char || Ascii.eqb r ">"%char
                     || Ascii.eqb r "<"%char || Ascii.eqb r "~"%char
                     || Ascii.eqb r "!"%char).
  set (Q := fun a => negb (Ascii.eqb a "="%char || Ascii.eqb a ">"%char
                           || Ascii.eqb a "<"%char || Ascii.eqb a "~"%char
                           || Ascii.eqb a "!"%char || Ascii.eqb a "010"%char)).
  pose proof (Split_parts (fun _ => true) content "010"%char) as Hparts.
  assert (Hall : all_bytes (fun _ => true) content = true)
    by (clear; induction content; [reflexivity | assumption]).
  specialize (Hparts Hall). clear Hall.
  revert Hparts. generalize (Split content "010"%char). intros lines Hlines.
  assert (H : forall deps,
            (forall dep, In dep deps -> all_bytes Q dep = true) ->
            let deps' :=
              fold_left
                (fun deps line =>
                   let line := TrimSpace line in
                   if String.eqb line EmptyString || HasPrefix line "#" then deps
                   else
                     match FieldsFunc line f with
                     | p0 :: _ => (deps ++ [TrimSpace p0])%list
                     | [] => deps
                     end)
                lines deps in
            (length deps' <= length deps + length lines)%nat
            /\ forall dep, In dep deps' -> all_bytes Q dep = true).
  { induction lines as [|line lines IH]; intros deps Hdeps; cbn [fold_left].
    - split; [cbn; lia | exact Hdeps].
    - cbv zeta.
      assert (Hline : all_bytes (fun a => negb (Ascii.eqb a "010"%char))
                        (TrimSpace line) = true).
      { apply all_bytes_TrimSpace.
        apply (all_bytes_impl
                 (fun a => true && negb (Ascii.eqb a "010"%char))
                 (fun a => negb (Ascii.eqb a "010"%char)) _ (fun a H => H)).
        apply Hlines. now left. }
      match goal with
      | |- context [fold_left _ lines ?d] => set (deps1 := d)
      end.
      assert (H1 : (length deps1 <= S (length deps))%nat
                   /\ forall dep, In dep deps1 -> all_bytes Q dep = true).
      { subst deps1. destruct (_ || _); [split; [lia | exact Hdeps]|].
        destruct (FieldsFunc (TrimSpace line) f) as [|p0 parts] eqn:Ef;
          [split; [lia | exact Hdeps]|].
        split; [rewrite length_app; cbn; lia|].
        intros dep Hdep. apply in_app_iff in Hdep as [Hdep|[<-|[]]];
          [now apply Hdeps|].
        apply all_bytes_TrimSpace.
        assert (Hp0 : In p0 (fields_from f (TrimSpace line) None))
          by (unfold FieldsFunc in Ef; rewrite Ef; now left).
        apply (fields_from_all f _ _ None Hline) in Hp0; [|discriminate].
        revert Hp0. apply all_bytes_impl. intros a. subst f Q. cbn beta.
        destruct (Ascii.eqb a "010"%char), (Ascii.eqb a "="%char),
          (Ascii.eqb a ">"%char), (Ascii.eqb a "<"%char), (Ascii.eqb a "~"%char),
          (Ascii.eqb a "!"%char); cbn; congruence. }
      destruct H1 as [Hlen1 Hall1].
      pose proof (IH (fun l Hl => Hlines l (or_intror Hl)) deps1 Hall1) as Hih.
      cbv zeta in Hih. destruct Hih as [Hlen Hall].
      split; [cbn [length]; lia | exact Hall]. }
  assert (H0 : forall dep, In dep (@nil string) -> all_bytes Q dep = true)
    by (intros dep []).
  pose proof (H [] H0) as Hfin. cbv zeta in Hfin. destruct Hfin as [Hlen Hall].
  split; [exact Hlen | exact Hall].
Qed.

End DependencyFacts.

(** A [go.mod] with two single-line directives. *)
Lemma extractGoModDependencies_single_line_require_witness :
  let content :=
    lit "module example.com/app\n\ngo 1.22\n\nrequire github.com/labstack/echo/v4 v4.11.4\nrequire github.com/lib/pq v1.10.9\n" in
  gostrings.is_ascii content = true
  /\ analyzer.extractGoModDependencies content = ["require"; "require"].
Proof.
  intros content.
  assert (Ha : gostrings.is_ascii content = true) by (vm_compute; reflexivity).
  split; [exact Ha|].
  rewrite (extractGoModDependencies_single_line_require content Ha).
  - vm_compute. reflexivity.
  - intros line Hl. vm_compute in Hl.
    repeat (destruct Hl as [<-|Hl]; [vm_compute; reflexivity|]). destruct Hl.
Defined.

(** ** Gemfiles *)

Section GemFacts.

Import analyzer gostrings profile_facts.

Lemma rev_app_app (s u t : string) :
  String.rev_app (s ++ u) t = String.rev_app u (String.rev_app s t).
Proof.
  revert t. induction s as [|a s IH]; intros t; [reflexivity|].
  change (String a s ++ u)%string with (String a (s ++ u)).
  cbn [String.rev_app]. apply IH.
Qed.

Lemma rev_app_rev_app (s t u : string) :
  String.rev_app (String.rev_app s t) u = String.rev_app t (s ++ u).
Proof.
  revert t u. induction s as [|a s IH]; intros t u; [reflexivity|].
  cbn [String.rev_app]. rewrite IH. reflexivity.
Qed.

Lemma string_app_nil_r (s : string) : (s ++ EmptyString)%string = s.
Proof.
  induction s as [|a s IH]; [reflexivity|].
  change (String a s ++ EmptyString)%string with (String a (s ++ EmptyString)).
  now rewrite IH.
Qed.

Lemma rev_rev (s : string) : String.rev (String.rev s) = s.
Proof.
  unfold String.rev. rewrite rev_app_rev_app. cbn [String.rev_app].
  apply string_app_nil_r.
Qed.

Lemma rev_snoc (s : string) (a : ascii) :
  String.rev (s ++ String a EmptyString) = String a (String.rev s).
Proof. unfold String.rev. now rewrite rev_app_app. Qed.

Lemma Contains_app (s t : string) (c : ascii) :
  Contains (s ++ t) c = Contains s c || Contains t c.
Proof.
  induction s as [|a s IH]; [reflexivity|].
  change (String a s ++ t)%string with (String a (s ++ t)).
  cbn [Contains]. now rewrite IH, orb_assoc.
Qed.

Lemma fields_from_word (f : ascii -> bool) (w s cur : string) :
  all_bytes (fun a => negb (f a)) w = true ->
  fields_from f (w ++ s) (Some cur) = fields_from f s (Some (cur ++ w)).
Proof.
  revert cur. induction w as [|a w IH]; intros cur Hw.
  - now rewrite string_app_nil_r.
  - cbn [all_bytes] in Hw. apply andb_prop in Hw as [Ha Hw].
    change (String a w ++ s)%string with (String a (w ++ s)).
    cbn [fields_from]. apply negb_true_iff in Ha. rewrite Ha.
    rewrite (IH _ Hw). rewrite string_app_assoc. reflexivity.
Qed.

(** X23. A gem declared with a version keeps a quote and a comma: for
    the line [gem 'name', 'version'] the dependency recorded is
    [name',], since the second field of the line ends in the comma and
    only quotes are trimmed from it.  (No badge is then found for it:
    the catalog is looked up with the name as recorded.) *)
Theorem extractGemDependencies_keeps_quote_and_comma :
  forall (a : ascii) (name' version : string),
    let name := String a name' in
    is_ascii (name ++ version) = true ->
    Contains (lit "'\q") a = false ->
    all_bytes (fun c => negb (is_space c)) name = true ->
    Contains version "010"%char = false ->
    extractGemDependencies ("gem '" ++ name ++ "', '" ++ version ++ "'")
    = [(name ++ "',")%string].
Proof.
  intros a name' version name _ Hquote Hname Hversion.
  set (line := ("gem '" ++ name ++ "', '" ++ version ++ "'")%string).
  assert (Hlf : Contains name "010"%char = false).
  { clear -Hname. induction name as [|c s IH]; [reflexivity|].
    cbn [all_bytes] in Hname. apply andb_prop in Hname as [Hc Hs].
    cbn [Contains]. rewrite (IH Hs), orb_false_r.
    destruct (Ascii.eqb c "010"%char) eqn:E; [|reflexivity].
    apply Ascii.eqb_eq in E. subst c. discriminate. }
  assert (Hsplit : Split line "010"%char = [line]).
  { apply Split_no_sep. subst line.
    rewrite !Contains_app, Hlf, Hversion. reflexivity. }
  assert (Htrim : TrimSpace line = line).
  { unfold TrimSpace.
    assert (E1 : trim_left line = line) by reflexivity.
    rewrite E1.
    assert (E2 : line = (("gem '" ++ name ++ "', '" ++ version)
                         ++ String "'"%char EmptyString)%string).
    { subst line. now rewrite !string_app_assoc. }
    rewrite E2 at 1. rewrite rev_snoc. cbn [trim_left is_space].
    change (is_space "'"%char) with false. cbn iota.
    rewrite <- rev_snoc, <- E2. apply rev_rev. }
  assert (Hfields : exists rest,
            Fields line = "gem" :: ("'" ++ name ++ "',")%string :: rest).
  { subst line. unfold Fields, FieldsFunc.
    change (fields_from is_space
              ("gem '" ++ name ++ "', '" ++ version ++ "'") None)
      with ("gem"
            :: fields_from is_space (name ++ "', '" ++ version ++ "'")
                 (Some "'")).
    rewrite (fields_from_word is_space name _ "'" Hname).
    change (fields_from is_space ("', '" ++ version ++ "'")
              (Some ("'" ++ name)%string))
      with (((("'" ++ name) ++ "'") ++ ",")%string
            :: fields_from is_space ("'" ++ version ++ "'") None).
    rewrite !string_app_assoc. eauto. }
  destruct Hfields as [rest Hfields].
  unfold extractGemDependencies. rewrite Hsplit. cbn [fold_left].
  cbv zeta. rewrite Htrim.
  assert (Hp : HasPrefix line "gem " = true) by reflexivity.
  rewrite Hp, Hfields. cbn [app]. f_equal.
  unfold Trim.
  assert (E1 : trim_left_set (lit "'\q") ("'" ++ name ++ "',")
               = (name ++ "',")%string).
  { change ("'" ++ name ++ "',")%string with (String "'"%char (name ++ "',")).
    cbn [trim_left_set].
    change (Contains (lit "'\q") "'"%char) with true. cbn iota.
    subst name.
    change (String a name' ++ "',")%string with (String a (name' ++ "',")).
    cbn [trim_left_set]. now rewrite Hquote. }
  rewrite E1.
  assert (E2 : (name ++ "',")%string
               = ((name ++ "'") ++ String ","%char EmptyString)%string)
    by now rewrite string_app_assoc.
  rewrite E2, rev_snoc. cbn [trim_left_set].
  change (Contains (lit "'\q") ","%char) with false. cbn iota.
  rewrite <- rev_snoc. apply rev_rev.
Qed.

End GemFacts.

(** The line for Rails in a Gemfile. *)
Lemma extractGemDependencies_keeps_quote_and_comma_witness :
  gostrings.is_ascii ("rails" ++ "~> 7.1") = true
  /\ analyzer.extractGemDependencies (lit "gem 'rails', '~> 7.1'")
     = [lit "rails',"]
  /\ profile_service.dependency_key (lit "rails',") = lit "rails',"
  /\ profile_service.buildBadgeCatalog profile_service.ascending
       !! lit "rails'," = None.
Proof.
  assert (Ha : gostrings.is_ascii ("rails" ++ "~> 7.1") = true) by reflexivity.
  split; [exact Ha|]. split; [|split; vm_compute; reflexivity].
  exact (extractGemDependencies_keeps_quote_and_comma "r"%char "ails" "~> 7.1"
           Ha eq_refl eq_refl eq_refl).
Defined.

(** ** The facts above, on sample inputs *)

(** A state stored on an empty table, good for ten minutes. *)
Lemma oauth_state_lifecycle_witness :
  (forall row,
      (∅ : repository.Sessions) !! "oauth_state:c3RhdGU" = Some row ->
      repository.state_type row = "oauth_state")
  /\ repository.ValidateOAuthState None
       (fst (repository.CreateOAuthState None ∅ "c3RhdGU" 600)) 599 "c3RhdGU"
     = Ok true
  /\ repository.ValidateOAuthState None
       (fst (repository.CreateOAuthState None ∅ "c3RhdGU" 600)) 600 "c3RhdGU"
     = Ok false.
Proof.
  assert (H : forall row,
            (∅ : repository.Sessions) !! "oauth_state:c3RhdGU" = Some row ->
            repository.state_type row = "oauth_state")
    by (intros row Hrow; now rewrite lookup_empty in Hrow).
  split; [exact H|]. split.
  - exact (proj1 (oauth_state_lifecycle ∅ "c3RhdGU" 600 599 H)).
  - exact (proj1 (oauth_state_lifecycle ∅ "c3RhdGU" 600 600 H)).
Defined.

(** A revocation that has lapsed is removed, and was not in force; the
    count of expired rows falls from one to none. *)
Lemma cleanup_removes_the_lapsed_rows_only_witness :
  10 <= 20
  /\ fst (repository.CleanupExpiredSessions None more_samples.lapsed 10)
       !! "revoked:0a" = None
  /\ repository.IsTokenRevoked None
       (fst (repository.CleanupExpiredSessions None more_samples.lapsed 10)) 20 "0a"
     = repository.IsTokenRevoked None more_samples.lapsed 20 "0a"
  /\ (forall stats,
        session_stats.GetStats None
          (fst (repository.CleanupExpiredSessions None more_samples.lapsed 10)) 10
        = Ok stats ->
        stats !! "expired" = Some 0)
  /\ (forall stats,
        session_stats.GetStats None more_samples.lapsed 10 = Ok stats ->
        exists n, stats !! "expired" = Some n /\ 0 < n).
Proof.
  assert (H : 10 <= 20) by lia.
  pose proof (cleanup_removes_the_lapsed_rows_only more_samples.lapsed 10 20 H)
    as Hthm.
  cbv zeta in Hthm. destruct Hthm as (_ & Hrev & _ & Hafter & Hbefore).
  split; [exact H|]. split; [vm_compute; reflexivity|].
  split; [exact (Hrev "0a")|]. split; [exact Hafter|].
  intros stats Hstats.
  apply (Hbefore stats (repository.mkSession "revoked_token" "revoked" 5)
           "revoked:0a" Hstats); [reflexivity | reflexivity].
Defined.

(** Two badges, filed under two headings. *)
Lemma organizeBadgesByCategory_files_each_badge_once_witness :
  profile_service.fair profile_service.ascending
  /\ profile_service.organizeBadgesByCategory profile_service.ascending
       [profile_service.B "Go" "00ADD8"; profile_service.B "Docker" "2496ED"]
       !! "Languages"
     = Some [profile_service.B "Go" "00ADD8"].
Proof.
  split; [apply fair_ascending|].
  rewrite (organizeBadgesByCategory_files_each_badge_once
             profile_service.ascending
             [profile_service.B "Go" "00ADD8"; profile_service.B "Docker" "2496ED"]
             "Languages" fair_ascending).
  vm_compute. reflexivity.
Defined.

(** The badges of the sample request: the skill extracted by the model
    brings the badge of Docker. *)
Lemma buildBadgesFromProjectData_suggests_the_catalog_badges_witness :
  profile_service.fair profile_service.ascending
  /\ In (profile_service.B "Docker" "2496ED")
       (profile_service.buildBadgesFromProjectData profile_service.ascending
          (Projects samples.request1) ["docker"] ["go"; "python"]).
Proof.
  split; [apply fair_ascending|].
  assert (Hemph : Forall (fun skill => gostrings.is_ascii skill = true)
                    ["go"; "python"]) by (repeat constructor).
  assert (Hllm : Forall (fun skill => gostrings.is_ascii skill = true) ["docker"])
    by (repeat constructor).
  assert (Hlang : forall p lang,
            In p (Projects samples.request1) -> is_Some (Languages p !! lang) ->
            gostrings.is_ascii lang = true).
  { intros p lang [<-|[]] [v Hv]. cbn [Languages samples.hello_analysis] in Hv.
    apply lookup_singleton_Some in Hv as [<- _]. reflexivity. }
  assert (Hdeps : forall p eco deps dep,
            In p (Projects samples.request1) ->
            Dependencies p !! eco = Some deps -> In dep deps ->
            gostrings.is_ascii dep = true).
  { intros p eco deps dep [<-|[]] Hd.
    cbn [Dependencies samples.hello_analysis] in Hd.
    rewrite lookup_empty in Hd. discriminate. }
  pose proof (buildBadgesFromProjectData_suggests_the_catalog_badges
                profile_service.ascending (Projects samples.request1)
                ["docker"] ["go"; "python"] fair_ascending Hemph Hllm Hlang Hdeps)
    as H.
  cbv zeta in H. destruct H as [_ H].
  apply (proj2 (H (profile_service.B "Docker" "2496ED"))).
  exists "docker". split.
  - right. right. right. now left.
  - vm_compute. reflexivity.
Defined.

(** The one language of the sample project. *)
Lemma collectTopLanguages_takes_the_largest_witness :
  profile_service.fair profile_service.ascending
  /\ In "Go"
       (profile_service.collectTopLanguages profile_service.ascending
          (Projects samples.request1) 5).
Proof.
  split; [apply fair_ascending|].
  refine (proj2 (proj2 (proj2 (proj2 (proj2
            (collectTopLanguages_takes_the_largest profile_service.ascending
               (Projects samples.request1) 5 fair_ascending))))) _ "Go" _).
  - vm_compute. lia.
  - exists samples.hello_analysis. split; [now left|].
    exists 1200. reflexivity.
Defined.

(** A listing without private repositories, on an empty cache. *)
Lemma ListUserRepositories_leaves_out_private_witness :
  (forall cached,
      repository.GetRepositoryList None ∅ 0 1 false <> Ok (Some cached))
  /\ fst (fst (services.ListUserRepositories None None ∅ 0
                 (Ok [more_samples.public_repo; more_samples.private_repo])
                 1 false))
     = Ok [services.to_model more_samples.public_repo].
Proof.
  assert (H : forall cached,
            repository.GetRepositoryList None ∅ 0 1 false <> Ok (Some cached))
    by (intros cached; discriminate).
  split; [exact H|].
  destruct (ListUserRepositories_leaves_out_private None None ∅ 0
              [more_samples.public_repo; more_samples.private_repo] 1 false H)
    as (repos & -> & -> & _).
  reflexivity.
Defined.

(** The same listing, asked again four minutes later while GitHub is
    down. *)
Lemma ListUserRepositories_serves_the_cached_list_witness :
  let first :=
    services.ListUserRepositories None None ∅ 0
      (Ok [more_samples.public_repo]) 1 false in
  repository.GetRepositoryList None ∅ 0 1 false = Ok None
  /\ 240000000000 < 0 + repository.five_minutes
  /\ services.ListUserRepositories None None (snd (fst first)) 240000000000
       (Err (Errorf "GitHub is down" [])) 1 false
     = (Ok [services.to_model more_samples.public_repo], snd (fst first), []).
Proof.
  intros first.
  assert (H1 : repository.GetRepositoryList None ∅ 0 1 false = Ok None)
    by reflexivity.
  assert (H2 : 240000000000 < 0 + repository.five_minutes) by reflexivity.
  split; [exact H1|]. split; [exact H2|].
  exact (proj1 (ListUserRepositories_serves_the_cached_list ∅ 0 240000000000
                  [more_samples.public_repo] 1 false
                  [services.to_model more_samples.public_repo]
                  (snd (fst first)) [] H1 eq_refl H2)
           (Err (Errorf "GitHub is down" [])) None).
Defined.

(** The two runs of the sample request, the model replying the same. *)
Lemma GenerateProfile_is_decided_by_the_reply_up_to_badge_order_witness :
  profile_service.fair profile_service.ascending
  /\ profile_service.fair profile_service.descending
  /\ match fst (fst (profile_service.GenerateProfile
                       samples.GenerateBatchedProfile profile_service.ascending
                       None None ∅ 0 samples.request1 samples.octocat)),
           fst (fst (profile_service.GenerateProfile
                       samples.GenerateBatchedProfile profile_service.descending
                       None None ∅ 0 samples.request1 samples.octocat)) with
     | Ok r1, Ok r2 =>
         ExtractedSkills r1 = ExtractedSkills r2
         /\ Confidence r1 = Confidence r2
         /\ Permutation (SuggestedBadges r1) (SuggestedBadges r2)
     | Err e1, Err e2 => e1 = e2
     | _, _ => False
     end.
Proof.
  split; [apply fair_ascending|]. split; [apply fair_descending|].
  assert (Hrepo : Forall (fun p => RA_Repository p <> None)
                    (Projects samples.request1))
    by (repeat constructor; discriminate).
  exact (GenerateProfile_is_decided_by_the_reply_up_to_badge_order
           samples.GenerateBatchedProfile samples.GenerateBatchedProfile
           profile_service.ascending profile_service.descending None None ∅ 0
           samples.request1 samples.octocat fair_ascending fair_descending
           Hrepo eq_refl).
Defined.

(** The sample analysis, cached and served again. *)
Lemma cached_analysis_has_no_repository_witness :
  let first :=
    github_service.AnalyzeRepository (Ok more_samples.public_repo)
      (Ok samples.hello_analysis) None None ∅ 0 100 "octocat" "hello" in
  analysis_cache.GetRepositoryAnalysis None ∅ 0
    (services.GetID more_samples.public_repo) = Ok None
  /\ 50 < 100
  /\ fst (fst first) = Ok samples.hello_analysis
  /\ github_service.AnalyzeRepository (Ok more_samples.public_repo)
       (Err (Errorf "not asked" [])) None None (snd (fst first)) 50 200
       "octocat" "hello"
     = (Ok (mkRepositoryAnalysis None {["Go" := 1200]} [] ∅ ∅ 12 1),
        snd (fst first), []).
Proof.
  intros first.
  assert (H1 : analysis_cache.GetRepositoryAnalysis None ∅ 0
                 (services.GetID more_samples.public_repo) = Ok None)
    by reflexivity.
  assert (H2 : 50 < 100) by lia.
  split; [exact H1|]. split; [exact H2|].
  destruct (cached_analysis_has_no_repository more_samples.public_repo
              samples.hello_analysis ∅ 0 50 100 "octocat" "hello" H1 H2)
    as (Hfirst & Hsecond & _).
  split; [exact Hfirst|].
  exact (Hsecond (Err (Errorf "not asked" [])) None 200).
Defined.

(** A requirements file of three packages. *)
Lemma extractPipDependencies_names_hold_no_constraint_witness :
  gostrings.is_ascii more_samples.requirements = true
  /\ analyzer.extractPipDependencies more_samples.requirements
     = ["flask"; "requests"; "uvicorn[standard]"]
  /\ (length (analyzer.extractPipDependencies more_samples.requirements)
      <= length (Split more_samples.requirements "010"%char))%nat.
Proof.
  assert (H : gostrings.is_ascii more_samples.requirements = true)
    by (vm_compute; reflexivity).
  split; [exact H|]. split; [vm_compute; reflexivity|].
  exact (proj1 (extractPipDependencies_names_hold_no_constraint
                  more_samples.requirements H)).
Defined.

(** ** The configuration read from the environment *)

Section ConfigFacts.

Import config.

Variable Getenv : string -> string.
Variable strconv_Atoi : string -> option Z.
Variable strconv_ParseBool : string -> option bool.
Variable time_ParseDuration : string -> option Z.

Abbreviation Load :=
  (config.Load Getenv strconv_Atoi strconv_ParseBool time_ParseDuration).

(** X24. When required variables are missing, [Load] fails with one
    error that joins a line for each of them, all of them and in the
    order in which they are read; nothing else is looked at then, not
    even the length of the encryption key.  When none is missing, an
    error of [Load] is an error of [Validate]. *)
Theorem Load_lists_every_missing_variable :
  let missing :=
    List.filter (fun key => String.eqb (Getenv key) EmptyString) required in
  (missing <> [] ->
   Load = Err (ErrorfW (lit "configuration errors:\n%w") []
                 (joinError
                    (List.map
                       (fun key =>
                          Errorf "required environment variable %s is not set" [key])
                       missing))))
  /\ (missing = [] ->
      forall e, Load = Err e ->
                exists err, e = ErrorfW "invalid configuration: %w" [] err).
Proof.
  cbv zeta. unfold config.Load, requireEnv, required. cbn [List.filter].
  destruct (String.eqb (Getenv "GITHUB_CLIENT_ID") EmptyString);
    destruct (String.eqb (Getenv "GITHUB_CLIENT_SECRET") EmptyString);
    destruct (String.eqb (Getenv "DATABASE_URL") EmptyString);
    destruct (String.eqb (Getenv "SESSION_SECRET") EmptyString);
    destruct (String.eqb (Getenv "TOKEN_ENCRYPTION_KEY") EmptyString);
    cbn [app length Nat.ltb Nat.leb List.map];
    (split; [intros H; try reflexivity; now destruct H | intros H; try discriminate H]).
  intros e. destruct (Validate _) as [err|]; [|discriminate].
  intros E. inversion E. eauto.
Qed.

(** X25. [Load] returns a configuration exactly when the five required
    variables are set, the encryption key is 32 bytes long, and HTTPS is
    either not enabled or comes with both a certificate file and a key
    file.  A value of ENABLE_HTTPS that does not parse counts as not
    enabled, and no other variable can make [Load] fail: a port, a
    duration or a bound that does not parse is replaced by its default. *)
Theorem Load_succeeds_iff :
  (exists cfg, Load = Ok cfg) <->
  (forall key, In key required -> Getenv key <> EmptyString)
  /\ String.length (Getenv "TOKEN_ENCRYPTION_KEY") = 32%nat
  /\ (Getenv "ENABLE_HTTPS" <> EmptyString ->
      strconv_ParseBool (Getenv "ENABLE_HTTPS") = Some true ->
      Getenv "CERT_FILE" <> EmptyString /\ Getenv "KEY_FILE" <> EmptyString).
Proof.
  unfold config.Load, requireEnv, required, Validate.
  cbn [Session Security EncryptionKey EnableHTTPS CertFile KeyFile].
  unfold getEnvAsBool, getEnv.
  destruct (String.eqb (Getenv "GITHUB_CLIENT_ID") EmptyString) eqn:E1;
    [apply String.eqb_eq in E1|apply String.eqb_neq in E1].
  { split; [intros [cfg H]|intros [H _]].
    - destruct (String.eqb (Getenv "GITHUB_CLIENT_SECRET") EmptyString);
        destruct (String.eqb (Getenv "DATABASE_URL") EmptyString);
        destruct (String.eqb (Getenv "SESSION_SECRET") EmptyString);
        destruct (String.eqb (Getenv "TOKEN_ENCRYPTION_KEY") EmptyString);
        discriminate H.
    - exfalso. apply (H "GITHUB_CLIENT_ID"); [cbn; tauto | exact E1]. }
  destruct (String.eqb (Getenv "GITHUB_CLIENT_SECRET") EmptyString) eqn:E2;
    [apply String.eqb_eq in E2|apply String.eqb_neq in E2].
  { split; [intros [cfg H]|intros [H _]].
    - destruct (String.eqb (Getenv "DATABASE_URL") EmptyString);
        destruct (String.eqb (Getenv "SESSION_SECRET") EmptyString);
        destruct (String.eqb (Getenv "TOKEN_ENCRYPTION_KEY") EmptyString);
        discriminate H.
    - exfalso. apply (H "GITHUB_CLIENT_SECRET"); [cbn; tauto | exact E2]. }
  destruct (String.eqb (Getenv "DATABASE_URL") EmptyString) eqn:E3;
    [apply String.eqb_eq in E3|apply String.eqb_neq in E3].
  { split; [intros [cfg H]|intros [H _]].
    - destruct (String.eqb (Getenv "SESSION_SECRET") EmptyString);
        destruct (String.eqb (Getenv "TOKEN_ENCRYPTION_KEY") EmptyString);
        discriminate H.
    - exfalso. apply (H "DATABASE_URL"); [cbn; tauto | exact E3]. }
  destruct (String.eqb (Getenv "SESSION_SECRET") EmptyString) eqn:E4;
    [apply String.eqb_eq in E4|apply String.eqb_neq in E4].
  { split; [intros [cfg H]|intros [H _]].
    - destruct (String.eqb (Getenv "TOKEN_ENCRYPTION_KEY") EmptyString);
        discriminate H.
    - exfalso. apply (H "SESSION_SECRET"); [cbn; tauto | exact E4]. }
  destruct (String.eqb (Getenv "TOKEN_ENCRYPTION_KEY") EmptyString) eqn:E5;
    [apply String.eqb_eq in E5|apply String.eqb_neq in E5].
  { split; [intros [cfg H]; discriminate H|intros [H _]].
    exfalso. apply (H "TOKEN_ENCRYPTION_KEY"); [cbn; tauto | exact E5]. }
  cbn [length Nat.ltb Nat.leb].
  assert (Hreq : forall key, In key required -> Getenv key <> EmptyString).
  { intros key Hin. cbn in Hin.
    destruct Hin as [<-|[<-|[<-|[<-|[<-|[]]]]]]; assumption. }
  destruct (String.length (Getenv "TOKEN_ENCRYPTION_KEY") =? 32)%nat eqn:El;
    [apply Nat.eqb_eq in El|apply Nat.eqb_neq in El]; cbn [negb].
  2:{ split; [intros [cfg H]; discriminate H | intros (_ & H & _); contradiction]. }
  destruct (String.eqb (Getenv "ENABLE_HTTPS") EmptyString) eqn:Eh;
    [apply String.eqb_eq in Eh|apply String.eqb_neq in Eh]; cbn [andb negb].
  { split; [intros _|intros _; eauto].
    split; [exact Hreq|]. split; [exact El|]. intros Hne. contradiction. }
  destruct (strconv_ParseBool (Getenv "ENABLE_HTTPS")) as [[|]|] eqn:Ep;
    cbn [andb].
  - destruct (String.eqb (Getenv "CERT_FILE") EmptyString) eqn:Ec;
      [apply String.eqb_eq in Ec|apply String.eqb_neq in Ec]; cbn [negb orb].
    { rewrite Ec. cbn. split; [intros [cfg H]; discriminate H|].
      intros (_ & _ & H). destruct (H Eh eq_refl) as [Hc _]. now destruct Hc. }
    rewrite (eqb_empty_false _ Ec).
    destruct (String.eqb (Getenv "KEY_FILE") EmptyString) eqn:Ek;
      [apply String.eqb_eq in Ek|apply String.eqb_neq in Ek]; cbn [negb orb].
    { rewrite Ek. cbn. split; [intros [cfg H]; discriminate H|].
      intros (_ & _ & H). destruct (H Eh eq_refl) as [_ Hk]. now destruct Hk. }
    rewrite (eqb_empty_false _ Ek). cbn [orb].
    split; [intros _|intros _; eauto]. repeat split; auto.
  - split; [intros _|intros _; eauto]. repeat split; auto; discriminate.
  - split; [intros _|intros _; eauto]. repeat split; auto; discriminate.
Qed.

End ConfigFacts.

(** ** The selection of the dashboard and the batch endpoint *)

Section DashboardFacts.

Import dashboard.

Lemma has_In (s : JSSet) (x : string) : has s x = true <-> In x s.
Proof.
  unfold has. rewrite existsb_exists. split.
  - intros (y & Hy & E). apply String.eqb_eq in E. now subst.
  - intros H. exists x. split; [exact H | apply String.eqb_refl].
Qed.

Lemma delete_length (s : JSSet) (x : string) :
  (length (delete_ s x) <= length s)%nat.
Proof.
  unfold delete_. induction s as [|y s IH]; cbn [List.filter]; [lia|].
  destruct (negb (String.eqb y x)); cbn [length]; lia.
Qed.

Lemma delete_In (s : JSSet) (x y : string) :
  In y (delete_ s x) <-> In y s /\ y <> x.
Proof.
  unfold delete_. rewrite List.filter_In. split; intros [H1 H2]; split; auto.
  - intros ->. now rewrite String.eqb_refl in H2.
  - apply String.eqb_neq in H2. now rewrite H2.
Qed.

Lemma delete_NoDup (s : JSSet) (x : string) : List.NoDup s -> List.NoDup (delete_ s x).
Proof.
  unfold delete_. induction 1 as [|y s Hy Hs IH]; cbn [List.filter].
  - constructor.
  - destruct (negb (String.eqb y x)); [|exact IH].
    constructor; [|exact IH]. rewrite List.filter_In. tauto.
Qed.

Lemma toggle_invariant (s : JSSet) (x : string) :
  List.NoDup s /\ (size s <= 6)%nat ->
  List.NoDup (toggleRepository s x) /\ (size (toggleRepository s x) <= 6)%nat.
Proof.
  intros [Hnd Hsz]. unfold toggleRepository, size in *.
  destruct (has s x) eqn:Eh.
  - split; [now apply delete_NoDup|]. pose proof (delete_length s x). lia.
  - destruct (length s <? 6)%nat eqn:El; [|auto].
    apply Nat.ltb_lt in El. unfold add. rewrite Eh.
    split.
    + apply List.NoDup_app; [exact Hnd | repeat constructor; cbn; tauto |].
      intros y Hy [<-|[]]. apply has_In in Hy. congruence.
    + rewrite length_app. cbn [length]. lia.
Qed.

Lemma clicks_invariant (names : list string) (s : JSSet) :
  List.NoDup s /\ (size s <= 6)%nat ->
  List.NoDup (fold_left toggleRepository names s)
  /\ (size (fold_left toggleRepository names s) <= 6)%nat.
Proof.
  revert s. induction names as [|x names IH]; intros s H; cbn [fold_left].
  - exact H.
  - apply IH. now apply toggle_invariant.
Qed.

(** X26. Whatever is clicked on the dashboard, and in whatever order,
    the selection holds no repository twice and never more than six; a
    click on a selected repository always deselects it, and a click on
    another one is ignored when six are selected.  So the list that
    [handleContinue] posts has between one and six names, and the batch
    endpoint, which accepts up to ten, never answers it 400: with a token
    in the context it hands that very list to the service. *)
Theorem dashboard_selection_fits_the_batch_endpoint :
  forall (W : Type)
         (AnalyzeRepository : W -> string -> string -> W * result RepositoryAnalysis)
         (w : W) (access_token : string) (names : list string),
    let selected := clicks names in
    List.NoDup selected
    /\ (size selected <= 6)%nat
    /\ (forall fullName,
          (In fullName selected -> ~ In fullName (toggleRepository selected fullName))
          /\ (~ In fullName selected -> size selected = 6%nat ->
              toggleRepository selected fullName = selected))
    /\ (forall repos,
          handleContinue selected = Some repos ->
          (1 <= length repos <= 6)%nat
          /\ snd (handlers.BatchAnalyze AnalyzeRepository w (Some access_token)
                    (Some repos)) = Some repos).
Proof.
  intros W AnalyzeRepository w access_token names selected.
  destruct (clicks_invariant names []) as [Hnd Hsz];
    [split; [constructor | cbn; lia]|].
  fold (clicks names) in Hnd, Hsz. fold selected in Hnd, Hsz.
  clearbody selected.
  split; [exact Hnd|]. split; [exact Hsz|]. split.
  - intros fullName. split.
    + intros Hin. unfold toggleRepository.
      rewrite (proj2 (has_In selected fullName) Hin).
      rewrite delete_In. tauto.
    + intros Hout H6. unfold toggleRepository.
      destruct (has selected fullName) eqn:Eh;
        [apply has_In in Eh; contradiction|].
      now rewrite H6.
  - intros repos. unfold handleContinue, size in *.
    destruct (length selected =? 0)%nat eqn:E0; [discriminate|].
    apply Nat.eqb_neq in E0. intros H. inversion H; subst repos. clear H.
    split; [lia|].
    unfold handlers.BatchAnalyze.
    destruct (length selected =? 0)%nat eqn:E0'; [apply Nat.eqb_eq in E0'; lia|].
    destruct (10 <? length selected)%nat eqn:E10; [apply Nat.ltb_lt in E10; lia|].
    destruct (services.BatchAnalyzeRepositories _ _ _) as [[w' results] [e|]];
      reflexivity.
Qed.

End DashboardFacts.

(** ** Signing in: the OAuth state, the callback and the token *)

Section SignInFacts.

Import repository middleware auth_service auth_handler.

Context {W : Type}.
Variable HandleCallback : W -> string -> W * result (User * string).
Variable Error : error -> string.
Variable hmac_sha256 : string -> string -> string.
Variable json_Marshal : JWTClaims -> string.
Variable json_Unmarshal : string -> option JWTClaims.

Abbreviation Callback :=
  (auth_handler.Callback HandleCallback Error hmac_sha256 json_Marshal).

Lemma string_of_list_length (l : list ascii) :
  String.length (string_of_list_ascii l) = length l.
Proof. induction l as [|a l IH]; cbn; [reflexivity | now rewrite IH]. Qed.

(** The state of a login: 43 characters of the alphabet and one [=]. *)
Lemma state_padded (b : vec ascii 32) :
  URLEncoding_EncodeToString (string_of_list_ascii (vec_to_list b))
  = (base64.EncodeToString (string_of_list_ascii (vec_to_list b)) ++ "=")%string.
Proof.
  unfold URLEncoding_EncodeToString.
  now rewrite string_of_list_length, length_vec_to_list.
Qed.

Lemma state_nonempty (b : vec ascii 32) :
  URLEncoding_EncodeToString (string_of_list_ascii (vec_to_list b)) <> EmptyString.
Proof.
  rewrite state_padded.
  destruct (base64.EncodeToString _); discriminate.
Qed.

Lemma oauth_key_inj (a b : string) :
  ("oauth_state:" ++ a)%string = ("oauth_state:" ++ b)%string -> a = b.
Proof. apply String.app_inj. Qed.

(** What the validation of the service answers, by the row of the state. *)
Lemma ValidateOAuthState_None (fault : option error) (tbl : Sessions)
    (now : Time) (state : string) :
  auth_service.ValidateOAuthState fault tbl now state = None <->
  fault = None
  /\ exists row, tbl !! ("oauth_state:" ++ state)%string = Some row
                 /\ state_type row = "oauth_state"
                 /\ now < expires_at row
                 /\ state_value row = "valid".
Proof.
  unfold auth_service.ValidateOAuthState, repository.ValidateOAuthState.
  destruct fault as [err|].
  { split; [discriminate | intros [H _]; discriminate]. }
  destruct (tbl !! ("oauth_state:" ++ state)%string) as [row|].
  2:{ cbn. split; [discriminate | intros (_ & row & H & _); discriminate]. }
  destruct (String.eqb (state_type row) "oauth_state") eqn:Et;
    [apply String.eqb_eq in Et|apply String.eqb_neq in Et]; cbn [andb].
  2:{ cbn. split; [discriminate|].
      intros (_ & row' & H & Ht & _). inversion H; subst. contradiction. }
  destruct (now <? expires_at row) eqn:El;
    [apply Z.ltb_lt in El|apply Z.ltb_ge in El].
  2:{ cbn. split; [discriminate|].
      intros (_ & row' & H & _ & Hl & _). inversion H; subst. lia. }
  destruct (String.eqb (state_value row) "valid") eqn:Ev;
    [apply String.eqb_eq in Ev|apply String.eqb_neq in Ev]; cbn.
  - split; [intros _|reflexivity]. split; [reflexivity|]. exists row. auto.
  - split; [discriminate|].
    intros (_ & row' & H & _ & _ & Hv). inversion H; subst. contradiction.
Qed.

(** X27. The callback answers 400 exactly when the code or the state is
    missing or the state is not a stored, unexpired OAuth state (or its
    validation errors), and then GitHub is not contacted.  Unless it
    answers 200 it leaves the table of sessions as it was and logs
    nothing, so that a state survives a failed exchange and can be
    presented again.  When it answers 200 and the deletion is carried
    out, the state is gone: presented again, at any time and with any
    code, it is answered 400. *)
Theorem Callback_consumes_the_state_on_success_only :
  forall (h : AuthHandler) (w : W) (tbl : Sessions)
         (fault_validate fault_delete : option error) (db_now : Time)
         (jtiBytes : option (vec ascii 16)) (now : Time) (code state : string),
    let run := Callback h w tbl fault_validate fault_delete db_now jtiBytes now
                 code state in
    let w' := fst (fst (fst run)) in
    let tbl' := snd (fst (fst run)) in
    let answer := snd (fst run) in
    (status answer = StatusBadRequest <->
       code = EmptyString \/ state = EmptyString
       \/ repository.ValidateOAuthState fault_validate tbl db_now state <> Ok true)
    /\ (status answer = StatusBadRequest -> w' = w)
    /\ (status answer <> StatusOK -> tbl' = tbl /\ snd run = [])
    /\ (status answer = StatusOK -> fault_delete = None ->
        forall h2 w2 fv fd db_now2 jtiBytes2 now2 code2,
          status (snd (fst (Callback h2 w2 tbl' fv fd db_now2 jtiBytes2 now2
                              code2 state)))
          = StatusBadRequest).
Proof.
  intros h w tbl fault_validate fault_delete db_now jtiBytes now code state.
  cbv zeta.
  remember (Callback h w tbl fault_validate fault_delete db_now jtiBytes now
              code state) as run eqn:Erun.
  unfold auth_handler.Callback in Erun.
  assert (Hval : auth_service.ValidateOAuthState fault_validate tbl db_now state
                 = None
                 <-> repository.ValidateOAuthState fault_validate tbl db_now state
                     = Ok true).
  { unfold auth_service.ValidateOAuthState.
    destruct (repository.ValidateOAuthState _ _ _ _) as [[|]|e]; cbn;
      split; congruence. }
  assert (H45 : StatusInternalServerError <> StatusBadRequest) by discriminate.
  assert (H25 : StatusOK <> StatusBadRequest) by discriminate.
  assert (H52 : StatusInternalServerError <> StatusOK) by discriminate.
  assert (H42 : StatusBadRequest <> StatusOK) by discriminate.
  destruct (String.eqb code EmptyString) eqn:Ec;
    [apply String.eqb_eq in Ec|apply String.eqb_neq in Ec]; cbn [orb] in Erun.
  { subst run. cbn [fst snd status]. tauto. }
  destruct (String.eqb state EmptyString) eqn:Es;
    [apply String.eqb_eq in Es|apply String.eqb_neq in Es].
  { subst run. cbn [fst snd status]. tauto. }
  destruct (auth_service.ValidateOAuthState fault_validate tbl db_now state)
    as [err|] eqn:Ev.
  { subst run. cbn [fst snd status].
    assert (repository.ValidateOAuthState fault_validate tbl db_now state
            <> Ok true) by (intros H; apply Hval in H; discriminate).
    tauto. }
  pose proof (proj1 Hval eq_refl) as Hok.
  destruct (HandleCallback w code) as [w1 [[user tok]|err]].
  2:{ subst run. cbn [fst snd status]. tauto. }
  destruct (middleware.GenerateJWT _ _ _ _ _ _ _ _) as [jwtToken|err].
  2:{ subst run. cbn [fst snd status]. tauto. }
  apply ValidateOAuthState_None in Ev. destruct Ev as (-> & row & Hrow & Hty & _).
  unfold auth_service.DeleteOAuthState, repository.DeleteOAuthState in Erun.
  destruct fault_delete as [err|].
  { subst run. cbn [fst snd status].
    assert (Some err <> None :> option error) by discriminate. tauto. }
  rewrite Hrow, Hty in Erun.
  cbn [String.eqb Ascii.eqb Bool.eqb] in Erun.
  subst run. cbn [fst snd status].
  split; [tauto|]. split; [tauto|]. split; [tauto|].
  intros _ _ h2 w2 fv fd db_now2 jtiBytes2 now2 code2.
  unfold auth_handler.Callback.
  destruct (String.eqb code2 EmptyString || String.eqb state EmptyString);
    [reflexivity|].
  destruct (auth_service.ValidateOAuthState fv _ db_now2 state) as [e|] eqn:Ev2;
    [reflexivity|].
  apply ValidateOAuthState_None in Ev2. destruct Ev2 as (_ & row2 & Hrow2 & _).
  rewrite lookup_delete_eq in Hrow2. discriminate.
Qed.

(** X28. A state handed out by [Login] opens the callback for ten
    minutes, by the clock of the server at the login and that of the
    database at the callback: from then on it is answered 400.  Within
    the ten minutes the state passes, and the answer is that of the
    exchange with GitHub: 200 with the user when it succeeds, 500 when it
    fails.  (The row of the state is taken not to replace a row of
    another type under the same key, and the code is not empty.) *)
Theorem Login_state_opens_the_Callback_for_ten_minutes :
  forall (h : AuthHandler) (b : vec ascii 32) (tbl : Sessions) (t0 : Time)
         (w : W) (db_now now : Time) (jtiBytes : vec ascii 16) (code : string),
    let state := URLEncoding_EncodeToString (string_of_list_ascii (vec_to_list b)) in
    (forall row, tbl !! ("oauth_state:" ++ state)%string = Some row ->
                 state_type row = "oauth_state") ->
    code <> EmptyString ->
    let login := Login h (Some b) None tbl t0 in
    let run := Callback h w (fst login) None None db_now (Some jtiBytes) now
                 code state in
    (exists authURL,
        snd login = JSON StatusOK [("auth_url", authURL); ("state", state)])
    /\ (t0 + ten_minutes <= db_now ->
        status (snd (fst run)) = StatusBadRequest)
    /\ (db_now < t0 + ten_minutes ->
        match HandleCallback w code with
        | (w', Ok (user, _)) =>
            fst (fst (fst run)) = w'
            /\ exists jwtToken,
                 snd (fst run) = JSON StatusOK (mkCallbackBody user jwtToken)
        | (w', Err err) =>
            fst (fst (fst run)) = w'
            /\ status (snd (fst run)) = StatusInternalServerError
        end).
Proof.
  intros h b tbl t0 w db_now now jtiBytes code state Hwf Hcode login run.
  set (id := ("oauth_state:" ++ state)%string) in *.
  assert (Elogin : login
            = (upsert_session tbl id "oauth_state" "valid" (t0 + ten_minutes),
               JSON StatusOK
                 [("auth_url",
                   githubBaseURL h ++ "/login/oauth/authorize"
                   ++ "?client_id=" ++ clientID h
                   ++ "&redirect_uri=" ++ redirectURI h
                   ++ "&scope=" ++ Join (scopes h) ","
                   ++ "&state=" ++ state);
                  ("state", state)])) by reflexivity.
  destruct (upsert_lookup_same tbl id "oauth_state" "valid" (t0 + ten_minutes))
    as (row & Hrow & Hexp & Hty).
  assert (Hty' : state_type row = "oauth_state").
  { rewrite Hty. destruct (tbl !! id) as [old|] eqn:E; [now apply Hwf | reflexivity]. }
  assert (Hval : state_value row = "valid").
  { revert Hrow. unfold upsert_session.
    destruct (tbl !! id); rewrite lookup_insert_eq; intros H; inversion H;
      reflexivity. }
  assert (Hstate : String.eqb state EmptyString = false)
    by apply eqb_empty_false, state_nonempty.
  assert (Hv : auth_service.ValidateOAuthState None (fst login) db_now state = None
               <-> db_now < t0 + ten_minutes).
  { rewrite ValidateOAuthState_None. rewrite Elogin. cbn [fst]. fold id.
    split.
    - intros (_ & row' & Hrow' & _ & Hl & _). rewrite Hrow in Hrow'.
      inversion Hrow'; subst row'. now rewrite Hexp in Hl.
    - intros Hl. split; [reflexivity|]. exists row. rewrite Hexp. auto. }
  clearbody login state.
  split; [rewrite Elogin; eauto|].
  subst run. unfold auth_handler.Callback.
  rewrite (eqb_empty_false _ Hcode), Hstate. cbn [orb].
  destruct (auth_service.ValidateOAuthState None (fst login) db_now state)
    as [err|] eqn:Ev.
  - split; [reflexivity|]. intros Hl. apply Hv in Hl. discriminate.
  - split; [intros Hge; pose proof (proj1 Hv eq_refl); lia|]. intros _.
    destruct (HandleCallback w code) as [w' [[user tok]|err]].
    + unfold middleware.GenerateJWT. cbv beta iota zeta.
      destruct (auth_service.DeleteOAuthState None (fst login) state)
        as [tbl2 o] eqn:Ed.
      assert (Eo : o = None).
      { revert Ed. unfold auth_service.DeleteOAuthState, repository.DeleteOAuthState.
        destruct (fst login !! _) as [r|];
          [destruct (String.eqb (state_type r) "oauth_state")|];
          intros H; inversion H; reflexivity. }
      subst o. cbn [fst snd]. eauto.
    + cbn [fst snd status]. auto.
Qed.

(** An encoding contains no blank either. *)
Lemma enc6_no_blank (n : nat) : Ascii.eqb (base64.enc6 n) " "%char = false.
Proof.
  destruct (Nat.lt_ge_cases n 64) as [H|H].
  - assert (Hall : forallb (fun n => negb (Ascii.eqb (base64.enc6 n) " "%char))
                     (seq 0 64) = true) by (vm_compute; reflexivity).
    rewrite forallb_forall in Hall.
    apply negb_true_iff, Hall, in_seq. lia.
  - destruct (Nat.le_exists_sub 64 n H) as (k & -> & _).
    replace (k + 64)%nat with (64 + k)%nat by lia. reflexivity.
Qed.

Lemma EncodeToString_no_blank (s : string) :
  Contains (base64.EncodeToString s) " "%char = false.
Proof.
  unfold base64.EncodeToString.
  induction (base64.sextets_of_bytes (base64.bytes_of_string s)) as [|n ns IH];
    [reflexivity|].
  cbn [List.map string_of_list_ascii Contains].
  now rewrite enc6_no_blank, IH.
Qed.

(** A token of [GenerateJWT] has three parts and no blank, and is
    accepted under the secret it was signed with. *)
Lemma GenerateJWT_accepted (jtiBytes : vec ascii 16) (now : Time) (userID : Z)
    (username secret : string) (expiresIn : Z) :
  let claims :=
    mkJWTClaims userID username
      (hex.EncodeToString (string_of_list_ascii (vec_to_list jtiBytes)))
      (Unix (now + expiresIn)) in
  json_Unmarshal (json_Marshal claims) = Some claims ->
  exists token,
    middleware.GenerateJWT hmac_sha256 json_Marshal (Some jtiBytes) now userID
      username secret expiresIn = Ok token
    /\ Contains token " "%char = false
    /\ middleware.validateJWT hmac_sha256 json_Unmarshal token secret = Some claims.
Proof.
  intros claims Hjson. unfold middleware.GenerateJWT. fold claims.
  set (header := base64.EncodeToString _).
  set (payload := base64.EncodeToString (json_Marshal claims)).
  eexists. split; [reflexivity|].
  assert (Hh : Contains header "."%char = false) by apply EncodeToString_no_dot.
  assert (Hp : Contains payload "."%char = false) by apply EncodeToString_no_dot.
  assert (Hs : Contains (middleware.createSignature hmac_sha256
                           (header ++ "." ++ payload) secret) "."%char = false)
    by apply EncodeToString_no_dot.
  assert (Hh' : Contains header " "%char = false) by apply EncodeToString_no_blank.
  assert (Hp' : Contains payload " "%char = false) by apply EncodeToString_no_blank.
  assert (Hs' : Contains (middleware.createSignature hmac_sha256
                            (header ++ "." ++ payload) secret) " "%char = false)
    by apply EncodeToString_no_blank.
  split.
  - rewrite !Contains_app, Hh', Hp', Hs'. reflexivity.
  - apply validateJWT_Some. exists header, payload, (json_Marshal claims).
    split; [|split; [apply DecodeString_EncodeToString | exact Hjson]].
    clearbody header payload.
    set (sig := middleware.createSignature hmac_sha256 (header ++ "." ++ payload)
                  secret) in *.
    clearbody sig.
    replace ((header ++ "." ++ payload) ++ "." ++ sig)%string
      with (header ++ String "."%char (payload ++ String "."%char sig))%string.
    + now apply Split_three.
    + change (header ++ String "."%char (payload ++ String "."%char sig)
              = (header ++ String "."%char payload) ++ String "."%char sig)%string.
      now rewrite string_app_assoc.
Qed.

(** X29. The token that a successful callback returns opens the
    authentication middleware for 24 hours: presented as a Bearer token,
    and as long as it has not been revoked and its user is in the table,
    it is passed on with the id and the name of the user of the callback,
    its JTI and its expiry in the context, up to and including the second
    of its expiry, and answered 401 from the next second on.  (The JSON
    library is taken to read back the claims it has written.) *)
Theorem Callback_token_passes_AuthMiddleware :
  forall (h : AuthHandler) (w : W) (tbl : Sessions)
         (fault_validate fault_delete : option error) (db_now : Time)
         (jtiBytes : vec ascii 16) (now : Time) (code state : string)
         (users : Users) (u : User) (t db_t : Time)
         (user : User) (jwtToken : string),
    let run := Callback h w tbl fault_validate fault_delete db_now (Some jtiBytes)
                 now code state in
    let jti := hex.EncodeToString (string_of_list_ascii (vec_to_list jtiBytes)) in
    let claims :=
      mkJWTClaims (User_ID user) (models.Username user) jti
        (Unix (now + 24 * Hour)) in
    snd (fst run) = JSON StatusOK (mkCallbackBody user jwtToken) ->
    json_Unmarshal (json_Marshal claims) = Some claims ->
    users !! User_ID user = Some u ->
    IsTokenRevoked None (snd (fst (fst run))) db_t jti = Ok false ->
    middleware.AuthMiddleware hmac_sha256 json_Unmarshal (jwtSecret h)
      (mkEnv t db_t (snd (fst (fst run))) users None None)
      ("Bearer " ++ jwtToken)
    = if Unix (now + 24 * Hour) <? Unix t then ErrUnauthorized
      else Next (mkContext u (User_ID user) (models.Username user)
                   (AccessToken u) jti (Unix (now + 24 * Hour))).
Proof.
  intros h w tbl fault_validate fault_delete db_now jtiBytes now code state
    users u t db_t user jwtToken run jti claims Hbody Hjson Hu Hrev.
  destruct (GenerateJWT_accepted jtiBytes now (User_ID user)
              (models.Username user) (jwtSecret h) (24 * Hour) Hjson)
    as (jwt & Hgen & Hblank & Hvalid).
  assert (Htok : jwtToken = jwt).
  { revert Hbody. subst run. unfold auth_handler.Callback.
    destruct (String.eqb code EmptyString || String.eqb state EmptyString);
      [discriminate|].
    destruct (auth_service.ValidateOAuthState _ _ _ _); [discriminate|].
    destruct (HandleCallback w code) as [w1 [[user0 tok]|err]]; [|discriminate].
    destruct (middleware.GenerateJWT _ _ _ _ (User_ID user0) _ _ _)
      as [jwt0|err] eqn:Eg; [|discriminate].
    destruct (auth_service.DeleteOAuthState _ _ _) as [tbl2 [e|]];
      cbn [fst snd]; intros H; inversion H; subst user0 jwt0; congruence. }
  generalize dependent (snd (fst (fst run))). intros tbl' Hrev.
  unfold middleware.AuthMiddleware.
  change ("Bearer " ++ jwtToken)%string
    with ("Bearer" ++ String " "%char jwtToken)%string.
  rewrite Split_app by reflexivity.
  rewrite Htok, Split_no_sep by exact Hblank.
  cbn [middleware.now middleware.db_now sessions middleware.users
       fault_IsTokenRevoked fault_GetByID].
  change (String.eqb ("Bearer" ++ String " "%char jwt) EmptyString) with false.
  change (negb (String.eqb "Bearer" "Bearer")) with false.
  cbv beta iota. rewrite Hvalid.
  cbn [ExpiresAt JTI UserID middleware.Username claims].
  destruct (Unix (now + 24 * Hour) <? Unix t); [reflexivity|].
  fold jti. rewrite (eqb_empty_false jti) by apply hex_nonempty.
  cbn [negb]. rewrite Hrev.
  unfold GetByID. now rewrite Hu.
Qed.

End SignInFacts.

(** ** Previewing and deploying a profile *)

Section DeployFacts.

Import repository profile_service profile_handler.

Variable Error : error -> string.

(** X30. A deployment publishes a generation of its own.  Behind the
    middleware and with a body that binds, [Deploy] generates the profile
    as [Generate] and [Preview] do and, when that succeeds, makes one
    write to GitHub: the Markdown of that generation, and nothing else,
    to README.md of the repository named after the user, as a creation
    when the README has no SHA or its SHA cannot be read and as an update
    otherwise; it answers 200 or 500 as that write succeeds or fails, and
    500 without writing when the generation fails.  The deployment does
    not take its text from the preview: the preview leaves no row in the
    profile cache (with no configuration of id 0 the database refuses
    the row, as for every generation), so the deployment asks the model
    again and publishes what is built from that second reply.  (For
    projects that carry their repository.) *)
Theorem Deploy_publishes_its_own_generation :
  forall (gen : string -> BatchProfileRequest -> result BatchProfileResponse)
         (o : MapOrder) (fault_get fault_set : option error)
         (tbl : ProfileCache) (now : Time) (user : User)
         (req : ContentGenerationRequest) (readmeSHA : result string)
         (CreateOrUpdateFile :
            string -> string -> string -> string -> string -> string -> string
            -> option error)
         (accessToken username : string),
    username <> EmptyString ->
    Forall (fun p => RA_Repository p <> None) (Projects req) ->
    let sha := match readmeSHA with Ok sha => sha | Err _ => EmptyString end in
    let message :=
      if String.eqb sha EmptyString then "Create profile README via GitRight"
      else "Update profile README via GitRight" in
    let run := GenerateProfile gen o fault_get fault_set tbl now req user in
    Deploy gen Error o fault_get fault_set tbl now readmeSHA CreateOrUpdateFile
      (Some accessToken) (Some username) (Some user) (Some req)
    = (match fst (fst run) with
       | Err err => HTTPError StatusInternalServerError (Error err)
       | Ok response =>
           match CreateOrUpdateFile accessToken username username "README.md"
                   message (Markdown response) sha with
           | Some err =>
               HTTPError StatusInternalServerError
                 (Error (ErrorfW "failed to deploy profile: %w" []
                           (ErrorfW "failed to deploy README: %w" [] err)))
           | None =>
               JSON StatusOK [("message", "Profile deployed successfully");
                              ("url", "https://github.com/" ++ username)]
           end
       end, snd (fst run), snd run)
    /\ (forall gen0 o0 fault_get0 fault_set0 t0,
          0 ∉ profile_configs tbl ->
          profiles tbl
            !! GetCacheKey (Username user) (TargetRole req) (ToneOfVoice req)
                 (Z.of_nat (length (Projects req))) = None ->
          let previewed :=
            Preview gen0 Error o0 fault_get0 fault_set0 tbl t0 (Some user)
              (Some req) in
          snd (fst previewed) = tbl
          /\ fst (fst (GenerateProfile gen o None fault_set (snd (fst previewed))
                         now req user))
             = fst (fst (GenerateProfile gen o None None ∅ now req user))).
Proof.
  intros gen o fault_get fault_set tbl now user req readmeSHA CreateOrUpdateFile
    accessToken username Huser _ sha message run.
  split.
  - unfold Deploy. rewrite (eqb_empty_false _ Huser). fold run.
    destruct run as [[[response|err] tbl'] log]; cbn [fst snd]; [|reflexivity].
    unfold DeployProfile, github_service.DeployProfileREADME.
    fold sha. fold message.
    destruct (CreateOrUpdateFile _ _ _ _ _ _ _); reflexivity.
  - intros gen0 o0 fault_get0 fault_set0 t0 Hfk Hrow previewed.
    assert (E : snd (fst previewed) = tbl).
    { subst previewed. unfold Preview.
      pose proof (proj1 (GenerateProfile_caches_nothing gen0 o0 fault_get0
                           fault_set0 tbl t0 req user Hfk Hrow)) as Hsame.
      cbv zeta in Hsame.
      destruct (GenerateProfile gen0 o0 fault_get0 fault_set0 tbl t0 req user)
        as [[[response|err] tbl'] log]; exact Hsame. }
    split; [exact E|]. rewrite E. now apply GenerateProfile_without_row.
Qed.

End DeployFacts.

(** ** The sample sign-in and the sample deployment *)

(** The sample state is refused at the tenth minute and accepted, with
    the good code, in the instant before. *)
Lemma Login_state_opens_the_Callback_for_ten_minutes_witness :
  status (snd (fst (sign_in_samples.callback auth_service.ten_minutes)))
  = StatusBadRequest
  /\ exists jwtToken,
       snd (fst (sign_in_samples.callback (auth_service.ten_minutes - 1)))
       = JSON StatusOK (auth_handler.mkCallbackBody samples.octocat jwtToken).
Proof.
  assert (Hwf : forall row,
            (∅ : repository.Sessions)
              !! ("oauth_state:" ++ sign_in_samples.state)%string = Some row ->
            repository.state_type row = "oauth_state").
  { intros row H. rewrite lookup_empty in H. discriminate. }
  assert (Hcode : "good" <> EmptyString) by discriminate.
  split.
  - pose proof (Login_state_opens_the_Callback_for_ten_minutes
                  sign_in_samples.HandleCallback sign_in_samples.Error
                  stand_in.keyed_checksum stand_in.json_Marshal
                  sign_in_samples.handler sign_in_samples.stateBytes ∅ 0 0%nat
                  auth_service.ten_minutes 0 stand_in.jtiBytes "good" Hwf Hcode)
      as H.
    cbv zeta in H. destruct H as (_ & H & _). apply H. reflexivity.
  - pose proof (Login_state_opens_the_Callback_for_ten_minutes
                  sign_in_samples.HandleCallback sign_in_samples.Error
                  stand_in.keyed_checksum stand_in.json_Marshal
                  sign_in_samples.handler sign_in_samples.stateBytes ∅ 0 0%nat
                  (auth_service.ten_minutes - 1) 0 stand_in.jtiBytes "good"
                  Hwf Hcode) as H.
    cbv zeta in H. destruct H as (_ & _ & H).
    assert (Hl : auth_service.ten_minutes - 1 < 0 + auth_service.ten_minutes)
      by reflexivity.
    exact (proj2 (H Hl)).
Defined.

(** The token of the sample callback, presented five seconds later. *)
Lemma Callback_token_passes_AuthMiddleware_witness :
  middleware.AuthMiddleware stand_in.keyed_checksum stand_in.json_Unmarshal
    (auth_handler.jwtSecret sign_in_samples.handler)
    (middleware.mkEnv (5 * middleware.second) (5 * middleware.second)
       (snd (fst (fst (sign_in_samples.callback 0)))) stand_in.users None None)
    ("Bearer " ++ stand_in.token)
  = middleware.Next
      (middleware.mkContext samples.octocat 1 "octocat" "gho_token"
         stand_in.jti 86400).
Proof.
  assert (Hbody : snd (fst (sign_in_samples.callback 0))
                  = JSON StatusOK
                      (auth_handler.mkCallbackBody samples.octocat stand_in.token))
    by (vm_compute; reflexivity).
  assert (Hjson :
            stand_in.json_Unmarshal
              (stand_in.json_Marshal
                 (middleware.mkJWTClaims 1 "octocat" stand_in.jti
                    (middleware.Unix (0 + 24 * auth_handler.Hour))))
            = Some (middleware.mkJWTClaims 1 "octocat" stand_in.jti
                      (middleware.Unix (0 + 24 * auth_handler.Hour))))
    by (vm_compute; reflexivity).
  assert (Hu : stand_in.users !! 1 = Some samples.octocat) by reflexivity.
  assert (Hrev : repository.IsTokenRevoked None
                   (snd (fst (fst (sign_in_samples.callback 0))))
                   (5 * middleware.second) stand_in.jti = Ok false)
    by (vm_compute; reflexivity).
  exact (Callback_token_passes_AuthMiddleware
           sign_in_samples.HandleCallback sign_in_samples.Error
           stand_in.keyed_checksum stand_in.json_Marshal stand_in.json_Unmarshal
           sign_in_samples.handler 0%nat (fst sign_in_samples.login) None None 0
           stand_in.jtiBytes 0 "good" sign_in_samples.state stand_in.users
           samples.octocat (5 * middleware.second) (5 * middleware.second)
           samples.octocat stand_in.token Hbody Hjson Hu Hrev).
Defined.

(** The sample request is previewed and, a day less an instant later,
    deployed, the model replying with another pitch and GitHub refusing
    the previewed Markdown alone: the deployment is accepted. *)
Lemma Deploy_publishes_its_own_generation_witness :
  let previewed :=
    profile_handler.Preview samples.GenerateBatchedProfile sign_in_samples.Error
      profile_service.ascending None None ∅ 0 (Some samples.octocat)
      (Some samples.request1) in
  let deployed :=
    profile_handler.Deploy sign_in_samples.GenerateBatchedProfile
      sign_in_samples.Error profile_service.ascending None None ∅
      (profile_service.day - 1) (Err (Errorf "failed to get README.md" []))
      (sign_in_samples.CreateOrUpdateFile (Markdown samples.response1))
      (Some "gho_token") (Some "octocat") (Some samples.octocat)
      (Some samples.request1) in
  fst (fst previewed)
  = JSON StatusOK (profile_handler.mkPreviewBody (Markdown samples.response1) true)
  /\ snd (fst previewed) = ∅
  /\ fst (fst deployed)
     = JSON StatusOK [("message", "Profile deployed successfully");
                      ("url", "https://github.com/octocat")].
Proof.
  intros previewed deployed.
  assert (Huser : "octocat" <> EmptyString) by discriminate.
  assert (Hrepo : Forall (fun p => RA_Repository p <> None)
                    (Projects samples.request1))
    by (repeat constructor; discriminate).
  assert (Hfk : 0 ∉ repository.profile_configs ∅) by apply not_elem_of_empty.
  assert (Hrow : repository.profiles ∅
                   !! repository.GetCacheKey (Username samples.octocat)
                        (TargetRole samples.request1)
                        (ToneOfVoice samples.request1)
                        (Z.of_nat (length (Projects samples.request1)))
                 = None) by apply lookup_empty.
  pose proof (Deploy_publishes_its_own_generation sign_in_samples.Error
                sign_in_samples.GenerateBatchedProfile profile_service.ascending
                None None ∅ (profile_service.day - 1) samples.octocat
                samples.request1 (Err (Errorf "failed to get README.md" []))
                (sign_in_samples.CreateOrUpdateFile (Markdown samples.response1))
                "gho_token" "octocat" Huser Hrepo) as H.
  cbv zeta in H. destruct H as [Hdeploy Hpreview].
  destruct (Hpreview samples.GenerateBatchedProfile profile_service.ascending
              None None 0 Hfk Hrow) as [Htbl _].
  split; [vm_compute; reflexivity|]. split; [exact Htbl|].
  subst deployed. rewrite Hdeploy. vm_compute. reflexivity.
Defined.
